(** * Sales data analyst: a shallow embedding of the query and chart logic

    The development follows the TypeScript sources
    - [lib/db.ts]                  ([query])
    - [lib/database-service.ts]    ([executeNaturalLanguageQuery],
                                    [prepareDataForVisualization])
    - [lib/sql-query-generator.ts] ([determineColumns], [generateSqlQuery])
    - [app/api/finance/route.ts]   ([needsDataExplanation],
                                    [getDataExplanation],
                                    [shouldCreateVisualization],
                                    [prepareChartDataForFrontend], [POST])

    JavaScript strings are modelled as sequences of code units below 256
    (the Latin-1 range), JavaScript objects as association lists in the
    order [Object.keys] enumerates them (inherited prototype properties
    are not modelled), and JavaScript numbers as an abstract type that
    comes with its [String(n)] form and its truthiness. *)

From Stdlib Require Import String Ascii List Bool Arith NArith Lia.
From Stdlib Require Import Decimal DecimalString.
Import ListNotations.
Open Scope string_scope.
Open Scope bool_scope.
Open Scope nat_scope.

Set Warnings "-register-all".

(** ** JavaScript string primitives *)

Module JsString.

Definition code (c : ascii) : nat := nat_of_ascii c.

Definition between (lo hi n : nat) : bool := (lo <=? n) && (n <=? hi).

(** [A-Z], and the Latin-1 capitals apart from the multiplication sign. *)
Definition isUpper (c : ascii) : bool :=
  between 65 90 (code c)
  || (between 192 222 (code c) && negb (code c =? 215)).

Definition isAsciiLower (c : ascii) : bool := between 97 122 (code c).

Definition isDigit (c : ascii) : bool := between 48 57 (code c).

(** The regular-expression class [\w]: [A-Za-z0-9_]. *)
Definition isWord (c : ascii) : bool :=
  between 65 90 (code c) || isAsciiLower c || isDigit c || (code c =? 95).

(** The regular-expression class [\s], which is also what [trim] and
    [parseFloat] skip: tab, line feed, vertical tab, form feed, carriage
    return, space and no-break space. *)
Definition isSpace (c : ascii) : bool :=
  between 9 13 (code c) || (code c =? 32) || (code c =? 160).

Definition lowerChar (c : ascii) : ascii :=
  if isUpper c then ascii_of_nat (code c + 32) else c.

(** [toUpperCase] on one code unit: [a-z] and the small letters of
    Latin-1 apart from the division sign.  Three code units have a
    capital that is no single code unit below 256, the micro sign (181),
    the sharp s (223) and the y with diaeresis (255); they are left as
    they are. *)
Definition upperChar (c : ascii) : ascii :=
  if isAsciiLower c || (between 224 254 (code c) && negb (code c =? 247))
  then ascii_of_nat (code c - 32)
  else c.

Fixpoint map (f : ascii -> ascii) (s : string) : string :=
  match s with
  | EmptyString => EmptyString
  | String c r => String (f c) (map f r)
  end.

Definition toLowerCase (s : string) : string := map lowerChar s.
Definition toUpperCase (s : string) : string := map upperChar s.

Definition startsWith (s p : string) : bool := String.prefix p s.

(** [s.includes(sub)] *)
Fixpoint includes (s sub : string) : bool :=
  String.prefix sub s
  || match s with
     | EmptyString => false
     | String _ r => includes r sub
     end.

Fixpoint trimStart (s : string) : string :=
  match s with
  | EmptyString => EmptyString
  | String c r => if isSpace c then trimStart r else s
  end.

Fixpoint trimEnd (s : string) : string :=
  match s with
  | EmptyString => EmptyString
  | String c r =>
      match trimEnd r with
      | EmptyString => if isSpace c then EmptyString else String c EmptyString
      | r' => String c r'
      end
  end.

Definition trim (s : string) : string := trimEnd (trimStart s).

Fixpoint drop (n : nat) (s : string) : string :=
  match n, s with
  | O, _ => s
  | S _, EmptyString => EmptyString
  | S m, String _ r => drop m r
  end.

(** The longest prefix of [s] whose characters satisfy [p], and the rest. *)
Fixpoint span (p : ascii -> bool) (s : string) : string * string :=
  match s with
  | EmptyString => (EmptyString, EmptyString)
  | String c r =>
      if p c then let '(a, b) := span p r in (String c a, b)
      else (EmptyString, s)
  end.

Definition isEmpty (s : string) : bool :=
  match s with EmptyString => true | _ => false end.

Definition head (s : string) : option ascii :=
  match s with EmptyString => None | String c _ => Some c end.

(** [arr.join(sep)] *)
Fixpoint join (sep : string) (l : list string) : string :=
  match l with
  | [] => EmptyString
  | [x] => x
  | x :: r => x ++ sep ++ join sep r
  end.

(** [s.replace(/c/g, d)] for single characters [c] and [d]. *)
Definition replaceChar (c d : ascii) (s : string) : string :=
  map (fun x => if Ascii.eqb x c then d else x) s.

(** [s.split(c)] for a single character separator: the pieces between
    the occurrences of [c]; never an empty list. *)
Fixpoint split (c : ascii) (s : string) : list string :=
  match s with
  | EmptyString => [EmptyString]
  | String x r =>
      if Ascii.eqb x c then EmptyString :: split c r
      else match split c r with
           | [] => [String x EmptyString]
           | p :: ps => String x p :: ps
           end
  end.

(** [parseInt(digits, 10)] on a string of decimal digits. *)
Fixpoint parseDigits (acc : N) (s : string) : N :=
  match s with
  | EmptyString => acc
  | String c r => parseDigits (acc * 10 + N.of_nat (code c - 48))%N r
  end.

Definition parseInt (s : string) : N := parseDigits 0%N s.

(** The template literal [`${n}`] for a natural number [n]. *)
Definition ofNat (n : nat) : string := NilZero.string_of_uint (Nat.to_uint n).

(** [!isNaN(parseFloat(s))]: after leading white space and an optional
    sign, the text starts a decimal literal ([Infinity], a digit, or a
    dot followed by a digit). *)
Definition parsesAsNumber (s : string) : bool :=
  let t := trimStart s in
  let u := match t with
           | String c r => if (code c =? 43) || (code c =? 45) then r else t
           | EmptyString => t
           end in
  startsWith u "Infinity"
  || match u with
     | String c r =>
         isDigit c
         || ((code c =? 46)
             && match r with String d _ => isDigit d | EmptyString => false end)
     | EmptyString => false
     end.

End JsString.

Import JsString.

(** ** JavaScript values *)

Section Values.

(** JavaScript numbers are IEEE doubles; the program only looks at their
    type tag, their [String(n)] form and their truthiness, so the type is
    kept abstract and the two observations are taken as given. *)
Variable Number : Type.
Variable numberToString : Number -> string.
Variable numberTruthy : Number -> bool.

Inductive JsVal : Type :=
| JUndefined
| JNull
| JBool (b : bool)
| JNumber (n : Number)
| JString (s : string)
| JArray (items : list JsVal)
| JObject (fields : list (string * JsVal))
| JHost (repr : string).
(** [JHost repr] is a host object such as a [Date], known by its
    [String(v)] form. *)

(** A plain object, as its own enumerable properties in key order. *)
Definition Obj : Type := list (string * JsVal).

Inductive JsType := TyUndefined | TyObject | TyBoolean | TyNumber | TyString.

Definition typeof (v : JsVal) : JsType :=
  match v with
  | JUndefined => TyUndefined
  | JNull | JArray _ | JObject _ | JHost _ => TyObject
  | JBool _ => TyBoolean
  | JNumber _ => TyNumber
  | JString _ => TyString
  end.

Definition isNumber (v : JsVal) : bool :=
  match v with JNumber _ => true | _ => false end.

Definition isString (v : JsVal) : bool :=
  match v with JString _ => true | _ => false end.

(** [String(v)] *)
Fixpoint toString (v : JsVal) : string :=
  match v with
  | JUndefined => "undefined"
  | JNull => "null"
  | JBool true => "true"
  | JBool false => "false"
  | JNumber n => numberToString n
  | JString s => s
  | JArray items =>
      join ","
        (List.map (fun x => match x with
                            | JUndefined | JNull => EmptyString
                            | _ => toString x
                            end) items)
  | JObject _ => "[object Object]"
  | JHost repr => repr
  end.

(** [!!v] *)
Definition truthy (v : JsVal) : bool :=
  match v with
  | JUndefined | JNull => false
  | JBool b => b
  | JNumber n => numberTruthy n
  | JString s => negb (isEmpty s)
  | JArray _ | JObject _ | JHost _ => true
  end.

(** [v == null]: [v] is [null] or [undefined]. *)
Definition isNullish (v : JsVal) : bool :=
  match v with JUndefined | JNull => true | _ => false end.

(** [Object.keys(o)], [Object.values(o)], [o[k]] and [k in o]. *)
Definition keys (o : Obj) : list string := List.map fst o.
Definition values (o : Obj) : list JsVal := List.map snd o.

Fixpoint getProp (o : Obj) (k : string) : JsVal :=
  match o with
  | [] => JUndefined
  | (k', v) :: r => if String.eqb k' k then v else getProp r k
  end.

Definition hasProp (o : Obj) (k : string) : bool :=
  existsb (fun kv => String.eqb (fst kv) k) o.

(** [o[k] = v]: the property is overwritten where it stands, or added
    after the existing ones (where JavaScript puts a new key that is no
    array index). *)
Fixpoint setProp (o : Obj) (k : string) (v : JsVal) : Obj :=
  match o with
  | [] => [(k, v)]
  | (k', v') :: r =>
      if String.eqb k' k then (k', v) :: r else (k', v') :: setProp r k v
  end.

(** [!isNaN(parseFloat(v))]: [parseFloat] reads [String(v)]. *)
Definition parseFloatOk (v : JsVal) : bool := parsesAsNumber (toString v).

End Values.

Arguments JUndefined {Number}.
Arguments JNull {Number}.
Arguments JBool {Number} b.
Arguments JNumber {Number} n.
Arguments JString {Number} s.
Arguments JArray {Number} items.
Arguments JObject {Number} fields.
Arguments JHost {Number} repr.
Arguments typeof {Number} v.
Arguments isNumber {Number} v.
Arguments isString {Number} v.
Arguments isNullish {Number} v.
Arguments toString {Number} numberToString v.
Arguments truthy {Number} numberTruthy v.
Arguments keys {Number} o.
Arguments values {Number} o.
Arguments getProp {Number} o k.
Arguments hasProp {Number} o k.
Arguments setProp {Number} o k v.
Arguments parseFloatOk {Number} numberToString v.

(** ** [app/api/finance/route.ts]: the visualization decision *)

Section ShouldCreateVisualization.

Context {Number : Type}.
Variable numberToString : Number -> string.

Definition vizKeywords : list string :=
  ["compare"; "trend"; "distribution"; "chart"; "graph"].

Definition metricTerms : list string :=
  ["sales"; "revenue"; "profit"; "products"; "performance"; "data";
   "count"; "total"; "amount"].

Definition categoryTerms : list string :=
  ["region"; "country"; "city"; "product"; "category"; "month"; "year";
   "quarter"; "date"; "day"; "type"].

Definition comparisonKeywords : list string :=
  ["top"; "bottom"; "highest"; "lowest"; "most"; "least"; "compare";
   "comparison"; "versus"; "vs"].

Definition countKeywords : list string :=
  ["top"; "bottom"; "highest"; "lowest"; "most"; "least"].

Definition isWordAt (c : option ascii) : bool :=
  match c with Some x => isWord x | None => false end.

(** The assertion [\b] between two neighbouring positions. *)
Definition wordBoundary (prev next : option ascii) : bool :=
  xorb (isWordAt prev) (isWordAt next).

Fixpoint lastChar (s : string) : option ascii :=
  match s with
  | EmptyString => None
  | String c EmptyString => Some c
  | String _ r => lastChar r
  end.

Fixpoint firstSome {A B : Type} (f : A -> option B) (l : list A) : option B :=
  match l with
  | [] => None
  | x :: r => match f x with Some y => Some y | None => firstSome f r end
  end.

(** [\s+(\d+)\b] read from the end of the keyword. Both runs are greedy,
    and giving a character back never helps: the next character would
    be a white space where a digit is needed, or a digit where the
    boundary is needed. *)
Definition matchCountTail (r : string) : option string :=
  let '(ws, r1) := span isSpace r in
  let '(ds, r2) := span isDigit r1 in
  if negb (isEmpty ws) && negb (isEmpty ds)
     && wordBoundary (lastChar ds) (head r2)
  then Some ds else None.

(** [\b(top|bottom|highest|lowest|most|least)\s+(\d+)\b] anchored at the
    start of [s], [prev] being the character before it. *)
Definition matchCountAt (prev : option ascii) (s : string) : option string :=
  if wordBoundary prev (head s) then
    firstSome (fun kw => if startsWith s kw
                         then matchCountTail (drop (String.length kw) s)
                         else None) countKeywords
  else None.

(** [normalizedQuery.match(/\b(top|...|least)\s+(\d+)\b/i)]: the second
    group of the leftmost match. *)
Fixpoint matchCountFrom (prev : option ascii) (s : string) : option string :=
  match matchCountAt prev s with
  | Some ds => Some ds
  | None =>
      match s with
      | EmptyString => None
      | String c r => matchCountFrom (Some c) r
      end
  end.

Definition matchCount (s : string) : option string := matchCountFrom None s.

Definition directRequest (normalizedQuery : string) : bool :=
  startsWith normalizedQuery "show"
  || startsWith normalizedQuery "display"
  || includes normalizedQuery "show me"
  || includes normalizedQuery "visual".

Definition vizKeywordFound (normalizedQuery : string) : bool :=
  existsb (includes normalizedQuery) vizKeywords.

Definition metricByCategory (data : list (Obj Number)) (normalizedQuery : string) : bool :=
  includes normalizedQuery " by "
  && (existsb (includes normalizedQuery) metricTerms
      && existsb (fun category => includes normalizedQuery (" by " ++ category))
           categoryTerms
      && (1 <? List.length data)).

Definition comparisonFound (normalizedQuery : string) : bool :=
  existsb (includes normalizedQuery) comparisonKeywords.

Definition hasDateColumn (row : Obj Number) : bool :=
  existsb (fun key =>
             includes (toLowerCase key) "date"
             || includes (toLowerCase key) "time"
             || includes (toLowerCase key) "month"
             || includes (toLowerCase key) "year") (keys row).

Definition possibleCategoryColumns (row : Obj Number) : list string :=
  filter (fun key =>
            includes (toLowerCase key) "type"
            || includes (toLowerCase key) "category"
            || includes (toLowerCase key) "region"
            || includes (toLowerCase key) "country"
            || includes (toLowerCase key) "city"
            || includes (toLowerCase key) "product"
            || includes (toLowerCase key) "name") (keys row).

Definition vizNumericColumns (row : Obj Number) : list string :=
  filter (fun key =>
            let value := getProp row key in
            isNumber value || parseFloatOk numberToString value) (keys row).

(** [shouldCreateVisualization(data, query)]; [userWantsChart] is the
    flag of the enclosing handler, set when the reply holds a
    [generate_graph_data] tool call. Past the row-count floor the data
    has more than three rows, so [data[0]] is a row. *)
Definition shouldCreateVisualization
    (userWantsChart : bool) (data : list (Obj Number)) (query : string) : bool :=
  let normalizedQuery := trim (toLowerCase query) in
  if userWantsChart then true
  else if directRequest normalizedQuery then true
  else if vizKeywordFound normalizedQuery then true
  else if metricByCategory data normalizedQuery then true
  else if comparisonFound normalizedQuery then
    match matchCount normalizedQuery with
    | Some digits => if (3 <? parseInt digits)%N then true else false
    | None => if 3 <? List.length data then true else false
    end
  else if List.length data <=? 3 then false
  else
    let row := hd [] data in
    if hasDateColumn row && (3 <? List.length data) then true
    else if (3 <? List.length data)
            && (0 <? List.length (possibleCategoryColumns row)) then true
    else if (1 <? List.length (vizNumericColumns row))
            && (3 <? List.length data) then true
    else false.

(** The pattern as the specification words it,
    [(top|bottom|highest|lowest|most|least)\s+(\d+)], without the two
    word-boundary assertions of the source. *)
Definition specCountTail (r : string) : option string :=
  let '(ws, r1) := span isSpace r in
  let '(ds, _) := span isDigit r1 in
  if negb (isEmpty ws) && negb (isEmpty ds) then Some ds else None.

Definition specCountAt (s : string) : option string :=
  firstSome (fun kw => if startsWith s kw
                       then specCountTail (drop (String.length kw) s)
                       else None) countKeywords.

Fixpoint specMatchCount (s : string) : option string :=
  match specCountAt s with
  | Some ds => Some ds
  | None =>
      match s with
      | EmptyString => None
      | String _ r => specMatchCount r
      end
  end.

End ShouldCreateVisualization.

(** ** Exceptions *)

(** What a [catch] clause can receive: an [Error] (possibly the client
    library's [AuthenticationError]) with its message, or a thrown value
    that is no [Error]. *)
Inductive ErrorClass := PlainError | AuthenticationError.

Inductive Thrown :=
| ThrownError (cls : ErrorClass) (message : string)
| ThrownValue.

(** [error instanceof Error ? error.message : fallback] *)
Definition messageOr (fallback : string) (error : Thrown) : string :=
  match error with
  | ThrownError _ message => message
  | ThrownValue => fallback
  end.

Inductive Completion (A : Type) :=
| Normal (a : A)
| Throw (e : Thrown).

Arguments Normal {A} a.
Arguments Throw {A} e.

Definition bind {A B : Type} (c : Completion A) (k : A -> Completion B) : Completion B :=
  match c with
  | Normal a => k a
  | Throw e => Throw e
  end.

(** [try { body } catch (error) { handler }] *)
Definition tryCatch {A : Type} (body : Completion A) (handler : Thrown -> Completion A)
  : Completion A :=
  match body with
  | Normal a => Normal a
  | Throw e => handler e
  end.

Declare Scope completion_scope.
Delimit Scope completion_scope with completion.
Notation "x <- c ;; k" := (bind c (fun x => k))
  (at level 61, c at next level, right associativity) : completion_scope.

(** What the statements of the program itself throw is never the client
    library's [AuthenticationError]: it is an [Error] with its message
    ([Some message]) or a value that is no [Error] ([None]). *)
Inductive Outcome (A : Type) :=
| Returned (a : A)
| Raised (message : option string).

Arguments Returned {A} a.
Arguments Raised {A} message.

Definition completion {A : Type} (outcome : Outcome A) : Completion A :=
  match outcome with
  | Returned a => Normal a
  | Raised (Some message) => Throw (ThrownError PlainError message)
  | Raised None => Throw ThrownValue
  end.

(** [arr.forEach((x, index) => ...)] visits the elements with their index. *)
Definition indexed {A : Type} (l : list A) : list (nat * A) :=
  combine (seq 0 (List.length l)) l.

(** ** [lib/db.ts] *)

Section Db.

Context {Number : Type}.

(** The record set of a statement; [undefined] for a statement without
    one. *)
Record QueryResult := { recordset : option (list (Obj Number)) }.

(** The driver: [getPool()] gives a pool or throws, and
    [request.query(text)] with the registered inputs resolves or
    rejects. *)
Variable poolFailure : option Thrown.
Variable requestQuery :
  list (string * JsVal Number) -> string -> Completion QueryResult.

(** [s.replace(c, by)] with a string pattern: the first occurrence only.
    (The replacement holds no [$], so it is inserted as it is.) *)
Fixpoint replaceFirst (c : ascii) (by_ : string) (s : string) : string :=
  match s with
  | EmptyString => EmptyString
  | String x r =>
      if Ascii.eqb x c then by_ ++ r else String x (replaceFirst c by_ r)
  end.

(** [request.input(`p${index}`, param)] for every parameter. *)
Definition requestInputs (params : list (JsVal Number)) : list (string * JsVal Number) :=
  List.map (fun '(index, param) => ("p" ++ ofNat index, param)) (indexed params).

(** [preparedQuery = preparedQuery.replace('?', `@p${index}`)] for every
    parameter. *)
Definition substituteFrom (i : nat) (params : list (JsVal Number)) (text : string)
  : string :=
  fold_left (fun prepared '(index, _) => replaceFirst "?" ("@p" ++ ofNat index) prepared)
    (combine (seq i (List.length params)) params) text.

Definition preparedQuery (queryText : string) (params : list (JsVal Number)) : string :=
  substituteFrom 0 params queryText.

Definition query (queryText : string) (params : list (JsVal Number))
  : Completion QueryResult :=
  match poolFailure with
  | Some e => Throw e
  | None =>
      tryCatch (requestQuery (requestInputs params) (preparedQuery queryText params))
        (fun error => Throw error)
  end.

(** The substitution as the specification words it: going through the
    text from the left, the placeholder number [i] becomes [@p<i>]. *)
Fixpoint substitutePlaceholders (i : nat) (s : string) : string :=
  match s with
  | EmptyString => EmptyString
  | String x r =>
      if Ascii.eqb x "?" then "@p" ++ ofNat i ++ substitutePlaceholders (S i) r
      else String x (substitutePlaceholders i r)
  end.

Fixpoint countChar (c : ascii) (s : string) : nat :=
  match s with
  | EmptyString => 0
  | String x r => (if Ascii.eqb x c then 1 else 0) + countChar c r
  end.

(** ** [lib/database-service.ts]: running the query *)

Record QueryData := {
  qd_query : option string;
  qd_sql : option string;
  qd_params : option (list (JsVal Number))
}.

Inductive QueryOutcome :=
| QueryFailure (error explanation : string)
| QuerySuccess (data : list (Obj Number)) (rowCount : nat)
    (explanation sql : string).

Definition success (r : QueryOutcome) : bool :=
  match r with QuerySuccess _ _ _ _ => true | QueryFailure _ _ => false end.

(** [queryData.sql || ''], [queryData.params || []] and
    [result.recordset || []] *)
Definition sqlOf (queryData : QueryData) : string :=
  match qd_sql queryData with Some s => s | None => "" end.

Definition paramsOf (queryData : QueryData) : list (JsVal Number) :=
  match qd_params queryData with Some p => p | None => [] end.

Definition rowsOf (result : QueryResult) : list (Obj Number) :=
  match recordset result with Some rows => rows | None => [] end.

Definition executeNaturalLanguageQuery (queryData : QueryData)
  : Completion QueryOutcome :=
  tryCatch
    (let sql := sqlOf queryData in
     let params := paramsOf queryData in
     if isEmpty sql then
       Normal (QueryFailure "No SQL query provided" "Failed to generate SQL query")
     else
       (result <- query sql params ;;
        let explanation :=
          if includes (toLowerCase sql) "group by"
          then "This query aggregates data from the database"
          else "This query retrieves data from the database" in
        let explanation :=
          if includes (toLowerCase sql) "order by"
          then explanation ++ " and sorts the results"
          else explanation in
        Normal (QuerySuccess
                  (rowsOf result)
                  (match recordset result with
                   | Some rows => List.length rows
                   | None => 0
                   end)
                  explanation sql))%completion)
    (fun error =>
       Normal (QueryFailure (messageOr "Unknown error occurred" error)
                 "An error occurred while executing your query.")).

End Db.

(** ** [lib/database-service.ts]: shaping the rows into a chart *)

Section PrepareDataForVisualization.

Context {Number : Type}.
Variable numberToString : Number -> string.

(** [new Date(text).toLocaleDateString('en-US', { month: 'short',
    day: 'numeric', year: 'numeric' })], which depends on the host's
    time zone. *)
Variable toLocaleDateString : string -> string.

Record VizConfig := {
  xAxisKey : option string;
  title : string;
  description : string
}.

Record VizChart := {
  chartType : string;
  data : list (Obj Number);
  config : VizConfig;
  chartConfig : list (string * string)
}.

(** [`${k}`] and [row[k]] for a key that may be [undefined]. *)
Definition keyText (k : option string) : string :=
  match k with Some s => s | None => "undefined" end.

Definition keyTruthy (k : option string) : bool :=
  match k with Some s => negb (isEmpty s) | None => false end.

Definition member (x : string) (l : list string) : bool :=
  existsb (String.eqb x) l.

(** [charAt(0).toUpperCase() + slice(1)] *)
Definition capitalize (word : string) : string :=
  match word with
  | EmptyString => EmptyString
  | String c r => String (upperChar c) r
  end.

Definition formatColumnLabel (columnName : string) : string :=
  if startsWith columnName "total_" then
    "Total " ++ replaceChar "_" " " (drop 6 columnName)
  else if startsWith columnName "avg_" then
    "Average " ++ replaceChar "_" " " (drop 4 columnName)
  else if startsWith columnName "count_" then
    "Count of " ++ replaceChar "_" " " (drop 6 columnName)
  else if includes columnName "FORMAT(" || includes columnName "YEAR("
          || includes columnName "MONTH(" || includes columnName "DAY(" then
    "Date"
  else join " " (List.map capitalize (split "_" columnName)).

(** [s.replace(/\s+/g, '_')] *)
Fixpoint collapseSpaces (inRun : bool) (s : string) : string :=
  match s with
  | EmptyString => EmptyString
  | String c r =>
      if isSpace c then
        if inRun then collapseSpaces true r
        else String "_" (collapseSpaces true r)
      else String c (collapseSpaces false r)
  end.

(** [s.replace(/[^a-zA-Z0-9_]/g, '')] *)
Fixpoint keepWordChars (s : string) : string :=
  match s with
  | EmptyString => EmptyString
  | String c r => if isWord c then String c (keepWordChars r) else keepWordChars r
  end.

Definition seriesKey (label : string) : string :=
  toLowerCase (keepWordChars (collapseSpaces false label)).

Definition timeColumnsOf (columns : list string) : list string :=
  filter (fun col =>
            includes (toLowerCase col) "date"
            || includes (toLowerCase col) "month"
            || includes (toLowerCase col) "year"
            || includes (toLowerCase col) "period"
            || includes (toLowerCase col) "time_period"
            || includes (toLowerCase col) "format(") columns.

Definition numericColumnsOf (row : Obj Number) (columns : list string) : list string :=
  filter (fun col =>
            isNumber (getProp row col)
            && negb (includes (toLowerCase col) "id")
            && negb (String.eqb col "key")) columns.

Definition categoricalColumnsOf (row : Obj Number) (columns timeColumns : list string)
  : list string :=
  filter (fun col =>
            isString (getProp row col)
            && negb (includes (toLowerCase col) "date")
            && negb (member col timeColumns)) columns.

Definition trendWords (queryLower : string) : bool :=
  includes queryLower "trend"
  || includes queryLower "over time"
  || includes queryLower "timeseries"
  || includes queryLower "time series".

Definition distributionWords (queryLower : string) : bool :=
  includes queryLower "distribution"
  || includes queryLower "breakdown"
  || includes queryLower "proportion"
  || includes queryLower "percentage"
  || includes queryLower "share"
  || includes queryLower "pie".

(** The [if ... else if ...] chain that sets [chartData.chartType],
    which starts out as ['bar']. *)
Definition selectChartType (rowCount : nat) (hasTimeColumn : bool)
    (numericColumns categoricalColumns : list string) (queryLower : string) : string :=
  if hasTimeColumn && trendWords queryLower then "line"
  else if (0 <? List.length categoricalColumns) && (1 <? List.length numericColumns)
  then "multibar"
  else if distributionWords queryLower then "pie"
  else if (10 <? rowCount) && hasTimeColumn then "line"
  else if 3 <? List.length numericColumns then "multibar"
  else if (List.length numericColumns =? 1) && (List.length categoricalColumns =? 1)
  then "bar"
  else "bar".

Definition selectXAxisKey (hasTimeColumn : bool)
    (timeColumns categoricalColumns columns : list string) : option string :=
  if hasTimeColumn then List.hd_error timeColumns
  else if 0 <? List.length categoricalColumns then List.hd_error categoricalColumns
  else List.hd_error columns.

(** [/^\d{4}-\d{2}-\d{2}$/], [/^\d{4}-\d{2}$/] and [/^\d{4}-Q[1-4]$/] *)
Definition allDigits (s : string) : bool :=
  forallb isDigit (list_ascii_of_string s).

Definition isYearMonthDay (s : string) : bool :=
  match split "-" s with
  | [y; m; d] =>
      allDigits y && (String.length y =? 4) && allDigits m && (String.length m =? 2)
      && allDigits d && (String.length d =? 2)
  | _ => false
  end.

Definition isYearMonth (s : string) : bool :=
  match split "-" s with
  | [y; m] =>
      allDigits y && (String.length y =? 4) && allDigits m && (String.length m =? 2)
  | _ => false
  end.

Definition isYearQuarter (s : string) : bool :=
  match split "-" s with
  | [y; q] =>
      allDigits y && (String.length y =? 4)
      && (String.eqb q "Q1" || String.eqb q "Q2" || String.eqb q "Q3"
          || String.eqb q "Q4")
  | _ => false
  end.

Definition monthNames : list string :=
  ["Jan"; "Feb"; "Mar"; "Apr"; "May"; "Jun"; "Jul"; "Aug"; "Sep"; "Oct"; "Nov"; "Dec"].

(** [monthNames[parseInt(month) - 1]], [undefined] outside 1..12. *)
Definition monthName (month : string) : string :=
  match N.to_nat (parseInt month) with
  | O => "undefined"
  | S i => nth i monthNames "undefined"
  end.

Definition formatTimeValue (timeValue : string) : option string :=
  if isYearMonthDay timeValue then Some (toLocaleDateString timeValue)
  else if isYearMonth timeValue then
    match split "-" timeValue with
    | [year; month] => Some (monthName month ++ " " ++ year)
    | _ => None
    end
  else if isYearQuarter timeValue then
    match split "-" timeValue with
    | [year; quarter] => Some (quarter ++ " " ++ year)
    | _ => None
    end
  else None.

Definition formatTimeItem (xKey : option string) (item : Obj Number) : Obj Number :=
  match getProp item (keyText xKey) with
  | JString timeValue =>
      if isEmpty timeValue then item
      else match formatTimeValue timeValue with
           | Some label => setProp item (keyText xKey) (JString label)
           | None => item
           end
  | _ => item
  end.

(** The value column of a bar or line chart: a numeric column named in
    the query, else one holding "total", else "sum", else [quantity],
    else the first. *)
Definition mentionedColumn (queryLower : string) (numericColumns : list string) : string :=
  match find (fun col => includes queryLower (toLowerCase col)) numericColumns with
  | Some col => col
  | None => ""
  end.

Definition findOrEmpty (p : string -> bool) (l : list string) : string :=
  match find p l with Some x => x | None => "" end.

Definition selectValueColumn (queryLower : string) (numericColumns : list string) : string :=
  let valueColumn := mentionedColumn queryLower numericColumns in
  if isEmpty valueColumn && (0 <? List.length numericColumns) then
    if existsb (fun col => includes (toLowerCase col) "total") numericColumns then
      findOrEmpty (fun col => includes (toLowerCase col) "total") numericColumns
    else if existsb (fun col => includes (toLowerCase col) "sum") numericColumns then
      findOrEmpty (fun col => includes (toLowerCase col) "sum") numericColumns
    else if member "quantity" numericColumns then "quantity"
    else List.hd "" numericColumns
  else valueColumn.

(** [numericColumns[0] || columns.find(col => typeof results[0][col] === 'number')] *)
Definition pieValueColumn (row : Obj Number) (numericColumns columns : list string)
  : option string :=
  if keyTruthy (List.hd_error numericColumns) then List.hd_error numericColumns
  else find (fun col => isNumber (getProp row col)) columns.

Definition initialChart : VizChart :=
  {| chartType := "bar";
     data := [];
     config := {| xAxisKey := Some "";
                  title := "Sales Data Analysis";
                  description := "Analysis based on your query" |};
     chartConfig := [] |}.

(** Whether [k] is an array index: the canonical decimal text of an
    integer below [2^32 - 1].  An object enumerates these keys first, in
    ascending order, and its other keys after them in the order they were
    added. *)
Definition isArrayIndex (k : string) : bool :=
  negb (isEmpty k) && allDigits k
  && (String.eqb k "0" || negb (startsWith k "0"))
  && (parseInt k <? 4294967295)%N.

(** The place of a new key [k] among the keys of an object. *)
Fixpoint insertKey {V : Type} (o : list (string * V)) (k : string) (v : V)
  : list (string * V) :=
  match o with
  | [] => [(k, v)]
  | (k', v') :: r =>
      if isArrayIndex k && (negb (isArrayIndex k') || (parseInt k <? parseInt k')%N)
      then (k, v) :: o
      else (k', v') :: insertKey r k v
  end.

(** [o[k] = v] for a key [k] of any form: a key the object has keeps its
    place. *)
Definition assign {V : Type} (o : list (string * V)) (k : string) (v : V)
  : list (string * V) :=
  if existsb (fun kv => String.eqb (fst kv) k) o
  then List.map (fun kv => if String.eqb (fst kv) k then (fst kv, v) else kv) o
  else insertKey o k v.

(** [chartConfig[k] = { label }] *)
Definition setLabel (cfg : list (string * string)) (k label : string)
  : list (string * string) :=
  assign cfg k label.

(** The body of [prepareDataForVisualization] for a non-empty [results],
    [row] being [results[0]]. *)
Definition buildChart (row : Obj Number) (results : list (Obj Number)) (nlQuery : string)
  : VizChart :=
  let queryLower := toLowerCase nlQuery in
  let columns := keys row in
  let timeColumns := timeColumnsOf columns in
  let hasTimeColumn := 0 <? List.length timeColumns in
  let numericColumns := numericColumnsOf row columns in
  let categoricalColumns := categoricalColumnsOf row columns timeColumns in
  let type := selectChartType (List.length results) hasTimeColumn numericColumns
                categoricalColumns queryLower in
  let xKey := selectXAxisKey hasTimeColumn timeColumns categoricalColumns columns in
  let shaped :=
    if String.eqb type "pie" then
      let valueColumn := pieValueColumn row numericColumns columns in
      if keyTruthy xKey && keyTruthy valueColumn then
        {| chartType := type;
           data := List.map (fun r =>
                      [("segment", JString (toString numberToString (getProp r (keyText xKey))));
                       ("value", getProp r (keyText valueColumn))]) results;
           config := {| xAxisKey := Some "segment";
                        title := "Distribution of " ++ keyText valueColumn ++ " by "
                                 ++ keyText xKey;
                        description := "Breakdown of " ++ keyText valueColumn
                                       ++ " across different " ++ keyText xKey
                                       ++ " categories" |};
           chartConfig :=
             fold_left (fun cfg r =>
                          let label := toString numberToString (getProp r (keyText xKey)) in
                          setLabel cfg (seriesKey label) label) results [] |}
      else
        {| chartType := type; data := []; config := config initialChart;
           chartConfig := [] |}
    else if String.eqb type "multibar" then
      {| chartType := type;
         data := List.map (fun r =>
                    fold_left (fun dataPoint col => assign dataPoint col (getProp r col))
                      numericColumns [(keyText xKey, getProp r (keyText xKey))]) results;
         config := {| xAxisKey := xKey;
                      title := "Comparison of " ++ join ", " (firstn 3 numericColumns)
                               ++ (if 3 <? List.length numericColumns
                                   then " and others" else "")
                               ++ " by " ++ keyText xKey;
                      description := "Comparing metrics across different "
                                     ++ keyText xKey ++ " values" |};
         chartConfig :=
           fold_left (fun cfg col => setLabel cfg (seriesKey col) (formatColumnLabel col))
             numericColumns [] |}
    else
      let valueColumn := selectValueColumn queryLower numericColumns in
      if keyTruthy xKey && negb (isEmpty valueColumn) then
        {| chartType := type;
           data := List.map (fun r =>
                      assign [(keyText xKey, getProp r (keyText xKey))]
                        valueColumn (getProp r valueColumn)) results;
           config :=
             if String.eqb type "line" then
               {| xAxisKey := xKey;
                  title := formatColumnLabel valueColumn ++ " Trend by "
                           ++ formatColumnLabel (keyText xKey);
                  description := "How " ++ formatColumnLabel valueColumn
                                 ++ " changes over time" |}
             else
               {| xAxisKey := xKey;
                  title := formatColumnLabel valueColumn ++ " by "
                           ++ formatColumnLabel (keyText xKey);
                  description := "Comparison of " ++ formatColumnLabel valueColumn
                                 ++ " across different categories" |};
           chartConfig := [(seriesKey valueColumn, formatColumnLabel valueColumn)] |}
      else
        {| chartType := type; data := []; config := config initialChart;
           chartConfig := [] |} in
  if hasTimeColumn && (0 <? List.length (data shaped)) then
    {| chartType := chartType shaped;
       data := List.map (formatTimeItem xKey) (data shaped);
       config := config shaped;
       chartConfig := chartConfig shaped |}
  else shaped.

(** The chart type the chain settles on for [results], whose first row
    is [row], and whether the branch for that type finds its value
    column (the [valueColumn] of the guards [if (xAxisKey &&
    valueColumn)]; a multibar chart takes every numeric column). *)
Definition chartTypeFor (row : Obj Number) (results : list (Obj Number))
    (nlQuery : string) : string :=
  let columns := keys row in
  let timeColumns := timeColumnsOf columns in
  selectChartType (List.length results) (0 <? List.length timeColumns)
    (numericColumnsOf row columns) (categoricalColumnsOf row columns timeColumns)
    (toLowerCase nlQuery).

(** The column the body selects for the x axis. *)
Definition xAxisKeyFor (row : Obj Number) : option string :=
  let columns := keys row in
  let timeColumns := timeColumnsOf columns in
  selectXAxisKey (0 <? List.length timeColumns) timeColumns
    (categoricalColumnsOf row columns timeColumns) columns.

Definition hasValueColumn (row : Obj Number) (results : list (Obj Number))
    (nlQuery : string) : bool :=
  let columns := keys row in
  let numericColumns := numericColumnsOf row columns in
  if String.eqb (chartTypeFor row results nlQuery) "pie" then
    keyTruthy (pieValueColumn row numericColumns columns)
  else if String.eqb (chartTypeFor row results nlQuery) "multibar" then true
  else negb (isEmpty (selectValueColumn (toLowerCase nlQuery) numericColumns)).

(** [prepareDataForVisualization(results, nlQuery)] on rows that are
    objects; [None] is [null].  On such rows no statement of the body
    throws; [AnyRows.prepareDataForVisualization] takes rows of any kind
    and has the [try] and its [catch] clause. *)
Definition prepareDataForVisualization (results : list (Obj Number)) (nlQuery : string)
  : option VizChart :=
  match results with
  | [] => None
  | row :: _ => Some (buildChart row results nlQuery)
  end.

End PrepareDataForVisualization.

(** ** [app/api/finance/route.ts]: grounding the answer in the rows *)

Section Grounding.

Context {Number : Type}.
Variable numberToString : Number -> string.

(** [typeof val === 'number' ||
     (typeof val === 'string' && !isNaN(parseFloat(val)))] *)
Definition isNumericValue (val : JsVal Number) : bool :=
  isNumber val || (isString val && parseFloatOk numberToString val).

(** The [stringValues] of a row. *)
Definition stringValues (row : Obj Number) : list string :=
  List.map (toString numberToString) (filter isNumericValue (values row)).

Definition hasDataValues (responseText : string) (queryData : list (Obj Number)) : bool :=
  existsb (fun row => existsb (fun strVal => includes responseText strVal)
                        (stringValues row)) queryData.

Definition needsDataExplanation (responseText : string) (queryData : list (Obj Number))
  : bool :=
  if (List.length queryData =? 0) || isEmpty responseText then false
  else negb (hasDataValues responseText queryData).

(** A content block of a reply; [.text] of a tool call is [undefined]. *)
Inductive ContentBlock :=
| TextBlock (text : string)
| ToolUseBlock (name : string) (input : JsVal Number).

Record LlmResponse := { content : list ContentBlock }.

(** The follow-up request of [getDataExplanation], by the values that
    are interpolated into its prompt: the question, the rows handed to
    [JSON.stringify], and the count in the ["... and k more rows"]
    line when there is one. *)
Record ExplanationRequest := {
  er_model : string;
  er_max_tokens : nat;
  er_question : string;
  er_dataSample : list (Obj Number);
  er_moreRows : option nat
}.

(** The model behind [anthropic.messages.create]: its answer may depend
    on the calls made before. A computation carries the log of the
    follow-up requests issued so far. *)
Variable messagesCreate :
  list ExplanationRequest -> ExplanationRequest -> Completion LlmResponse.

Definition IO (A : Type) : Type :=
  list ExplanationRequest -> A * list ExplanationRequest.

Definition ret {A : Type} (a : A) : IO A := fun log => (a, log).

Definition andThen {A B : Type} (c : IO A) (k : A -> IO B) : IO B :=
  fun log => let '(a, log') := c log in k a log'.

Definition callModel (request : ExplanationRequest) : IO (Completion LlmResponse) :=
  fun log => (messagesCreate log request, (log ++ [request])%list).

(** [explanationResponse.content[0].text] *)
Definition firstText (response : LlmResponse) : Completion string :=
  match content response with
  | [] => Throw (ThrownError PlainError
                   "Cannot read properties of undefined (reading 'text')")
  | TextBlock text :: _ => Normal text
  | ToolUseBlock _ _ :: _ => Normal "undefined"
  end.

Definition newline : string := String (ascii_of_nat 10) EmptyString.

Definition followUpMessage (queryData : list (Obj Number)) (nlQuery : string)
  : ExplanationRequest :=
  {| er_model := "claude-3-haiku-20240307";
     er_max_tokens := 1000;
     er_question := nlQuery;
     er_dataSample := if 5 <? List.length queryData then firstn 5 queryData
                      else queryData;
     er_moreRows := if 5 <? List.length queryData
                    then Some (List.length queryData - 5) else None |}.

Definition getDataExplanation (originalResponse : string)
    (queryData : list (Obj Number)) (nlQuery : string) : IO (Completion string) :=
  andThen (callModel (followUpMessage queryData nlQuery)) (fun called =>
  ret (tryCatch
         (explanationResponse <- called ;;
          explanation <- firstText explanationResponse ;;
          Normal (originalResponse ++ newline ++ newline ++ explanation))%completion
         (fun error => Normal originalResponse))).

(** The step of [POST] after a query that returned rows, as far as the
    text goes: [textContent] is the text block of the reply, when it has
    one.  The other branch leaves the text alone; what it does to the
    chart of the reply is part of [explainOrEnhance] below, which has
    both branches in full.  A computation that throws here leaves the
    handler through its [catch] clause. *)
Definition groundingStep (textContent : option string)
    (queryData : list (Obj Number)) (nlQuery : string)
  : IO (Completion (option string)) :=
  let textResponse := match textContent with
                      | Some text => text
                      | None => ""
                      end in
  if needsDataExplanation textResponse queryData then
    andThen (getDataExplanation textResponse queryData nlQuery) (fun explained =>
    ret (textResponse' <- explained ;;
         Normal (match textContent with
                 | Some _ => Some textResponse'
                 | None => None
                 end))%completion)
  else ret (Normal textContent).

End Grounding.

(** ** [app/api/finance/route.ts]: the final normalization pass *)

Section PrepareChartDataForFrontend.

Context {Number : Type}.
Variable numberToString : Number -> string.
Variable numberTruthy : Number -> bool.
(** The number literals of the default margin. *)
Variable numberOfNat : nat -> Number.

(** A chart object in the shape of the [generate_graph_data] tool input:
    - [fc_chartType]: whatever stands in [chartType] ([JUndefined] when
      it is missing);
    - [fc_data]: the rows when [data] is an array of row objects, [None]
      when it is missing or not an array;
    - [fc_config], [fc_chartConfig]: the object, [None] when the field is
      missing or falsy; every entry of [chartConfig] is an object. *)
Record FrontChart := {
  fc_chartType : JsVal Number;
  fc_data : option (list (Obj Number));
  fc_config : option (Obj Number);
  fc_chartConfig : option (list (string * Obj Number))
}.

(** The chart while the pass is at work, once [data], [config] and
    [chartConfig] are known to be there. *)
Record Draft := {
  d_chartType : JsVal Number;
  d_data : list (Obj Number);
  d_config : Obj Number;
  d_chartConfig : list (string * Obj Number)
}.

Definition colorPalette : list string :=
  ["#3366CC"; "#DC3912"; "#FF9900"; "#109618"; "#990099";
   "#0099C6"; "#DD4477"; "#66AA00"; "#B82E2E"; "#316395"].

Definition falsy (v : JsVal Number) : bool := negb (truthy numberTruthy v).

(** [field !== v] for a string [field]. *)
Definition differsFrom (field : string) (v : JsVal Number) : bool :=
  match v with
  | JString s => negb (String.eqb field s)
  | _ => true
  end.

Definition isChartType (name : string) (v : JsVal Number) : bool :=
  match v with
  | JString s => String.eqb s name
  | _ => false
  end.

Definition firstRow (rows : list (Obj Number)) : Obj Number := hd [] rows.

(** The chart with its [config], or its [chartConfig], replaced. *)
Definition withConfig (d : Draft) (config : Obj Number) : Draft :=
  {| d_chartType := d_chartType d; d_data := d_data d;
     d_config := config; d_chartConfig := d_chartConfig d |}.

Definition withChartConfig (d : Draft) (chartConfig : list (string * Obj Number))
  : Draft :=
  {| d_chartType := d_chartType d; d_data := d_data d;
     d_config := d_config d; d_chartConfig := chartConfig |}.

(** [if (!chartData.config[k]) chartData.config[k] = v] *)
Definition ensureField (k : string) (v : JsVal Number) (d : Draft) : Draft :=
  if falsy (getProp (d_config d) k) then withConfig d (setProp (d_config d) k v)
  else d.

(** "Ensure we have a title" *)
Definition generatedTitle (row : Obj Number) : string :=
  let dataFields := keys row in
  let numericFields := filter (fun field => isNumber (getProp row field)) dataFields in
  let categoryFields :=
    filter (fun field => isString (getProp row field)
                         && negb (includes field "date")
                         && negb (includes field "time")) dataFields in
  match numericFields, categoryFields with
  | metric :: _, category :: _ =>
      replaceChar "_" " " metric ++ " by " ++ replaceChar "_" " " category
  | _, _ => "Data Analysis"
  end.

Definition ensureTitle (d : Draft) : Draft :=
  ensureField "title" (JString (generatedTitle (firstRow (d_data d)))) d.

(** "Handle xAxisKey": the first string field other than [value] and
    [segment], else the first field, which is [undefined] for a row
    without fields. *)
Definition generatedXAxisKey (row : Obj Number) : JsVal Number :=
  let dataFields := keys row in
  let categoryFields :=
    filter (fun field => isString (getProp row field)
                         && negb (String.eqb field "value")
                         && negb (String.eqb field "segment")) dataFields in
  match categoryFields with
  | field :: _ => JString field
  | [] => match dataFields with
          | field :: _ => JString field
          | [] => JUndefined
          end
  end.

Definition ensureXAxisKey (d : Draft) : Draft :=
  ensureField "xAxisKey" (generatedXAxisKey (firstRow (d_data d))) d.

(** The numeric fields of the first row other than the x axis. *)
Definition seriesFields (row : Obj Number) (xKey : JsVal Number) : list string :=
  filter (fun field => isNumber (getProp row field) && differsFrom field xKey)
    (keys row).

(** "Fix chart series configuration for bar charts" *)
Definition ensureBarSeries (d : Draft) : Draft :=
  if isChartType "bar" (d_chartType d) && (List.length (d_chartConfig d) =? 0) then
    match seriesFields (firstRow (d_data d)) (getProp (d_config d) "xAxisKey") with
    | seriesKey :: _ =>
        withChartConfig d
          [(seriesKey, [("dataKey", JString seriesKey);
                        ("name", JString (replaceChar "_" " " seriesKey));
                        ("color", JString "#3366CC")])]
    | [] => d
    end
  else d.

(** "Ensure all series have colors", and a [dataKey]. *)
Definition ensureColor (index : nat) (key : string) (series : Obj Number) : Obj Number :=
  let series :=
    if falsy (getProp series "color")
    then setProp series "color"
           (JString (nth (index mod List.length colorPalette) colorPalette ""))
    else series in
  if falsy (getProp series "dataKey")
  then setProp series "dataKey" (JString key)
  else series.

Definition ensureColors (d : Draft) : Draft :=
  withChartConfig d
    (List.map (fun '(index, (key, series)) => (key, ensureColor index key series))
       (indexed (d_chartConfig d))).

(** "Handle pie charts with special formatting" *)
Definition hasCorrectFormat (rows : list (Obj Number)) : bool :=
  forallb (fun item => hasProp item "segment" && hasProp item "value") rows.

Definition reshapePie (d : Draft) : Draft :=
  if hasCorrectFormat (d_data d) then d
  else
    let xKey := getProp (d_config d) "xAxisKey" in
    match seriesFields (firstRow (d_data d)) xKey with
    | valueKey :: _ =>
        if truthy numberTruthy xKey then
          {| d_chartType := d_chartType d;
             d_data := List.map (fun item =>
                         [("segment", getProp item (toString numberToString xKey));
                          ("value", getProp item valueKey)]) (d_data d);
             d_config := setProp (d_config d) "xAxisKey" (JString "segment");
             d_chartConfig :=
               [("value", [("dataKey", JString "value");
                           ("name", JString (replaceChar "_" " " valueKey));
                           ("color", JString (nth 0 colorPalette ""))])] |}
        else d
    | [] => d
    end.

Definition ensureTotalLabel (d : Draft) : Draft :=
  ensureField "totalLabel" (JString "Total") d.

Definition handlePie (d : Draft) : Draft :=
  if isChartType "pie" (d_chartType d) then ensureTotalLabel (reshapePie d) else d.

(** "Ensure there's a common dataKey in series config" *)
Definition firstKey (chartConfig : list (string * Obj Number)) : string :=
  match List.map fst chartConfig with
  | first :: _ => first
  | [] => ""
  end.

Definition ensureDataKeys (d : Draft) : Draft :=
  withChartConfig d
    (List.map (fun '(key, series) =>
                 (key,
                  if falsy (getProp series "dataKey") then
                    match List.map fst (d_chartConfig d) with
                    | first :: _ => setProp series "dataKey" (JString first)
                    | [] => series
                    end
                  else series)) (d_chartConfig d)).

(** "Add margin if missing" *)
Definition defaultMargin : JsVal Number :=
  JObject [("top", JNumber (numberOfNat 20)); ("right", JNumber (numberOfNat 30));
           ("bottom", JNumber (numberOfNat 50)); ("left", JNumber (numberOfNat 60))].

Definition ensureMargin (d : Draft) : Draft :=
  ensureField "margin" defaultMargin d.

(** The steps in the order of the source. *)
Definition normalize (d : Draft) : Draft :=
  ensureMargin (ensureDataKeys (handlePie (ensureColors
    (ensureBarSeries (ensureXAxisKey (ensureTitle d)))))).

Definition finish (d : Draft) : FrontChart :=
  {| fc_chartType := d_chartType d;
     fc_data := Some (d_data d);
     fc_config := Some (d_config d);
     fc_chartConfig := Some (d_chartConfig d) |}.

(** [prepareChartDataForFrontend(chartData)]; [None] is a falsy argument
    on the way in and [null] on the way out. The source updates the
    chart in place and returns it. *)
Definition prepareChartDataForFrontend (chartData : option FrontChart)
  : option FrontChart :=
  match chartData with
  | None => None
  | Some chart =>
      let chartType := if falsy (fc_chartType chart) then JString "bar"
                       else fc_chartType chart in
      match fc_data chart with
      | None | Some [] => None
      | Some rows =>
          Some (finish (normalize
                          {| d_chartType := chartType;
                             d_data := rows;
                             d_config := match fc_config chart with
                                         | Some c => c
                                         | None => []
                                         end;
                             d_chartConfig := match fc_chartConfig chart with
                                              | Some c => c
                                              | None => []
                                              end |}))
      end
  end.

(** What the pass leaves behind: every field it would fill is there, or
    would be filled with the value it holds already. *)
Definition seriesColored (key : string) (series : Obj Number) : Prop :=
  truthy numberTruthy (getProp series "color") = true
  /\ (truthy numberTruthy (getProp series "dataKey") = true
      \/ (key = "" /\ hasProp series "dataKey" = true
          /\ getProp series "dataKey" = JString "")).

Definition seriesStable (first key : string) (series : Obj Number) : Prop :=
  truthy numberTruthy (getProp series "color") = true
  /\ (truthy numberTruthy (getProp series "dataKey") = true
      \/ (key = "" /\ first = "" /\ hasProp series "dataKey" = true
          /\ getProp series "dataKey" = JString "")).

Definition xAxisSettled (d : Draft) : Prop :=
  truthy numberTruthy (getProp (d_config d) "xAxisKey") = true
  \/ (hasProp (d_config d) "xAxisKey" = true
      /\ getProp (d_config d) "xAxisKey" = generatedXAxisKey (firstRow (d_data d))).

Definition barSettled (d : Draft) : Prop :=
  isChartType "bar" (d_chartType d) = true ->
  d_chartConfig d = [] ->
  seriesFields (firstRow (d_data d)) (getProp (d_config d) "xAxisKey") = [].

Definition pieShaped (d : Draft) : Prop :=
  hasCorrectFormat (d_data d) = true
  \/ seriesFields (firstRow (d_data d)) (getProp (d_config d) "xAxisKey") = []
  \/ truthy numberTruthy (getProp (d_config d) "xAxisKey") = false.

Definition pieSettled (d : Draft) : Prop :=
  isChartType "pie" (d_chartType d) = true ->
  truthy numberTruthy (getProp (d_config d) "totalLabel") = true /\ pieShaped d.

Definition Stable (d : Draft) : Prop :=
  truthy numberTruthy (d_chartType d) = true
  /\ d_data d <> []
  /\ truthy numberTruthy (getProp (d_config d) "title") = true
  /\ xAxisSettled d
  /\ barSettled d
  /\ Forall (fun entry => seriesStable (firstKey (d_chartConfig d)) (fst entry) (snd entry))
       (d_chartConfig d)
  /\ pieSettled d
  /\ truthy numberTruthy (getProp (d_config d) "margin") = true.

End PrepareChartDataForFrontend.

(** ** [app/api/finance/route.ts]: the status of the reply *)

Section Post.

Context {Number : Type}.
Variable numberToString : Number -> string.
Variable numberTruthy : Number -> bool.

(** The reply of the model and the body of a successful answer are left
    opaque here. *)
Variable ModelReply : Type.
Variable Payload : Type.

Record FileData := {
  base64 : JsVal Number;
  mediaType : JsVal Number;
  isText : JsVal Number;
  fileName : JsVal Number
}.

(** The parsed request: a field that is absent reads [JUndefined];
    [rb_fileData] is [None] when [fileData] is absent or falsy. *)
Record RequestBody := {
  rb_messages : JsVal Number;
  rb_fileData : option FileData;
  rb_model : JsVal Number
}.

Inductive Body :=
| ErrorBody (error : string) (details : option string)
| ReplyBody (payload : Payload).

Record Response := { status : nat; body : Body }.

(** [atob] followed by [decodeURIComponent(escape(...))], which throws
    on malformed input. *)
Variable decodeText : string -> Completion string.
(** The main [anthropic.messages.create] call. *)
Variable messagesCreate : JsVal Number -> list (JsVal Number) -> Completion ModelReply.
(** Everything the handler does with the reply (query, chart, final
    normalization) up to the body it sends. *)
Variable respond : ModelReply -> Completion Payload.
(** Of what [POST] takes as given, only the main call can throw the
    client library's [AuthenticationError]: [await req.json()] makes no
    call to the model, and after the main call the code reaches the
    client library only through [generateOptimizedChart], each call of
    which stands inside a [try] whose [catch] clause carries on, and
    through [getDataExplanation], whose body is such a [try].  Where
    this matters, [parsed] and [respond] are taken from [Outcome]
    through [completion]. *)

Definition typeError (message : string) : Thrown := ThrownError PlainError message.

(** [v.k] on an arbitrary value, for a key that is no index or built-in
    member; the messages are those of V8. *)
Definition propOf (v : JsVal Number) (k : string) : Completion (JsVal Number) :=
  match v with
  | JUndefined =>
      Throw (typeError ("Cannot read properties of undefined (reading '" ++ k ++ "')"))
  | JNull =>
      Throw (typeError ("Cannot read properties of null (reading '" ++ k ++ "')"))
  | JObject fields => Normal (getProp fields k)
  | _ => Normal JUndefined
  end.

Fixpoint mapM {A B : Type} (f : A -> Completion B) (l : list A) : Completion (list B) :=
  match l with
  | [] => Normal []
  | x :: r => (y <- f x ;; ys <- mapM f r ;; Normal (y :: ys))%completion
  end.

(** [model = "claude-3-haiku-20240307"] in the destructuring pattern:
    the default stands in for an absent ([undefined]) field only. *)
Definition modelOrDefault (model : JsVal Number) : JsVal Number :=
  match model with
  | JUndefined => JString "claude-3-haiku-20240307"
  | _ => model
  end.

Definition isArray (v : JsVal Number) : bool :=
  match v with JArray _ => true | _ => false end.

Definition itemsOf (v : JsVal Number) : list (JsVal Number) :=
  match v with JArray items => items | _ => [] end.

(** [messages[messages.length - 1].content] *)
Definition lastContent (messages : list (JsVal Number)) : Completion (JsVal Number) :=
  propOf (last messages JUndefined) "content".

Definition replaceLast (l : list (JsVal Number)) (x : JsVal Number) : list (JsVal Number) :=
  (removelast l ++ [x])%list.

Definition userMessage (parts : list (JsVal Number)) : JsVal Number :=
  JObject [("role", JString "user"); ("content", JArray parts)].

Definition textPart (text : JsVal Number) : JsVal Number :=
  JObject [("type", JString "text"); ("text", text)].

(** The body of the [try] around the file content. *)
Definition attachFile (file : FileData) (messages anthropicMessages : list (JsVal Number))
  : Completion (list (JsVal Number)) :=
  if truthy numberTruthy (isText file) then
    (textContent <- decodeText (toString numberToString (base64 file)) ;;
     question <- lastContent messages ;;
     Normal (replaceLast anthropicMessages
               (userMessage
                  [textPart (JString ("File contents of "
                                      ++ toString numberToString (fileName file)
                                      ++ ":" ++ newline ++ newline ++ textContent));
                   textPart question])))%completion
  else
    match mediaType file with
    | JString mt =>
        if startsWith mt "image/" then
          (question <- lastContent messages ;;
           Normal (replaceLast anthropicMessages
                     (userMessage
                        [JObject [("type", JString "image");
                                  ("source",
                                   JObject [("type", JString "base64");
                                            ("media_type", JString mt);
                                            ("data", base64 file)])];
                         textPart question])))%completion
        else Normal anthropicMessages
    | JUndefined =>
        Throw (typeError "Cannot read properties of undefined (reading 'startsWith')")
    | JNull =>
        Throw (typeError "Cannot read properties of null (reading 'startsWith')")
    | _ => Throw (typeError "mediaType.startsWith is not a function")
    end.

(** [messages.map(msg => ({ role: msg.role, content: msg.content }))] *)
Definition convertMessages (messages : JsVal Number) : Completion (list (JsVal Number)) :=
  mapM (fun msg => role <- propOf msg "role" ;;
                   content <- propOf msg "content" ;;
                   Normal (JObject [("role", role); ("content", content)]))%completion
    (itemsOf messages).

Definition badRequest (message : string) : Response :=
  {| status := 400; body := ErrorBody message None |}.

(** The [try] block of [POST], from the parsed request ([await
    req.json()], which may throw) to the response. *)
Definition handle (parsed : Completion RequestBody) : Completion Response :=
  (request <- parsed ;;
   let messages := rb_messages request in
   let model := modelOrDefault (rb_model request) in
   if negb (truthy numberTruthy messages) || negb (isArray messages) then
     Normal (badRequest "Messages array is required")
   else if negb (truthy numberTruthy model) then
     Normal (badRequest "Model selection is required")
   else
     anthropicMessages <- convertMessages messages ;;
     let send := fun anthropicMessages =>
       response <- messagesCreate model anthropicMessages ;;
       payload <- respond response ;;
       Normal {| status := 200; body := ReplyBody payload |} in
     match rb_fileData request with
     | Some file =>
         if negb (truthy numberTruthy (base64 file)) then
           Normal (badRequest "No file data")
         else
           match attachFile file (itemsOf messages) anthropicMessages with
           | Normal anthropicMessages => send anthropicMessages
           | Throw _ => Normal (badRequest "Failed to process file content")
           end
     | None => send anthropicMessages
     end)%completion.

(** The messages that the main call to the model receives from
    [request], if the handler gets as far as that call. *)
Definition messagesSent (request : RequestBody) : option (list (JsVal Number)) :=
  if isArray (rb_messages request)
     && truthy numberTruthy (modelOrDefault (rb_model request)) then
    match convertMessages (rb_messages request) with
    | Normal anthropicMessages =>
        match rb_fileData request with
        | Some file =>
            if truthy numberTruthy (base64 file) then
              match attachFile file (itemsOf (rb_messages request)) anthropicMessages with
              | Normal sent => Some sent
              | Throw _ => None
              end
            else None
        | None => Some anthropicMessages
        end
    | Throw _ => None
    end
  else None.

Definition isAuthenticationError (error : Thrown) : bool :=
  match error with
  | ThrownError AuthenticationError _ => true
  | _ => false
  end.

(** [POST(req)]: the [try] block and its [catch] clause. *)
Definition POST (parsed : Completion RequestBody) : Response :=
  match handle parsed with
  | Normal response => response
  | Throw error =>
      if isAuthenticationError error then
        {| status := 401;
           body := ErrorBody "Authentication Error"
                     (Some "Invalid API key or authentication failed") |}
      else
        {| status := 500;
           body := ErrorBody (messageOr "An unknown error occurred" error) None |}
  end.

End Post.

(** ** [lib/database-service.ts]: [prepareDataForVisualization] on any array

    [results] is typed [any[]]: its elements may be any value, and the
    body of the function stands in a [try] whose [catch] clause returns
    [null].  Here the rows are arbitrary values and each statement of the
    body completes normally or throws. *)

Module AnyRows.

Section Rows.

Context {Number : Type}.
Variable numberToString : Number -> string.
Variable numberTruthy : Number -> bool.
(** The number that counts the elements of an array or the code units of
    a string. *)
Variable numberOfNat : nat -> Number.
Variable toLocaleDateString : string -> string.

(** The keys ["0"], ["1"], ... of an array or string of [n] elements. *)
Definition indexKeys (n : nat) : list string := List.map ofNat (seq 0 n).

(** [Object.keys(v)] *)
Definition objectKeys (v : JsVal Number) : Completion (list string) :=
  match v with
  | JUndefined | JNull => Throw (typeError "Cannot convert undefined or null to object")
  | JObject fields => Normal (keys fields)
  | JArray items => Normal (indexKeys (List.length items))
  | JString s => Normal (indexKeys (String.length s))
  | JBool _ | JNumber _ | JHost _ => Normal []
  end.

(** The element that the key [k] names, if [k] is one of the index keys. *)
Definition elementAt {A : Type} (k : string) (items : list A) : option A :=
  match find (fun i => String.eqb (ofNat i) k) (seq 0 (List.length items)) with
  | Some i => nth_error items i
  | None => None
  end.

(** [v[k]] for a value that is neither [null] nor [undefined]: an own
    property, an element, or the length of an array or string. *)
Definition ownProp (v : JsVal Number) (k : string) : JsVal Number :=
  match v with
  | JObject fields => getProp fields k
  | JArray items =>
      if String.eqb k "length" then JNumber (numberOfNat (List.length items))
      else match elementAt k items with
           | Some item => item
           | None => JUndefined
           end
  | JString s =>
      if String.eqb k "length" then JNumber (numberOfNat (String.length s))
      else match elementAt k (list_ascii_of_string s) with
           | Some c => JString (String c EmptyString)
           | None => JUndefined
           end
  | _ => JUndefined
  end.

(** [v[k]] *)
Definition readProp (v : JsVal Number) (k : string) : Completion (JsVal Number) :=
  match v with
  | JUndefined =>
      Throw (typeError ("Cannot read properties of undefined (reading '" ++ k ++ "')"))
  | JNull =>
      Throw (typeError ("Cannot read properties of null (reading '" ++ k ++ "')"))
  | _ => Normal (ownProp v k)
  end.

(** [arr.filter(f)], [arr.find(f)] and [arr.forEach(f)] for a callback
    that may throw. *)
Fixpoint filterM {A : Type} (f : A -> Completion bool) (l : list A) : Completion (list A) :=
  match l with
  | [] => Normal []
  | x :: r =>
      (keep <- f x ;; rest <- filterM f r ;;
       Normal (if keep then x :: rest else rest))%completion
  end.

Fixpoint findM {A : Type} (f : A -> Completion bool) (l : list A) : Completion (option A) :=
  match l with
  | [] => Normal None
  | x :: r => (found <- f x ;; if found then Normal (Some x) else findM f r)%completion
  end.

Fixpoint foldM {A S : Type} (f : S -> A -> Completion S) (l : list A) (s : S)
  : Completion S :=
  match l with
  | [] => Normal s
  | x :: r => (s' <- f s x ;; foldM f r s')%completion
  end.

Definition numericColumnsOf (first : JsVal Number) (columns : list string)
  : Completion (list string) :=
  filterM (fun col =>
             if negb (truthy numberTruthy first) then Normal false
             else (sampleValue <- readProp first col ;;
                   Normal (isNumber sampleValue
                           && negb (includes (toLowerCase col) "id")
                           && negb (String.eqb col "key")))%completion) columns.

Definition categoricalColumnsOf (first : JsVal Number) (columns timeColumns : list string)
  : Completion (list string) :=
  filterM (fun col =>
             if negb (truthy numberTruthy first) then Normal false
             else (value <- readProp first col ;;
                   Normal (isString value
                           && negb (includes (toLowerCase col) "date")
                           && negb (member col timeColumns)))%completion) columns.

(** [numericColumns[0] || columns.find(col => typeof results[0][col] === 'number')] *)
Definition pieValueColumn (first : JsVal Number) (numericColumns columns : list string)
  : Completion (option string) :=
  if keyTruthy (List.hd_error numericColumns) then Normal (List.hd_error numericColumns)
  else findM (fun col => value <- readProp first col ;; Normal (isNumber value))%completion
         columns.

(** The statements between [try {] and [return chartData]; [first] is
    [results[0]]. *)
Definition chartOf (results : list (JsVal Number)) (nlQuery : string)
  : Completion VizChart :=
  let queryLower := toLowerCase nlQuery in
  let first := nth 0 results JUndefined in
  (columns <- objectKeys first ;;
   let timeColumns := timeColumnsOf columns in
   let hasTimeColumn := 0 <? List.length timeColumns in
   numericColumns <- numericColumnsOf first columns ;;
   categoricalColumns <- categoricalColumnsOf first columns timeColumns ;;
   let type := selectChartType (List.length results) hasTimeColumn numericColumns
                 categoricalColumns queryLower in
   let xKey := selectXAxisKey hasTimeColumn timeColumns categoricalColumns columns in
   shaped <-
     (if String.eqb type "pie" then
        valueColumn <- pieValueColumn first numericColumns columns ;;
        if keyTruthy xKey && keyTruthy valueColumn then
          points <- mapM (fun row =>
                            segment <- readProp row (keyText xKey) ;;
                            value <- readProp row (keyText valueColumn) ;;
                            Normal [("segment", JString (toString numberToString segment));
                                    ("value", value)]) results ;;
          labels <- foldM (fun cfg row =>
                             keyed <- readProp row (keyText xKey) ;;
                             label <- readProp row (keyText xKey) ;;
                             Normal (setLabel cfg
                                       (seriesKey (toString numberToString keyed))
                                       (toString numberToString label))) results [] ;;
          Normal {| chartType := type;
                    data := points;
                    config := {| xAxisKey := Some "segment";
                                 title := "Distribution of " ++ keyText valueColumn
                                          ++ " by " ++ keyText xKey;
                                 description := "Breakdown of " ++ keyText valueColumn
                                                ++ " across different " ++ keyText xKey
                                                ++ " categories" |};
                    chartConfig := labels |}
        else
          Normal {| chartType := type; data := []; config := config (@initialChart Number);
                    chartConfig := [] |}
      else if String.eqb type "multibar" then
        points <- mapM (fun row =>
                          x <- readProp row (keyText xKey) ;;
                          foldM (fun dataPoint col =>
                                   value <- readProp row col ;;
                                   Normal (assign dataPoint col value))
                            numericColumns [(keyText xKey, x)]) results ;;
        Normal {| chartType := type;
                  data := points;
                  config := {| xAxisKey := xKey;
                               title := "Comparison of "
                                        ++ join ", " (firstn 3 numericColumns)
                                        ++ (if 3 <? List.length numericColumns
                                            then " and others" else "")
                                        ++ " by " ++ keyText xKey;
                               description := "Comparing metrics across different "
                                              ++ keyText xKey ++ " values" |};
                  chartConfig :=
                    fold_left (fun cfg col =>
                                 setLabel cfg (seriesKey col) (formatColumnLabel col))
                      numericColumns [] |}
      else
        let valueColumn := selectValueColumn queryLower numericColumns in
        if keyTruthy xKey && negb (isEmpty valueColumn) then
          points <- mapM (fun row =>
                            x <- readProp row (keyText xKey) ;;
                            value <- readProp row valueColumn ;;
                            Normal (assign [(keyText xKey, x)] valueColumn value))
                      results ;;
          Normal {| chartType := type;
                    data := points;
                    config :=
                      if String.eqb type "line" then
                        {| xAxisKey := xKey;
                           title := formatColumnLabel valueColumn ++ " Trend by "
                                    ++ formatColumnLabel (keyText xKey);
                           description := "How " ++ formatColumnLabel valueColumn
                                          ++ " changes over time" |}
                      else
                        {| xAxisKey := xKey;
                           title := formatColumnLabel valueColumn ++ " by "
                                    ++ formatColumnLabel (keyText xKey);
                           description := "Comparison of "
                                          ++ formatColumnLabel valueColumn
                                          ++ " across different categories" |};
                    chartConfig :=
                      [(seriesKey valueColumn, formatColumnLabel valueColumn)] |}
        else
          Normal {| chartType := type; data := []; config := config (@initialChart Number);
                    chartConfig := [] |}) ;;
   Normal (if hasTimeColumn && (0 <? List.length (data shaped)) then
             {| chartType := chartType shaped;
                data := List.map (formatTimeItem toLocaleDateString xKey) (data shaped);
                config := config shaped;
                chartConfig := chartConfig shaped |}
           else shaped))%completion.

(** [prepareDataForVisualization(results, nlQuery)]; [None] is [null]. *)
Definition prepareDataForVisualization (results : list (JsVal Number)) (nlQuery : string)
  : Completion (option VizChart) :=
  if List.length results =? 0 then Normal None
  else
    tryCatch (chartData <- chartOf results nlQuery ;; Normal (Some chartData))%completion
      (fun _ => Normal None).

(** What the body works out from a first row that is neither [null] nor
    [undefined]: its columns, the chart type, and whether the branch of
    that type finds its value column. *)
Definition columnsOf (first : JsVal Number) : list string :=
  match objectKeys first with
  | Normal columns => columns
  | Throw _ => []
  end.

Definition numericColumnsFor (first : JsVal Number) : list string :=
  filter (fun col =>
            truthy numberTruthy first
            && (isNumber (ownProp first col)
                && negb (includes (toLowerCase col) "id")
                && negb (String.eqb col "key"))) (columnsOf first).

Definition categoricalColumnsFor (first : JsVal Number) : list string :=
  filter (fun col =>
            truthy numberTruthy first
            && (isString (ownProp first col)
                && negb (includes (toLowerCase col) "date")
                && negb (member col (timeColumnsOf (columnsOf first)))))
    (columnsOf first).

Definition chartTypeFor (first : JsVal Number) (results : list (JsVal Number))
    (nlQuery : string) : string :=
  selectChartType (List.length results)
    (0 <? List.length (timeColumnsOf (columnsOf first)))
    (numericColumnsFor first) (categoricalColumnsFor first) (toLowerCase nlQuery).

Definition pieValueColumnFor (first : JsVal Number) : option string :=
  if keyTruthy (List.hd_error (numericColumnsFor first))
  then List.hd_error (numericColumnsFor first)
  else find (fun col => isNumber (ownProp first col)) (columnsOf first).

Definition hasValueColumn (first : JsVal Number) (results : list (JsVal Number))
    (nlQuery : string) : bool :=
  if String.eqb (chartTypeFor first results nlQuery) "pie" then
    keyTruthy (pieValueColumnFor first)
  else if String.eqb (chartTypeFor first results nlQuery) "multibar" then true
  else negb (isEmpty (selectValueColumn (toLowerCase nlQuery) (numericColumnsFor first))).

Definition xAxisKeyFor (first : JsVal Number) : option string :=
  selectXAxisKey (0 <? List.length (timeColumnsOf (columnsOf first)))
    (timeColumnsOf (columnsOf first)) (categoricalColumnsFor first) (columnsOf first).

(** Whether the branch of the chart type reaches its [results.map]: a
    multibar chart always does, the others behind the guard
    [if (xAxisKey && valueColumn)]. *)
Definition mapsTheRows (first : JsVal Number) (results : list (JsVal Number))
    (nlQuery : string) : bool :=
  if String.eqb (chartTypeFor first results nlQuery) "multibar" then true
  else keyTruthy (xAxisKeyFor first) && hasValueColumn first results nlQuery.

End Rows.

End AnyRows.

(** ** [lib/sql-query-generator.ts]: the column selection of the analyzer *)

Module SqlQueryGenerator.

Record Column := {
  name : string;
  dbName : string;
  type : string;
  description : string;
  isNullable : bool
}.

Record TableSchema := {
  tableName : string;
  dbTableName : string;
  tableDescription : string;
  columns : list Column
}.

Definition col (n t d : string) (nullable : bool) : Column :=
  {| name := n; dbName := n; type := t; description := d; isNullable := nullable |}.

Definition salesDataSchema : TableSchema :=
  {| tableName := "sales_data";
     dbTableName := "sales_data";
     tableDescription := "List of sales transactions";
     columns :=
       [col "key" "int" "Unique identifier of the transaction" false;
        col "country" "nvarchar" "Country of the store" false;
        col "region" "nvarchar" "Region of the store" false;
        col "city" "nvarchar" "City of the store" false;
        col "store_id" "int" "Unique identifier of the store" false;
        col "store_name" "nvarchar" "Name of the store" false;
        col "sales_order_number" "nvarchar" "Sales order unique identifier" false;
        col "sales_date" "date" "Date of the sales order" false;
        col "product_name" "nvarchar" "Name of the product sold" false;
        col "quantity" "int" "Quantity of the product sold" false;
        col "unit_price" "decimal" "Price of the product" false;
        col "total_product_cost" "decimal" "Total cost of the product" false;
        col "material_cost" "decimal" "Cost of the materials used to make the product"
          false;
        col "shipping_cost" "decimal" "Cost of shipping the product" false;
        col "total_cost" "decimal" "Total cost of the product" false;
        col "sales_type" "nvarchar" "Type of sales (instore or delivery)" false;
        col "delivery_fee" "decimal" "Fee for the delivery of the product" false;
        col "delivery_duration_mins" "int"
          "Amount of time it took to deliver the product" true;
        col "discount_code" "nvarchar" "Code of the discount applied to the product" true;
        col "discount_percent" "int" "Percentage of discount applied to the product" true;
        col "delivery_plate" "nvarchar" "Plate number of the delivery vehicle" true] |}.

Definition productDesignSchema : TableSchema :=
  {| tableName := "product_design";
     dbTableName := "unique_products_with_materials_masterlist";
     tableDescription :=
       "Information on materials used to produce products and associated costs";
     columns :=
       [col "Country" "nvarchar" "Country where the product is produced and sold" false;
        col "Region" "nvarchar" "Region where the product is produced and sold" false;
        col "City" "nvarchar" "City where the product is produced and sold" false;
        col "Product_Name" "nvarchar" "Name of the product" false;
        col "Product_Price" "decimal" "Selling price of the product" true;
        col "Material_Code" "nvarchar" "Code of the material used to make the product"
          false;
        col "Material_Quantity" "int"
          "Quantity of the material used to make the product" true;
        col "Material_Unit_Cost" "decimal"
          "Unit cost of the material used to make the product" true;
        col "Material_Shipping_Cost" "decimal"
          "Shipping cost of the material used to make the product" true;
        col "total_material_cost" "decimal"
          "Total cost of the material used to make the product" true;
        col "total_material_shipping_cost" "decimal"
          "Total shipping cost of the material used to make the product" true] |}.

Definition vehicleMasterSchema : TableSchema :=
  {| tableName := "vehicle_master";
     dbTableName := "vehicle_master";
     tableDescription := "Information on vehicles available for delivery of products";
     columns :=
       [col "Country" "nvarchar" "Country where the vehicle is used" false;
        col "Region" "nvarchar" "Region where the vehicle is used" false;
        col "City" "nvarchar" "City where the vehicle is used" false;
        col "Vehicle_Plate" "nvarchar"
          "Plate number of the vehicle used to deliver the product" false] |}.

Inductive Table := sales_data | product_design | vehicle_master.

(** [schemas[table]] *)
Definition schemas (table : Table) : TableSchema :=
  match table with
  | sales_data => salesDataSchema
  | product_design => productDesignSchema
  | vehicle_master => vehicleMasterSchema
  end.

Definition tableEqb (a b : Table) : bool :=
  match a, b with
  | sales_data, sales_data | product_design, product_design
  | vehicle_master, vehicle_master => true
  | _, _ => false
  end.

Inductive Aggregate := COUNT | SUM | AVG.

Record SelectedColumn := {
  sc_tableName : Table;
  sc_columnName : string;
  sc_displayName : string;
  sc_aggregate : option Aggregate
}.

Definition hasAggregate (c : SelectedColumn) : bool :=
  match sc_aggregate c with Some _ => true | None => false end.

Definition isAggregate (a : Aggregate) (c : SelectedColumn) : bool :=
  match sc_aggregate c, a with
  | Some COUNT, COUNT | Some SUM, SUM | Some AVG, AVG => true
  | _, _ => false
  end.

Definition isNumericType (c : Column) : bool :=
  String.eqb (type c) "decimal" || String.eqb (type c) "int".

(** [simplifiedQuery.includes(col.name.toLowerCase()) ||
     simplifiedQuery.includes(col.description.toLowerCase())] *)
Definition mentions (simplifiedQuery : string) (c : Column) : bool :=
  includes simplifiedQuery (toLowerCase (name c))
  || includes simplifiedQuery (toLowerCase (description c)).

Definition findColumn (schema : TableSchema) (colName : string) : option Column :=
  find (fun c => String.eqb (toLowerCase (name c)) colName) (columns schema).

Definition aggregateOf (table : Table) (prefix : string) (a : Aggregate) (c : Column)
  : SelectedColumn :=
  {| sc_tableName := table; sc_columnName := dbName c;
     sc_displayName := prefix ++ name c; sc_aggregate := Some a |}.

Definition plainColumn (table : Table) (c : Column) : SelectedColumn :=
  {| sc_tableName := table; sc_columnName := dbName c;
     sc_displayName := name c; sc_aggregate := None |}.

(** "Just pick one default": the first of the names the schema has. *)
Definition firstDefault (schema : TableSchema) (defaults : list string) : option Column :=
  firstSome (findColumn schema) defaults.

Definition optionToList {A : Type} (o : option A) : list A :=
  match o with Some x => [x] | None => [] end.

Definition isTechnical (c : Column) : bool :=
  String.eqb (name c) "created_at" || String.eqb (name c) "updated_at".

(** The [columns.push] calls of [determineColumns], block by block. *)
Definition countColumns (simplifiedQuery : string) (mainTable : Table)
  : list SelectedColumn :=
  if includes simplifiedQuery "how many" || includes simplifiedQuery "count"
     || includes simplifiedQuery "number of"
  then [{| sc_tableName := mainTable; sc_columnName := "COUNT(*)";
           sc_displayName := "record_count"; sc_aggregate := Some COUNT |}]
  else [].

Definition sumColumns (simplifiedQuery : string) (mainTable : Table)
    (columns : list SelectedColumn) : list SelectedColumn :=
  let schema := schemas mainTable in
  if includes simplifiedQuery "total" || includes simplifiedQuery "sum" then
    let columns :=
      (columns ++ List.map (aggregateOf mainTable "total_" SUM)
                    (filter (fun c => isNumericType c && mentions simplifiedQuery c)
                       (SqlQueryGenerator.columns schema)))%list in
    if negb (existsb (isAggregate SUM) columns) then
      if tableEqb mainTable sales_data then
        if includes simplifiedQuery "sales" then
          (columns ++ List.map (fun c =>
                         {| sc_tableName := mainTable; sc_columnName := dbName c;
                            sc_displayName := "total_quantity";
                            sc_aggregate := Some SUM |})
                       (optionToList (findColumn schema "quantity")))%list
        else
          (columns ++ List.map (aggregateOf mainTable "total_" SUM)
                        (optionToList
                           (firstDefault schema
                              ["quantity"; "total_cost"; "total_product_cost"])))%list
      else columns
    else columns
  else columns.

Definition avgColumns (simplifiedQuery : string) (mainTable : Table)
    (columns : list SelectedColumn) : list SelectedColumn :=
  let schema := schemas mainTable in
  if includes simplifiedQuery "average" || includes simplifiedQuery "avg" then
    let columns :=
      (columns ++ List.map (aggregateOf mainTable "avg_" AVG)
                    (filter (fun c => isNumericType c && mentions simplifiedQuery c)
                       (SqlQueryGenerator.columns schema)))%list in
    if negb (existsb (isAggregate AVG) columns) then
      if tableEqb mainTable sales_data then
        (columns ++ List.map (aggregateOf mainTable "avg_" AVG)
                      (optionToList
                         (firstDefault schema
                            ["unit_price"; "total_cost"; "delivery_duration_mins"])))%list
      else columns
    else columns
  else columns.

(** "Add columns specifically mentioned in the query": each push sees
    the columns pushed before it. *)
Definition mentionedColumns (simplifiedQuery : string) (mainTable : Table)
    (columns : list SelectedColumn) : list SelectedColumn :=
  fold_left (fun columns c =>
               if isTechnical c then columns
               else if mentions simplifiedQuery c then
                 if negb (existsb (fun s => String.eqb (sc_columnName s) (dbName c)
                                            && hasAggregate s) columns)
                 then (columns ++ [plainColumn mainTable c])%list
                 else columns
               else columns)
    (SqlQueryGenerator.columns (schemas mainTable)) columns.

Definition joinColumns (simplifiedQuery : string) (joinTable : option Table)
    (columns : list SelectedColumn) : list SelectedColumn :=
  match joinTable with
  | Some table =>
      (columns ++ List.map (fun c =>
                     {| sc_tableName := table; sc_columnName := dbName c;
                        sc_displayName := tableName (schemas table) ++ "_" ++ name c;
                        sc_aggregate := None |})
                   (filter (fun c => negb (isTechnical c) && mentions simplifiedQuery c)
                      (SqlQueryGenerator.columns (schemas table))))%list
  | None => columns
  end.

Definition defaultColumns (mainTable : Table) (columns : list SelectedColumn)
  : list SelectedColumn :=
  if List.length columns =? 0 then
    if tableEqb mainTable sales_data then
      List.map (plainColumn mainTable)
        (flat_map (fun colName =>
                     optionToList (findColumn (schemas mainTable) (toLowerCase colName)))
           ["sales_date"; "product_name"; "quantity"; "unit_price"; "total_cost"])
    else
      List.map (plainColumn mainTable)
        (filter (fun c => negb (isTechnical c))
           (SqlQueryGenerator.columns (schemas mainTable)))
  else columns.

Definition determineColumns (query : string) (mainTable : Table)
    (joinTable : option Table) : list SelectedColumn :=
  let simplifiedQuery := toLowerCase query in
  defaultColumns mainTable
    (joinColumns simplifiedQuery joinTable
       (mentionedColumns simplifiedQuery mainTable
          (avgColumns simplifiedQuery mainTable
             (sumColumns simplifiedQuery mainTable
                (countColumns simplifiedQuery mainTable))))).

(** The part of [generateSqlQuery] that settles the tables and the
    selected columns of the intent, past the connection check. *)
Definition mainTableOf (simplifiedQuery : string) : Table :=
  if includes simplifiedQuery "product" && includes simplifiedQuery "material"
  then product_design
  else if includes simplifiedQuery "vehicle"
          || (includes simplifiedQuery "delivery" && includes simplifiedQuery "plate")
  then vehicle_master
  else sales_data.

Definition joinTableOf (simplifiedQuery : string) (mainTable : Table) : option Table :=
  if tableEqb mainTable sales_data then
    if includes simplifiedQuery "material"
       || includes simplifiedQuery "product price"
       || includes simplifiedQuery "product cost"
    then Some product_design
    else if includes simplifiedQuery "vehicle"
            && negb (includes simplifiedQuery "delivery plate")
    then Some vehicle_master
    else None
  else None.

Definition isSalesByProduct (simplifiedQuery : string) : bool :=
  includes simplifiedQuery "sales by product"
  || (includes simplifiedQuery "sales" && includes simplifiedQuery "product").

Definition selectedColumns (userQuery : string) : list SelectedColumn :=
  let simplifiedQuery := toLowerCase userQuery in
  let mainTable := mainTableOf simplifiedQuery in
  let joinTable := joinTableOf simplifiedQuery mainTable in
  let selected := determineColumns simplifiedQuery mainTable joinTable in
  if isSalesByProduct simplifiedQuery && negb (existsb hasAggregate selected) then
    (selected ++ List.map (fun quantityCol =>
                    {| sc_tableName := mainTable; sc_columnName := dbName quantityCol;
                       sc_displayName := "total_quantity"; sc_aggregate := Some SUM |})
                  (optionToList (findColumn (schemas mainTable) "quantity")))%list
  else selected.

(** The [SUM] aggregates of the intent on the column stored as
    [columnName]. *)
Definition sumAggregatesOn (columnName : string) (selected : list SelectedColumn) : nat :=
  List.length (filter (fun s => isAggregate SUM s
                                && String.eqb (sc_columnName s) columnName) selected).

End SqlQueryGenerator.

(** ** [lib/db.ts]: the health check and transactions *)

Section DbSession.

Context {Number : Type}.
Variable poolFailure : option Thrown.
Variable requestQuery :
  list (string * JsVal Number) -> string -> Completion (@QueryResult Number).

Inductive ConnectionStatus :=
| Connected (timestamp : JsVal Number)
| Disconnected (error : Thrown).

(** [result.recordset[0]], on the way to [.now]: a missing record set
    and an empty one both end in a [TypeError]. *)
Definition firstRecord (result : @QueryResult Number) : Completion (Obj Number) :=
  match recordset result with
  | Some (row :: _) => Normal row
  | Some [] => Throw (ThrownError PlainError
                        "Cannot read properties of undefined (reading 'now')")
  | None => Throw (ThrownError PlainError
                     "Cannot read properties of undefined (reading '0')")
  end.

Definition checkDatabaseConnection : Completion ConnectionStatus :=
  tryCatch
    (result <- query poolFailure requestQuery "SELECT GETDATE() as now" [] ;;
     row <- firstRecord result ;;
     Normal (Connected (getProp row "now")))%completion
    (fun error => Normal (Disconnected error)).

(** The calls [executeTransaction] makes on the transaction, in the
    order it makes them. *)
Inductive TransactionCall := TxBegin | TxCallback | TxCommit | TxRollback.

Definition Traced (A : Type) : Type :=
  list TransactionCall -> Completion A * list TransactionCall.

Definition perform {A : Type} (call : TransactionCall) (outcome : Completion A)
  : Traced A :=
  fun trace => (outcome, (trace ++ [call])%list).

Definition tracedRet {A : Type} (a : A) : Traced A := fun trace => (Normal a, trace).

Definition tracedThrow {A : Type} (e : Thrown) : Traced A := fun trace => (Throw e, trace).

Definition tracedBind {A B : Type} (c : Traced A) (k : A -> Traced B) : Traced B :=
  fun trace =>
    match c trace with
    | (Normal a, trace') => k a trace'
    | (Throw e, trace') => (Throw e, trace')
    end.

Definition tracedCatch {A : Type} (body : Traced A) (handler : Thrown -> Traced A)
  : Traced A :=
  fun trace =>
    match body trace with
    | (Normal a, trace') => (Normal a, trace')
    | (Throw e, trace') => handler e trace'
    end.

(** [executeTransaction(callback)]: [begin], [commit] and [rollback] are
    what the driver answers to the three calls, [callback] what the
    caller's function does with the transaction. *)
Definition executeTransaction {T : Type}
    (begin commit rollback : Completion unit) (callback : Completion T) : Traced T :=
  match poolFailure with
  | Some e => tracedThrow e
  | None =>
      tracedCatch
        (tracedBind (perform TxBegin begin) (fun _ =>
         tracedBind (perform TxCallback callback) (fun result =>
         tracedBind (perform TxCommit commit) (fun _ =>
         tracedRet result))))
        (fun error =>
           tracedBind (perform TxRollback rollback) (fun _ =>
           tracedThrow error))
  end.

End DbSession.

(** ** [lib/database-service.ts]: the CSV export *)

Section ConvertToCSV.

Context {Number : Type}.
Variable numberToString : Number -> string.

Definition doubleQuote : string := String (ascii_of_nat 34) EmptyString.

(** What a value contributes to its record: the callback of the inner
    [map] followed by the conversion [join] applies. *)
Definition csvCell (value : JsVal Number) : string :=
  match value with
  | JNull | JUndefined => EmptyString
  | JString s => if includes s "," then doubleQuote ++ s ++ doubleQuote else s
  | _ => toString numberToString value
  end.

Definition csvRecord (headers : list string) (row : Obj Number) : string :=
  join "," (List.map (fun header => csvCell (getProp row header)) headers).

(** The array [csvRows] for a non-empty [data] whose first row is [first]. *)
Definition csvRows (first : Obj Number) (data : list (Obj Number)) : list string :=
  join "," (keys first) :: List.map (csvRecord (keys first)) data.

Definition convertToCSV (data : list (Obj Number)) : string :=
  match data with
  | [] => EmptyString
  | first :: _ => join newline (csvRows first data)
  end.

(** The lines of a text: [text.split('\n')]. *)
Definition lineFeed : ascii := ascii_of_nat 10.

Definition linesOf (text : string) : list string := split lineFeed text.

End ConvertToCSV.

(** ** Regular expressions

    The patterns of [sql-query-generator.ts] use literals, alternatives,
    groups, the assertion [\b] and greedy repetitions of a character
    class. They are matched the way the JavaScript engine does it: by
    backtracking, every choice trying its first option first, and a
    repetition its longest run first. *)

Module Regex.

Inductive Re :=
| Never
| Lit (text : string)
| Class (p : ascii -> bool) (min : nat) (max : option nat)
| Or (a b : Re)
| Seq (a b : Re)
| Group (index : nat) (r : Re)
| Boundary.

(** The text captured by each group, latest first. *)
Definition Captures : Type := list (nat * string).

(** Two characters are the same under the flag [i] when their case
    folding agrees. *)
Definition sameChar (ignoreCase : bool) (x y : ascii) : bool :=
  if ignoreCase then Ascii.eqb (lowerChar x) (lowerChar y) else Ascii.eqb x y.

(** What is left of [s] after the literal [text], with the character
    before it. *)
Fixpoint litRest (ignoreCase : bool) (text : string) (prev : option ascii) (s : string)
  : option (option ascii * string) :=
  match text with
  | EmptyString => Some (prev, s)
  | String x t =>
      match s with
      | String y r => if sameChar ignoreCase x y then litRest ignoreCase t (Some y) r
                      else None
      | EmptyString => None
      end
  end.

Definition exhausted (max : option nat) : bool :=
  match max with Some 0 => true | _ => false end.

(** [p{min,max}], greedy: one more character is tried before stopping. *)
Fixpoint classRun {A : Type} (p : ascii -> bool) (min : nat) (max : option nat)
    (prev : option ascii) (s : string) (k : option ascii -> string -> option A)
  : option A :=
  let stop := if min =? 0 then k prev s else None in
  match s with
  | String c r =>
      if p c && negb (exhausted max) then
        match classRun p (Nat.pred min) (option_map Nat.pred max) (Some c) r k with
        | Some a => Some a
        | None => stop
        end
      else stop
  | EmptyString => stop
  end.

(** The part of [s] in front of its suffix [rest]. *)
Definition consumed (s rest : string) : string :=
  String.substring 0 (String.length s - String.length rest) s.

(** [matchRe r prev s caps k]: match [r] at the start of [s], [prev]
    being the character before it, and go on with [k]; when [k] fails
    the next way of matching [r] is tried. *)
Fixpoint matchRe {A : Type} (ignoreCase : bool) (r : Re) (prev : option ascii)
    (s : string) (caps : Captures)
    (k : option ascii -> string -> Captures -> option A) : option A :=
  match r with
  | Never => None
  | Lit text =>
      match litRest ignoreCase text prev s with
      | Some (prev', rest) => k prev' rest caps
      | None => None
      end
  | Class p min max => classRun p min max prev s (fun prev' rest => k prev' rest caps)
  | Or a b =>
      match matchRe ignoreCase a prev s caps k with
      | Some result => Some result
      | None => matchRe ignoreCase b prev s caps k
      end
  | Seq a b =>
      matchRe ignoreCase a prev s caps
        (fun prev' rest caps' => matchRe ignoreCase b prev' rest caps' k)
  | Group index r =>
      matchRe ignoreCase r prev s caps
        (fun prev' rest caps' => k prev' rest ((index, consumed s rest) :: caps'))
  | Boundary => if wordBoundary prev (head s) then k prev s caps else None
  end.

Record Match := {
  whole : string;
  groups : Captures;
  before : option ascii;
  rest : string
}.

Definition matchAt (ignoreCase : bool) (r : Re) (prev : option ascii) (s : string)
  : option Match :=
  matchRe ignoreCase r prev s []
    (fun prev' rest caps =>
       Some {| whole := consumed s rest; groups := caps; before := prev'; rest := rest |}).

(** The leftmost match. *)
Fixpoint search (ignoreCase : bool) (r : Re) (prev : option ascii) (s : string)
  : option Match :=
  match matchAt ignoreCase r prev s with
  | Some m => Some m
  | None =>
      match s with
      | EmptyString => None
      | String c t => search ignoreCase r (Some c) t
      end
  end.

(** [s.match(r)] for a pattern without the flag [g]. *)
Definition firstMatch (ignoreCase : bool) (r : Re) (s : string) : option Captures :=
  option_map groups (search ignoreCase r None s).

(** [m[index]] *)
Definition capture (index : nat) (caps : Captures) : string :=
  match find (fun entry => fst entry =? index) caps with
  | Some entry => snd entry
  | None => ""
  end.

(** [s.match(r)] for a pattern with the flag [g]: the matches from left
    to right, each search starting where the match before ended (one
    character further after an empty match). *)
Fixpoint matchAllFrom (fuel : nat) (ignoreCase : bool) (r : Re) (prev : option ascii)
    (s : string) : list string :=
  match fuel with
  | O => []
  | S fuel =>
      match search ignoreCase r prev s with
      | None => []
      | Some m =>
          if isEmpty (whole m) then
            match rest m with
            | EmptyString => [whole m]
            | String c t => whole m :: matchAllFrom fuel ignoreCase r (Some c) t
            end
          else whole m :: matchAllFrom fuel ignoreCase r (before m) (rest m)
      end
  end.

Definition matchAll (ignoreCase : bool) (r : Re) (s : string) : list string :=
  matchAllFrom (S (String.length s)) ignoreCase r None s.

Fixpoint sequence (parts : list Re) : Re :=
  match parts with
  | [] => Lit ""
  | [r] => r
  | r :: parts => Seq r (sequence parts)
  end.

Fixpoint anyOf (alternatives : list Re) : Re :=
  match alternatives with
  | [] => Never
  | [r] => r
  | r :: alternatives => Or r (anyOf alternatives)
  end.

Definition words (alternatives : list string) : Re := anyOf (List.map Lit alternatives).

(** [\s+] *)
Definition spaces : Re := Class isSpace 1 None.

(** What a successful match of [r] does: it goes from [s] to the suffix
    [s'] and from the captures [caps] to [caps']. *)
Fixpoint Matched (ignoreCase : bool) (r : Re) (s s' : string) (caps caps' : Captures)
  : Prop :=
  match r with
  | Never => False
  | Lit text =>
      caps' = caps /\ exists prev prev', litRest ignoreCase text prev s = Some (prev', s')
  | Class p min max =>
      caps' = caps
      /\ exists run, s = run ++ s'
                     /\ forallb p (list_ascii_of_string run) = true
                     /\ min <= String.length run
  | Or a b => Matched ignoreCase a s s' caps caps' \/ Matched ignoreCase b s s' caps caps'
  | Seq a b =>
      exists middle caps1,
        Matched ignoreCase a s middle caps caps1
        /\ Matched ignoreCase b middle s' caps1 caps'
  | Group index r =>
      exists caps1,
        Matched ignoreCase r s s' caps caps1 /\ caps' = (index, consumed s s') :: caps1
  | Boundary => s' = s /\ caps' = caps
  end.

End Regex.

(** ** [lib/sql-query-generator.ts]: from the intent to the SQL text *)

Module SqlBuilder.

Import SqlQueryGenerator.
Import Regex.

(** The key of a table in [schemas], which is what [mainTable],
    [joinTable] and a column's [tableName] hold. *)
Definition tableKey (table : Table) : string :=
  match table with
  | sales_data => "sales_data"
  | product_design => "product_design"
  | vehicle_master => "vehicle_master"
  end.

Definition aggregateName (a : Aggregate) : string :=
  match a with
  | COUNT => "COUNT"
  | SUM => "SUM"
  | AVG => "AVG"
  end.

(** [`${col.tableName}.${col.columnName}`] *)
Definition qualified (c : SelectedColumn) : string :=
  tableKey (sc_tableName c) ++ "." ++ sc_columnName c.

(** *** [determineGrouping] *)

Definition explicitGrouping (simplifiedQuery mainTable : string) : list string :=
  if includes simplifiedQuery "by country" then [mainTable ++ ".country"]
  else if includes simplifiedQuery "by region" then [mainTable ++ ".region"]
  else if includes simplifiedQuery "by city" then [mainTable ++ ".city"]
  else if includes simplifiedQuery "by store" then [mainTable ++ ".store_name"]
  else if includes simplifiedQuery "by product"
          || includes simplifiedQuery "by product_name"
          || includes simplifiedQuery "sales by product"
  then [mainTable ++ ".product_name"]
  else if includes simplifiedQuery "by month" || includes simplifiedQuery "monthly"
  then ["FORMAT(" ++ mainTable ++ ".sales_date, 'yyyy-MM')"]
  else if includes simplifiedQuery "by year" || includes simplifiedQuery "yearly"
  then ["YEAR(" ++ mainTable ++ ".sales_date)"]
  else if includes simplifiedQuery "by quarter" || includes simplifiedQuery "quarterly"
  then ["CONCAT(YEAR(" ++ mainTable ++ ".sales_date), '-Q', DATEPART(QUARTER, "
        ++ mainTable ++ ".sales_date))"]
  else if includes simplifiedQuery "by week" || includes simplifiedQuery "weekly"
  then ["CONCAT(YEAR(" ++ mainTable ++ ".sales_date), '-', DATEPART(WEEK, "
        ++ mainTable ++ ".sales_date))"]
  else if includes simplifiedQuery "by day" || includes simplifiedQuery "daily"
  then ["FORMAT(" ++ mainTable ++ ".sales_date, 'yyyy-MM-dd')"]
  else [].

Definition determineGrouping (query : string) (selectedColumns : list SelectedColumn)
    (mainTable : Table) : list string :=
  let simplifiedQuery := toLowerCase query in
  if existsb hasAggregate selectedColumns then
    let groupBy := explicitGrouping simplifiedQuery (tableKey mainTable) in
    if List.length groupBy =? 0 then
      if includes simplifiedQuery "trend"
         || includes simplifiedQuery "over time"
         || includes simplifiedQuery "time series"
      then ["FORMAT(" ++ tableKey mainTable ++ ".sales_date, 'yyyy-MM')"]
      else List.map qualified (filter (fun c => negb (hasAggregate c)) selectedColumns)
    else groupBy
  else [].

(** *** [determineSorting] *)

Record Sorting := { sortField : string; direction : string }.

Definition sortDirection (simplifiedQuery : string) : string :=
  if includes simplifiedQuery "descending"
     || includes simplifiedQuery "desc"
     || includes simplifiedQuery "highest"
     || includes simplifiedQuery "most"
  then "DESC" else "ASC".

Definition namedForSorting (simplifiedQuery : string) (c : SelectedColumn) : bool :=
  includes simplifiedQuery ("order by " ++ toLowerCase (sc_displayName c))
  || includes simplifiedQuery ("sort by " ++ toLowerCase (sc_displayName c))
  || includes simplifiedQuery ("sorted by " ++ toLowerCase (sc_displayName c)).

(** [`${col.aggregate}(${col.tableName}.${col.columnName})`], of a
    column that has an aggregate. *)
Definition aggregated (c : SelectedColumn) : string :=
  match sc_aggregate c with
  | Some a => aggregateName a ++ "(" ++ qualified c ++ ")"
  | None => "undefined(" ++ qualified c ++ ")"
  end.

(** The two loops under "Look for specific sorting terms": the plain
    columns are searched first, then the aggregated ones. *)
Definition requestedSorting (simplifiedQuery : string)
    (selectedColumns : list SelectedColumn) : option Sorting :=
  if includes simplifiedQuery "order by"
     || includes simplifiedQuery "sort by"
     || includes simplifiedQuery "sorted by"
  then
    match find (fun c => negb (hasAggregate c) && namedForSorting simplifiedQuery c)
            selectedColumns with
    | Some c => Some {| sortField := qualified c;
                        direction := sortDirection simplifiedQuery |}
    | None =>
        match find (fun c => hasAggregate c && namedForSorting simplifiedQuery c)
                selectedColumns with
        | Some c => Some {| sortField := aggregated c;
                            direction := sortDirection simplifiedQuery |}
        | None => None
        end
    end
  else None.

Definition determineSorting (query : string) (selectedColumns : list SelectedColumn)
    (mainTable : Table) (groupBy : list string) : option Sorting :=
  let simplifiedQuery := toLowerCase query in
  match requestedSorting simplifiedQuery selectedColumns with
  | Some sorting => Some sorting
  | None =>
      let hasAggregates := existsb hasAggregate selectedColumns in
      let dateInGroupBy := existsb (fun g => includes g "sales_date") groupBy in
      if tableEqb mainTable sales_data
         && negb (includes simplifiedQuery "oldest")
         && (negb hasAggregates || dateInGroupBy)
      then Some {| sortField := tableKey mainTable ++ ".sales_date";
                   direction := "DESC" |}
      else None
  end.

(** A name without a dot or a bracket, as the columns of the schemas
    have them. *)
Definition plainName (name : string) : bool :=
  negb (isEmpty name)
  && (countChar "." name =? 0) && (countChar "(" name =? 0) && (countChar ")" name =? 0).

(** *** [determineLimit] *)

(** [(top|first|limit)\s+(\d+)] *)
Definition limitRegex : Re :=
  sequence [Group 1 (words ["top"; "first"; "limit"]); spaces;
            Group 2 (Class isDigit 1 None)].

(** An occurrence of the pattern in [s] right after [before]: one of
    the three words, white space, and a digit. *)
Definition limitPhraseAt (s before : string) : Prop :=
  exists word blank digit after,
    s = before ++ word ++ blank ++ String digit after
    /\ In word ["top"; "first"; "limit"]
    /\ blank <> ""
    /\ forallb isSpace (list_ascii_of_string blank) = true
    /\ isDigit digit = true.

Section Builder.

Context {Number : Type}.
Variable numberToString : Number -> string.
(** [parseInt(digits, 10)] of a run of decimal digits, and the number
    literals of the source. *)
Variable numberOfDigits : string -> Number.
Variable numberOfNat : nat -> Number.

Definition determineLimit (query : string) : option Number :=
  let simplifiedQuery := toLowerCase query in
  match firstMatch true limitRegex simplifiedQuery with
  | Some limitMatch => Some (numberOfDigits (capture 2 limitMatch))
  | None => if includes simplifiedQuery "recent" then Some (numberOfNat 10) else None
  end.

(** *** [buildSqlQuery] *)

Record Filter := { field : string; operator : string; value : JsVal Number }.

(** An entry of the select list: a selected column, or what
    [buildSqlQuery] adds for a [GROUP BY] item, where [tableName] is any
    string, empty for an expression. *)
Record SelectItem := {
  si_tableName : string;
  si_columnName : string;
  si_displayName : string;
  si_aggregate : option Aggregate
}.

Definition ofSelected (c : SelectedColumn) : SelectItem :=
  {| si_tableName := tableKey (sc_tableName c);
     si_columnName := sc_columnName c;
     si_displayName := sc_displayName c;
     si_aggregate := sc_aggregate c |}.

(** [parts.length > 1 ? parts[1] : parts[0]] for [parts =
    groupItem.split('.')], and [groupItem.split('.')[0]]. *)
Definition groupColumnName (groupItem : string) : string :=
  match split "." groupItem with
  | _ :: second :: _ => second
  | first :: _ => first
  | [] => ""
  end.

Definition groupTableName (groupItem : string) : string :=
  match split "." groupItem with
  | first :: _ => first
  | [] => ""
  end.

Definition alreadySelected (columnsToSelect : list SelectItem) (groupItem : string)
  : bool :=
  existsb (fun c => String.eqb (si_columnName c) (groupColumnName groupItem)
                    || String.eqb (si_tableName c ++ "." ++ si_columnName c) groupItem)
    columnsToSelect.

(** One round of the first loop over [groupBy]. *)
Definition addGroupColumn (columnsToSelect : list SelectItem) (groupItem : string)
  : list SelectItem :=
  if includes groupItem "(" then columnsToSelect
  else if alreadySelected columnsToSelect groupItem then columnsToSelect
  else (columnsToSelect
          ++ [{| si_tableName := groupTableName groupItem;
                 si_columnName := groupColumnName groupItem;
                 si_displayName := groupColumnName groupItem;
                 si_aggregate := None |}])%list.

Definition expressionName (groupItem : string) : string :=
  if includes groupItem "FORMAT" then "month"
  else if includes groupItem "YEAR" then "year"
  else if includes groupItem "QUARTER" then "quarter"
  else if includes groupItem "WEEK" then "week"
  else "group_field".

(** One round of the second loop over [groupBy]. *)
Definition addGroupExpression (columnsToSelect : list SelectItem) (groupItem : string)
  : list SelectItem :=
  if includes groupItem "(" then
    if existsb (fun c => String.eqb (si_displayName c) (expressionName groupItem))
         columnsToSelect
    then columnsToSelect
    else (columnsToSelect
            ++ [{| si_tableName := "";
                   si_columnName := groupItem;
                   si_displayName := expressionName groupItem;
                   si_aggregate := None |}])%list
  else columnsToSelect.

(** "Ensure all GROUP BY fields are in the SELECT list"; both loops do
    nothing for an empty [groupBy]. *)
Definition columnsToSelect (selectedColumns : list SelectedColumn)
    (groupBy : list string) : list SelectItem :=
  fold_left addGroupExpression groupBy
    (fold_left addGroupColumn groupBy (List.map ofSelected selectedColumns)).

Definition columnSelection (c : SelectItem) : string :=
  if String.eqb (si_columnName c) "COUNT(*)" then "COUNT(*) AS " ++ si_displayName c
  else
    match si_aggregate c with
    | Some a =>
        aggregateName a ++ "(" ++ si_tableName c ++ "." ++ si_columnName c ++ ") AS "
        ++ si_displayName c
    | None =>
        if isEmpty (si_tableName c) || includes (si_columnName c) "("
        then si_columnName c ++ " AS " ++ si_displayName c
        else si_tableName c ++ "." ++ si_columnName c ++ " AS " ++ si_displayName c
    end.

Definition selectList (columnsToSelect : list SelectItem) : string :=
  if List.length columnsToSelect =? 0 then "* "
  else join ", " (List.map columnSelection columnsToSelect).

Definition fromClause (mainTable : Table) : string :=
  " FROM " ++ dbTableName (schemas mainTable) ++ " AS " ++ tableKey mainTable.

(** The line break inside the template literal of a join condition. *)
Definition conditionBreak : string :=
  " " ++ newline ++ "                      AND ".

Definition locationCondition (mainTable joinTable : string) : string :=
  conditionBreak ++ mainTable ++ ".country = " ++ joinTable ++ ".Country"
  ++ conditionBreak ++ mainTable ++ ".region = " ++ joinTable ++ ".Region"
  ++ conditionBreak ++ mainTable ++ ".city = " ++ joinTable ++ ".City".

Definition joinCondition (mainTable joinTable : Table) : string :=
  match mainTable, joinTable with
  | sales_data, product_design =>
      tableKey mainTable ++ ".product_name = " ++ tableKey joinTable ++ ".Product_Name"
      ++ locationCondition (tableKey mainTable) (tableKey joinTable)
  | sales_data, vehicle_master =>
      tableKey mainTable ++ ".delivery_plate = " ++ tableKey joinTable ++ ".Vehicle_Plate"
      ++ locationCondition (tableKey mainTable) (tableKey joinTable)
  | _, _ => ""
  end.

Definition joinClause (mainTable : Table) (joinTable : option Table) : string :=
  match joinTable with
  | Some table =>
      " LEFT JOIN " ++ dbTableName (schemas table) ++ " AS " ++ tableKey table
      ++ " ON " ++ joinCondition mainTable table
  | None => ""
  end.

Definition filterClause (f : Filter) : string := field f ++ " " ++ operator f ++ " ?".

Definition whereClause (filters : list Filter) : string :=
  if 0 <? List.length filters
  then " WHERE " ++ join " AND " (List.map filterClause filters)
  else "".

Definition groupByClause (groupBy : list string) : string :=
  if 0 <? List.length groupBy then " GROUP BY " ++ join ", " groupBy else "".

(** [sorting.field.split('.').pop() || ''] *)
Definition sortingFieldBase (sorting : Sorting) : string :=
  last (split "." (sortField sorting)) "".

(** "Add ORDER BY clause if needed", with the test "Only add ORDER BY
    if it's valid". *)
Definition orderByClause (selectedColumns : list SelectedColumn)
    (groupBy : list string) (sorting : option Sorting) : string :=
  match sorting with
  | Some sorting =>
      let hasAggregates := existsb hasAggregate selectedColumns in
      let sortingUsesAggregate := includes (sortField sorting) "(" in
      let sortingFieldIsInGroupBy :=
        existsb (fun g => includes g (sortingFieldBase sorting)) groupBy in
      if negb hasAggregates || sortingUsesAggregate || sortingFieldIsInGroupBy
      then " ORDER BY " ++ sortField sorting ++ " " ++ direction sorting
      else ""
  | None => ""
  end.

Definition limitClause (limit : option Number) : string :=
  match limit with
  | Some n => " LIMIT " ++ numberToString n
  | None => ""
  end.

(** [buildSqlQuery]: the text grows clause by clause. [joinTable] is
    [None] for the empty string of the source. *)
Definition buildSqlQuery (mainTable : Table) (joinTable : option Table)
    (selectedColumns : list SelectedColumn) (needsAggregation : bool)
    (groupBy : list string) (filters : list Filter) (sorting : option Sorting)
    (limit : option Number) : string :=
  "SELECT " ++ selectList (columnsToSelect selectedColumns groupBy)
  ++ fromClause mainTable
  ++ joinClause mainTable joinTable
  ++ whereClause filters
  ++ groupByClause groupBy
  ++ orderByClause selectedColumns groupBy sorting
  ++ limitClause limit.

(** *** [generateExplanation] *)

Definition aggregateExplanation (c : SelectedColumn) : string :=
  match sc_aggregate c with
  | Some COUNT =>
      if String.eqb (sc_columnName c) "COUNT(*)" then "the total count of records"
      else "COUNT of " ++ sc_columnName c
  | Some SUM => "the sum of " ++ sc_columnName c
  | Some AVG => "the average " ++ sc_columnName c
  | None => "undefined of " ++ sc_columnName c
  end.

Definition explainColumns (selectedColumns : list SelectedColumn) : string :=
  if 0 <? List.length selectedColumns then
    let aggregateColumns := filter hasAggregate selectedColumns in
    let regularColumns := filter (fun c => negb (hasAggregate c)) selectedColumns in
    (if 0 <? List.length aggregateColumns
     then ". It calculates " ++ join ", " (List.map aggregateExplanation aggregateColumns)
     else "")
    ++ (if 0 <? List.length regularColumns
        then " and includes " ++ join ", " (List.map sc_displayName regularColumns)
        else "")
  else "".

(** [filter.field.split('.')[1]] in a template literal. *)
Definition filterFieldName (f : Filter) : string :=
  match split "." (field f) with
  | _ :: second :: _ => second
  | _ => "undefined"
  end.

Definition explainFilters (filters : list Filter) : string :=
  if 0 <? List.length filters then
    ". The data is filtered to include only records where "
    ++ join " and "
         (List.map (fun f => filterFieldName f ++ " " ++ operator f ++ " "
                             ++ toString numberToString (value f)) filters)
  else "".

Definition explainGrouping (groupBy : list string) : string :=
  if 0 <? List.length groupBy then
    ". The results are grouped by "
    ++ join ", " (List.map (fun group =>
                              match split "." group with
                              | _ :: second :: _ => second
                              | _ => group
                              end) groupBy)
  else "".

(** [sorting.field.split('(').pop()?.split(')')[0]?.split('.')[1] ||
    sorting.field] *)
Definition sortingFieldName (sorting : Sorting) : string :=
  let inner := last (split "(" (sortField sorting)) "" in
  let upToParen := hd "" (split ")" inner) in
  match split "." upToParen with
  | _ :: second :: _ => if isEmpty second then sortField sorting else second
  | _ => sortField sorting
  end.

(** "Explain sorting": the test of [buildSqlQuery] is written out
    again. *)
Definition explainSorting (selectedColumns : list SelectedColumn)
    (groupBy : list string) (sorting : option Sorting) : string :=
  match sorting with
  | Some sorting =>
      let hasAggregates := existsb hasAggregate selectedColumns in
      let sortingUsesAggregate := includes (sortField sorting) "(" in
      let sortingFieldBase := last (split "." (sortField sorting)) "" in
      let sortingFieldIsInGroupBy :=
        existsb (fun g => includes g sortingFieldBase) groupBy in
      if negb hasAggregates || sortingUsesAggregate || sortingFieldIsInGroupBy
      then ". The results are ordered by " ++ sortingFieldName sorting ++ " in "
           ++ toLowerCase (direction sorting) ++ " order"
      else ""
  | None => ""
  end.

Definition explainLimit (limit : option Number) : string :=
  match limit with
  | Some n => ". Only the first " ++ numberToString n ++ " results will be returned"
  | None => ""
  end.

Definition generateExplanation (mainTable : Table) (joinTable : option Table)
    (selectedColumns : list SelectedColumn) (needsAggregation : bool)
    (groupBy : list string) (filters : list Filter) (sorting : option Sorting)
    (limit : option Number) : string :=
  "This query retrieves data from the " ++ tableDescription (schemas mainTable)
  ++ match joinTable with
     | Some table => " and joins it with the " ++ tableDescription (schemas table)
     | None => ""
     end
  ++ explainColumns selectedColumns
  ++ explainFilters filters
  ++ explainGrouping groupBy
  ++ explainSorting selectedColumns groupBy sorting
  ++ explainLimit limit
  ++ ".".

(** *** [generateSqlQuery] *)

Record GeneratedQuery := {
  sql : string;
  params : list (JsVal Number);
  explanation : string;
  error : option string;
  success : bool
}.

Definition needsAggregation (simplifiedQuery : string) : bool :=
  includes simplifiedQuery "total"
  || includes simplifiedQuery "average"
  || includes simplifiedQuery "sum"
  || includes simplifiedQuery "count"
  || includes simplifiedQuery "min"
  || includes simplifiedQuery "max"
  || includes simplifiedQuery "group by"
  || isSalesByProduct simplifiedQuery.

(** The grouping of the intent, with the special case for sales by
    product. *)
Definition grouping (userQuery : string) : list string :=
  let simplifiedQuery := toLowerCase userQuery in
  let mainTable := mainTableOf simplifiedQuery in
  let groupBy := determineGrouping simplifiedQuery (selectedColumns userQuery) mainTable in
  if isSalesByProduct simplifiedQuery && (List.length groupBy =? 0)
  then (groupBy ++ [(tableKey mainTable ++ ".product_name")%string])%list
  else groupBy.

(** *** [determineFilters] *)

(** [parseFloat] of a run of digits and dots. *)
Variable parseFloat : string -> Number.

Definition wordOrSpace (c : ascii) : bool := isWord c || isSpace c.
Definition digitOrDot (c : ascii) : bool := isDigit c || Ascii.eqb c ".".
(** [[a-z\s]] under the flag [i] *)
Definition letterOrSpace (c : ascii) : bool := isAsciiLower (lowerChar c) || isSpace c.

(** [(where|with|for|if)\s+col\s+(is|=|equals?)\s+([\w\s]+)] *)
Definition equalsRegex (colLower : string) : Re :=
  sequence [Group 1 (words ["where"; "with"; "for"; "if"]); spaces; Lit colLower; spaces;
            Group 2 (anyOf [Lit "is"; Lit "=";
                            Seq (Lit "equal")
                              (Class (fun c => Ascii.eqb (lowerChar c) "s") 0 (Some 1))]);
            spaces; Group 3 (Class wordOrSpace 1 None)].

(** [col\s+(contains|like|has)\s+([\w\s]+)] *)
Definition containsRegex (colLower : string) : Re :=
  sequence [Lit colLower; spaces; Group 1 (words ["contains"; "like"; "has"]); spaces;
            Group 2 (Class wordOrSpace 1 None)].

(** [col\s+(>|greater than|more than)\s+([\d.]+)] *)
Definition greaterRegex (colLower : string) : Re :=
  sequence [Lit colLower; spaces; Group 1 (words [">"; "greater than"; "more than"]);
            spaces; Group 2 (Class digitOrDot 1 None)].

(** [col\s+(<|less than|under)\s+([\d.]+)] *)
Definition lessRegex (colLower : string) : Re :=
  sequence [Lit colLower; spaces; Group 1 (words ["<"; "less than"; "under"]);
            spaces; Group 2 (Class digitOrDot 1 None)].

(** [(in|for|at|from)\s+([a-z\s]+)(country|region|city)] *)
Definition locationRegex : Re :=
  sequence [Group 1 (words ["in"; "for"; "at"; "from"]); spaces;
            Group 2 (Class letterOrSpace 1 None);
            Group 3 (words ["country"; "region"; "city"])].

(** The filter pushed for a pattern, when the query matches it. *)
Definition matched (pattern : Re) (simplifiedQuery : string)
    (filter : Captures -> Filter) : list Filter :=
  match firstMatch true pattern simplifiedQuery with
  | Some caps => [filter caps]
  | None => []
  end.

Definition equalsFilter (simplifiedQuery : string) (table : Table) (c : Column)
  : list Filter :=
  matched (equalsRegex (toLowerCase (name c))) simplifiedQuery
    (fun caps => {| field := tableKey table ++ "." ++ dbName c;
                    operator := "=";
                    value := JString (trim (capture 3 caps)) |}).

Definition containsFilter (simplifiedQuery : string) (table : Table) (c : Column)
  : list Filter :=
  matched (containsRegex (toLowerCase (name c))) simplifiedQuery
    (fun caps => {| field := tableKey table ++ "." ++ dbName c;
                    operator := "LIKE";
                    value := JString ("%" ++ trim (capture 2 caps) ++ "%") |}).

Definition greaterFilter (simplifiedQuery : string) (table : Table) (c : Column)
  : list Filter :=
  matched (greaterRegex (toLowerCase (name c))) simplifiedQuery
    (fun caps => {| field := tableKey table ++ "." ++ dbName c;
                    operator := ">";
                    value := JNumber (parseFloat (trim (capture 2 caps))) |}).

Definition lessFilter (simplifiedQuery : string) (table : Table) (c : Column)
  : list Filter :=
  matched (lessRegex (toLowerCase (name c))) simplifiedQuery
    (fun caps => {| field := tableKey table ++ "." ++ dbName c;
                    operator := "<";
                    value := JNumber (parseFloat (trim (capture 2 caps))) |}).

(** "Add common filter shortcuts" *)
Definition salesTypeFilter (simplifiedQuery : string) (mainTable : Table) : list Filter :=
  if includes simplifiedQuery "instore" || includes simplifiedQuery "in store" then
    [{| field := tableKey mainTable ++ ".sales_type"; operator := "=";
        value := JString "instore" |}]
  else if includes simplifiedQuery "delivery"
          && negb (includes simplifiedQuery "delivery fee")
          && negb (includes simplifiedQuery "delivery plate")
  then [{| field := tableKey mainTable ++ ".sales_type"; operator := "=";
           value := JString "delivery" |}]
  else [].

(** "Look for any country, region, or city mentioned" *)
Definition locationFilter (simplifiedQuery : string) (mainTable : Table) : list Filter :=
  matched locationRegex simplifiedQuery
    (fun caps => {| field := tableKey mainTable ++ "." ++ toLowerCase (capture 3 caps);
                    operator := "=";
                    value := JString (trim (capture 2 caps)) |}).

Definition determineFilters (query : string) (mainTable : Table)
    (joinTable : option Table) : list Filter :=
  let simplifiedQuery := toLowerCase query in
  (flat_map (fun c => equalsFilter simplifiedQuery mainTable c
                      ++ containsFilter simplifiedQuery mainTable c
                      ++ greaterFilter simplifiedQuery mainTable c
                      ++ lessFilter simplifiedQuery mainTable c)
     (columns (schemas mainTable))
   ++ match joinTable with
      | Some table =>
          flat_map (fun c => equalsFilter simplifiedQuery table c
                             ++ containsFilter simplifiedQuery table c)
            (columns (schemas table))
      | None => []
      end
   ++ salesTypeFilter simplifiedQuery mainTable
   ++ locationFilter simplifiedQuery mainTable)%list.

(** *** [extractTimeFilters] *)

(** What the clock and the time zone make of [new Date()]: the first
    day of last month, its last day and the first day of this month as
    [toISOString().split('T')[0]] gives them, and [getFullYear()]. *)
Variables lastMonthStart lastMonthEnd thisMonthStart : string.
Variable currentYear : BinNums.Z.

Definition yearText (year : BinNums.Z) : string :=
  NilZero.string_of_int (BinInt.Z.to_int year).

Definition isDateSeparator (c : ascii) : bool := Ascii.eqb c "-" || Ascii.eqb c "/".

(** [\b\d{4}[-\/]\d{1,2}[-\/]\d{1,2}\b] *)
Definition dateRegex : Re :=
  sequence [Boundary; Class isDigit 4 (Some 4); Class isDateSeparator 1 (Some 1);
            Class isDigit 1 (Some 2); Class isDateSeparator 1 (Some 1);
            Class isDigit 1 (Some 2); Boundary].

Definition since (mainTable : Table) (date : string) : Filter :=
  {| field := tableKey mainTable ++ ".sales_date"; operator := ">=";
     value := JString date |}.

Definition until (mainTable : Table) (date : string) : Filter :=
  {| field := tableKey mainTable ++ ".sales_date"; operator := "<=";
     value := JString date |}.

Definition explicitDates (query : string) (mainTable : Table) : list Filter :=
  match List.map (replaceChar "/" "-") (matchAll false dateRegex query) with
  | [] => []
  | [date] => [since mainTable date]
  | first :: second :: _ => [since mainTable first; until mainTable second]
  end.

Definition relativePeriod (query : string) (mainTable : Table) : list Filter :=
  if includes query "last month" || includes query "previous month" then
    [since mainTable lastMonthStart; until mainTable lastMonthEnd]
  else if includes query "this month" || includes query "current month" then
    [since mainTable thisMonthStart]
  else if includes query "last year" || includes query "previous year" then
    [since mainTable (yearText (BinInt.Z.pred currentYear) ++ "-01-01");
     until mainTable (yearText (BinInt.Z.pred currentYear) ++ "-12-31")]
  else if includes query "this year" || includes query "current year" then
    [since mainTable (yearText currentYear ++ "-01-01")]
  else [].

Definition extractTimeFilters (query : string) (mainTable : Table) : list Filter :=
  (explicitDates query mainTable ++ relativePeriod query mainTable)%list.

Definition connectionFailed : GeneratedQuery :=
  {| sql := ""; params := [];
     explanation := "Database connection failed";
     error := Some "Unable to connect to the database";
     success := false |}.

Definition generationFailed (thrown : Thrown) : GeneratedQuery :=
  {| sql := ""; params := [];
     explanation := "Failed to generate a SQL query";
     error := Some (messageOr "Unknown error occurred" thrown);
     success := false |}.

(** [generateSqlQuery(userQuery)]; [dbCheck] is what
    [checkDatabaseConnection()] came to. *)
Definition generateSqlQuery (dbCheck : Completion (@ConnectionStatus Number))
    (userQuery : string) : GeneratedQuery :=
  match dbCheck with
  | Throw thrown => generationFailed thrown
  | Normal (Disconnected _) => connectionFailed
  | Normal (Connected _) =>
      let simplifiedQuery := toLowerCase userQuery in
      let mainTable := mainTableOf simplifiedQuery in
      let joinTable := joinTableOf simplifiedQuery mainTable in
      let timeFilters := extractTimeFilters simplifiedQuery mainTable in
      let selected := selectedColumns userQuery in
      let groupBy := grouping userQuery in
      let filters := determineFilters simplifiedQuery mainTable joinTable in
      let sorting := determineSorting simplifiedQuery selected mainTable groupBy in
      let limit := determineLimit simplifiedQuery in
      {| sql := buildSqlQuery mainTable joinTable selected
                  (needsAggregation simplifiedQuery) groupBy
                  (filters ++ timeFilters)%list sorting limit;
         params := List.map value (filters ++ timeFilters)%list;
         explanation := generateExplanation mainTable joinTable selected
                          (needsAggregation simplifiedQuery) groupBy
                          (filters ++ timeFilters)%list sorting limit;
         error := None;
         success := true |}
  end.

End Builder.

End SqlBuilder.

(** ** [app/api/finance/route.ts]: the step after a query that returned rows

    The [if] on [needsDataExplanation] with both of its branches: the
    first asks for an explanation of the rows, the second turns to the
    chart that the reply may carry. *)

Section ExplainOrEnhance.

Import Regex.

Context {Number : Type}.
Variable numberToString : Number -> string.
Variable numberTruthy : Number -> bool.
Variable numberOfNat : nat -> Number.
(** The comparison [v > 0], which converts [v] to a number. *)
Variable greaterThanZero : JsVal Number -> bool.
Variable messagesCreate :
  list (@ExplanationRequest Number) -> @ExplanationRequest Number
  -> Completion (@LlmResponse Number).
(** [generateOptimizedChart(queryData, nlQuery, chartType)], which
    returns a chart object or throws. *)
Variable generateOptimizedChart :
  JsVal Number -> string -> JsVal Number -> Completion (Obj Number).

(** [/word\s+([^.]+)/i] *)
Definition notDot (c : ascii) : bool := negb (Ascii.eqb c ".").

Definition phrase (word : Re) : Re :=
  sequence [word; spaces; Group 1 (Class notDot 1 None)].

Definition showingRegex : Re := phrase (Lit "showing").

Definition heresRegex : Re :=
  phrase (sequence [Lit "here"; Class (Ascii.eqb "'") 1 (Some 1); Lit "s"]).

Definition displayingRegex : Re := phrase (Lit "displaying").

Definition visualizingRegex : Re := phrase (Lit "visualizing").

Definition inferQuery (queryText : string) : string :=
  match firstMatch true showingRegex queryText with
  | Some showingMatch => capture 1 showingMatch
  | None =>
      match firstMatch true heresRegex queryText with
      | Some heresMatch => capture 1 heresMatch
      | None =>
          match firstMatch true displayingRegex queryText with
          | Some displayingMatch => capture 1 displayingMatch
          | None =>
              match firstMatch true visualizingRegex queryText with
              | Some visualizingMatch => capture 1 visualizingMatch
              | None => "Sales data visualization"
              end
          end
      end
  end.

(** [textContent?.text || ""] *)
Definition textOr (textContent : option string) : string :=
  match textContent with
  | Some text => text
  | None => ""
  end.

(** The block at which the loop from the end of [response.content]
    stops. *)
Definition isGraphTool (block : @ContentBlock Number) : bool :=
  match block with
  | ToolUseBlock name _ => String.eqb name "generate_graph_data"
  | TextBlock _ => false
  end.

Definition lastGraphTool (response : @LlmResponse Number) : option (@ContentBlock Number) :=
  find isGraphTool (List.rev (content response)).

(** [originalData && originalData.length > 0] *)
Definition lengthOf (v : JsVal Number) : JsVal Number :=
  match v with
  | JArray items => JNumber (numberOfNat (List.length items))
  | JString s => JNumber (numberOfNat (String.length s))
  | JObject fields => getProp fields "length"
  | _ => JUndefined
  end.

Definition hasDataPoints (originalData : JsVal Number) : bool :=
  truthy numberTruthy originalData && greaterThanZero (lengthOf originalData).

(** The body of the [try] around the enhancement; what it returns is
    assigned to [toolUseContent]. *)
Definition enhance (textContent : option string) (block : @ContentBlock Number)
  : Completion (@ContentBlock Number) :=
  match block with
  | ToolUseBlock name originalChartData =>
      (originalData <- propOf originalChartData "data" ;;
       if hasDataPoints originalData then
         chartType <- propOf originalChartData "chartType" ;;
         enhancedChart <- generateOptimizedChart originalData
                            (inferQuery (textOr textContent)) chartType ;;
         Normal (ToolUseBlock name (JObject (setProp enhancedChart "data" originalData)))
       else Normal block)%completion
  | TextBlock _ => Normal block
  end.

(** The [else] branch: [toolUseContent] after it. *)
Definition enhanceDirectChart (response : @LlmResponse Number) (textContent : option string)
    (toolUseContent : option (@ContentBlock Number)) : option (@ContentBlock Number) :=
  match lastGraphTool response with
  | Some block =>
      match enhance textContent block with
      | Normal enhanced => Some enhanced
      | Throw _ => Some block
      end
  | None => toolUseContent
  end.

(** The text block and the tool block as the step leaves them. *)
Record Blocks := {
  textAfter : option string;
  toolUseAfter : option (@ContentBlock Number)
}.

Definition explainOrEnhance (response : @LlmResponse Number) (textContent : option string)
    (toolUseContent : option (@ContentBlock Number))
    (queryData : list (Obj Number)) (nlQuery : string)
  : IO (Completion Blocks) :=
  let textResponse := textOr textContent in
  if needsDataExplanation numberToString textResponse queryData then
    andThen (getDataExplanation messagesCreate textResponse queryData nlQuery)
      (fun explained =>
         ret (textResponse' <- explained ;;
              Normal {| textAfter := match textContent with
                                     | Some _ => Some textResponse'
                                     | None => None
                                     end;
                        toolUseAfter := toolUseContent |})%completion)
  else
    ret (Normal {| textAfter := textContent;
                   toolUseAfter := enhanceDirectChart response textContent
                                     toolUseContent |}).

End ExplainOrEnhance.


(** ** Example data

    The examples instantiate the number interface with natural numbers in
    decimal notation. *)

Definition natToString (n : nat) : string := ofNat n.
Definition natTruthy (n : nat) : bool := negb (n =? 0).

Definition twoCountryRows : list (Obj nat) :=
  [[("country", JString "Australia"); ("total_sales", JNumber 120)];
   [("country", JString "Japan"); ("total_sales", JNumber 95)]].

Definition sixProductRows : list (Obj nat) :=
  List.map (fun n => [("product_name", JString ("P" ++ ofNat n)); ("quantity", JNumber n)])
    (seq 1 6).

Definition almostTenQuery : string := "which stores sold almost 10 units".

Definition japanQuery : @QueryData nat :=
  {| qd_query := Some "sales in Japan";
     qd_sql := Some "SELECT * FROM sales_data WHERE country = ?";
     qd_params := Some [JString "Japan"] |}.

Definition unreachableDatabase
    (inputs : list (string * JsVal nat)) (text : string) : Completion (@QueryResult nat) :=
  Throw (ThrownError PlainError "Connection lost").

Definition helpfulModel
    (log : list (@ExplanationRequest nat)) (request : @ExplanationRequest nat)
  : Completion (@LlmResponse nat) :=
  Normal {| content := [TextBlock "Australia leads with 120 sales."] |}.

Definition failingModel
    (log : list (@ExplanationRequest nat)) (request : @ExplanationRequest nat)
  : Completion (@LlmResponse nat) :=
  Throw (ThrownError PlainError "overloaded").

Definition vagueAnswer : string := "Here are the results.".

(** An answer that names a value of the rows and comes with a chart. *)
Definition groundedAnswer : string :=
  "Here's the sales by country. Japan sold 95 units.".

Definition chartReply : @LlmResponse nat :=
  {| content :=
       [TextBlock groundedAnswer;
        ToolUseBlock "generate_graph_data"
          (JObject [("chartType", JString "bar");
                    ("data", JArray [JObject [("country", JString "Japan");
                                              ("total_sales", JNumber 95)]])])] |}.

(** [v > 0] for the values that occur as a length here: numbers. *)
Definition natGreaterThanZero (v : JsVal nat) : bool :=
  match v with
  | JNumber n => 0 <? n
  | _ => false
  end.

(** A chart generator that sets the title and keeps no data. *)
Definition titlingGenerator (queryData : JsVal nat) (nlQuery : string) (chartType : JsVal nat)
  : Completion (Obj nat) :=
  Normal [("chartType", chartType); ("title", JString nlQuery); ("data", JArray [])].

Definition regionMetricsRows : list (Obj nat) :=
  [[("region", JString "North"); ("sales", JNumber 10); ("profit", JNumber 4)]].

Definition storeNameRows : list (Obj nat) :=
  [[("store_name", JString "Central")]].

Definition monthlyRows : list (Obj nat) :=
  [[("month", JString "2024-01"); ("total_sales", JNumber 12)];
   [("month", JString "2024-02"); ("total_sales", JNumber 15)]].

Definition productShareRows : list (Obj nat) :=
  [[("product_name", JString "Latte"); ("quantity", JNumber 7)];
   [("product_name", JString "Mocha"); ("quantity", JNumber 3)]].

(** A stand-in for the host's date formatting in the examples. *)
Definition isoDate (text : string) : string := text.

(** A request without the [model] field, and collaborators that answer. *)
Definition requestWithoutModel : @RequestBody nat :=
  {| rb_messages := JArray [JObject [("role", JString "user");
                                     ("content", JString "total sales by region")]];
     rb_fileData := None;
     rb_model := JUndefined |}.

Definition requestWithEmptyModel : @RequestBody nat :=
  {| rb_messages := JArray [JObject [("role", JString "user");
                                     ("content", JString "total sales by region")]];
     rb_fileData := None;
     rb_model := JString "" |}.

Definition plainDecode (text : string) : Completion string := Normal text.

Definition answeringModel (model : JsVal nat) (messages : list (JsVal nat))
  : Completion unit := Normal tt.

Definition plainRespond (reply : unit) : Completion unit := Normal tt.

Definition plainOutcome (reply : unit) : Outcome unit := Returned tt.

(** A model that turns the key down. *)
Definition rejectingModel (model : JsVal nat) (messages : list (JsVal nat))
  : Completion unit :=
  Throw (ThrownError AuthenticationError "invalid x-api-key").

(** Charts as the tool hands them over: one without chart type, config
    and series, one with a config of its own, and one without rows. *)
Definition bareChart : @FrontChart nat :=
  {| fc_chartType := JUndefined;
     fc_data := Some productShareRows;
     fc_config := None;
     fc_chartConfig := None |}.

Definition titledChart : @FrontChart nat :=
  {| fc_chartType := JString "pie";
     fc_data := Some productShareRows;
     fc_config := Some [("title", JString "Shares"); ("legend", JBool true);
                        ("xAxisKey", JString "product_name")];
     fc_chartConfig := None |}.

Definition chartWithoutRows : @FrontChart nat :=
  {| fc_chartType := JString "bar";
     fc_data := Some [];
     fc_config := None;
     fc_chartConfig := None |}.

Definition natOfNat (n : nat) : nat := n.

(** The chart the final pass makes of [chart]. *)
Definition preparedChart (chart : @FrontChart nat) : @FrontChart nat :=
  match prepareChartDataForFrontend natToString natTruthy natOfNat (Some chart) with
  | Some prepared => prepared
  | None => chart
  end.

(** A request with a PDF attached to its question. *)
Definition pdfFile : @FileData nat :=
  {| base64 := JString "JVBERi0xLjQK";
     mediaType := JString "application/pdf";
     isText := JBool false;
     fileName := JString "report.pdf" |}.

Definition requestWithPdf : @RequestBody nat :=
  {| rb_messages := JArray [JObject [("role", JString "user");
                                     ("content", JString "total sales by region")]];
     rb_fileData := Some pdfFile;
     rb_model := JUndefined |}.

(** A database that answers the probe, and what the generator takes
    from its host in the examples: natural numbers for numbers, and the
    clock of a day in May 2024. *)
Definition healthyDatabase
    (inputs : list (string * JsVal nat)) (text : string) : Completion (@QueryResult nat) :=
  Normal {| recordset := Some [[("now", JString "2024-05-01T08:00:00.000Z")]] |}.

Definition natOfDigits (digits : string) : nat := N.to_nat (parseInt digits).

Definition natParseFloat (text : string) : nat :=
  natOfDigits (fst (span isDigit text)).

Definition generateInMay (dbCheck : Completion (@ConnectionStatus nat))
    (userQuery : string) : @SqlBuilder.GeneratedQuery nat :=
  SqlBuilder.generateSqlQuery natToString natOfDigits natOfNat natParseFloat
    "2024-04-01" "2024-04-30" "2024-05-01" (BinInt.Z.of_nat 2024) dbCheck userQuery.

(** A sum that a query asks to sort by. *)
Definition quantitySum : SqlQueryGenerator.SelectedColumn :=
  {| SqlQueryGenerator.sc_tableName := SqlQueryGenerator.sales_data;
     SqlQueryGenerator.sc_columnName := "quantity";
     SqlQueryGenerator.sc_displayName := "total quantity";
     SqlQueryGenerator.sc_aggregate := Some SqlQueryGenerator.SUM |}.

Definition sumSorting : SqlBuilder.Sorting :=
  {| SqlBuilder.sortField := "SUM(sales_data.quantity)";
     SqlBuilder.direction := "DESC" |}.

(** * Properties *)

(** ** The visualization decision *)

Section ShouldCreateVisualizationFacts.

Context {Number : Type}.
Variable numberToString : Number -> string.

Lemma explicit_count_decides (data : list (Obj Number)) (query digits : string) :
  directRequest (trim (toLowerCase query)) = false ->
  vizKeywordFound (trim (toLowerCase query)) = false ->
  metricByCategory data (trim (toLowerCase query)) = false ->
  comparisonFound (trim (toLowerCase query)) = true ->
  matchCount (trim (toLowerCase query)) = Some digits ->
  shouldCreateVisualization numberToString false data query
  = (3 <? parseInt digits)%N.
Proof.
  intros Hdirect Hviz Hby Hcmp Hcount.
  unfold shouldCreateVisualization.
  rewrite Hdirect, Hviz, Hby, Hcmp, Hcount.
  now destruct (3 <? parseInt digits)%N.
Qed.

(** C1 (as amended): with no chart tool call, no direct request, no
    visualization keyword and no "[metric] by [category]" hit, a query
    holding a comparison term and an explicit count, found by the
    leftmost match of [\b(top|bottom|highest|lowest|most|least)\s+(\d+)\b],
    is visualized exactly when that count exceeds 3, whatever the number
    of rows; and any two rows with the query "top 2 countries by sales"
    are not visualized. *)
Theorem shouldCreateVisualization_explicit_count :
  (forall (data : list (Obj Number)) (query digits : string),
      directRequest (trim (toLowerCase query)) = false ->
      vizKeywordFound (trim (toLowerCase query)) = false ->
      metricByCategory data (trim (toLowerCase query)) = false ->
      comparisonFound (trim (toLowerCase query)) = true ->
      matchCount (trim (toLowerCase query)) = Some digits ->
      shouldCreateVisualization numberToString false data query
      = (3 <? parseInt digits)%N)
  /\ (forall row1 row2 : Obj Number,
         shouldCreateVisualization numberToString false [row1; row2]
           "top 2 countries by sales" = false).
Proof.
  split.
  - exact explicit_count_decides.
  - intros row1 row2.
    apply (explicit_count_decides [row1; row2] "top 2 countries by sales" "2");
      reflexivity.
Qed.

End ShouldCreateVisualizationFacts.

Lemma shouldCreateVisualization_explicit_count_witness :
  shouldCreateVisualization natToString false twoCountryRows "Top 10 countries" = true.
Proof.
  exact (proj1 (shouldCreateVisualization_explicit_count natToString)
           twoCountryRows "Top 10 countries" "10"
           eq_refl eq_refl eq_refl eq_refl eq_refl).
Defined.

(** Six rows with a product column and no keyword in the query are
    charted (the categorical-column rule). *)
Example six_products_are_charted :
  shouldCreateVisualization natToString false sixProductRows "list the products" = true.
Proof. reflexivity. Qed.

(** With the count taken from the pattern as the specification words it,
    [(top|bottom|highest|lowest|most|least)\s+(\d+)] without word
    boundaries, the statement fails: "almost 10" holds the comparison term "most" and,
    for that pattern, the count 10, yet two rows are not visualized. *)
Lemma shouldCreateVisualization_unanchored_count_counterexample :
  directRequest (trim (toLowerCase almostTenQuery)) = false
  /\ vizKeywordFound (trim (toLowerCase almostTenQuery)) = false
  /\ metricByCategory twoCountryRows (trim (toLowerCase almostTenQuery)) = false
  /\ comparisonFound (trim (toLowerCase almostTenQuery)) = true
  /\ specMatchCount (trim (toLowerCase almostTenQuery)) = Some "10"
  /\ (3 <? parseInt "10")%N = true
  /\ shouldCreateVisualization natToString false twoCountryRows almostTenQuery = false.
Proof. vm_compute. repeat split. Qed.

(** ** Placeholders and parameters *)

Lemma append_assoc (a b c : string) : (a ++ b) ++ c = a ++ (b ++ c).
Proof. induction a as [|x a IH]; simpl; [reflexivity | now rewrite IH]. Qed.

Lemma countChar_app (c : ascii) (a b : string) :
  countChar c (a ++ b) = countChar c a + countChar c b.
Proof.
  induction a as [|x a IH]; simpl; [reflexivity|].
  rewrite IH. lia.
Qed.

Lemma digits_without_placeholder (d : uint) :
  countChar "?" (NilEmpty.string_of_uint d) = 0.
Proof. induction d; simpl; auto. Qed.

Lemma ofNat_without_placeholder (n : nat) : countChar "?" (ofNat n) = 0.
Proof.
  unfold ofNat, NilZero.string_of_uint.
  destruct (Nat.to_uint n) eqn:E; try reflexivity;
    rewrite <- E; apply digits_without_placeholder.
Qed.

Lemma marker_without_placeholder (n : nat) : countChar "?" ("@p" ++ ofNat n) = 0.
Proof. rewrite countChar_app, ofNat_without_placeholder. reflexivity. Qed.

Lemma replaceFirst_skips (by_ pre s : string) :
  countChar "?" pre = 0 ->
  replaceFirst "?" by_ (pre ++ s) = pre ++ replaceFirst "?" by_ s.
Proof.
  induction pre as [|x pre IH]; simpl; intros H; [reflexivity|].
  destruct (Ascii.eqb x "?"); [discriminate|].
  now rewrite IH.
Qed.

Section QueryFacts.

Context {Number : Type}.

Lemma substituteFrom_cons (i : nat) (p : JsVal Number) (params : list (JsVal Number))
    (text : string) :
  substituteFrom i (p :: params) text
  = substituteFrom (S i) params (replaceFirst "?" ("@p" ++ ofNat i) text).
Proof. reflexivity. Qed.

Lemma substituteFrom_skips (params : list (JsVal Number)) :
  forall i pre s,
    countChar "?" pre = 0 ->
    substituteFrom i params (pre ++ s) = pre ++ substituteFrom i params s.
Proof.
  induction params as [|p params IH]; intros i pre s H; [reflexivity|].
  rewrite !substituteFrom_cons, replaceFirst_skips by assumption.
  now apply IH.
Qed.

Lemma substituteFrom_positional (s : string) :
  forall i (params : list (JsVal Number)),
    countChar "?" s = List.length params ->
    substituteFrom i params s = substitutePlaceholders i s.
Proof.
  induction s as [|x s IH]; intros i params H.
  - destruct params; [reflexivity | discriminate].
  - cbn [countChar substitutePlaceholders] in *.
    destruct (Ascii.eqb x "?") eqn:E.
    + destruct params as [|p params]; [discriminate|].
      injection H as H.
      rewrite substituteFrom_cons.
      cbn [replaceFirst]. rewrite E.
      rewrite substituteFrom_skips by apply marker_without_placeholder.
      rewrite (IH (S i) params H).
      now rewrite append_assoc.
    + change (String x s) with (String x EmptyString ++ s).
      rewrite substituteFrom_skips by (cbn [countChar]; now rewrite E).
      rewrite (IH i params H). reflexivity.
Qed.

Lemma indexed_nth_error {A : Type} (l : list A) :
  forall i k x,
    nth_error l k = Some x ->
    nth_error (combine (seq i (List.length l)) l) k = Some (i + k, x).
Proof.
  induction l as [|y l IH]; intros i k x H.
  - destruct k; discriminate.
  - destruct k as [|k]; simpl in *.
    + injection H as ->. now rewrite Nat.add_0_r.
    + rewrite (IH (S i) k x H). f_equal. f_equal. lia.
Qed.

Lemma requestInputs_nth (params : list (JsVal Number)) (i : nat) (param : JsVal Number) :
  nth_error params i = Some param ->
  nth_error (requestInputs params) i = Some ("p" ++ ofNat i, param).
Proof.
  intros H. unfold requestInputs, indexed.
  rewrite nth_error_map, (indexed_nth_error params 0 i param H). reflexivity.
Qed.

Lemma requestInputs_length (params : list (JsVal Number)) :
  List.length (requestInputs params) = List.length params.
Proof.
  unfold requestInputs, indexed.
  rewrite length_map, length_combine, length_seq. apply Nat.min_id.
Qed.

Lemma rethrow_is_identity {A : Type} (c : Completion A) :
  tryCatch c (fun error => Throw error) = c.
Proof. now destruct c. Qed.

Variable poolFailure : option Thrown.
Variable requestQuery :
  list (string * JsVal Number) -> string -> Completion (@QueryResult Number).

(** C8: when the text holds as many [?] as there are parameters, [query]
    registers parameter [i] under the name [p<i>] and sends the text in
    which the placeholders, from the left, have become [@p0], [@p1],
    ...: one parameter per placeholder, in the order given. *)
Theorem query_substitutes_positionally
    (queryText : string) (params : list (JsVal Number)) :
  countChar "?" queryText = List.length params ->
  preparedQuery queryText params = substitutePlaceholders 0 queryText
  /\ List.length (requestInputs params) = List.length params
  /\ (forall i param,
         nth_error params i = Some param ->
         nth_error (requestInputs params) i = Some ("p" ++ ofNat i, param))
  /\ query poolFailure requestQuery queryText params
     = match poolFailure with
       | Some e => Throw e
       | None => requestQuery (requestInputs params)
                   (substitutePlaceholders 0 queryText)
       end.
Proof.
  intros H.
  assert (Hp : preparedQuery queryText params = substitutePlaceholders 0 queryText)
    by (apply (substituteFrom_positional queryText 0 params H)).
  repeat split.
  - exact Hp.
  - apply requestInputs_length.
  - apply requestInputs_nth.
  - unfold query. destruct poolFailure; [reflexivity|].
    now rewrite rethrow_is_identity, Hp.
Qed.

End QueryFacts.

Lemma query_substitutes_positionally_witness :
  preparedQuery "SELECT * FROM sales_data WHERE country = ? AND quantity > ?"
    [JString "Japan"; JNumber 3]
  = "SELECT * FROM sales_data WHERE country = @p0 AND quantity > @p1".
Proof.
  exact (proj1 (query_substitutes_positionally (Number := nat) None
                  (fun _ _ => Normal {| recordset := None |})
                  "SELECT * FROM sales_data WHERE country = ? AND quantity > ?"
                  [JString "Japan"; JNumber 3] eq_refl)).
Defined.

(** ** Running the query *)

Section ExecuteFacts.

Context {Number : Type}.
Variable poolFailure : option Thrown.
Variable requestQuery :
  list (string * JsVal Number) -> string -> Completion (@QueryResult Number).

Lemma rowCount_of_result (result : @QueryResult Number) :
  match recordset result with Some rows => List.length rows | None => 0 end
  = List.length (rowsOf result).
Proof. unfold rowsOf. now destruct (recordset result). Qed.

Lemma isEmpty_false (s : string) : s <> "" -> isEmpty s = false.
Proof. destruct s; [congruence | reflexivity]. Qed.

Lemma isEmpty_true (s : string) : isEmpty s = true -> s = "".
Proof. destruct s; [reflexivity | discriminate]. Qed.

(** C7: [executeNaturalLanguageQuery] always returns. Without an SQL
    text it reports ['No SQL query provided']; when the execution throws
    it reports the error's message (or ['Unknown error occurred'] for a
    thrown value that is no [Error]); and it reports success, with the
    rows and their number, exactly when the execution succeeded. *)
Theorem executeNaturalLanguageQuery_total (queryData : @QueryData Number) :
  (exists outcome,
      executeNaturalLanguageQuery poolFailure requestQuery queryData = Normal outcome)
  /\ (sqlOf queryData = "" ->
      executeNaturalLanguageQuery poolFailure requestQuery queryData
      = Normal (QueryFailure "No SQL query provided" "Failed to generate SQL query"))
  /\ (forall error,
         sqlOf queryData <> "" ->
         query poolFailure requestQuery (sqlOf queryData) (paramsOf queryData)
         = Throw error ->
         executeNaturalLanguageQuery poolFailure requestQuery queryData
         = Normal (QueryFailure (messageOr "Unknown error occurred" error)
                     "An error occurred while executing your query."))
  /\ (forall result,
         sqlOf queryData <> "" ->
         query poolFailure requestQuery (sqlOf queryData) (paramsOf queryData)
         = Normal result ->
         exists explanation,
           executeNaturalLanguageQuery poolFailure requestQuery queryData
           = Normal (QuerySuccess (rowsOf result) (List.length (rowsOf result))
                       explanation (sqlOf queryData)))
  /\ (forall data rowCount explanation sql,
         executeNaturalLanguageQuery poolFailure requestQuery queryData
         = Normal (QuerySuccess data rowCount explanation sql) ->
         sql = sqlOf queryData /\ sql <> ""
         /\ rowCount = List.length data
         /\ exists result,
             query poolFailure requestQuery sql (paramsOf queryData) = Normal result
             /\ data = rowsOf result).
Proof.
  unfold executeNaturalLanguageQuery.
  destruct (isEmpty (sqlOf queryData)) eqn:Hsql.
  - apply isEmpty_true in Hsql.
    split; [eexists; reflexivity|].
    split; [reflexivity|].
    split; [intros; congruence|].
    split; [intros; congruence|].
    discriminate.
  - assert (Hne : sqlOf queryData <> "") by (intros E; now rewrite E in Hsql).
    destruct (query poolFailure requestQuery (sqlOf queryData) (paramsOf queryData))
      as [result|error] eqn:Hq; cbn [bind tryCatch].
    + rewrite rowCount_of_result.
      split; [eexists; reflexivity|].
      split; [intros; congruence|].
      split; [discriminate|].
      split.
      * intros result' _ E. injection E as <-. eexists. reflexivity.
      * intros data rowCount explanation sql E.
        injection E as <- <- _ <-.
        repeat split; try assumption.
        exists result. now split.
    + split; [eexists; reflexivity|].
      split; [intros; congruence|].
      split; [intros error' _ E; now injection E as <-|].
      split; discriminate.
Qed.

End ExecuteFacts.

Lemma executeNaturalLanguageQuery_total_witness :
  executeNaturalLanguageQuery None unreachableDatabase japanQuery
  = Normal (QueryFailure "Connection lost"
              "An error occurred while executing your query.").
Proof.
  refine (proj1 (proj2 (proj2
            (executeNaturalLanguageQuery_total None unreachableDatabase japanQuery)))
            (ThrownError PlainError "Connection lost") _ eq_refl).
  discriminate.
Defined.

(** ** Grounding and the follow-up explanation *)

Section GroundingFacts.

Context {Number : Type}.
Variable numberToString : Number -> string.
Variable messagesCreate :
  list (@ExplanationRequest Number) -> @ExplanationRequest Number
  -> Completion (@LlmResponse Number).

Lemma hasDataValues_false (responseText : string) (queryData : list (Obj Number)) :
  hasDataValues numberToString responseText queryData = false
  <-> forall row val,
        In row queryData -> In val (values row) ->
        isNumericValue numberToString val = true ->
        includes responseText (toString numberToString val) = false.
Proof.
  unfold hasDataValues, stringValues. split.
  - intros H row val Hrow Hval Hnum.
    destruct (includes responseText (toString numberToString val)) eqn:E;
      [|reflexivity].
    rewrite <- H. symmetry. apply existsb_exists.
    exists row. split; [assumption|].
    apply existsb_exists. exists (toString numberToString val).
    split; [|assumption].
    apply in_map, filter_In. now split.
  - intros H.
    destruct (existsb _ queryData) eqn:E; [|reflexivity].
    apply existsb_exists in E. destruct E as (row & Hrow & E).
    apply existsb_exists in E. destruct E as (strVal & Hin & E).
    apply in_map_iff in Hin. destruct Hin as (val & <- & Hin).
    apply filter_In in Hin. destruct Hin as (Hval & Hnum).
    now rewrite (H row val Hrow Hval Hnum) in E.
Qed.

Lemma dataSample_first_five (queryData : list (Obj Number)) (nlQuery : string) :
  er_dataSample (followUpMessage queryData nlQuery) = firstn 5 queryData.
Proof.
  unfold followUpMessage. cbn [er_dataSample].
  destruct (5 <? List.length queryData) eqn:E; [reflexivity|].
  apply Nat.ltb_ge in E. symmetry. now apply firstn_all2.
Qed.

Lemma getDataExplanation_run (originalResponse : string)
    (queryData : list (Obj Number)) (nlQuery : string)
    (log : list (@ExplanationRequest Number)) :
  getDataExplanation messagesCreate originalResponse queryData nlQuery log
  = (match messagesCreate log (followUpMessage queryData nlQuery) with
     | Normal response =>
         match firstText response with
         | Normal explanation =>
             Normal (originalResponse ++ newline ++ newline ++ explanation)
         | Throw _ => Normal originalResponse
         end
     | Throw _ => Normal originalResponse
     end,
     (log ++ [followUpMessage queryData nlQuery])%list).
Proof.
  unfold getDataExplanation, andThen, callModel, ret.
  f_equal.
  destruct (messagesCreate log (followUpMessage queryData nlQuery)) as [response|e];
    [|reflexivity].
  cbn [bind]. now destruct (firstText response).
Qed.

(** C10: [getDataExplanation] always returns a text. When the follow-up
    call throws it is the original response, unchanged; when the call
    answers with a text it is the original response, two line feeds and
    that text. *)
Theorem getDataExplanation_keeps_answer (originalResponse : string)
    (queryData : list (Obj Number)) (nlQuery : string)
    (log : list (@ExplanationRequest Number)) :
  (exists text,
      fst (getDataExplanation messagesCreate originalResponse queryData nlQuery log)
      = Normal text)
  /\ (forall error,
         messagesCreate log (followUpMessage queryData nlQuery) = Throw error ->
         fst (getDataExplanation messagesCreate originalResponse queryData nlQuery log)
         = Normal originalResponse)
  /\ (forall explanation others,
         messagesCreate log (followUpMessage queryData nlQuery)
         = Normal {| content := TextBlock explanation :: others |} ->
         fst (getDataExplanation messagesCreate originalResponse queryData nlQuery log)
         = Normal (originalResponse ++ newline ++ newline ++ explanation)).
Proof.
  rewrite getDataExplanation_run. cbn [fst].
  split; [|split].
  - destruct (messagesCreate log (followUpMessage queryData nlQuery)) as [response|e];
      [destruct (firstText response)|]; eexists; reflexivity.
  - intros error ->. reflexivity.
  - intros explanation others ->. reflexivity.
Qed.

(** C4 (as amended): for rows that are not empty and a response text
    that is not empty, [needsDataExplanation] holds exactly when no
    numeric value of the rows (a number, or a string that [parseFloat]
    reads as a number) occurs in the text in its [String] form; and
    then the handler issues exactly one follow-up request, which carries
    the first five rows at most, and, when that call answers with a
    text, appends the answer to the original text. *)
Theorem needsDataExplanation_grounded (responseText : string)
    (queryData : list (Obj Number)) :
  queryData <> [] ->
  responseText <> "" ->
  (needsDataExplanation numberToString responseText queryData = true
   <-> forall row val,
         In row queryData -> In val (values row) ->
         isNumericValue numberToString val = true ->
         includes responseText (toString numberToString val) = false)
  /\ (needsDataExplanation numberToString responseText queryData = true ->
      forall nlQuery log,
        snd (groundingStep numberToString messagesCreate (Some responseText)
               queryData nlQuery log)
        = (log ++ [followUpMessage queryData nlQuery])%list
        /\ er_dataSample (followUpMessage queryData nlQuery) = firstn 5 queryData
        /\ List.length (er_dataSample (followUpMessage queryData nlQuery)) <= 5
        /\ forall explanation others,
             messagesCreate log (followUpMessage queryData nlQuery)
             = Normal {| content := TextBlock explanation :: others |} ->
             fst (groundingStep numberToString messagesCreate (Some responseText)
                    queryData nlQuery log)
             = Normal (Some (responseText ++ newline ++ newline ++ explanation))).
Proof.
  intros Hrows Htext. split.
  - unfold needsDataExplanation.
    destruct queryData as [|row rows]; [congruence|].
    destruct responseText as [|c text]; [congruence|].
    cbn [List.length Nat.eqb isEmpty orb].
    rewrite negb_true_iff. apply hasDataValues_false.
  - intros Hneeds nlQuery log.
    unfold groundingStep. rewrite Hneeds.
    unfold andThen. rewrite getDataExplanation_run. cbn [snd fst ret].
    split; [reflexivity|].
    split; [apply dataSample_first_five|].
    split; [rewrite dataSample_first_five; apply firstn_le_length|].
    intros explanation others ->. reflexivity.
Qed.

End GroundingFacts.

Lemma getDataExplanation_keeps_answer_witness :
  fst (getDataExplanation failingModel vagueAnswer twoCountryRows "sales by country" [])
  = Normal vagueAnswer.
Proof.
  exact (proj1 (proj2 (getDataExplanation_keeps_answer failingModel vagueAnswer
                         twoCountryRows "sales by country" []))
           (ThrownError PlainError "overloaded") eq_refl).
Defined.

Lemma needsDataExplanation_grounded_witness :
  snd (groundingStep natToString helpfulModel (Some vagueAnswer) twoCountryRows
         "sales by country" [])
  = [followUpMessage twoCountryRows "sales by country"].
Proof.
  refine (proj1 (proj2 (needsDataExplanation_grounded natToString helpfulModel
                          vagueAnswer twoCountryRows _ _) eq_refl
                   "sales by country" [])); discriminate.
Defined.

(** The equivalence fails for an empty response text: no
    value of the rows occurs in it, yet no explanation is asked for. *)
Lemma needsDataExplanation_empty_text_counterexample :
  twoCountryRows <> []
  /\ (forall row val,
         In row twoCountryRows -> In val (values row) ->
         isNumericValue natToString val = true ->
         includes "" (toString natToString val) = false)
  /\ needsDataExplanation natToString "" twoCountryRows = false.
Proof.
  split; [discriminate|]. split; [|reflexivity].
  intros row val Hrow Hval Hnum.
  destruct Hrow as [<-|[<-|[]]];
    (destruct Hval as [<-|[<-|[]]]; [discriminate Hnum | reflexivity]).
Qed.

(** ** Chart type and shape *)

Section VisualizationFacts.

Context {Number : Type}.
Variable numberToString : Number -> string.
Variable toLocaleDateString : string -> string.

Lemma buildChart_chartType (row : Obj Number) (results : list (Obj Number))
    (nlQuery : string) :
  chartType (buildChart numberToString toLocaleDateString row results nlQuery)
  = chartTypeFor row results nlQuery.
Proof.
  unfold buildChart, chartTypeFor.
  repeat match goal with
         | |- context [if ?b then _ else _] => destruct b
         end; reflexivity.
Qed.

Lemma buildChart_without_value_column (row : Obj Number)
    (results : list (Obj Number)) (nlQuery : string) :
  hasValueColumn row results nlQuery = false ->
  data (buildChart numberToString toLocaleDateString row results nlQuery) = [].
Proof.
  unfold hasValueColumn, buildChart, chartTypeFor.
  set (type := selectChartType _ _ _ _ _).
  destruct (String.eqb type "pie").
  - intros ->. rewrite andb_false_r. cbn [data List.length Nat.ltb Nat.leb].
    rewrite andb_false_r. reflexivity.
  - destruct (String.eqb type "multibar"); [discriminate|].
    intros H. apply negb_false_iff in H. rewrite H.
    cbn [negb]. rewrite andb_false_r. cbn [data List.length Nat.ltb Nat.leb].
    rewrite andb_false_r. reflexivity.
Qed.

(** C2 (as amended): for rows that are not empty and a query holding one
    of the distribution words, the chart type is [pie], provided the two
    rules that come first do not apply: a time column together with a
    trend word (line), and a categorical column together with more than
    one numeric column (multibar). *)
Theorem distribution_words_select_pie (row : Obj Number) (rest : list (Obj Number))
    (nlQuery : string) :
  distributionWords (toLowerCase nlQuery) = true ->
  (0 <? List.length (timeColumnsOf (keys row))) && trendWords (toLowerCase nlQuery)
  = false ->
  (0 <? List.length (categoricalColumnsOf row (keys row) (timeColumnsOf (keys row))))
  && (1 <? List.length (numericColumnsOf row (keys row))) = false ->
  exists chart,
    prepareDataForVisualization numberToString toLocaleDateString (row :: rest) nlQuery
    = Some chart
    /\ chartType chart = "pie".
Proof.
  intros Hwords Hline Hmulti.
  eexists. split; [reflexivity|].
  rewrite buildChart_chartType.
  unfold chartTypeFor, selectChartType.
  now rewrite Hline, Hmulti, Hwords.
Qed.

End VisualizationFacts.

(** Trend vocabulary with a time column gives a line chart, with the
    months spelled out. *)
Example monthly_trend_is_a_line :
  prepareDataForVisualization natToString isoDate monthlyRows
    "show me revenue trend by month"
  = Some {| chartType := "line";
            data := [[("month", JString "Jan 2024"); ("total_sales", JNumber 12)];
                     [("month", JString "Feb 2024"); ("total_sales", JNumber 15)]];
            config := {| xAxisKey := Some "month";
                         title := "Total sales Trend by Month";
                         description := "How Total sales changes over time" |};
            chartConfig := [("total_sales", "Total sales")] |}.
Proof. reflexivity. Qed.

Lemma distribution_words_select_pie_witness :
  exists chart,
    prepareDataForVisualization natToString isoDate productShareRows
      "Share of quantity per product" = Some chart
    /\ chartType chart = "pie".
Proof.
  exact (distribution_words_select_pie natToString isoDate
           [("product_name", JString "Latte"); ("quantity", JNumber 7)]
           [[("product_name", JString "Mocha"); ("quantity", JNumber 3)]]
           "Share of quantity per product" eq_refl eq_refl eq_refl).
Defined.

(** A distribution word does not force a pie chart: with a categorical
    column and two numeric columns the multibar rule comes first. *)
Lemma distribution_words_multibar_counterexample :
  regionMetricsRows <> []
  /\ includes "sales distribution by region" "distribution" = true
  /\ option_map chartType
       (prepareDataForVisualization natToString isoDate regionMetricsRows
          "sales distribution by region") = Some "multibar".
Proof. split; [discriminate|]. split; reflexivity. Qed.

(** *** Rows of any kind *)

Section AnyRowsFacts.

Context {Number : Type}.
Variable numberToString : Number -> string.
Variable numberTruthy : Number -> bool.
Variable numberOfNat : nat -> Number.
Variable toLocaleDateString : string -> string.

#[local] Abbreviation readProp' := (AnyRows.readProp numberOfNat).
#[local] Abbreviation ownProp' := (AnyRows.ownProp numberOfNat).
#[local] Abbreviation chartOf' :=
  (AnyRows.chartOf numberToString numberTruthy numberOfNat toLocaleDateString).
#[local] Abbreviation prepareAny :=
  (AnyRows.prepareDataForVisualization numberToString numberTruthy numberOfNat
     toLocaleDateString).
#[local] Abbreviation chartTypeFor' := (AnyRows.chartTypeFor numberTruthy numberOfNat).
#[local] Abbreviation hasValueColumn' := (AnyRows.hasValueColumn numberTruthy numberOfNat).
#[local] Abbreviation mapsTheRows' := (AnyRows.mapsTheRows numberTruthy numberOfNat).

Lemma mapM_normal {A B : Type} (f : A -> Completion B) (g : A -> B) (l : list A) :
  (forall x, In x l -> f x = Normal (g x)) -> mapM f l = Normal (List.map g l).
Proof.
  induction l as [|x r IH]; intros H; [reflexivity|].
  cbn [mapM List.map]. rewrite (H x (or_introl eq_refl)). cbn [bind].
  rewrite IH; [reflexivity|]. intros y Hy. apply H. now right.
Qed.

Lemma mapM_throws {A B : Type} (f : A -> Completion B) (l : list A) :
  (exists x, In x l /\ exists e, f x = Throw e) -> exists e, mapM f l = Throw e.
Proof.
  induction l as [|x r IH]; intros (y & Hy & e & He); [destruct Hy|].
  cbn [mapM]. destruct (f x) as [b|e'] eqn:Hx; cbn [bind]; [|now exists e'].
  destruct Hy as [->|Hy]; [congruence|].
  destruct IH as [e'' ->]; [now exists y; split; [|exists e]|].
  now exists e''.
Qed.

Lemma foldM_normal {A S : Type} (f : S -> A -> Completion S) (g : S -> A -> S)
    (l : list A) (s : S) :
  (forall s x, In x l -> f s x = Normal (g s x)) ->
  AnyRows.foldM f l s = Normal (fold_left g l s).
Proof.
  revert s. induction l as [|x r IH]; intros s H; [reflexivity|].
  cbn [AnyRows.foldM fold_left]. rewrite (H s x (or_introl eq_refl)). cbn [bind].
  apply IH. intros s' y Hy. apply H. now right.
Qed.

Lemma filterM_normal {A : Type} (f : A -> Completion bool) (g : A -> bool) (l : list A) :
  (forall x, In x l -> f x = Normal (g x)) -> AnyRows.filterM f l = Normal (filter g l).
Proof.
  induction l as [|x r IH]; intros H; [reflexivity|].
  cbn [AnyRows.filterM filter]. rewrite (H x (or_introl eq_refl)). cbn [bind].
  rewrite IH; [reflexivity|]. intros y Hy. apply H. now right.
Qed.

Lemma findM_normal {A : Type} (f : A -> Completion bool) (g : A -> bool) (l : list A) :
  (forall x, In x l -> f x = Normal (g x)) -> AnyRows.findM f l = Normal (find g l).
Proof.
  induction l as [|x r IH]; intros H; [reflexivity|].
  cbn [AnyRows.findM find]. rewrite (H x (or_introl eq_refl)). cbn [bind].
  destruct (g x); [reflexivity|]. apply IH. intros y Hy. apply H. now right.
Qed.

Lemma readProp_normal (v : JsVal Number) (k : string) :
  isNullish v = false -> readProp' v k = Normal (ownProp' v k).
Proof. destruct v; (discriminate || reflexivity). Qed.

Lemma readProp_throws (v : JsVal Number) (k : string) :
  isNullish v = true -> exists e, readProp' v k = Throw e.
Proof. destruct v; try discriminate; intros _; eexists; reflexivity. Qed.

Lemma objectKeys_normal (first : JsVal Number) :
  isNullish first = false ->
  AnyRows.objectKeys first = Normal (AnyRows.columnsOf first).
Proof. destruct first; (discriminate || reflexivity). Qed.

Lemma numericColumnsOf_normal (first : JsVal Number) :
  isNullish first = false ->
  AnyRows.numericColumnsOf numberTruthy numberOfNat first (AnyRows.columnsOf first)
  = Normal (AnyRows.numericColumnsFor numberTruthy numberOfNat first).
Proof.
  intros H. apply filterM_normal. intros col _.
  destruct (truthy numberTruthy first); [|reflexivity].
  cbn [negb andb]. now rewrite readProp_normal.
Qed.

Lemma categoricalColumnsOf_normal (first : JsVal Number) :
  isNullish first = false ->
  AnyRows.categoricalColumnsOf numberTruthy numberOfNat first (AnyRows.columnsOf first)
    (timeColumnsOf (AnyRows.columnsOf first))
  = Normal (AnyRows.categoricalColumnsFor numberTruthy numberOfNat first).
Proof.
  intros H. apply filterM_normal. intros col _.
  destruct (truthy numberTruthy first); [|reflexivity].
  cbn [negb andb]. now rewrite readProp_normal.
Qed.

Lemma pieValueColumn_normal (first : JsVal Number) :
  isNullish first = false ->
  AnyRows.pieValueColumn numberOfNat first
    (AnyRows.numericColumnsFor numberTruthy numberOfNat first) (AnyRows.columnsOf first)
  = Normal (AnyRows.pieValueColumnFor numberTruthy numberOfNat first).
Proof.
  intros H. unfold AnyRows.pieValueColumn, AnyRows.pieValueColumnFor.
  destruct (keyTruthy _); [reflexivity|].
  apply findM_normal. intros col _. now rewrite readProp_normal.
Qed.


Lemma existsb_nullish_throws (results : list (JsVal Number)) (k : string) :
  existsb isNullish results = true ->
  exists row, In row results /\ exists e, readProp' row k = Throw e.
Proof.
  intros H. apply existsb_exists in H as (row & Hin & Hrow).
  exists row. split; [assumption|]. now apply readProp_throws.
Qed.

Lemma existsb_nullish_normal (results : list (JsVal Number)) :
  existsb isNullish results = false ->
  forall row, In row results -> isNullish row = false.
Proof.
  intros H row Hin. destruct (isNullish row) eqn:E; [|reflexivity].
  rewrite <- H. symmetry. apply existsb_exists. now exists row.
Qed.

Lemma chartOf_cases (first : JsVal Number) (rest : list (JsVal Number)) (nlQuery : string) :
  isNullish first = false ->
  (mapsTheRows' first (first :: rest) nlQuery = false ->
   chartOf' (first :: rest) nlQuery
   = Normal {| chartType := chartTypeFor' first (first :: rest) nlQuery;
               data := [];
               config := config (@initialChart Number);
               chartConfig := [] |})
  /\ (mapsTheRows' first (first :: rest) nlQuery = true ->
      existsb isNullish (first :: rest) = true ->
      exists e, chartOf' (first :: rest) nlQuery = Throw e)
  /\ (mapsTheRows' first (first :: rest) nlQuery = true ->
      existsb isNullish (first :: rest) = false ->
      exists chart,
        chartOf' (first :: rest) nlQuery = Normal chart
        /\ chartType chart = chartTypeFor' first (first :: rest) nlQuery
        /\ List.length (data chart) = List.length (first :: rest)).
Proof.
  intros Hfirst.
  unfold AnyRows.chartOf. cbn [nth].
  rewrite (objectKeys_normal first Hfirst). cbn [bind].
  rewrite (numericColumnsOf_normal first Hfirst). cbn [bind].
  rewrite (categoricalColumnsOf_normal first Hfirst). cbn [bind].
  unfold AnyRows.mapsTheRows, AnyRows.hasValueColumn.
  fold (chartTypeFor' first (first :: rest) nlQuery).
  fold (AnyRows.xAxisKeyFor numberTruthy numberOfNat first).
  rewrite (pieValueColumn_normal first Hfirst).
  set (type := chartTypeFor' first (first :: rest) nlQuery).
  set (xKey := AnyRows.xAxisKeyFor numberTruthy numberOfNat first).
  set (numericColumns := AnyRows.numericColumnsFor numberTruthy numberOfNat first).
  set (pieColumn := AnyRows.pieValueColumnFor numberTruthy numberOfNat first).
  set (valueColumn := selectValueColumn (toLowerCase nlQuery) numericColumns).
  set (results := first :: rest).
  destruct (String.eqb type "pie") eqn:Hpie.
  - assert (Hmulti : String.eqb type "multibar" = false).
    { apply String.eqb_eq in Hpie. now rewrite Hpie. }
    rewrite Hmulti. cbn [bind].
    destruct (keyTruthy xKey && keyTruthy pieColumn) eqn:Hguard.
    + split; [discriminate|]. split.
      * intros _ Hnull.
        destruct (mapM_throws
                    (fun row => (segment <- readProp' row (keyText xKey) ;;
                                 value <- readProp' row (keyText pieColumn) ;;
                                 Normal [("segment", JString (toString numberToString segment));
                                         ("value", value)])%completion) results) as [e He].
        { destruct (existsb_nullish_throws results (keyText xKey) Hnull)
            as (row & Hin & e & He).
          exists row. split; [assumption|]. exists e. now rewrite He. }
        rewrite He. now exists e.
      * intros _ Hnull.
        pose proof (existsb_nullish_normal results Hnull) as Hrows.
        rewrite (mapM_normal _
                   (fun row => [("segment",
                                 JString (toString numberToString (ownProp' row (keyText xKey))));
                                ("value", ownProp' row (keyText pieColumn))])).
        2:{ intros row Hin. rewrite !readProp_normal by now apply Hrows. reflexivity. }
        cbn [bind].
        rewrite (foldM_normal _
                   (fun cfg row =>
                      setLabel cfg
                        (seriesKey (toString numberToString (ownProp' row (keyText xKey))))
                        (toString numberToString (ownProp' row (keyText xKey))))).
        2:{ intros cfg row Hin. rewrite !readProp_normal by now apply Hrows. reflexivity. }
        cbn [bind]. eexists. split; [reflexivity|].
        match goal with |- context [if ?b then _ else _] => destruct b end;
          cbn [chartType data]; rewrite ?length_map; split; reflexivity.
    + split; [|split; discriminate].
      intros _. cbn [bind data List.length Nat.ltb Nat.leb]. now rewrite andb_false_r.
  - destruct (String.eqb type "multibar") eqn:Hmulti.
    + split; [discriminate|]. split.
      * intros _ Hnull.
        destruct (mapM_throws
                    (fun row => (x <- readProp' row (keyText xKey) ;;
                                 AnyRows.foldM
                                   (fun dataPoint col =>
                                      value <- readProp' row col ;;
                                      Normal (assign dataPoint col value))
                                   numericColumns [(keyText xKey, x)])%completion) results)
          as [e He].
        { destruct (existsb_nullish_throws results (keyText xKey) Hnull)
            as (row & Hin & e & He).
          exists row. split; [assumption|]. exists e. now rewrite He. }
        rewrite He. now exists e.
      * intros _ Hnull.
        pose proof (existsb_nullish_normal results Hnull) as Hrows.
        rewrite (mapM_normal _
                   (fun row =>
                      fold_left (fun dataPoint col => assign dataPoint col (ownProp' row col))
                        numericColumns [(keyText xKey, ownProp' row (keyText xKey))])).
        2:{ intros row Hin. rewrite readProp_normal by now apply Hrows. cbn [bind].
            apply foldM_normal. intros dataPoint col _.
            rewrite readProp_normal by now apply Hrows. reflexivity. }
        cbn [bind]. eexists. split; [reflexivity|].
        match goal with |- context [if ?b then _ else _] => destruct b end;
          cbn [chartType data]; rewrite ?length_map; split; reflexivity.
    + destruct (keyTruthy xKey && negb (isEmpty valueColumn)) eqn:Hguard.
      * split; [discriminate|]. split.
        -- intros _ Hnull.
           destruct (mapM_throws
                       (fun row => (x <- readProp' row (keyText xKey) ;;
                                    value <- readProp' row valueColumn ;;
                                    Normal (assign [(keyText xKey, x)] valueColumn value))%completion)
                       results) as [e He].
           { destruct (existsb_nullish_throws results (keyText xKey) Hnull)
               as (row & Hin & e & He).
             exists row. split; [assumption|]. exists e. now rewrite He. }
           rewrite He. now exists e.
        -- intros _ Hnull.
           pose proof (existsb_nullish_normal results Hnull) as Hrows.
           rewrite (mapM_normal _
                      (fun row => assign [(keyText xKey, ownProp' row (keyText xKey))]
                                    valueColumn (ownProp' row valueColumn))).
           2:{ intros row Hin. rewrite !readProp_normal by now apply Hrows. reflexivity. }
           cbn [bind]. eexists. split; [reflexivity|].
           match goal with |- context [if ?b then _ else _] => destruct b end;
          cbn [chartType data]; rewrite ?length_map; split; reflexivity.
      * split; [|split; discriminate].
        intros _. cbn [bind data List.length Nat.ltb Nat.leb]. now rewrite andb_false_r.
Qed.


Lemma hasValueColumn_mapsTheRows (first : JsVal Number) (results : list (JsVal Number))
    (nlQuery : string) :
  hasValueColumn' first results nlQuery = false ->
  mapsTheRows' first results nlQuery = false.
Proof.
  unfold AnyRows.mapsTheRows. intros H. rewrite H, andb_false_r.
  unfold AnyRows.hasValueColumn in H.
  destruct (String.eqb _ "multibar") eqn:Hmulti; [|reflexivity].
  apply String.eqb_eq in Hmulti. rewrite Hmulti in H. discriminate H.
Qed.

Lemma fold_left_map {A B S : Type} (g : S -> B -> S) (h : A -> B) (l : list A) (s : S) :
  fold_left g (List.map h l) s = fold_left (fun s x => g s (h x)) l s.
Proof. revert s. induction l as [|x r IH]; intros s; [reflexivity|]. apply IH. Qed.

(** On rows that are objects nothing throws, and the function is the one
    of section [PrepareDataForVisualization]. *)
Lemma prepareDataForVisualization_on_objects (rows : list (Obj Number)) (nlQuery : string) :
  prepareAny (List.map JObject rows) nlQuery
  = Normal (prepareDataForVisualization numberToString toLocaleDateString rows nlQuery).
Proof.
  destruct rows as [|row rest]; [reflexivity|].
  unfold AnyRows.prepareDataForVisualization, prepareDataForVisualization.
  cbn [List.map List.length Nat.eqb].
  change (JObject row :: List.map JObject rest) with (List.map (@JObject Number) (row :: rest)).
  set (rows := row :: rest).
  enough (H : chartOf' (List.map JObject rows) nlQuery
              = Normal (buildChart numberToString toLocaleDateString row rows nlQuery))
    by now rewrite H.
  unfold AnyRows.chartOf, buildChart.
  change (nth 0 (List.map JObject rows) JUndefined) with (@JObject Number row).
  cbn [AnyRows.objectKeys bind].
  unfold AnyRows.numericColumnsOf, AnyRows.categoricalColumnsOf.
  rewrite (filterM_normal _ (fun col => isNumber (getProp row col)
                                        && negb (includes (toLowerCase col) "id")
                                        && negb (String.eqb col "key")))
    by (intros; reflexivity).
  cbn [bind].
  rewrite (filterM_normal _ (fun col => isString (getProp row col)
                                        && negb (includes (toLowerCase col) "date")
                                        && negb (member col (timeColumnsOf (keys row)))))
    by (intros; reflexivity).
  cbn [bind].
  fold (numericColumnsOf row (keys row)).
  fold (categoricalColumnsOf row (keys row) (timeColumnsOf (keys row))).
  rewrite length_map.
  set (type := selectChartType _ _ _ _ _).
  set (xKey := selectXAxisKey _ _ _ _).
  assert (Hpie : AnyRows.pieValueColumn numberOfNat (JObject row)
                   (numericColumnsOf row (keys row)) (keys row)
                 = Normal (pieValueColumn row (numericColumnsOf row (keys row)) (keys row))).
  { unfold AnyRows.pieValueColumn, pieValueColumn.
    destruct (keyTruthy _); [reflexivity|].
    apply findM_normal. intros; reflexivity. }
  rewrite Hpie. clear Hpie.
  destruct (String.eqb type "pie").
  - cbn [bind]. destruct (keyTruthy xKey && keyTruthy _); [|reflexivity].
    rewrite (mapM_normal _
               (fun v => [("segment",
                           JString (toString numberToString (ownProp' v (keyText xKey))));
                          ("value", ownProp' v (keyText (pieValueColumn row
                                                    (numericColumnsOf row (keys row))
                                                    (keys row))))])).
    2:{ intros v Hin. apply in_map_iff in Hin as (r & <- & _). reflexivity. }
    cbn [bind].
    rewrite (foldM_normal _
               (fun cfg v =>
                  setLabel cfg
                    (seriesKey (toString numberToString (ownProp' v (keyText xKey))))
                    (toString numberToString (ownProp' v (keyText xKey))))).
    2:{ intros cfg v Hin. apply in_map_iff in Hin as (r & <- & _). reflexivity. }
    cbn [bind]. rewrite map_map, fold_left_map. reflexivity.
  - destruct (String.eqb type "multibar").
    + rewrite (mapM_normal _
                 (fun v =>
                    fold_left (fun dataPoint col => assign dataPoint col (ownProp' v col))
                      (numericColumnsOf row (keys row))
                      [(keyText xKey, ownProp' v (keyText xKey))])).
      2:{ intros v Hin. apply in_map_iff in Hin as (r & <- & _). cbn [AnyRows.readProp bind].
          apply foldM_normal. intros; reflexivity. }
      cbn [bind]. rewrite map_map. reflexivity.
    + destruct (keyTruthy xKey && negb _); [|reflexivity].
      rewrite (mapM_normal _
                 (fun v => assign [(keyText xKey, ownProp' v (keyText xKey))]
                             (selectValueColumn (toLowerCase nlQuery)
                                (numericColumnsOf row (keys row)))
                             (ownProp' v (selectValueColumn (toLowerCase nlQuery)
                                            (numericColumnsOf row (keys row)))))).
      2:{ intros v Hin. apply in_map_iff in Hin as (r & <- & _). reflexivity. }
      cbn [bind]. rewrite map_map. reflexivity.
Qed.

Lemma tryCatch_returns {A : Type} (body : Completion A) (fallback : A) :
  exists a, tryCatch body (fun _ => Normal fallback) = Normal a.
Proof. destruct body as [a|e]; [now exists a|now exists fallback]. Qed.


End AnyRowsFacts.



(** The [catch] clause at work: a row that is [null] makes the body
    throw, at [Object.keys] when it is the first, in [results.map]
    otherwise. *)
Example null_first_row_gives_null :
  AnyRows.prepareDataForVisualization natToString natTruthy natOfNat isoDate
    [JNull; JObject [("store_name", JString "Central"); ("total_sales", JNumber 7)]]
    "sales by store"
  = Normal None.
Proof. reflexivity. Qed.

Example null_later_row_gives_null :
  AnyRows.prepareDataForVisualization natToString natTruthy natOfNat isoDate
    [JObject [("store_name", JString "Central"); ("total_sales", JNumber 7)]; JNull]
    "sales by store"
  = Normal None.
Proof. reflexivity. Qed.

(** ** The status of the reply *)

Section PostFacts.

Context {Number : Type}.
Variable numberToString : Number -> string.
Variable numberTruthy : Number -> bool.
Variables ModelReply Payload : Type.
Variable decodeText : string -> Completion string.
Variable messagesCreate : JsVal Number -> list (JsVal Number) -> Completion ModelReply.
Variable respond : ModelReply -> Completion Payload.

#[local] Abbreviation handle' :=
  (handle numberToString numberTruthy ModelReply Payload
     decodeText messagesCreate respond).
#[local] Abbreviation POST' :=
  (POST numberToString numberTruthy ModelReply Payload
     decodeText messagesCreate respond).
#[local] Abbreviation messagesSent' := (messagesSent numberToString numberTruthy decodeText).

Lemma send_status (model : JsVal Number) (anthropicMessages : list (JsVal Number))
    (response : Response Payload) :
  (reply <- messagesCreate model anthropicMessages ;;
   payload <- respond reply ;;
   Normal {| status := 200; body := ReplyBody Payload payload |})%completion
  = Normal response ->
  status Payload response = 200.
Proof.
  destruct (messagesCreate model anthropicMessages) as [reply|e]; [|discriminate].
  cbn [bind]. destruct (respond reply); [|discriminate].
  cbn [bind]. intros E. now injection E as <-.
Qed.

Lemma handle_normal_status (parsed : Completion (@RequestBody Number))
    (response : Response Payload) :
  handle' parsed = Normal response ->
  status Payload response = 400 \/ status Payload response = 200.
Proof.
  unfold handle. destruct parsed as [request|e]; [|discriminate].
  cbn [bind].
  destruct (negb (truthy numberTruthy (rb_messages request))
            || negb (isArray (rb_messages request)));
    [intros E; injection E as <-; now left|].
  destruct (negb (truthy numberTruthy (modelOrDefault (rb_model request))));
    [intros E; injection E as <-; now left|].
  destruct (convertMessages (rb_messages request)) as [msgs|e]; [|discriminate].
  cbn [bind].
  destruct (rb_fileData request) as [file|].
  - destruct (negb (truthy numberTruthy (base64 file)));
      [intros E; injection E as <-; now left|].
    destruct (attachFile _ _ _ _ _ _) as [msgs'|e];
      [|intros E; injection E as <-; now left].
    intros E. right. exact (send_status _ _ _ E).
  - intros E. right. exact (send_status _ _ _ E).
Qed.

Lemma POST_caught (parsed : Completion (@RequestBody Number)) (error : Thrown) :
  handle' parsed = Throw error ->
  POST' parsed
  = if isAuthenticationError error then
      {| status := 401;
         body := ErrorBody Payload "Authentication Error"
                   (Some "Invalid API key or authentication failed") |}
    else
      {| status := 500;
         body := ErrorBody Payload (messageOr "An unknown error occurred" error) None |}.
Proof. unfold POST. now intros ->. Qed.

Lemma isArray_truthy (v : JsVal Number) :
  isArray v = true -> truthy numberTruthy v = true.
Proof. destruct v; (discriminate || reflexivity). Qed.

(** How far [handle] gets: to the main call with the messages of
    [messagesSent], or else to a reply 400 or an error of
    [messages.map]. *)
Lemma handle_sent (request : @RequestBody Number) (sent : list (JsVal Number)) :
  messagesSent' request = Some sent ->
  handle' (Normal request)
  = (reply <- messagesCreate (modelOrDefault (rb_model request)) sent ;;
     payload <- respond reply ;;
     Normal {| status := 200; body := ReplyBody Payload payload |})%completion.
Proof.
  unfold messagesSent, handle. cbn [bind].
  destruct (isArray (rb_messages request)) eqn:Harr; [|discriminate].
  rewrite (isArray_truthy _ Harr).
  destruct (truthy numberTruthy (modelOrDefault (rb_model request))); [|discriminate].
  cbn [negb orb andb].
  destruct (convertMessages (rb_messages request)) as [msgs|e]; [|discriminate].
  cbn [bind].
  destruct (rb_fileData request) as [file|]; [|now intros [= ->]].
  destruct (truthy numberTruthy (base64 file)); [|discriminate]. cbn [negb].
  destruct (attachFile _ _ _ _ _ _) as [msgs'|e]; [|discriminate].
  now intros [= ->].
Qed.

Lemma handle_not_sent (request : @RequestBody Number) :
  messagesSent' request = None ->
  (exists message, handle' (Normal request) = Normal (badRequest Payload message))
  \/ (exists error,
         convertMessages (rb_messages request) = Throw error
         /\ handle' (Normal request) = Throw error).
Proof.
  unfold messagesSent, handle. cbn [bind].
  destruct (isArray (rb_messages request)) eqn:Harr;
    [|rewrite orb_true_r; intros _; left; eexists; reflexivity].
  rewrite (isArray_truthy _ Harr).
  destruct (truthy numberTruthy (modelOrDefault (rb_model request)));
    [|intros _; left; eexists; reflexivity].
  cbn [negb orb andb].
  destruct (convertMessages (rb_messages request)) as [msgs|e];
    [|intros _; right; eexists; split; reflexivity].
  cbn [bind].
  destruct (rb_fileData request) as [file|]; [|discriminate].
  destruct (truthy numberTruthy (base64 file)); [|intros _; left; eexists; reflexivity]. cbn [negb].
  destruct (attachFile _ _ _ _ _ _) as [msgs'|e]; [discriminate|].
  intros _; left; eexists; reflexivity.
Qed.

Lemma handle_convert_throws (request : @RequestBody Number) (error : Thrown) :
  isArray (rb_messages request) = true ->
  truthy numberTruthy (modelOrDefault (rb_model request)) = true ->
  convertMessages (rb_messages request) = Throw error ->
  handle' (Normal request) = Throw error.
Proof.
  intros Harr Hmodel Hconv. unfold handle. cbn [bind].
  now rewrite (isArray_truthy _ Harr), Harr, Hmodel, Hconv.
Qed.

(** What [messages.map] throws is a [TypeError]. *)
Lemma mapM_thrown {A B : Type} (P : Thrown -> Prop) (f : A -> Completion B) (l : list A) :
  (forall x e, f x = Throw e -> P e) ->
  forall e, mapM f l = Throw e -> P e.
Proof.
  intros Hf. induction l as [|x r IH]; intros e; [discriminate|].
  cbn [mapM]. destruct (f x) as [y|e'] eqn:Hx; cbn [bind].
  - destruct (mapM f r) as [ys|e'']; cbn [bind]; [discriminate|].
    intros [= <-]. now apply IH.
  - intros [= <-]. exact (Hf x e' Hx).
Qed.

Lemma propOf_thrown (v : JsVal Number) (k : string) (e : Thrown) :
  propOf v k = Throw e -> isAuthenticationError e = false.
Proof. destruct v; try discriminate; now intros [= <-]. Qed.

Lemma convertMessages_thrown (messages : JsVal Number) (e : Thrown) :
  convertMessages messages = Throw e -> isAuthenticationError e = false.
Proof.
  apply (mapM_thrown (fun e => isAuthenticationError e = false)).
  intros msg e'. destruct (propOf msg "role") as [role|e1] eqn:H1; cbn [bind].
  - destruct (propOf msg "content") as [content|e2] eqn:H2; cbn [bind]; [discriminate|].
    intros [= <-]. exact (propOf_thrown _ _ _ H2).
  - intros [= <-]. exact (propOf_thrown _ _ _ H1).
Qed.

End PostFacts.

Section PostStatusFacts.

Context {Number : Type}.
Variable numberToString : Number -> string.
Variable numberTruthy : Number -> bool.
Variables ModelReply Payload : Type.
Variable decodeText : string -> Completion string.
Variable messagesCreate : JsVal Number -> list (JsVal Number) -> Completion ModelReply.
Variable respond : ModelReply -> Outcome Payload.

#[local] Abbreviation handle' parsed :=
  (handle numberToString numberTruthy ModelReply Payload
     decodeText messagesCreate (fun reply => completion (respond reply))
     (completion parsed)).
#[local] Abbreviation POST' parsed :=
  (POST numberToString numberTruthy ModelReply Payload
     decodeText messagesCreate (fun reply => completion (respond reply))
     (completion parsed)).
#[local] Abbreviation messagesSent' := (messagesSent numberToString numberTruthy decodeText).
#[local] Abbreviation unauthorized :=
  {| status := 401;
     body := ErrorBody Payload "Authentication Error"
               (Some "Invalid API key or authentication failed") |}.

Lemma completion_thrown {A : Type} (outcome : Outcome A) (e : Thrown) :
  completion outcome = Throw e -> isAuthenticationError e = false.
Proof. destruct outcome as [a|[message|]]; try discriminate; now intros [= <-]. Qed.

(** What the [try] block throws, and where. *)
Lemma handle_thrown (parsed : Outcome (@RequestBody Number)) (error : Thrown) :
  handle' parsed = Throw error ->
  isAuthenticationError error = true ->
  exists request sent,
    parsed = Returned request
    /\ messagesSent' request = Some sent
    /\ messagesCreate (modelOrDefault (rb_model request)) sent = Throw error.
Proof.
  intros Hh Hauth.
  destruct parsed as [request|message].
  - cbn [completion] in Hh.
    destruct (messagesSent' request) as [sent|] eqn:Hsent.
    + rewrite (handle_sent numberToString numberTruthy ModelReply Payload decodeText
               messagesCreate (fun reply => completion (respond reply)) _ _ Hsent) in Hh.
      exists request, sent. split; [reflexivity|]. split; [exact Hsent|].
      destruct (messagesCreate _ sent) as [reply|e]; cbn [bind] in Hh.
      * destruct (respond reply) as [payload|message] eqn:Hr; cbn [completion bind] in Hh;
          [discriminate|].
        assert (H : isAuthenticationError error = false)
          by (destruct message; injection Hh as <-; reflexivity).
        congruence.
      * congruence.
    + destruct (handle_not_sent numberToString numberTruthy ModelReply Payload decodeText
                  messagesCreate (fun reply => completion (respond reply)) _ Hsent)
        as [(message & H)|(e & Hconv & H)].
      * congruence.
      * rewrite H in Hh. injection Hh as <-.
        rewrite (convertMessages_thrown _ _ Hconv) in Hauth. discriminate.
  - unfold handle in Hh. destruct message; cbn [completion bind] in Hh;
      injection Hh as <-; discriminate.
Qed.


Lemma POST_default_model (request : @RequestBody Number) :
  rb_model request = JUndefined ->
  handle' (Returned request)
  = handle' (Returned {| rb_messages := rb_messages request;
                         rb_fileData := rb_fileData request;
                         rb_model := JString "claude-3-haiku-20240307" |}).
Proof.
  intros Hmodel. unfold handle.
  cbn [completion bind rb_messages rb_fileData rb_model].
  rewrite Hmodel. reflexivity.
Qed.

(** C9 (as amended): [POST] answers 400 when [messages] is missing or
    no array, and when [model] is present but falsy.  A request without
    the [model] field is answered as the same request with the model
    ["claude-3-haiku-20240307"]: never with "Model selection is
    required", and with an array of messages and no file never with 400.
    It answers 401 exactly when the main call to the model is made and
    raises an authentication error of the client library, and then with
    the body of that case.  It answers 500 exactly when something else
    fails: parsing the request, [messages.map], the main call with
    another error, or the code after the main call; and the body is then
    [{error: message}] with the message of what was thrown. *)
Theorem POST_status (parsed : Outcome (@RequestBody Number)) :
  (forall request,
      parsed = Returned request ->
      truthy numberTruthy (rb_messages request) = false
      \/ isArray (rb_messages request) = false ->
      POST' parsed = badRequest Payload "Messages array is required")
  /\ (forall request,
         parsed = Returned request ->
         isArray (rb_messages request) = true ->
         rb_model request <> JUndefined ->
         truthy numberTruthy (rb_model request) = false ->
         POST' parsed = badRequest Payload "Model selection is required")
  /\ (forall request,
         parsed = Returned request ->
         rb_model request = JUndefined ->
         POST' parsed
         = POST' (Returned {| rb_messages := rb_messages request;
                              rb_fileData := rb_fileData request;
                              rb_model := JString "claude-3-haiku-20240307" |})
         /\ POST' parsed <> badRequest Payload "Model selection is required"
         /\ (isArray (rb_messages request) = true ->
             rb_fileData request = None ->
             status Payload (POST' parsed) <> 400))
  /\ (status Payload (POST' parsed) = 401
      <-> exists request sent message,
            parsed = Returned request
            /\ messagesSent' request = Some sent
            /\ messagesCreate (modelOrDefault (rb_model request)) sent
               = Throw (ThrownError AuthenticationError message))
  /\ (status Payload (POST' parsed) = 401 -> POST' parsed = unauthorized)
  /\ (status Payload (POST' parsed) = 500
      <-> (exists message, parsed = Raised message)
          \/ exists request,
               parsed = Returned request
               /\ ((isArray (rb_messages request) = true
                    /\ truthy numberTruthy (modelOrDefault (rb_model request)) = true
                    /\ exists error, convertMessages (rb_messages request) = Throw error)
                   \/ exists sent,
                        messagesSent' request = Some sent
                        /\ ((exists error,
                                messagesCreate (modelOrDefault (rb_model request)) sent
                                = Throw error
                                /\ isAuthenticationError error = false)
                            \/ exists reply message,
                                 messagesCreate (modelOrDefault (rb_model request)) sent
                                 = Normal reply
                                 /\ respond reply = Raised message)))
  /\ (forall error,
         handle' parsed = Throw error ->
         isAuthenticationError error = false ->
         POST' parsed
         = {| status := 500;
              body := ErrorBody Payload
                        (messageOr "An unknown error occurred" error) None |}).
Proof.
  pose proof (POST_caught numberToString numberTruthy ModelReply Payload decodeText
                messagesCreate (fun reply => completion (respond reply))
                (completion parsed)) as Hcaught.
  pose proof (handle_normal_status numberToString numberTruthy ModelReply Payload
                decodeText messagesCreate (fun reply => completion (respond reply))
                (completion parsed)) as Hnormal.
  assert (H401 : status Payload (POST' parsed) = 401 ->
                 exists message,
                   handle' parsed = Throw (ThrownError AuthenticationError message)).
  { destruct (handle' parsed) as [response|error] eqn:Hh.
    - unfold POST. rewrite Hh. intros E.
      destruct (Hnormal _ eq_refl) as [H|H]; rewrite H in E; discriminate.
    - rewrite (Hcaught _ eq_refl).
      destruct error as [[|] message|]; try discriminate.
      intros _. now exists message. }
  split; [|split; [|split; [|split; [|split; [|split]]]]].
  - intros request -> H. unfold POST, handle. cbn [completion bind].
    destruct H as [-> | ->]; [reflexivity|].
    now rewrite orb_true_r.
  - intros request -> Harr Hpresent Hfalsy. unfold POST, handle. cbn [completion bind].
    rewrite (isArray_truthy _ _ Harr), Harr. cbn [negb orb].
    destruct (rb_model request) eqn:Hmodel; try congruence;
      cbn [modelOrDefault]; now rewrite Hfalsy.
  - intros request -> Hmodel. split; [|split].
    + unfold POST. now rewrite (POST_default_model request Hmodel).
    + unfold POST, handle. cbn [completion bind]. rewrite Hmodel.
      cbn [modelOrDefault truthy isEmpty negb].
      destruct (negb (truthy numberTruthy (rb_messages request))
                || negb (isArray (rb_messages request))); [discriminate|].
      destruct (convertMessages (rb_messages request)) as [msgs|e]; cbn [bind].
      * assert (Hsend : forall msgs',
                   match
                     (response <- messagesCreate (JString "claude-3-haiku-20240307") msgs' ;;
                      payload <- completion (respond response) ;;
                      Normal {| status := 200; body := ReplyBody Payload payload |})%completion
                   with
                   | Normal response => response
                   | Throw error =>
                       if isAuthenticationError error then unauthorized
                       else {| status := 500;
                               body := ErrorBody Payload
                                         (messageOr "An unknown error occurred" error)
                                         None |}
                   end <> badRequest Payload "Model selection is required").
        { intros msgs'. destruct (messagesCreate _ msgs') as [reply|e]; cbn [bind].
          - destruct (completion (respond reply)); cbn [bind]; [discriminate|].
            destruct (isAuthenticationError e); discriminate.
          - destruct (isAuthenticationError e); discriminate. }
        destruct (rb_fileData request) as [file|]; [|apply Hsend].
        destruct (negb (truthy numberTruthy (base64 file))); [discriminate|].
        destruct (attachFile _ _ _ _ _ _) as [msgs'|e]; [apply Hsend|discriminate].
      * destruct (isAuthenticationError e); discriminate.
    + intros Harr Hfile.
      destruct (handle' (Returned request)) as [response|error] eqn:Hh.
      * unfold POST. rewrite Hh. revert Hh.
        unfold handle. cbn [completion bind].
        rewrite (isArray_truthy _ _ Harr), Harr, Hmodel, Hfile.
        cbn [truthy negb orb modelOrDefault isEmpty].
        destruct (convertMessages _) as [msgs|e]; [|discriminate].
        cbn [bind]. intros E.
        apply send_status in E. rewrite E. discriminate.
      * rewrite (Hcaught _ eq_refl).
        destruct (isAuthenticationError error); discriminate.
  - split.
    + intros E. destruct (H401 E) as (message & Hh).
      destruct (handle_thrown _ _ Hh eq_refl) as (request & sent & -> & Hsent & Hcall).
      now exists request, sent, message.
    + intros (request & sent & message & -> & Hsent & Hcall).
      unfold POST. cbn [completion].
      rewrite (handle_sent numberToString numberTruthy ModelReply Payload decodeText
                 messagesCreate (fun reply => completion (respond reply)) _ _ Hsent).
      now rewrite Hcall.
  - intros E. destruct (H401 E) as (message & Hh). now rewrite (Hcaught _ Hh).
  - split.
    + intros E.
      destruct (handle' parsed) as [response|error] eqn:Hh.
      { unfold POST in E. rewrite Hh in E.
        destruct (Hnormal _ eq_refl) as [H|H]; rewrite H in E; discriminate. }
      assert (Hauth : isAuthenticationError error = false).
      { rewrite (Hcaught _ eq_refl) in E.
        destruct (isAuthenticationError error); [discriminate|reflexivity]. }
      clear E. destruct parsed as [request|message]; [|left; now exists message].
      right. exists request. split; [reflexivity|].
      cbn [completion] in Hh.
      destruct (messagesSent' request) as [sent|] eqn:Hsent.
      * right. exists sent. split; [reflexivity|].
        rewrite (handle_sent numberToString numberTruthy ModelReply Payload decodeText
                   messagesCreate (fun reply => completion (respond reply)) _ _ Hsent)
          in Hh.
        destruct (messagesCreate _ sent) as [reply|e]; cbn [bind] in Hh.
        -- right. exists reply.
           destruct (respond reply) as [payload|message]; [discriminate|].
           now exists message.
        -- left. exists e. split; [reflexivity|congruence].
      * left.
        destruct (handle_not_sent numberToString numberTruthy ModelReply Payload decodeText
                    messagesCreate (fun reply => completion (respond reply)) _ Hsent)
          as [(message & H)|(e & Hconv & H)]; [congruence|].
        rewrite H in Hh. injection Hh as ->. clear Hsent.
        unfold handle in H. cbn [bind] in H.
        destruct (isArray (rb_messages request)) eqn:Harr;
          [|rewrite orb_true_r in H; discriminate H].
        rewrite (isArray_truthy _ _ Harr) in H. cbn [negb orb] in H.
        destruct (truthy numberTruthy (modelOrDefault (rb_model request)));
          [|discriminate H].
        split; [reflexivity|]. split; [reflexivity|]. now exists error.
    + intros [(message & ->)|(request & -> & [(Harr & Hmodel & error & Hconv)
                                              |(sent & Hsent & Hcall)])].
      * unfold POST, handle. now destruct message.
      * pose proof (handle_convert_throws numberToString numberTruthy ModelReply Payload
                      decodeText messagesCreate (fun reply => completion (respond reply))
                      _ _ Harr Hmodel Hconv) as Hh.
        rewrite (Hcaught _ Hh), (convertMessages_thrown _ _ Hconv). reflexivity.
      * unfold POST. cbn [completion].
        rewrite (handle_sent numberToString numberTruthy ModelReply Payload decodeText
                   messagesCreate (fun reply => completion (respond reply)) _ _ Hsent).
        destruct Hcall as [(error & -> & Hauth)|(reply & message & -> & Hraised)];
          cbn [bind].
        -- now rewrite Hauth.
        -- rewrite Hraised. now destruct message.
  - intros error Hh Hauth. now rewrite (Hcaught _ Hh), Hauth.
Qed.

End PostStatusFacts.

Lemma POST_status_witness :
  status unit
    (POST natToString natTruthy unit unit plainDecode rejectingModel
       (fun reply => completion (plainOutcome reply))
       (completion (Returned requestWithPdf))) = 401.
Proof.
  exact (proj2 (proj1 (proj2 (proj2 (proj2
           (POST_status natToString natTruthy unit unit plainDecode rejectingModel
              plainOutcome (Returned requestWithPdf))))))
           (ex_intro _ requestWithPdf
              (ex_intro _ [JObject [("role", JString "user");
                                    ("content", JString "total sales by region")]]
                 (ex_intro _ "invalid x-api-key"
                    (conj eq_refl (conj eq_refl eq_refl)))))).
Defined.

(** An element of [messages] that is [null] makes [messages.map] throw;
    the answer is 500 with the message of the [TypeError]. *)
Example POST_null_message :
  POST natToString natTruthy unit unit plainDecode answeringModel plainRespond
    (Normal {| rb_messages := JArray [JNull];
               rb_fileData := None;
               rb_model := JUndefined |})
  = {| status := 500;
       body := ErrorBody unit "Cannot read properties of null (reading 'role')" None |}.
Proof. reflexivity. Qed.

(** A request that lacks the [model] field is not answered 400: the
    default model is used. *)
Lemma POST_missing_model_counterexample :
  rb_model requestWithoutModel = JUndefined
  /\ status unit
       (POST natToString natTruthy unit unit plainDecode answeringModel plainRespond
          (Normal requestWithoutModel)) = 200.
Proof. split; reflexivity. Qed.

(** ** The column selection of the analyzer *)

Lemma lowerChar_idempotent (c : ascii) : lowerChar (lowerChar c) = lowerChar c.
Proof. destruct c as [[] [] [] [] [] [] [] []]; reflexivity. Qed.

Lemma toLowerCase_idempotent (s : string) : toLowerCase (toLowerCase s) = toLowerCase s.
Proof.
  unfold toLowerCase.
  induction s as [|c s IH]; simpl; [reflexivity|].
  now rewrite lowerChar_idempotent, IH.
Qed.

Lemma prefix_nil (s : string) : String.prefix EmptyString s = true.
Proof. now destruct s. Qed.

Lemma prefix_map (f : ascii -> ascii) (sub s : string) :
  String.prefix sub s = true -> String.prefix (JsString.map f sub) (JsString.map f s) = true.
Proof.
  revert sub. induction s as [|b s IH]; intros [|a sub] H; simpl in *;
    try reflexivity; try discriminate.
  destruct (ascii_dec a b) as [->|]; [|discriminate].
  destruct (ascii_dec (f b) (f b)); [|congruence].
  now apply IH.
Qed.

(** Containment survives [toLowerCase] on both sides. *)
Lemma includes_toLowerCase (s sub : string) :
  includes s sub = true -> includes (toLowerCase s) (toLowerCase sub) = true.
Proof.
  unfold toLowerCase.
  induction s as [|c s IH]; cbn [JsString.map includes]; intros H;
    apply orb_true_iff in H; apply orb_true_iff; destruct H as [H|H].
  - left. exact (prefix_map lowerChar sub EmptyString H).
  - discriminate.
  - left. exact (prefix_map lowerChar sub (String c s) H).
  - right. now apply IH.
Qed.

Module SqlQueryGeneratorFacts.

Import SqlQueryGenerator.

Section Counting.

Variable target : string.

Lemma sumAggregatesOn_app (l l' : list SelectedColumn) :
  sumAggregatesOn target (l ++ l') = sumAggregatesOn target l + sumAggregatesOn target l'.
Proof. unfold sumAggregatesOn. now rewrite filter_app, length_app. Qed.

Lemma sumAggregatesOn_none (l : list SelectedColumn) :
  (forall s, In s l -> isAggregate SUM s = false) ->
  sumAggregatesOn target l = 0.
Proof.
  unfold sumAggregatesOn. intros H.
  induction l as [|s l IH]; [reflexivity|].
  simpl. rewrite (H s (or_introl eq_refl)). simpl.
  apply IH. intros s' Hs'. apply H. now right.
Qed.

Lemma sumAggregatesOn_map_none {A : Type} (f : A -> SelectedColumn) (l : list A) :
  (forall x, isAggregate SUM (f x) = false) ->
  sumAggregatesOn target (List.map f l) = 0.
Proof.
  intros H. apply sumAggregatesOn_none.
  intros s Hs. apply in_map_iff in Hs. destruct Hs as (x & <- & _). apply H.
Qed.

Lemma sumAggregatesOn_positive (l : list SelectedColumn) :
  0 < sumAggregatesOn target l -> existsb (isAggregate SUM) l = true.
Proof.
  unfold sumAggregatesOn.
  induction l as [|s l IH]; simpl; [lia|].
  destruct (isAggregate SUM s); [reflexivity|]. simpl. exact IH.
Qed.

Lemma existsb_SUM_hasAggregate (l : list SelectedColumn) :
  existsb (isAggregate SUM) l = true -> existsb hasAggregate l = true.
Proof.
  induction l as [|s l IH]; simpl; [discriminate|].
  intros H. apply orb_true_iff in H. apply orb_true_iff.
  destruct H as [H|H]; [left | right; now apply IH].
  unfold isAggregate, hasAggregate in *. now destruct (sc_aggregate s).
Qed.

End Counting.

Lemma schema_dbNames_NoDup (table : Table) :
  NoDup (List.map dbName (columns (schemas table))).
Proof.
  destruct table; cbn; repeat (constructor; [cbn; intuition congruence|]); constructor.
Qed.

Lemma filter_nothing {A : Type} (p : A -> bool) (l : list A) :
  (forall x, In x l -> p x = false) -> filter p l = [].
Proof.
  induction l as [|x l IH]; intros H; [reflexivity|].
  simpl. rewrite (H x (or_introl eq_refl)).
  apply IH. intros y Hy. apply H. now right.
Qed.

(** Among columns with distinct stored names, the ones that pass a test
    hold exactly one [SUM] aggregate for a column that passes it. *)
Lemma one_sum_per_column (table : Table) (f : Column -> bool) (l : list Column)
    (c : Column) :
  NoDup (List.map dbName l) -> In c l -> f c = true ->
  sumAggregatesOn (dbName c)
    (List.map (aggregateOf table "total_" SUM) (filter f l)) = 1.
Proof.
  unfold sumAggregatesOn.
  induction l as [|x l IH]; intros Hnd Hin Hf; [contradiction|].
  inversion Hnd as [|? ? Hx Hnd']; subst.
  destruct Hin as [->|Hin].
  - simpl. rewrite Hf. simpl. rewrite String.eqb_refl. simpl. f_equal.
    rewrite filter_nothing; [reflexivity|].
    intros s Hs. apply in_map_iff in Hs. destruct Hs as (y & <- & Hy).
    apply filter_In in Hy. destruct Hy as (Hy & _).
    simpl. apply String.eqb_neq. intros E. apply Hx.
    rewrite <- E. now apply in_map.
  - assert (Hne : String.eqb (dbName x) (dbName c) = false).
    { apply String.eqb_neq. intros E. apply Hx. rewrite E. now apply in_map. }
    simpl. destruct (f x); simpl; [rewrite Hne|]; now apply IH.
Qed.

Section Selected.

Variable simplifiedQuery : string.
Variable mainTable : Table.
Variable c : Column.
Hypothesis total_mentioned : includes simplifiedQuery "total" = true.
Hypothesis known : In c (columns (schemas mainTable)).
Hypothesis numeric : isNumericType c = true.
Hypothesis named : includes simplifiedQuery (toLowerCase (name c)) = true.

Lemma countColumns_no_sum :
  sumAggregatesOn (dbName c) (countColumns simplifiedQuery mainTable) = 0.
Proof.
  unfold countColumns.
  destruct (_ || _); reflexivity.
Qed.

Lemma sumColumns_one :
  sumAggregatesOn (dbName c)
    (sumColumns simplifiedQuery mainTable (countColumns simplifiedQuery mainTable))
  = 1.
Proof.
  unfold sumColumns. rewrite total_mentioned. cbn [orb].
  set (sums := List.map _ (filter _ _)).
  assert (Hone : sumAggregatesOn (dbName c) sums = 1).
  { apply one_sum_per_column.
    - apply schema_dbNames_NoDup.
    - exact known.
    - unfold mentions. now rewrite numeric, named. }
  assert (Hall : sumAggregatesOn (dbName c)
                   (countColumns simplifiedQuery mainTable ++ sums) = 1)
    by (rewrite sumAggregatesOn_app, countColumns_no_sum, Hone; reflexivity).
  rewrite (sumAggregatesOn_positive (dbName c)) by (rewrite Hall; lia).
  exact Hall.
Qed.

Lemma avgColumns_keeps (l : list SelectedColumn) :
  sumAggregatesOn (dbName c) (avgColumns simplifiedQuery mainTable l)
  = sumAggregatesOn (dbName c) l.
Proof.
  unfold avgColumns.
  repeat match goal with
         | |- context [if ?b then _ else _] => destruct b
         end;
    rewrite ?sumAggregatesOn_app, ?sumAggregatesOn_map_none by reflexivity; lia.
Qed.

Lemma mentionedColumns_keeps (l : list SelectedColumn) :
  sumAggregatesOn (dbName c) (mentionedColumns simplifiedQuery mainTable l)
  = sumAggregatesOn (dbName c) l.
Proof.
  unfold mentionedColumns.
  clear known. revert l.
  generalize (columns (schemas mainTable)) as cols.
  induction cols as [|x cols IH]; intros l; [reflexivity|].
  cbn [fold_left]. rewrite IH.
  repeat match goal with
         | |- context [if ?b then _ else _] => destruct b
         end; try reflexivity;
    rewrite sumAggregatesOn_app; cbn; lia.
Qed.

Lemma joinColumns_keeps (joinTable : option Table) (l : list SelectedColumn) :
  sumAggregatesOn (dbName c) (joinColumns simplifiedQuery joinTable l)
  = sumAggregatesOn (dbName c) l.
Proof.
  unfold joinColumns. destruct joinTable; [|reflexivity].
  rewrite sumAggregatesOn_app, sumAggregatesOn_map_none by reflexivity. lia.
Qed.

Lemma defaultColumns_keeps (l : list SelectedColumn) :
  0 < sumAggregatesOn (dbName c) l ->
  defaultColumns mainTable l = l.
Proof.
  unfold defaultColumns. destruct l; [cbn; lia | reflexivity].
Qed.

End Selected.

Lemma determineColumns_one_sum (simplifiedQuery : string) (mainTable : Table)
    (joinTable : option Table) (c : Column) :
  includes simplifiedQuery "total" = true ->
  In c (columns (schemas mainTable)) ->
  isNumericType c = true ->
  includes simplifiedQuery (toLowerCase (name c)) = true ->
  sumAggregatesOn (dbName c)
    (determineColumns simplifiedQuery mainTable joinTable) = 1
  \/ toLowerCase simplifiedQuery <> simplifiedQuery.
Proof.
  intros Htotal Hknown Hnumeric Hnamed.
  destruct (string_dec (toLowerCase simplifiedQuery) simplifiedQuery) as [E|E];
    [left | now right].
  unfold determineColumns. rewrite E.
  assert (H : sumAggregatesOn (dbName c)
                (joinColumns simplifiedQuery joinTable
                   (mentionedColumns simplifiedQuery mainTable
                      (avgColumns simplifiedQuery mainTable
                         (sumColumns simplifiedQuery mainTable
                            (countColumns simplifiedQuery mainTable))))) = 1).
  { rewrite joinColumns_keeps, mentionedColumns_keeps, avgColumns_keeps.
    now apply sumColumns_one. }
  rewrite defaultColumns_keeps with (c := c) by (rewrite H; lia).
  exact H.
Qed.

Lemma selectedColumns_one_sum (userQuery : string) (c : Column) :
  includes (toLowerCase userQuery) "total" = true ->
  In c (columns (schemas (mainTableOf (toLowerCase userQuery)))) ->
  isNumericType c = true ->
  includes (toLowerCase userQuery) (toLowerCase (name c)) = true ->
  sumAggregatesOn (dbName c) (selectedColumns userQuery) = 1.
Proof.
  intros Htotal Hknown Hnumeric Hnamed.
  unfold selectedColumns.
  destruct (determineColumns_one_sum (toLowerCase userQuery)
              (mainTableOf (toLowerCase userQuery))
              (joinTableOf (toLowerCase userQuery)
                 (mainTableOf (toLowerCase userQuery))) c
              Htotal Hknown Hnumeric Hnamed) as [H|H];
    [|now rewrite toLowerCase_idempotent in H].
  rewrite (existsb_SUM_hasAggregate _
             (sumAggregatesOn_positive (dbName c) _ ltac:(rewrite H; lia))).
  rewrite andb_false_r. exact H.
Qed.

(** C3: when the query, read in lower case, holds "total" and the name
    of a numeric column of the table the analyzer settles on, the
    selected columns of the intent hold exactly one [SUM] aggregate on
    that column. A query that holds the two texts as they are written
    is such a query. *)
Theorem total_sums_named_column (userQuery : string) (c : Column) :
  includes userQuery "total" = true
  \/ includes (toLowerCase userQuery) "total" = true ->
  In c (columns (schemas (mainTableOf (toLowerCase userQuery)))) ->
  isNumericType c = true ->
  includes userQuery (name c) = true
  \/ includes (toLowerCase userQuery) (toLowerCase (name c)) = true ->
  sumAggregatesOn (dbName c) (selectedColumns userQuery) = 1.
Proof.
  intros Htotal Hknown Hnumeric Hnamed.
  apply selectedColumns_one_sum; try assumption.
  - destruct Htotal as [H|H]; [|exact H].
    exact (includes_toLowerCase userQuery "total" H).
  - destruct Hnamed as [H|H]; [|exact H].
    now apply includes_toLowerCase.
Qed.

End SqlQueryGeneratorFacts.

(** ** The final normalization pass *)

Section ObjFacts.
Context {Number : Type}.
Implicit Types (o : Obj Number) (k : string) (v : JsVal Number).

Lemma getProp_setProp_same o k v : getProp (setProp o k v) k = v.
Proof.
  induction o as [|[k' v'] o IH]; simpl.
  - now rewrite String.eqb_refl.
  - destruct (String.eqb k' k) eqn:E; simpl; now rewrite E.
Qed.

Lemma getProp_setProp_other o k k' v :
  k <> k' -> getProp (setProp o k v) k' = getProp o k'.
Proof.
  intros Hne. induction o as [|[k0 v0] o IH]; simpl.
  - now rewrite (proj2 (String.eqb_neq k k') Hne).
  - destruct (String.eqb k0 k) eqn:E; simpl.
    + apply String.eqb_eq in E. subst k0.
      now rewrite (proj2 (String.eqb_neq k k') Hne).
    + now rewrite IH.
Qed.

Lemma hasProp_setProp_same o k v : hasProp (setProp o k v) k = true.
Proof.
  unfold hasProp.
  induction o as [|[k' v'] o IH]; simpl.
  - now rewrite String.eqb_refl.
  - destruct (String.eqb k' k) eqn:E; simpl; rewrite E; [reflexivity | exact IH].
Qed.

Lemma setProp_unchanged o k v :
  hasProp o k = true -> getProp o k = v -> setProp o k v = o.
Proof.
  unfold hasProp.
  induction o as [|[k' v'] o IH]; simpl; [discriminate|].
  destruct (String.eqb k' k) eqn:E; simpl.
  - now intros _ ->.
  - intros H1 H2. now rewrite IH.
Qed.
End ObjFacts.

Section Fixed.
Context {Number : Type}.
Variable numberToString : Number -> string.
Variable numberTruthy : Number -> bool.
Variable numberOfNat : nat -> Number.

Lemma draft_eta (d : @Draft Number) :
  {| d_chartType := d_chartType d; d_data := d_data d;
     d_config := d_config d; d_chartConfig := d_chartConfig d |} = d.
Proof. now destruct d. Qed.

Lemma falsy_truthy (v : JsVal Number) :
  truthy numberTruthy v = true -> falsy numberTruthy v = false.
Proof. unfold falsy. now intros ->. Qed.

Lemma ensureField_fixed (k : string) (v : JsVal Number) (d : @Draft Number) :
  truthy numberTruthy (getProp (d_config d) k) = true
  \/ (hasProp (d_config d) k = true /\ getProp (d_config d) k = v) ->
  ensureField numberTruthy k v d = d.
Proof.
  intros [H|[Hhas Hget]]; unfold ensureField.
  - now rewrite (falsy_truthy _ H).
  - destruct (falsy _ _); [|reflexivity].
    rewrite (setProp_unchanged _ _ _ Hhas Hget). apply draft_eta.
Qed.

Lemma length_zero {A} (l : list A) : (List.length l =? 0) = true -> l = [].
Proof. now destruct l. Qed.

Lemma ensureBarSeries_fixed (d : @Draft Number) :
  barSettled d -> ensureBarSeries d = d.
Proof.
  intros H. unfold ensureBarSeries.
  destruct (isChartType "bar" (d_chartType d)) eqn:Hbar; [|reflexivity].
  destruct (List.length (d_chartConfig d) =? 0) eqn:Hlen; [|reflexivity].
  cbn [andb]. now rewrite (H Hbar (length_zero _ Hlen)).
Qed.

Lemma map_indexed_fixed {A : Type} (g : nat -> A -> A) (l : list A) :
  (forall i x, In x l -> g i x = x) ->
  forall n, List.map (fun '(i, x) => g i x) (combine (seq n (List.length l)) l) = l.
Proof.
  induction l as [|x l IH]; intros H n; [reflexivity|].
  cbn [List.length seq combine List.map]. rewrite (H n x (or_introl eq_refl)).
  f_equal. apply IH. intros i y Hy. apply H. now right.
Qed.

Lemma ensureColor_fixed first index key series :
  seriesStable numberTruthy first key series ->
  ensureColor numberTruthy index key series = series.
Proof.
  intros [Hcolor Hkey]. unfold ensureColor.
  rewrite (falsy_truthy _ Hcolor).
  destruct Hkey as [Hkey|(-> & _ & Hhas & Hget)].
  - now rewrite (falsy_truthy _ Hkey).
  - destruct (falsy _ _); [|reflexivity].
    now apply setProp_unchanged.
Qed.

Lemma ensureColors_fixed (d : @Draft Number) :
  Forall (fun entry => seriesStable numberTruthy (firstKey (d_chartConfig d))
                         (fst entry) (snd entry)) (d_chartConfig d) ->
  ensureColors numberTruthy d = d.
Proof.
  intros H. unfold ensureColors, indexed.
  assert (E : List.map (fun '(index, (key, series)) =>
                          (key, ensureColor numberTruthy index key series))
                (combine (seq 0 (List.length (d_chartConfig d))) (d_chartConfig d))
              = d_chartConfig d).
  { etransitivity;
      [|apply (map_indexed_fixed
                 (fun index '(key, series) =>
                    (key, ensureColor numberTruthy index key series))
                 (d_chartConfig d))].
    - apply map_ext. now intros [i [k s]].
    - intros i [k s] Hin. rewrite Forall_forall in H.
      now rewrite (ensureColor_fixed _ i k s (H _ Hin)). }
  unfold withChartConfig. rewrite E. apply draft_eta.
Qed.

Lemma reshapePie_fixed (d : @Draft Number) :
  pieShaped numberTruthy d -> reshapePie numberToString numberTruthy d = d.
Proof.
  unfold reshapePie. intros [H|[H|H]].
  - now rewrite H.
  - rewrite H. now destruct (hasCorrectFormat _).
  - rewrite H. destruct (hasCorrectFormat _); [reflexivity|].
    now destruct (seriesFields _ _).
Qed.

Lemma handlePie_fixed (d : @Draft Number) :
  pieSettled numberTruthy d -> handlePie numberToString numberTruthy d = d.
Proof.
  intros H. unfold handlePie.
  destruct (isChartType "pie" (d_chartType d)) eqn:Hpie; [|reflexivity].
  destruct (H Hpie) as [Hlabel Hshape].
  rewrite (reshapePie_fixed d Hshape). apply ensureField_fixed. now left.
Qed.

Lemma ensureDataKeys_fixed (d : @Draft Number) :
  Forall (fun entry => seriesStable numberTruthy (firstKey (d_chartConfig d))
                         (fst entry) (snd entry)) (d_chartConfig d) ->
  ensureDataKeys numberTruthy d = d.
Proof.
  intros H. unfold ensureDataKeys.
  assert (E : List.map
                (fun '(key, series) =>
                   (key,
                    if falsy numberTruthy (getProp series "dataKey") then
                      match List.map fst (d_chartConfig d) with
                      | first :: _ => setProp series "dataKey" (JString first)
                      | [] => series
                      end
                    else series)) (d_chartConfig d)
              = d_chartConfig d).
  { etransitivity; [apply map_ext_in with (g := fun entry => entry) | apply map_id].
    intros [key series] Hin.
    rewrite Forall_forall in H. destruct (H _ Hin) as [_ Hkey]. cbn [fst snd] in Hkey.
    destruct Hkey as [Hkey|(_ & Hfirst & Hhas & Hget)].
    - now rewrite (falsy_truthy _ Hkey).
    - destruct (falsy _ _); [|reflexivity].
      unfold firstKey in Hfirst.
      destruct (List.map fst (d_chartConfig d)); [reflexivity|].
      subst. now rewrite setProp_unchanged. }
  unfold withChartConfig. rewrite E. apply draft_eta.
Qed.

Lemma normalize_fixed (d : @Draft Number) :
  Stable numberTruthy d ->
  normalize numberToString numberTruthy numberOfNat d = d.
Proof.
  intros (Htype & Hdata & Htitle & Hx & Hbar & Hseries & Hpie & Hmargin).
  unfold normalize, ensureTitle.
  rewrite (ensureField_fixed "title" _ d (or_introl Htitle)).
  unfold ensureXAxisKey. rewrite (ensureField_fixed "xAxisKey" _ d Hx).
  rewrite (ensureBarSeries_fixed d Hbar), (ensureColors_fixed d Hseries),
    (handlePie_fixed d Hpie), (ensureDataKeys_fixed d Hseries).
  apply ensureField_fixed. now left.
Qed.

End Fixed.

Section MoreObjFacts.
Context {Number : Type}.

Lemma hasProp_setProp_other (o : Obj Number) (k k' : string) (v : JsVal Number) :
  k <> k' -> hasProp (setProp o k v) k' = hasProp o k'.
Proof.
  intros Hne. unfold hasProp.
  induction o as [|[k0 v0] o IH]; simpl.
  - now rewrite (proj2 (String.eqb_neq k k') Hne).
  - destruct (String.eqb k0 k) eqn:E; simpl; [reflexivity | now rewrite IH].
Qed.
End MoreObjFacts.

Section Establish.
Context {Number : Type}.
Variable numberToString : Number -> string.
Variable numberTruthy : Number -> bool.
Variable numberOfNat : nat -> Number.

#[local] Abbreviation ensureField' := (ensureField numberTruthy).

(** *** What [ensureField] does *)

Lemma ensureField_frame (k : string) (v : JsVal Number) (d : @Draft Number) :
  d_chartType (ensureField' k v d) = d_chartType d
  /\ d_data (ensureField' k v d) = d_data d
  /\ d_chartConfig (ensureField' k v d) = d_chartConfig d.
Proof. unfold ensureField. now destruct (falsy _ _). Qed.

Lemma ensureField_other (k k' : string) (v : JsVal Number) (d : @Draft Number) :
  k <> k' ->
  getProp (d_config (ensureField' k v d)) k' = getProp (d_config d) k'
  /\ hasProp (d_config (ensureField' k v d)) k' = hasProp (d_config d) k'.
Proof.
  intros Hne. unfold ensureField. destruct (falsy _ _); [|now split].
  cbn [withConfig d_config].
  now rewrite getProp_setProp_other, hasProp_setProp_other.
Qed.

Lemma ensureField_settled (k : string) (v : JsVal Number) (d : @Draft Number) :
  truthy numberTruthy (getProp (d_config (ensureField' k v d)) k) = true
  \/ (hasProp (d_config (ensureField' k v d)) k = true
      /\ getProp (d_config (ensureField' k v d)) k = v).
Proof.
  unfold ensureField, falsy.
  destruct (truthy numberTruthy (getProp (d_config d) k)) eqn:E; cbn [negb].
  - now left.
  - right. cbn [withConfig d_config].
    now rewrite hasProp_setProp_same, getProp_setProp_same.
Qed.

Lemma ensureField_truthy (k : string) (v : JsVal Number) (d : @Draft Number) :
  truthy numberTruthy v = true ->
  truthy numberTruthy (getProp (d_config (ensureField' k v d)) k) = true.
Proof.
  intros Hv. destruct (ensureField_settled k v d) as [H|[_ H]]; [exact H|].
  now rewrite H.
Qed.

(** *** Carrying the invariants from one chart to another *)

Lemma xAxisSettled_transfer (d d' : @Draft Number) :
  d_data d' = d_data d ->
  getProp (d_config d') "xAxisKey" = getProp (d_config d) "xAxisKey" ->
  hasProp (d_config d') "xAxisKey" = hasProp (d_config d) "xAxisKey" ->
  xAxisSettled numberTruthy d -> xAxisSettled numberTruthy d'.
Proof. unfold xAxisSettled. intros -> -> ->. trivial. Qed.

Lemma barSettled_transfer (d d' : @Draft Number) :
  d_chartType d' = d_chartType d ->
  d_data d' = d_data d ->
  getProp (d_config d') "xAxisKey" = getProp (d_config d) "xAxisKey" ->
  (d_chartConfig d' = [] -> d_chartConfig d = []) ->
  barSettled d -> barSettled d'.
Proof. unfold barSettled. intros -> -> -> Hcc H Hbar Hnil. auto. Qed.

Lemma pieShaped_transfer (d d' : @Draft Number) :
  d_data d' = d_data d ->
  getProp (d_config d') "xAxisKey" = getProp (d_config d) "xAxisKey" ->
  pieShaped numberTruthy d -> pieShaped numberTruthy d'.
Proof. unfold pieShaped. intros -> ->. trivial. Qed.

Lemma pieSettled_transfer (d d' : @Draft Number) :
  d_chartType d' = d_chartType d ->
  d_data d' = d_data d ->
  getProp (d_config d') "xAxisKey" = getProp (d_config d) "xAxisKey" ->
  getProp (d_config d') "totalLabel" = getProp (d_config d) "totalLabel" ->
  pieSettled numberTruthy d -> pieSettled numberTruthy d'.
Proof.
  unfold pieSettled. intros -> Hdata Hx -> H Hpie.
  destruct (H Hpie) as [Hlabel Hshape]. split; [exact Hlabel|].
  now apply (pieShaped_transfer d d').
Qed.

(** *** The steps, one after the other *)

Lemma isEmpty_app_right (a b : string) : isEmpty b = false -> isEmpty (a ++ b) = false.
Proof. now destruct a. Qed.

Lemma generatedTitle_truthy (row : Obj Number) :
  truthy numberTruthy (JString (generatedTitle row)) = true.
Proof.
  unfold generatedTitle. cbn [truthy].
  destruct (filter _ (keys row)) as [|metric ?]; [reflexivity|].
  destruct (filter _ (keys row)) as [|category ?]; [reflexivity|].
  now rewrite isEmpty_app_right.
Qed.

Lemma palette_truthy (index : nat) :
  truthy numberTruthy
    (JString (nth (index mod List.length (colorPalette)) colorPalette "")) = true.
Proof.
  assert (H : index mod List.length colorPalette < 10)
    by (apply Nat.mod_upper_bound; discriminate).
  revert H. generalize (index mod List.length (colorPalette)) as m. intros m H.
  do 10 (destruct m as [|m]; [reflexivity|]).
  lia.
Qed.

Lemma ensureColor_colored (index : nat) (key : string) (series : Obj Number) :
  seriesColored numberTruthy key (ensureColor numberTruthy index key series).
Proof.
  unfold ensureColor, seriesColored.
  set (colored := if falsy numberTruthy (getProp series "color") then _ else _).
  assert (Hcolor : truthy numberTruthy (getProp colored "color") = true).
  { subst colored. unfold falsy.
    destruct (truthy numberTruthy (getProp series "color")) eqn:E; cbn [negb];
      [exact E|].
    rewrite getProp_setProp_same. apply palette_truthy. }
  unfold falsy.
  destruct (truthy numberTruthy (getProp colored "dataKey")) eqn:E; cbn [negb].
  - split; [exact Hcolor | now left].
  - rewrite getProp_setProp_other by discriminate.
    rewrite getProp_setProp_same, hasProp_setProp_same.
    split; [exact Hcolor|].
    destruct key as [|c key]; [right; now repeat split | now left].
Qed.

Lemma Forall_map_indexed {A B : Type} (P : B -> Prop) (g : nat * A -> B) (l : list A) :
  (forall i x, P (g (i, x))) ->
  forall n, Forall P (List.map g (combine (seq n (List.length l)) l)).
Proof.
  intros H. induction l as [|x l IH]; intros n; cbn; constructor; auto.
Qed.

Lemma ensureColors_colored (d : @Draft Number) :
  Forall (fun entry => seriesColored numberTruthy (fst entry) (snd entry))
    (d_chartConfig (ensureColors numberTruthy d)).
Proof.
  unfold ensureColors, indexed. cbn [withChartConfig d_chartConfig].
  apply Forall_map_indexed. intros i [key series]. cbn [fst snd].
  apply ensureColor_colored.
Qed.

Lemma map_nil_inv {A B : Type} (f : A -> B) (l : list A) : List.map f l = [] -> l = [].
Proof. now destruct l. Qed.

Lemma ensureColors_nil (d : @Draft Number) :
  d_chartConfig (ensureColors numberTruthy d) = [] -> d_chartConfig d = [].
Proof.
  unfold ensureColors, indexed. cbn [withChartConfig d_chartConfig].
  intros H. apply map_nil_inv in H. now destruct (d_chartConfig d).
Qed.

Lemma ensureBarSeries_settled (d : @Draft Number) :
  barSettled (ensureBarSeries d).
Proof.
  unfold ensureBarSeries, barSettled.
  destruct (isChartType "bar" (d_chartType d)) eqn:Hbar; cbn [andb].
  - destruct (List.length (d_chartConfig d) =? 0) eqn:Hlen.
    + destruct (seriesFields _ _) eqn:Hfields; [intros _ _; exact Hfields|].
      cbn [withChartConfig d_chartConfig]. discriminate.
    + intros _ Hnil. rewrite Hnil in Hlen. discriminate.
  - congruence.
Qed.

Lemma ensureBarSeries_frame (d : @Draft Number) :
  d_chartType (ensureBarSeries d) = d_chartType d
  /\ d_data (ensureBarSeries d) = d_data d
  /\ d_config (ensureBarSeries d) = d_config d.
Proof.
  unfold ensureBarSeries.
  destruct (_ && _); [destruct (seriesFields _ _)|]; now repeat split.
Qed.

Lemma ensureColors_frame (d : @Draft Number) :
  d_chartType (ensureColors numberTruthy d) = d_chartType d
  /\ d_data (ensureColors numberTruthy d) = d_data d
  /\ d_config (ensureColors numberTruthy d) = d_config d.
Proof. now repeat split. Qed.

Lemma bar_is_not_pie (v : JsVal Number) :
  isChartType "bar" v = true -> isChartType "pie" v = false.
Proof.
  destruct v; try discriminate. cbn. intros H.
  apply String.eqb_eq in H. now subst.
Qed.

Lemma reshaped_has_format (xKey valueKey : string) (rows : list (Obj Number)) :
  hasCorrectFormat
    (List.map (fun item => [("segment", getProp item xKey);
                            ("value", getProp item valueKey)]) rows) = true.
Proof. induction rows as [|row rows IH]; [reflexivity | exact IH]. Qed.

Lemma reshapePie_spec (d : @Draft Number) :
  d_chartType (reshapePie numberToString numberTruthy d) = d_chartType d
  /\ pieShaped numberTruthy (reshapePie numberToString numberTruthy d)
  /\ (d_data d <> [] -> d_data (reshapePie numberToString numberTruthy d) <> [])
  /\ (truthy numberTruthy (getProp (d_config d) "title") = true ->
      truthy numberTruthy
        (getProp (d_config (reshapePie numberToString numberTruthy d)) "title") = true)
  /\ (xAxisSettled numberTruthy d ->
      xAxisSettled numberTruthy (reshapePie numberToString numberTruthy d))
  /\ (Forall (fun entry => seriesColored numberTruthy (fst entry) (snd entry))
        (d_chartConfig d) ->
      Forall (fun entry => seriesColored numberTruthy (fst entry) (snd entry))
        (d_chartConfig (reshapePie numberToString numberTruthy d))).
Proof.
  unfold reshapePie.
  destruct (hasCorrectFormat (d_data d)) eqn:Hformat.
  { repeat split; try tauto. now left. }
  destruct (seriesFields _ _) as [|valueKey others] eqn:Hfields.
  { repeat split; try tauto. right. now left. }
  destruct (truthy numberTruthy (getProp (d_config d) "xAxisKey")) eqn:Hx.
  2:{ repeat split; try tauto. right. now right. }
  cbn [d_chartType d_data d_config d_chartConfig].
  split; [reflexivity|]. split; [|split; [|split; [|split]]].
  - left. apply reshaped_has_format.
  - intros Hdata E. apply map_nil_inv in E. contradiction.
  - now rewrite getProp_setProp_other by discriminate.
  - intros _. left. cbn [d_config]. now rewrite getProp_setProp_same.
  - intros _. constructor; [|constructor].
    split; [reflexivity | now left].
Qed.

Lemma handlePie_spec (d : @Draft Number) :
  d_chartType (handlePie numberToString numberTruthy d) = d_chartType d
  /\ pieSettled numberTruthy (handlePie numberToString numberTruthy d)
  /\ (d_data d <> [] -> d_data (handlePie numberToString numberTruthy d) <> [])
  /\ (truthy numberTruthy (getProp (d_config d) "title") = true ->
      truthy numberTruthy
        (getProp (d_config (handlePie numberToString numberTruthy d)) "title") = true)
  /\ (xAxisSettled numberTruthy d ->
      xAxisSettled numberTruthy (handlePie numberToString numberTruthy d))
  /\ (barSettled d -> barSettled (handlePie numberToString numberTruthy d))
  /\ (Forall (fun entry => seriesColored numberTruthy (fst entry) (snd entry))
        (d_chartConfig d) ->
      Forall (fun entry => seriesColored numberTruthy (fst entry) (snd entry))
        (d_chartConfig (handlePie numberToString numberTruthy d))).
Proof.
  unfold handlePie.
  destruct (isChartType "pie" (d_chartType d)) eqn:Hpie.
  2:{ split; [reflexivity|]. split; [unfold pieSettled; congruence|].
      repeat split; tauto. }
  destruct (reshapePie_spec d) as (Htype & Hshape & Hdata & Htitle & Hx & Hcolored).
  set (r := reshapePie numberToString numberTruthy d) in *.
  unfold ensureTotalLabel.
  destruct (ensureField_frame "totalLabel" (JString "Total") r) as (Ft & Fd & Fc).
  destruct (ensureField_other "totalLabel" "xAxisKey" (JString "Total") r
              ltac:(discriminate)) as (Gx & Hasx).
  destruct (ensureField_other "totalLabel" "title" (JString "Total") r
              ltac:(discriminate)) as (Gt & _).
  split; [congruence|]. split; [|split; [|split; [|split; [|split]]]].
  - intros _. split.
    + now apply ensureField_truthy.
    + now apply (pieShaped_transfer r).
  - rewrite Fd. exact Hdata.
  - rewrite Gt. exact Htitle.
  - intros H. apply (xAxisSettled_transfer r); auto.
  - intros _ Hbar. rewrite Ft, Htype in Hbar.
    now rewrite (bar_is_not_pie _ Hbar) in Hpie.
  - rewrite Fc. exact Hcolored.
Qed.

Lemma ensureDataKeys_frame (d : @Draft Number) :
  d_chartType (ensureDataKeys numberTruthy d) = d_chartType d
  /\ d_data (ensureDataKeys numberTruthy d) = d_data d
  /\ d_config (ensureDataKeys numberTruthy d) = d_config d
  /\ (d_chartConfig (ensureDataKeys numberTruthy d) = [] -> d_chartConfig d = []).
Proof.
  repeat split. unfold ensureDataKeys. cbn [withChartConfig d_chartConfig].
  apply map_nil_inv.
Qed.

Lemma ensureDataKeys_firstKey (d : @Draft Number) :
  firstKey (d_chartConfig (ensureDataKeys numberTruthy d)) = firstKey (d_chartConfig d).
Proof.
  unfold ensureDataKeys, firstKey. cbn [withChartConfig d_chartConfig].
  rewrite map_map.
  assert (E : forall g : string * Obj Number -> string * Obj Number,
             (forall entry, fst (g entry) = fst entry) ->
             List.map (fun entry => fst (g entry)) (d_chartConfig d)
             = List.map fst (d_chartConfig d))
    by (intros g Hg; now apply map_ext).
  rewrite E; [reflexivity|]. now intros [key series].
Qed.

Lemma ensureDataKeys_stable (d : @Draft Number) :
  Forall (fun entry => seriesColored numberTruthy (fst entry) (snd entry))
    (d_chartConfig d) ->
  Forall (fun entry =>
            seriesStable numberTruthy
              (firstKey (d_chartConfig (ensureDataKeys numberTruthy d)))
              (fst entry) (snd entry))
    (d_chartConfig (ensureDataKeys numberTruthy d)).
Proof.
  intros H. rewrite ensureDataKeys_firstKey.
  unfold ensureDataKeys. cbn [withChartConfig d_chartConfig].
  apply Forall_map. revert H. apply Forall_impl.
  intros [key series] [Hcolor Hkey]. cbn [fst snd] in *.
  unfold seriesStable, firstKey, falsy.
  destruct Hkey as [Hkey | (-> & Hhas & Hget)].
  - rewrite Hkey. cbn [negb]. split; [exact Hcolor | now left].
  - rewrite Hget. cbn [truthy isEmpty negb].
    destruct (List.map fst (d_chartConfig d)) as [|first others].
    + split; [exact Hcolor|]. right. now repeat split.
    + rewrite getProp_setProp_other by discriminate.
      rewrite getProp_setProp_same, hasProp_setProp_same.
      split; [exact Hcolor|].
      destruct first as [|c first]; [right; now repeat split | now left].
Qed.

Lemma normalize_stable (d : @Draft Number) :
  truthy numberTruthy (d_chartType d) = true ->
  d_data d <> [] ->
  Stable numberTruthy (normalize numberToString numberTruthy numberOfNat d).
Proof.
  intros Htype Hdata. unfold normalize.
  (* title *)
  set (d1 := ensureTitle numberTruthy d).
  destruct (ensureField_frame "title" (JString (generatedTitle (firstRow (d_data d)))) d)
    as (T1 & D1 & _).
  fold (ensureTitle numberTruthy d) in T1, D1. fold d1 in T1, D1.
  assert (Title1 : truthy numberTruthy (getProp (d_config d1) "title") = true)
    by (apply ensureField_truthy, generatedTitle_truthy).
  (* x axis *)
  set (d2 := ensureXAxisKey numberTruthy d1).
  destruct (ensureField_frame "xAxisKey" (generatedXAxisKey (firstRow (d_data d1))) d1)
    as (T2 & D2 & _).
  fold (ensureXAxisKey numberTruthy d1) in T2, D2. fold d2 in T2, D2.
  assert (Title2 : truthy numberTruthy (getProp (d_config d2) "title") = true).
  { unfold d2, ensureXAxisKey.
    now rewrite (proj1 (ensureField_other "xAxisKey" "title" _ d1 ltac:(discriminate))). }
  assert (X2 : xAxisSettled numberTruthy d2).
  { unfold xAxisSettled. rewrite D2.
    apply (ensureField_settled "xAxisKey" (generatedXAxisKey (firstRow (d_data d1))) d1). }
  (* bar series *)
  set (d3 := ensureBarSeries d2).
  destruct (ensureBarSeries_frame d2) as (T3 & D3 & C3). fold d3 in T3, D3, C3.
  assert (B3 : barSettled d3) by apply ensureBarSeries_settled.
  assert (Title3 : truthy numberTruthy (getProp (d_config d3) "title") = true)
    by now rewrite C3.
  assert (X3 : xAxisSettled numberTruthy d3)
    by (apply (xAxisSettled_transfer d2); now rewrite ?C3).
  (* colors *)
  set (d4 := ensureColors numberTruthy d3).
  destruct (ensureColors_frame d3) as (T4 & D4 & C4). fold d4 in T4, D4, C4.
  assert (Col4 := ensureColors_colored d3). fold d4 in Col4.
  assert (B4 : barSettled d4).
  { apply (barSettled_transfer d3); rewrite ?C4; auto. apply ensureColors_nil. }
  assert (Title4 : truthy numberTruthy (getProp (d_config d4) "title") = true)
    by now rewrite C4.
  assert (X4 : xAxisSettled numberTruthy d4)
    by (apply (xAxisSettled_transfer d3); now rewrite ?C4).
  (* pie *)
  set (d5 := handlePie numberToString numberTruthy d4).
  destruct (handlePie_spec d4) as (T5 & P5 & D5 & Title5 & X5 & B5 & Col5).
  fold d5 in T5, P5, D5, Title5, X5, B5, Col5.
  (* data keys *)
  set (d6 := ensureDataKeys numberTruthy d5).
  destruct (ensureDataKeys_frame d5) as (T6 & D6 & C6 & N6). fold d6 in T6, D6, C6, N6.
  assert (S6 := ensureDataKeys_stable d5 (Col5 Col4)). fold d6 in S6.
  (* margin *)
  unfold ensureMargin.
  destruct (ensureField_frame "margin" (defaultMargin numberOfNat) d6) as (T7 & D7 & C7).
  destruct (ensureField_other "margin" "title" (defaultMargin numberOfNat) d6
              ltac:(discriminate)) as (Gt & _).
  destruct (ensureField_other "margin" "xAxisKey" (defaultMargin numberOfNat) d6
              ltac:(discriminate)) as (Gx & Hx).
  destruct (ensureField_other "margin" "totalLabel" (defaultMargin numberOfNat) d6
              ltac:(discriminate)) as (Gl & _).
  set (d7 := ensureField numberTruthy "margin" (defaultMargin numberOfNat) d6) in *.
  assert (Hdata4 : d_data d4 <> []) by congruence.
  unfold Stable. split; [congruence|]. split; [rewrite D7, D6; auto|].
  split; [rewrite Gt, C6; auto|].
  split; [apply (xAxisSettled_transfer d5); rewrite ?Gx, ?Hx, ?C6, ?D7, ?D6; auto|].
  split.
  { apply (barSettled_transfer d5); rewrite ?Gx, ?C6, ?D7, ?D6, ?T7, ?T6, ?C7; auto. }
  split; [rewrite C7; exact S6|].
  split.
  { apply (pieSettled_transfer d5); rewrite ?Gx, ?Gl, ?C6, ?D7, ?D6, ?T7, ?T6; auto. }
  apply ensureField_truthy. reflexivity.
Qed.

End Establish.

Section NormalizationFacts.

Context {Number : Type}.
Variable numberToString : Number -> string.
Variable numberTruthy : Number -> bool.
Variable numberOfNat : nat -> Number.

Lemma prepared_chart_is_fixed (d : @Draft Number) :
  Stable numberTruthy d ->
  prepareChartDataForFrontend numberToString numberTruthy numberOfNat (Some (finish d))
  = Some (finish d).
Proof.
  intros Hstable.
  assert (Hfixed := normalize_fixed numberToString numberTruthy numberOfNat d Hstable).
  destruct Hstable as (Htype & Hdata & _).
  unfold prepareChartDataForFrontend. cbn [finish fc_chartType fc_data fc_config
                                             fc_chartConfig].
  rewrite (falsy_truthy numberTruthy _ Htype).
  destruct (d_data d) as [|row rows] eqn:Hrows; [contradiction|].
  rewrite <- Hrows, draft_eta. now rewrite Hfixed.
Qed.

(** C5: the final normalization pass is idempotent: running it on its
    own result gives that result back, field for field; [null] stays
    [null]. *)
Theorem prepareChartDataForFrontend_idempotent (chartData : option (@FrontChart Number)) :
  prepareChartDataForFrontend numberToString numberTruthy numberOfNat
    (prepareChartDataForFrontend numberToString numberTruthy numberOfNat chartData)
  = prepareChartDataForFrontend numberToString numberTruthy numberOfNat chartData.
Proof.
  destruct chartData as [chart|]; [|reflexivity].
  unfold prepareChartDataForFrontend at 2 3.
  destruct (fc_data chart) as [[|row rows]|]; try reflexivity.
  apply prepared_chart_is_fixed, normalize_stable.
  - cbn [d_chartType]. unfold falsy.
    now destruct (truthy numberTruthy (fc_chartType chart)) eqn:E.
  - discriminate.
Qed.

End NormalizationFacts.

Lemma total_sums_named_column_witness :
  SqlQueryGenerator.sumAggregatesOn "quantity"
    (SqlQueryGenerator.selectedColumns "Total quantity by product") = 1.
Proof.
  refine (SqlQueryGeneratorFacts.total_sums_named_column "Total quantity by product"
            (SqlQueryGenerator.col "quantity" "int" "Quantity of the product sold" false)
            (or_intror eq_refl) _ eq_refl (or_intror eq_refl)).
  vm_compute. do 9 right. left. reflexivity.
Defined.

(** * Further properties *)

(** ** Placeholders left over *)

Lemma replaceFirst_count (by_ s : string) :
  countChar "?" by_ = 0 ->
  countChar "?" (replaceFirst "?" by_ s) = countChar "?" s - 1.
Proof.
  intros Hby. induction s as [|x s IH]; [reflexivity|].
  cbn [replaceFirst countChar].
  destruct (Ascii.eqb x "?") eqn:E.
  - rewrite countChar_app, Hby. cbn. lia.
  - cbn [countChar]. now rewrite E, IH.
Qed.

Lemma replaceFirst_nothing (by_ s : string) :
  countChar "?" s = 0 -> replaceFirst "?" by_ s = s.
Proof.
  induction s as [|x s IH]; [reflexivity|].
  cbn [replaceFirst countChar].
  destruct (Ascii.eqb x "?"); [discriminate|].
  intros H. now rewrite IH.
Qed.

Section LeftoverPlaceholders.

Context {Number : Type}.

Lemma substituteFrom_count (params : list (JsVal Number)) :
  forall i text,
    countChar "?" (substituteFrom i params text)
    = countChar "?" text - List.length params.
Proof.
  induction params as [|p params IH]; intros i text.
  - cbn. lia.
  - rewrite substituteFrom_cons, IH, replaceFirst_count
      by apply marker_without_placeholder.
    cbn [List.length]. lia.
Qed.

Lemma substituteFrom_nothing (params : list (JsVal Number)) :
  forall i text,
    countChar "?" text = 0 -> substituteFrom i params text = text.
Proof.
  induction params as [|p params IH]; intros i text H; [reflexivity|].
  rewrite substituteFrom_cons, replaceFirst_nothing by assumption.
  now apply IH.
Qed.

(** X1: every parameter uses up at most one placeholder: the prepared
    text holds as many [?] as the query text has beyond the number of
    parameters, and a text without [?] is sent as it is, however many
    parameters come with it. *)
Theorem preparedQuery_leftover (queryText : string) (params : list (JsVal Number)) :
  countChar "?" (preparedQuery queryText params)
  = countChar "?" queryText - List.length params
  /\ (countChar "?" queryText = 0 -> preparedQuery queryText params = queryText).
Proof.
  split.
  - apply substituteFrom_count.
  - apply substituteFrom_nothing.
Qed.

End LeftoverPlaceholders.

Lemma preparedQuery_leftover_witness :
  preparedQuery "SELECT GETDATE() as now" [JNumber 1; JString "x"]
  = "SELECT GETDATE() as now".
Proof.
  exact (proj2 (preparedQuery_leftover (Number := nat) "SELECT GETDATE() as now"
                  [JNumber 1; JString "x"]) eq_refl).
Defined.

(** ** The health check *)

Section HealthCheckFacts.

Context {Number : Type}.
Variable poolFailure : option Thrown.
Variable requestQuery :
  list (string * JsVal Number) -> string -> Completion (@QueryResult Number).

Lemma checkDatabaseConnection_run :
  checkDatabaseConnection poolFailure requestQuery
  = Normal
      match poolFailure with
      | Some e => Disconnected e
      | None =>
          match requestQuery [] "SELECT GETDATE() as now" with
          | Normal result =>
              match firstRecord result with
              | Normal row => Connected (getProp row "now")
              | Throw e => Disconnected e
              end
          | Throw e => Disconnected e
          end
      end.
Proof.
  unfold checkDatabaseConnection, query.
  destruct poolFailure as [e|]; [reflexivity|].
  rewrite rethrow_is_identity.
  change (preparedQuery "SELECT GETDATE() as now" (@nil (JsVal Number)))
    with "SELECT GETDATE() as now".
  change (requestInputs (@nil (JsVal Number))) with (@nil (string * JsVal Number)).
  destruct (requestQuery [] "SELECT GETDATE() as now") as [result|e]; [|reflexivity].
  cbn [bind]. now destruct (firstRecord result).
Qed.

(** X2: [checkDatabaseConnection] never throws. It reports a connection,
    with the [now] field of the first record as time stamp, exactly when
    the pool is there and the probe, sent without inputs as
    [SELECT GETDATE() as now], comes back with at least one record; every
    failure, a record set without records included, is reported as
    disconnected. *)
Theorem checkDatabaseConnection_reports :
  (exists status, checkDatabaseConnection poolFailure requestQuery = Normal status)
  /\ (forall timestamp,
         checkDatabaseConnection poolFailure requestQuery = Normal (Connected timestamp)
         <-> poolFailure = None
             /\ exists row others,
                 requestQuery [] "SELECT GETDATE() as now"
                 = Normal {| recordset := Some (row :: others) |}
                 /\ timestamp = getProp row "now").
Proof.
  rewrite checkDatabaseConnection_run.
  split; [eexists; reflexivity|]. intros timestamp.
  destruct poolFailure as [e|];
    [split; [discriminate | intros [H _]; discriminate]|].
  destruct (requestQuery [] "SELECT GETDATE() as now") as [[[[|row others]|]]|e];
    cbn [firstRecord recordset]; split;
    try discriminate;
    try (intros (_ & row' & others' & E & _); discriminate).
  - intros E. injection E as <-. split; [reflexivity|]. now exists row, others.
  - intros (_ & row' & others' & E & ->). now injection E as <- _.
Qed.

End HealthCheckFacts.

(** ** Transactions *)

Section TransactionFacts.

Context {T : Type}.
Variables begin commit rollback : Completion unit.
Variable callback : Completion T.

(** With a pool at hand. *)
Lemma executeTransaction_with_pool (trace : list TransactionCall) :
  let run := executeTransaction None begin commit rollback callback trace in
  (forall result,
      fst run = Normal result
      <-> (exists u, begin = Normal u) /\ callback = Normal result
          /\ (exists u, commit = Normal u))
  /\ (forall result,
         fst run = Normal result ->
         snd run = (trace ++ [TxBegin; TxCallback; TxCommit])%list)
  /\ (forall error,
         fst run = Throw error ->
         (exists calls,
             snd run = (trace ++ calls ++ [TxRollback])%list
             /\ ~ In TxRollback calls
             /\ (In TxCallback calls -> exists u, begin = Normal u))
         /\ (forall error', rollback = Throw error' -> error = error')
         /\ (forall u,
                rollback = Normal u ->
                begin = Throw error \/ callback = Throw error \/ commit = Throw error)).
Proof.
  unfold executeTransaction, tracedCatch, tracedBind, perform, tracedRet, tracedThrow.
  cbn zeta.
  destruct begin as [[]|eb]; [destruct callback as [r|ec]; [destruct commit as [[]|em]|]|];
    destruct rollback as [[]|er]; cbn [fst snd];
    rewrite <- ?app_assoc; cbn [app];
    (split; [|split]).
  all: try (intros result; split;
            [ intros E; try discriminate; injection E as <-;
              repeat split; eexists; reflexivity
            | intros ((u & Hb) & Hc & (u' & Hm)); congruence ]).
  all: try (intros result E; first [discriminate | reflexivity]).
  all: intros error E; try discriminate; injection E as <-.
  all: split; [|split; [intros error' E'; congruence
                       |intros u E'; try discriminate; tauto]].
  - exists [TxBegin; TxCallback; TxCommit]. split; [reflexivity|]. split.
    + cbn. intuition discriminate.
    + intros _. now exists tt.
  - exists [TxBegin; TxCallback; TxCommit]. split; [reflexivity|]. split.
    + cbn. intuition discriminate.
    + intros _. now exists tt.
  - exists [TxBegin; TxCallback]. split; [reflexivity|]. split.
    + cbn. intuition discriminate.
    + intros _. now exists tt.
  - exists [TxBegin; TxCallback]. split; [reflexivity|]. split.
    + cbn. intuition discriminate.
    + intros _. now exists tt.
  - exists [TxBegin]. split; [reflexivity|]. split.
    + cbn. intuition discriminate.
    + cbn. intuition discriminate.
  - exists [TxBegin]. split; [reflexivity|]. split.
    + cbn. intuition discriminate.
    + cbn. intuition discriminate.
Qed.

(** X3: [executeTransaction] returns the callback's result exactly when
    [getPool] succeeds and [begin], the callback and [commit] all succeed,
    and then it has made these three calls and no [rollback].  When
    [getPool] fails it throws that error without any call on the
    transaction, hence without [rollback].  In every other case it throws
    after exactly one [rollback], made last, and the callback has run
    only if [begin] succeeded; the error thrown is the one of the failing
    call, unless the [rollback] itself throws: then it is the error of
    the [rollback]. *)
Theorem executeTransaction_commits_or_rolls_back (poolFailure : option Thrown)
    (trace : list TransactionCall) :
  let run := executeTransaction poolFailure begin commit rollback callback trace in
  (forall result,
      fst run = Normal result
      <-> poolFailure = None
          /\ (exists u, begin = Normal u) /\ callback = Normal result
          /\ (exists u, commit = Normal u))
  /\ (forall result,
         fst run = Normal result ->
         snd run = (trace ++ [TxBegin; TxCallback; TxCommit])%list)
  /\ (forall error,
         poolFailure = Some error -> run = (Throw error, trace))
  /\ (forall error,
         fst run = Throw error ->
         poolFailure = Some error
         \/ (poolFailure = None
             /\ (exists calls,
                    snd run = (trace ++ calls ++ [TxRollback])%list
                    /\ ~ In TxRollback calls
                    /\ (In TxCallback calls -> exists u, begin = Normal u))
             /\ (forall error', rollback = Throw error' -> error = error')
             /\ (forall u,
                    rollback = Normal u ->
                    begin = Throw error \/ callback = Throw error
                    \/ commit = Throw error))).
Proof.
  destruct poolFailure as [e|].
  - cbn. split; [|split; [|split]].
    + intros result. split; [discriminate|]. now intros [H _].
    + discriminate.
    + now intros error [= ->].
    + intros error [= ->]. now left.
  - destruct (executeTransaction_with_pool trace) as (Hreturns & Hcalls & Hthrows).
    cbn zeta in *. split; [|split; [|split]].
    + intros result. split.
      * intros H. split; [reflexivity|]. now apply Hreturns.
      * intros [_ H]. now apply Hreturns.
    + exact Hcalls.
    + discriminate.
    + intros error H. right. split; [reflexivity|]. now apply Hthrows.
Qed.

End TransactionFacts.

Lemma executeTransaction_commits_or_rolls_back_witness :
  executeTransaction (Some (ThrownError PlainError "Failed to connect"))
    (Normal tt) (Normal tt) (Normal tt) (Normal 7) []
  = (Throw (ThrownError PlainError "Failed to connect"), []).
Proof.
  exact (proj1 (proj2 (proj2 (executeTransaction_commits_or_rolls_back
                                (Normal tt) (Normal tt) (Normal tt) (Normal 7)
                                (Some (ThrownError PlainError "Failed to connect")) [])))
           (ThrownError PlainError "Failed to connect") eq_refl).
Defined.

(** A transaction that commits, and one whose callback fails. *)
Example executeTransaction_commits :
  executeTransaction None (Normal tt) (Normal tt) (Normal tt) (Normal 7) []
  = (Normal 7, [TxBegin; TxCallback; TxCommit]).
Proof. reflexivity. Qed.

Example executeTransaction_rolls_back :
  executeTransaction None (Normal tt) (Normal tt) (Normal tt)
    (Throw (ThrownError PlainError "Violation of PRIMARY KEY constraint") : Completion nat)
    []
  = (Throw (ThrownError PlainError "Violation of PRIMARY KEY constraint"),
     [TxBegin; TxCallback; TxRollback]).
Proof. reflexivity. Qed.

(** ** The CSV export *)

Lemma countChar_join (c : ascii) (sep : string) (cells : list string) :
  countChar c sep = 1 ->
  Forall (fun cell => countChar c cell = 0) cells ->
  countChar c (join sep cells) = List.length cells - 1.
Proof.
  intros Hsep H. induction H as [|cell cells Hcell H IH]; [reflexivity|].
  destruct cells as [|next cells]; [cbn; rewrite Hcell; reflexivity|].
  change (join sep (cell :: next :: cells))
    with (cell ++ sep ++ join sep (next :: cells)).
  rewrite !countChar_app, Hcell, Hsep, IH. cbn [List.length]. lia.
Qed.

Lemma countChar_join_free (c : ascii) (sep : string) (cells : list string) :
  countChar c sep = 0 ->
  Forall (fun cell => countChar c cell = 0) cells ->
  countChar c (join sep cells) = 0.
Proof.
  intros Hsep H. induction H as [|cell cells Hcell H IH]; [reflexivity|].
  destruct cells as [|next cells]; [exact Hcell|].
  change (join sep (cell :: next :: cells))
    with (cell ++ sep ++ join sep (next :: cells)).
  now rewrite !countChar_app, Hcell, Hsep, IH.
Qed.

Lemma includes_char_count (c : ascii) (s : string) :
  countChar c s = 0 -> includes s (String c EmptyString) = false.
Proof.
  induction s as [|x s IH]; [reflexivity|].
  cbn [countChar includes String.prefix].
  destruct (Ascii.eqb x c) eqn:E; [discriminate|].
  intros H. rewrite (IH H), orb_false_r.
  destruct (ascii_dec c x) as [->|]; [|reflexivity].
  now rewrite Ascii.eqb_refl in E.
Qed.

(** Splitting at a separator undoes joining pieces that are free of it. *)
Lemma split_free (c : ascii) (s : string) :
  countChar c s = 0 -> split c s = [s].
Proof.
  induction s as [|x s IH]; [reflexivity|].
  cbn [countChar split]. destruct (Ascii.eqb x c); [discriminate|].
  intros H. now rewrite (IH H).
Qed.

Lemma split_app (c : ascii) (s rest : string) :
  countChar c s = 0 ->
  split c (s ++ String c rest) = s :: split c rest.
Proof.
  induction s as [|x s IH]; intros H.
  - cbn [append split]. now rewrite Ascii.eqb_refl.
  - cbn [countChar] in H. cbn [append split].
    destruct (Ascii.eqb x c); [discriminate|].
    now rewrite (IH H).
Qed.

Lemma split_join (c : ascii) (pieces : list string) :
  pieces <> [] ->
  Forall (fun piece => countChar c piece = 0) pieces ->
  split c (join (String c EmptyString) pieces) = pieces.
Proof.
  intros Hne H. induction H as [|piece pieces Hpiece H IH]; [contradiction|].
  destruct pieces as [|next pieces]; [now apply split_free|].
  change (join (String c EmptyString) (piece :: next :: pieces))
    with (piece ++ String c (join (String c EmptyString) (next :: pieces))).
  rewrite (split_app c piece _ Hpiece), IH; [reflexivity|discriminate].
Qed.

Section ConvertToCSVFacts.

Context {Number : Type}.
Variable numberToString : Number -> string.

Lemma csvCell_plain (c : ascii) (value : JsVal Number) :
  countChar "," (toString numberToString value) = 0 ->
  countChar c (toString numberToString value) = 0 ->
  countChar c (csvCell numberToString value) = 0.
Proof.
  destruct value; try (intros _ H; exact H); try reflexivity.
  cbn [csvCell toString]. intros H Hc.
  now rewrite (includes_char_count "," s H).
Qed.

(** X4: the CSV text of empty data is empty.  For data that is not
    empty, as long as no header and no value, in its [String] form, holds
    a comma or a line feed, the lines of the returned text are the joined
    headers followed by one record for every row, so there is one line
    more than there are rows, and every line has one comma less than
    there are headers, whichever keys the row itself has. *)
Theorem convertToCSV_records (first : Obj Number) (others : list (Obj Number)) :
  convertToCSV numberToString [] = EmptyString
  /\ (Forall (fun header => countChar "," header = 0 /\ countChar lineFeed header = 0)
        (keys first) ->
      (forall row header,
          In row (first :: others) -> In header (keys first) ->
          countChar "," (toString numberToString (getProp row header)) = 0
          /\ countChar lineFeed (toString numberToString (getProp row header)) = 0) ->
      linesOf (convertToCSV numberToString (first :: others))
      = join "," (keys first)
        :: List.map (csvRecord numberToString (keys first)) (first :: others)
      /\ List.length (linesOf (convertToCSV numberToString (first :: others)))
         = 2 + List.length others
      /\ Forall (fun line => countChar "," line = List.length (keys first) - 1)
           (linesOf (convertToCSV numberToString (first :: others)))).
Proof.
  split; [reflexivity|].
  intros Hheaders Hvalues.
  assert (Hlines : linesOf (convertToCSV numberToString (first :: others))
                   = csvRows numberToString first (first :: others)).
  { unfold linesOf, convertToCSV. apply split_join; [discriminate|].
    unfold csvRows. constructor.
    - apply countChar_join_free; [reflexivity|].
      eapply Forall_impl; [|exact Hheaders]. now intros header [_ H].
    - apply Forall_map, Forall_forall. intros row Hrow.
      unfold csvRecord. apply countChar_join_free; [reflexivity|].
      apply Forall_map, Forall_forall. intros header Hheader.
      destruct (Hvalues row header Hrow Hheader) as [Hcomma Hfeed].
      now apply csvCell_plain. }
  rewrite Hlines. split; [reflexivity|]. split.
  - unfold csvRows. cbn [List.length]. now rewrite length_map.
  - unfold csvRows. constructor.
    + apply countChar_join; [reflexivity|].
      eapply Forall_impl; [|exact Hheaders]. now intros header [H _].
    + apply Forall_map, Forall_forall. intros row Hrow.
      unfold csvRecord. rewrite countChar_join; [now rewrite length_map|reflexivity|].
      apply Forall_map, Forall_forall. intros header Hheader.
      destruct (Hvalues row header Hrow Hheader) as [Hcomma Hfeed].
      now apply csvCell_plain.
Qed.

End ConvertToCSVFacts.

Lemma convertToCSV_records_witness :
  linesOf (convertToCSV natToString twoCountryRows)
  = ["country,total_sales"; "Australia,120"; "Japan,95"].
Proof.
  refine (proj1 (proj2 (convertToCSV_records natToString
            [("country", JString "Australia"); ("total_sales", JNumber 120)]
            [[("country", JString "Japan"); ("total_sales", JNumber 95)]]) _ _)).
  - repeat constructor.
  - intros row header [<-|[<-|[]]] [<-|[<-|[]]]; split; reflexivity.
Defined.

(** A value with a line feed spreads over two lines, and a header with
    a comma is not quoted. *)
Example convertToCSV_line_feed_in_value :
  linesOf (convertToCSV natToString [[("note", JString ("open" ++ newline ++ "late"))]])
  = ["note"; "open"; "late"].
Proof. reflexivity. Qed.

Example convertToCSV_comma_in_header :
  convertToCSV natToString [[("city,state", JString "Austin")]]
  = "city,state" ++ newline ++ "Austin".
Proof. reflexivity. Qed.

(** ** The shape of the charts built from rows *)

Section ObjectKeyFacts.

Context {Number : Type}.

Lemma hasProp_setProp_keeps (o : Obj Number) (k k' : string) (v : JsVal Number) :
  hasProp o k' = true -> hasProp (setProp o k v) k' = true.
Proof.
  unfold hasProp. induction o as [|[k0 v0] o IH]; [discriminate|].
  cbn [setProp existsb fst]. intros H.
  destruct (String.eqb k0 k) eqn:E; cbn [existsb fst].
  - exact H.
  - apply orb_true_iff in H. apply orb_true_iff.
    destruct H as [H|H]; [now left | right; now apply IH].
Qed.

Lemma hasProp_head (k : string) (v : JsVal Number) (o : Obj Number) :
  hasProp ((k, v) :: o) k = true.
Proof. unfold hasProp. cbn. now rewrite String.eqb_refl. Qed.

Lemma hasProp_insertKey_same (o : Obj Number) (k : string) (v : JsVal Number) :
  hasProp (insertKey o k v) k = true.
Proof.
  unfold hasProp. induction o as [|[k0 v0] o IH]; cbn [insertKey].
  - cbn. now rewrite String.eqb_refl.
  - destruct (isArrayIndex k && _); cbn [existsb fst].
    + now rewrite String.eqb_refl.
    + rewrite IH. apply orb_true_r.
Qed.

Lemma hasProp_insertKey_keeps (o : Obj Number) (k k' : string) (v : JsVal Number) :
  hasProp o k' = true -> hasProp (insertKey o k v) k' = true.
Proof.
  unfold hasProp. induction o as [|[k0 v0] o IH]; [discriminate|].
  cbn [insertKey]. intros H.
  destruct (isArrayIndex k && _).
  - cbn [existsb] in *. apply orb_true_iff. right. exact H.
  - cbn [existsb fst] in *. apply orb_true_iff in H. apply orb_true_iff.
    destruct H as [H|H]; [now left | right; now apply IH].
Qed.

Lemma hasProp_overwrite (o : Obj Number) (k k' : string) (v : JsVal Number) :
  hasProp (List.map (fun kv => if String.eqb (fst kv) k then (fst kv, v) else kv) o) k'
  = hasProp o k'.
Proof.
  unfold hasProp. induction o as [|[k0 v0] o IH]; [reflexivity|].
  cbn [List.map existsb fst]. rewrite IH. now destruct (String.eqb k0 k).
Qed.

Lemma hasProp_assign_same (o : Obj Number) (k : string) (v : JsVal Number) :
  hasProp (assign o k v) k = true.
Proof.
  unfold assign. destruct (existsb _ o) eqn:E.
  - rewrite hasProp_overwrite. exact E.
  - apply hasProp_insertKey_same.
Qed.

Lemma hasProp_assign_keeps (o : Obj Number) (k k' : string) (v : JsVal Number) :
  hasProp o k' = true -> hasProp (assign o k v) k' = true.
Proof.
  intros H. unfold assign. destruct (existsb _ o).
  - now rewrite hasProp_overwrite.
  - now apply hasProp_insertKey_keeps.
Qed.

Lemma hasProp_fold_keeps (k : string) (value : string -> JsVal Number)
    (cols : list string) :
  forall dataPoint : Obj Number,
    hasProp dataPoint k = true ->
    hasProp (fold_left (fun dataPoint col => assign dataPoint col (value col))
               cols dataPoint) k = true.
Proof.
  induction cols as [|col cols IH]; intros dataPoint H; [exact H|].
  cbn [fold_left]. apply IH. now apply hasProp_assign_keeps.
Qed.

Lemma hasProp_fold_sets (k : string) (value : string -> JsVal Number)
    (cols : list string) :
  In k cols ->
  forall dataPoint : Obj Number,
    hasProp (fold_left (fun dataPoint col => assign dataPoint col (value col))
               cols dataPoint) k = true.
Proof.
  induction cols as [|col cols IH]; intros Hin dataPoint; [contradiction|].
  cbn [fold_left]. destruct Hin as [->|Hin].
  - apply hasProp_fold_keeps, hasProp_assign_same.
  - now apply IH.
Qed.

End ObjectKeyFacts.

Section ChartShapeFacts.

Context {Number : Type}.
Variable numberToString : Number -> string.
Variable toLocaleDateString : string -> string.

#[local] Abbreviation buildChart' := (buildChart numberToString toLocaleDateString).

Lemma selectChartType_known (rowCount : nat) (hasTimeColumn : bool)
    (numericColumns categoricalColumns : list string) (queryLower : string) :
  In (selectChartType rowCount hasTimeColumn numericColumns categoricalColumns queryLower)
    ["bar"; "line"; "pie"; "multibar"].
Proof.
  unfold selectChartType.
  repeat match goal with
         | |- context [if ?b then _ else _] => destruct b
         end; cbn; tauto.
Qed.

Lemma formatTimeItem_keeps (xKey : option string) (item : Obj Number) (k : string) :
  hasProp item k = true ->
  hasProp (formatTimeItem toLocaleDateString xKey item) k = true.
Proof.
  intros H. unfold formatTimeItem.
  destruct (getProp item (keyText xKey)); try exact H.
  destruct (isEmpty s); [exact H|].
  destruct (formatTimeValue toLocaleDateString s); [|exact H].
  now apply hasProp_setProp_keeps.
Qed.

(** X5: the chart built from rows that are not empty has one of the
    four types [bar], [line], [pie] and [multibar], and it holds either
    no data at all or exactly one item for every row.  Without data its
    config is the default one, whose [xAxisKey] is the empty string, and
    its [chartConfig] is empty.  With data its [config.xAxisKey] is
    ['segment'] in a pie chart and the column selected for the x axis in
    the other charts. *)
Theorem buildChart_type_and_size (row : Obj Number) (others : list (Obj Number))
    (nlQuery : string) :
  exists chart,
    prepareDataForVisualization numberToString toLocaleDateString (row :: others) nlQuery
    = Some chart
    /\ In (chartType chart) ["bar"; "line"; "pie"; "multibar"]
    /\ (data chart = [] \/ List.length (data chart) = S (List.length others))
    /\ (data chart = [] ->
        config chart = {| xAxisKey := Some "";
                          title := "Sales Data Analysis";
                          description := "Analysis based on your query" |}
        /\ chartConfig chart = [])
    /\ (data chart <> [] ->
        xAxisKey (config chart)
        = if String.eqb (chartType chart) "pie" then Some "segment" else xAxisKeyFor row).
Proof.
  eexists. split; [reflexivity|]. split; [|split].
  - rewrite buildChart_chartType. apply selectChartType_known.
  - unfold buildChart.
    repeat match goal with
           | |- context [if ?b then _ else _] => destruct b
           end; cbn [data]; rewrite ?length_map; cbn [List.length]; tauto.
  - rewrite buildChart_chartType.
    unfold buildChart, chartTypeFor, xAxisKeyFor.
    set (xKey := selectXAxisKey _ _ _ _).
    match goal with
    | |- context [selectChartType ?n ?t ?nc ?cc ?q] =>
        pose proof (selectChartType_known n t nc cc q) as Hknown;
        remember (selectChartType n t nc cc q) as type eqn:Htype; clear Htype
    end.
    destruct Hknown as [<-|[<-|[<-|[<-|[]]]]];
      cbn [String.eqb Ascii.eqb Bool.eqb];
      repeat match goal with
             | |- context [if ?b then _ else _] => destruct b
             end;
      cbn [data config xAxisKey chartType chartConfig initialChart List.map
           String.eqb Ascii.eqb Bool.eqb];
      (split; [intros H; first [discriminate H | split; reflexivity]
              |intros H; first [reflexivity | now destruct H]]).
Qed.

Ltac chart_items :=
  cbn [data config xAxisKey chartType keyText];
  rewrite ?Forall_map; apply Forall_forall; intros ? _;
  try apply formatTimeItem_keeps;
  solve [ apply hasProp_head
        | apply hasProp_assign_same
        | apply hasProp_assign_keeps, hasProp_head
        | apply hasProp_fold_keeps, hasProp_head
        | apply hasProp_fold_sets; assumption
        | reflexivity ].

(** X6: in the chart built from rows every data item has the key that
    [config.xAxisKey] names and the key of every series: [value] in a pie
    chart, every numeric column in a multibar chart, the chosen value
    column in a bar or line chart. *)
Theorem buildChart_items_carry_keys (row : Obj Number) (others : list (Obj Number))
    (nlQuery : string) :
  exists chart,
  prepareDataForVisualization numberToString toLocaleDateString (row :: others) nlQuery
  = Some chart
  /\ Forall (fun item => hasProp item (keyText (xAxisKey (config chart))) = true)
    (data chart)
  /\ (chartType chart = "pie" ->
      Forall (fun item => hasProp item "value" = true) (data chart))
  /\ (chartType chart = "multibar" ->
      forall col,
        In col (numericColumnsOf row (keys row)) ->
        Forall (fun item => hasProp item col = true) (data chart))
  /\ (chartType chart <> "pie" -> chartType chart <> "multibar" ->
      Forall (fun item =>
                hasProp item
                  (selectValueColumn (toLowerCase nlQuery)
                     (numericColumnsOf row (keys row))) = true)
        (data chart)).
Proof.
  eexists. split; [reflexivity|]. unfold buildChart.
  set (queryLower := toLowerCase nlQuery).
  set (numericColumns := numericColumnsOf row (keys row)).
  set (xKey := selectXAxisKey _ _ _ _).
  set (valueColumn := selectValueColumn queryLower numericColumns).
  set (pieColumn := pieValueColumn row numericColumns (keys row)).
  match goal with
  | |- context [selectChartType ?n ?t ?nc ?cc ?q] =>
      pose proof (selectChartType_known n t nc cc q) as Hknown;
      remember (selectChartType n t nc cc q) as type eqn:Htype; clear Htype
  end.
  destruct Hknown as [<-|[<-|[<-|[<-|[]]]]];
    cbn [String.eqb Ascii.eqb Bool.eqb];
    repeat match goal with
           | |- context [if ?b then _ else _] => destruct b
           end;
    cbn [data config xAxisKey chartType];
    (split; [|split; [|split]]);
    try (intros; discriminate);
    try (intros; congruence);
    try (constructor; fail);
    intros; try chart_items.
Qed.

End ChartShapeFacts.

Lemma buildChart_type_and_size_witness :
  option_map (fun chart => xAxisKey (config chart))
    (prepareDataForVisualization natToString isoDate productShareRows "share per product")
  = Some (Some "segment").
Proof.
  destruct (buildChart_type_and_size natToString isoDate
              [("product_name", JString "Latte"); ("quantity", JNumber 7)]
              [[("product_name", JString "Mocha"); ("quantity", JNumber 3)]]
              "share per product") as (chart & Hchart & _ & _ & _ & Hkey).
  injection Hchart as <-.
  refine (f_equal Some (Hkey _)). discriminate.
Defined.

(** The keys of [chartConfig] come in the order an object enumerates
    them: the years, being array indices, in ascending order before the
    other labels. *)
Example pie_labels_in_key_order :
  option_map chartConfig
    (prepareDataForVisualization natToString isoDate
       [[("period", JString "2024"); ("share", JNumber 40)];
        [("period", JString "earlier"); ("share", JNumber 35)];
        [("period", JString "2023"); ("share", JNumber 25)]]
       "share per period as a pie")
  = Some [("2023", "2023"); ("2024", "2024"); ("earlier", "earlier")].
Proof. reflexivity. Qed.


Lemma buildChart_items_carry_keys_witness :
  Forall (fun item => hasProp item "value" = true)
    [[("segment", JString "Latte"); ("value", JNumber (7 : nat))];
     [("segment", JString "Mocha"); ("value", JNumber 3)]].
Proof.
  destruct (buildChart_items_carry_keys natToString isoDate
              [("product_name", JString "Latte"); ("quantity", JNumber 7)]
              [[("product_name", JString "Mocha"); ("quantity", JNumber 3)]]
              "share per product") as (chart & Hchart & _ & Hpie & _).
  injection Hchart as <-. exact (Hpie eq_refl).
Defined.

(** ** Labels and series keys *)

Lemma upperChar_underscore (c : ascii) :
  Ascii.eqb (upperChar c) "_" = Ascii.eqb c "_".
Proof. destruct c as [[] [] [] [] [] [] [] []]; reflexivity. Qed.

Lemma replaceChar_removes (c d : ascii) (s : string) :
  Ascii.eqb d c = false -> countChar c (replaceChar c d s) = 0.
Proof.
  intros H. unfold replaceChar.
  induction s as [|x s IH]; [reflexivity|].
  cbn [JsString.map countChar]. rewrite IH.
  destruct (Ascii.eqb x c) eqn:E; [now rewrite H | now rewrite E].
Qed.

Lemma split_pieces_clean (c : ascii) (s : string) :
  Forall (fun piece => countChar c piece = 0) (split c s).
Proof.
  induction s as [|x s IH]; [repeat constructor|].
  cbn [split]. destruct (Ascii.eqb x c) eqn:E.
  - constructor; [reflexivity | exact IH].
  - destruct (split c s) as [|p ps]; [repeat constructor; cbn; now rewrite E|].
    inversion IH as [|? ? Hp Hps]; subst.
    constructor; [cbn [countChar]; now rewrite E, Hp | exact Hps].
Qed.

Lemma capitalize_clean (word : string) :
  countChar "_" word = 0 -> countChar "_" (capitalize word) = 0.
Proof.
  destruct word as [|c word]; [trivial|].
  cbn [capitalize countChar]. now rewrite upperChar_underscore.
Qed.

Lemma countChar_join_clean (c : ascii) (sep : string) (pieces : list string) :
  countChar c sep = 0 ->
  Forall (fun piece => countChar c piece = 0) pieces ->
  countChar c (join sep pieces) = 0.
Proof.
  intros Hsep H. induction H as [|piece pieces Hpiece H IH]; [reflexivity|].
  destruct pieces as [|next pieces]; [exact Hpiece|].
  change (join sep (piece :: next :: pieces))
    with (piece ++ sep ++ join sep (next :: pieces)).
  now rewrite !countChar_app, Hpiece, Hsep, IH.
Qed.

(** X7: a column label made by [formatColumnLabel] never holds an
    underscore, whatever the column name is. *)
Theorem formatColumnLabel_without_underscore (columnName : string) :
  countChar "_" (formatColumnLabel columnName) = 0.
Proof.
  unfold formatColumnLabel.
  repeat match goal with
         | |- context [if ?b then _ else _] => destruct b
         end;
    try reflexivity;
    try (rewrite countChar_app, replaceChar_removes by reflexivity; reflexivity).
  apply countChar_join_clean; [reflexivity|].
  apply Forall_map. eapply Forall_impl; [|apply split_pieces_clean].
  intros piece. apply capitalize_clean.
Qed.

Lemma lowerChar_of_word (c : ascii) :
  isWord c = true ->
  isDigit (lowerChar c) || isAsciiLower (lowerChar c) || (code (lowerChar c) =? 95)
  = true.
Proof. destruct c as [[] [] [] [] [] [] [] []]; vm_compute; trivial. Qed.

(** X8: a series key made from a label (a pie segment, a column name)
    holds nothing but digits, the lower-case letters [a] to [z] and
    underscores. *)
Theorem seriesKey_is_plain (label : string) :
  forallb (fun c => isDigit c || isAsciiLower c || (code c =? 95))
    (list_ascii_of_string (seriesKey label)) = true.
Proof.
  unfold seriesKey, toLowerCase.
  induction (collapseSpaces false label) as [|c s IH]; [reflexivity|].
  cbn [keepWordChars]. destruct (isWord c) eqn:E; [|exact IH].
  cbn [JsString.map list_ascii_of_string forallb].
  now rewrite (lowerChar_of_word c E), IH.
Qed.
(** ** Small results *)

Section SmallResultFacts.

Context {Number : Type}.
Variable numberToString : Number -> string.

(** X9: without a chart tool call, a direct request or a visualization
    keyword, a result of at most three rows is charted only for a
    "[metric] by [category]" query with more than one row, or for a
    comparison query whose explicit count exceeds 3; the columns of the
    result play no part. *)
Theorem small_results_need_a_reason (data : list (Obj Number)) (query : string) :
  directRequest (trim (toLowerCase query)) = false ->
  vizKeywordFound (trim (toLowerCase query)) = false ->
  List.length data <= 3 ->
  shouldCreateVisualization numberToString false data query
  = metricByCategory data (trim (toLowerCase query))
    || (comparisonFound (trim (toLowerCase query))
        && match matchCount (trim (toLowerCase query)) with
           | Some digits => (3 <? parseInt digits)%N
           | None => false
           end).
Proof.
  intros Hdirect Hviz Hrows.
  unfold shouldCreateVisualization. rewrite Hdirect, Hviz.
  destruct (metricByCategory data _); [reflexivity|].
  assert (Hfloor : (List.length data <=? 3) = true) by now apply Nat.leb_le.
  assert (Hfew : (3 <? List.length data) = false) by (apply Nat.ltb_ge; lia).
  destruct (comparisonFound _); cbn [orb andb].
  - destruct (matchCount _) as [digits|].
    + now destruct (3 <? parseInt digits)%N.
    + now rewrite Hfew.
  - now rewrite Hfloor.
Qed.

End SmallResultFacts.

Lemma small_results_need_a_reason_witness :
  shouldCreateVisualization natToString false twoCountryRows "sales by country" = true.
Proof.
  refine (small_results_need_a_reason natToString twoCountryRows "sales by country"
            eq_refl eq_refl _).
  vm_compute. lia.
Defined.

(** ** The grounding step *)

Lemma prefix_app (a b : string) : String.prefix a (a ++ b) = true.
Proof.
  induction a as [|c a IH]; [apply prefix_nil|].
  cbn. destruct (ascii_dec c c); [exact IH | congruence].
Qed.

Lemma prefix_refl (a : string) : String.prefix a a = true.
Proof.
  induction a as [|c a IH]; [reflexivity|].
  cbn. destruct (ascii_dec c c); [exact IH | congruence].
Qed.

Lemma prefix_includes (s sub : string) : String.prefix sub s = true -> includes s sub = true.
Proof. intros H. destruct s; cbn [includes]; now rewrite H. Qed.

Lemma prefix_app_left (sub s t : string) :
  String.prefix sub s = true -> String.prefix sub (s ++ t) = true.
Proof.
  revert sub. induction s as [|c s IH]; intros [|a sub] H; cbn in *;
    try reflexivity; try discriminate.
  - apply prefix_nil.
  - destruct (ascii_dec a c); [now apply IH | discriminate].
Qed.

Lemma includes_app_left (s t sub : string) :
  includes s sub = true -> includes (s ++ t) sub = true.
Proof.
  induction s as [|c s IH]; cbn [includes append]; intros H;
    apply orb_true_iff in H; destruct H as [H|H]; try discriminate.
  - apply prefix_includes. now apply (prefix_app_left sub EmptyString t).
  - apply orb_true_iff. left. now apply (prefix_app_left sub (String c s) t).
  - apply orb_true_iff. right. now apply IH.
Qed.

Lemma includes_app_right (s t sub : string) :
  includes t sub = true -> includes (s ++ t) sub = true.
Proof.
  intros H. induction s as [|c s IH]; [exact H|].
  cbn [includes append]. rewrite IH. apply orb_true_r.
Qed.

Section GroundingStepFacts.

Context {Number : Type}.
Variable numberToString : Number -> string.
Variable messagesCreate :
  list (@ExplanationRequest Number) -> @ExplanationRequest Number
  -> Completion (@LlmResponse Number).

Lemma hasDataValues_app (text before after : string) (queryData : list (Obj Number)) :
  hasDataValues numberToString text queryData = true ->
  hasDataValues numberToString (before ++ text ++ after) queryData = true.
Proof.
  unfold hasDataValues. intros H.
  apply existsb_exists in H. destruct H as (row & Hrow & H).
  apply existsb_exists in H. destruct H as (strVal & Hval & H).
  apply existsb_exists. exists row. split; [assumption|].
  apply existsb_exists. exists strVal. split; [assumption|].
  now apply includes_app_right, includes_app_left.
Qed.

(** X10: an answer that is grounded stays grounded when text is put
    before or after it: if [needsDataExplanation] is false for a text
    that is not empty, it is false for every text that contains it. *)
Theorem grounded_answers_stay_grounded (text before after : string)
    (queryData : list (Obj Number)) :
  text <> "" ->
  needsDataExplanation numberToString text queryData = false ->
  needsDataExplanation numberToString (before ++ text ++ after) queryData = false.
Proof.
  intros Htext. unfold needsDataExplanation.
  destruct (List.length queryData =? 0); [reflexivity|].
  rewrite (isEmpty_false text Htext). cbn [orb].
  intros H. apply negb_false_iff in H.
  rewrite (hasDataValues_app text before after queryData H).
  now destruct (isEmpty (before ++ text ++ after)).
Qed.

Lemma getDataExplanation_prefix (text : string) (queryData : list (Obj Number))
    (nlQuery : string) (log : list (@ExplanationRequest Number)) :
  exists text',
    getDataExplanation messagesCreate text queryData nlQuery log
    = (Normal text', (log ++ [followUpMessage queryData nlQuery])%list)
    /\ String.prefix text text' = true.
Proof.
  rewrite getDataExplanation_run.
  destruct (messagesCreate log _) as [response|e];
    [destruct (firstText response) as [explanation|e]|];
    eexists; (split; [reflexivity|]);
    first [apply prefix_app | apply prefix_refl].
Qed.

Variable numberTruthy : Number -> bool.
Variable numberOfNat : nat -> Number.
Variable greaterThanZero : JsVal Number -> bool.
Variable generateOptimizedChart :
  JsVal Number -> string -> JsVal Number -> Completion (Obj Number).

#[local] Abbreviation step :=
  (explainOrEnhance numberToString numberTruthy numberOfNat greaterThanZero
     messagesCreate generateOptimizedChart).
#[local] Abbreviation hasDataPoints' :=
  (hasDataPoints numberTruthy numberOfNat greaterThanZero).

(** What the [else] branch makes of the chart block. *)
Lemma enhance_outcome (textContent : option string) (name : string)
    (input : JsVal Number) (toolUseContent : option (@ContentBlock Number))
    (response : @LlmResponse Number) :
  lastGraphTool response = Some (ToolUseBlock name input) ->
  enhanceDirectChart numberTruthy numberOfNat greaterThanZero generateOptimizedChart
    response textContent toolUseContent = Some (ToolUseBlock name input)
  \/ exists originalData chartType enhancedChart,
       propOf input "data" = Normal originalData
       /\ hasDataPoints' originalData = true
       /\ propOf input "chartType" = Normal chartType
       /\ generateOptimizedChart originalData (inferQuery (textOr textContent)) chartType
          = Normal enhancedChart
       /\ enhanceDirectChart numberTruthy numberOfNat greaterThanZero generateOptimizedChart
            response textContent toolUseContent
          = Some (ToolUseBlock name (JObject (setProp enhancedChart "data" originalData))).
Proof.
  intros Hlast. unfold enhanceDirectChart. rewrite Hlast. cbn [enhance].
  destruct (propOf input "data") as [originalData|e]; cbn [bind]; [|now left].
  destruct (hasDataPoints' originalData) eqn:Hpoints; [|now left].
  destruct (propOf input "chartType") as [chartType|e]; cbn [bind]; [|now left].
  destruct (generateOptimizedChart originalData _ chartType) as [enhancedChart|e] eqn:Hcall;
    cbn [bind]; [|now left].
  right. exists originalData, chartType, enhancedChart. repeat split; assumption.
Qed.

(** X11: the step after a query that returned rows always completes and
    never loses the answer: the text it leaves starts with the text of
    the reply, and a reply without a text block stays without.  When
    [needsDataExplanation] holds it sends the one follow-up request and
    leaves the tool block alone.  Otherwise it sends none and leaves the
    text as it is; without a [generate_graph_data] block in the reply
    the tool block stays as it was, and with one the tool block becomes
    the last such block of the reply, either as it is or with its input
    replaced by the chart that [generateOptimizedChart] returned, in
    which [data] is again the data of the block.  [groundingStep] is this
    step as far as the text and the follow-up requests go. *)
Theorem explainOrEnhance_keeps_the_answer (response : @LlmResponse Number)
    (textContent : option string) (toolUseContent : option (@ContentBlock Number))
    (queryData : list (Obj Number)) (nlQuery : string)
    (log : list (@ExplanationRequest Number)) :
  exists blocks,
    fst (step response textContent toolUseContent queryData nlQuery log) = Normal blocks
    /\ groundingStep numberToString messagesCreate textContent queryData nlQuery log
       = (Normal (textAfter blocks),
          snd (step response textContent toolUseContent queryData nlQuery log))
    /\ (textContent = None -> textAfter blocks = None)
    /\ (forall text,
           textContent = Some text ->
           exists text', textAfter blocks = Some text' /\ String.prefix text text' = true)
    /\ (needsDataExplanation numberToString (textOr textContent) queryData = true ->
        snd (step response textContent toolUseContent queryData nlQuery log)
        = (log ++ [followUpMessage queryData nlQuery])%list
        /\ toolUseAfter blocks = toolUseContent)
    /\ (needsDataExplanation numberToString (textOr textContent) queryData = false ->
        snd (step response textContent toolUseContent queryData nlQuery log) = log
        /\ textAfter blocks = textContent
        /\ (lastGraphTool response = None -> toolUseAfter blocks = toolUseContent)
        /\ (forall name input,
               lastGraphTool response = Some (ToolUseBlock name input) ->
               toolUseAfter blocks = Some (ToolUseBlock name input)
               \/ exists originalData chartType enhancedChart enhancedInput,
                    propOf input "data" = Normal originalData
                    /\ hasDataPoints' originalData = true
                    /\ propOf input "chartType" = Normal chartType
                    /\ generateOptimizedChart originalData
                         (inferQuery (textOr textContent)) chartType
                       = Normal enhancedChart
                    /\ toolUseAfter blocks = Some (ToolUseBlock name (JObject enhancedInput))
                    /\ getProp enhancedInput "data" = originalData
                    /\ (forall k, k <> "data" ->
                                  getProp enhancedInput k = getProp enhancedChart k))).
Proof.
  unfold explainOrEnhance, groundingStep.
  change (match textContent with Some text => text | None => "" end)
    with (textOr textContent).
  destruct (needsDataExplanation numberToString (textOr textContent) queryData) eqn:Hneeds.
  - unfold andThen.
    destruct (getDataExplanation_prefix (textOr textContent) queryData nlQuery log)
      as (text' & -> & Hprefix).
    cbn [ret bind fst snd]. eexists. split; [reflexivity|]. cbn [textAfter toolUseAfter].
    split; [reflexivity|]. split; [now intros ->|]. split.
    + intros text ->. exists text'. now split.
    + split; [now split|discriminate].
  - cbn [ret fst snd]. eexists. split; [reflexivity|]. cbn [textAfter toolUseAfter].
    split; [reflexivity|]. split; [now intros ->|]. split.
    + intros text ->. exists text. split; [reflexivity|apply prefix_refl].
    + split; [discriminate|]. intros _. split; [reflexivity|]. split; [reflexivity|].
      split.
      * intros Hlast. unfold enhanceDirectChart. now rewrite Hlast.
      * intros name input Hlast.
        destruct (enhance_outcome textContent name input toolUseContent response Hlast)
          as [H|(originalData & chartType & enhancedChart & Hdata & Hpoints & Htype
                 & Hcall & H)]; [now left|].
        right. exists originalData, chartType, enhancedChart,
                 (setProp enhancedChart "data" originalData).
        repeat split; try assumption.
        -- apply getProp_setProp_same.
        -- intros k Hk. apply getProp_setProp_other. congruence.
Qed.

End GroundingStepFacts.

Lemma grounded_answers_stay_grounded_witness :
  needsDataExplanation natToString ("Japan sold " ++ "95" ++ " units.") twoCountryRows = false.
Proof.
  refine (grounded_answers_stay_grounded natToString "95" "Japan sold " " units."
            twoCountryRows _ eq_refl).
  discriminate.
Defined.

Lemma explainOrEnhance_keeps_the_answer_witness :
  exists blocks,
    fst (explainOrEnhance natToString natTruthy natOfNat natGreaterThanZero helpfulModel
           titlingGenerator chartReply (Some groundedAnswer) None twoCountryRows
           "sales by country" []) = Normal blocks
    /\ textAfter blocks = Some groundedAnswer.
Proof.
  destruct (explainOrEnhance_keeps_the_answer natToString helpfulModel natTruthy natOfNat
              natGreaterThanZero titlingGenerator chartReply (Some groundedAnswer) None
              twoCountryRows "sales by country" [])
    as (blocks & Hrun & _ & _ & _ & _ & Hgrounded).
  exists blocks. split; [exact Hrun|]. exact (proj1 (proj2 (Hgrounded eq_refl))).
Defined.

(** A grounded answer that comes with a chart: no explanation is asked
    for, and the chart is enhanced under the title read from the text,
    with the data of the reply. *)
Example explainOrEnhance_enhances_the_chart :
  explainOrEnhance natToString natTruthy natOfNat natGreaterThanZero helpfulModel
    titlingGenerator chartReply (Some groundedAnswer) None twoCountryRows
    "sales by country" []
  = (Normal {| textAfter := Some groundedAnswer;
               toolUseAfter :=
                 Some (ToolUseBlock "generate_graph_data"
                         (JObject [("chartType", JString "bar");
                                   ("title", JString "the sales by country");
                                   ("data", JArray [JObject [("country", JString "Japan");
                                                             ("total_sales", JNumber 95)]])]))
            |},
     []).
Proof. reflexivity. Qed.

(** An answer that is not grounded: the explanation is appended and the
    chart of the reply is not looked at. *)
Example explainOrEnhance_explains :
  explainOrEnhance natToString natTruthy natOfNat natGreaterThanZero helpfulModel
    titlingGenerator chartReply (Some vagueAnswer) None twoCountryRows
    "sales by country" []
  = (Normal {| textAfter := Some (vagueAnswer ++ newline ++ newline
                                  ++ "Australia leads with 120 sales.");
               toolUseAfter := None |},
     [followUpMessage twoCountryRows "sales by country"]).
Proof. reflexivity. Qed.

(** ** What the final pass promises *)

Section FrontendChartFacts.

Context {Number : Type}.
Variable numberToString : Number -> string.
Variable numberTruthy : Number -> bool.
Variable numberOfNat : nat -> Number.

#[local] Abbreviation prepare :=
  (prepareChartDataForFrontend numberToString numberTruthy numberOfNat).
#[local] Abbreviation normalize' := (normalize numberToString numberTruthy numberOfNat).
#[local] Abbreviation isTrue v := (truthy numberTruthy v = true).

Lemma truthy_hasProp (o : Obj Number) (k : string) :
  isTrue (getProp o k) -> hasProp o k = true.
Proof.
  unfold hasProp. induction o as [|[k' v] o IH]; [discriminate|].
  cbn [getProp existsb fst]. destruct (String.eqb k' k); [reflexivity | exact IH].
Qed.

Lemma defaulted_type_truthy (v : JsVal Number) :
  isTrue (if falsy numberTruthy v then JString "bar" else v).
Proof. unfold falsy. now destruct (truthy numberTruthy v) eqn:E. Qed.

(** X12: the final pass returns null exactly for a chart without rows.
    Every chart it returns has rows, a truthy chart type, title and
    margin, and a colour and a [dataKey] property on every series; a pie
    it returns has a truthy total label and rows in the
    [{segment, value}] shape, unless its first row has no numeric field
    besides the x axis or its x axis key is falsy. *)
Theorem prepareChartDataForFrontend_contract (chart : @FrontChart Number) :
  (prepare (Some chart) = None <-> fc_data chart = None \/ fc_data chart = Some [])
  /\ forall out,
       prepare (Some chart) = Some out ->
       exists rows config chartConfig,
         fc_data out = Some rows /\ rows <> []
         /\ fc_config out = Some config
         /\ fc_chartConfig out = Some chartConfig
         /\ isTrue (fc_chartType out)
         /\ isTrue (getProp config "title")
         /\ isTrue (getProp config "margin")
         /\ Forall (fun entry => isTrue (getProp (snd entry) "color")
                                 /\ hasProp (snd entry) "dataKey" = true) chartConfig
         /\ (isChartType "pie" (fc_chartType out) = true ->
             isTrue (getProp config "totalLabel")
             /\ (hasCorrectFormat rows = true
                 \/ seriesFields (firstRow rows) (getProp config "xAxisKey") = []
                 \/ truthy numberTruthy (getProp config "xAxisKey") = false)).
Proof.
  unfold prepareChartDataForFrontend.
  destruct (fc_data chart) as [[|row rows]|].
  - split; [split; [now right | reflexivity] | discriminate].
  - split; [split; [discriminate | intros [H|H]; discriminate]|].
    intros out E. injection E as <-.
    match goal with
    | |- context [normalize _ _ _ ?d] =>
        destruct (normalize_stable numberToString numberTruthy numberOfNat d)
          as (Htype & Hdata & Htitle & _ & _ & Hseries & Hpie & Hmargin);
          [apply defaulted_type_truthy | discriminate |];
          set (result := normalize' d) in *
    end.
    exists (d_data result), (d_config result), (d_chartConfig result).
    cbn [finish fc_data fc_config fc_chartConfig fc_chartType].
    repeat (split; [first [reflexivity | assumption]|]).
    split.
    + eapply Forall_impl; [|exact Hseries].
      intros entry [Hcolor Hkey]. split; [exact Hcolor|].
      destruct Hkey as [Hkey|(_ & _ & Hhas & _)]; [now apply truthy_hasProp | exact Hhas].
    + exact Hpie.
  - split; [split; [now left | reflexivity] | discriminate].
Qed.

(** *** What the pass leaves alone *)

Lemma ensureColors_keys (d : @Draft Number) :
  List.map fst (d_chartConfig (ensureColors numberTruthy d)) = List.map fst (d_chartConfig d).
Proof.
  unfold ensureColors, indexed. cbn [withChartConfig d_chartConfig].
  generalize 0 as n. induction (d_chartConfig d) as [|[key series] l IH]; intros n;
    [reflexivity|].
  cbn [List.length seq combine List.map fst]. f_equal. apply IH.
Qed.

Lemma ensureDataKeys_keys (d : @Draft Number) :
  List.map fst (d_chartConfig (ensureDataKeys numberTruthy d))
  = List.map fst (d_chartConfig d).
Proof.
  unfold ensureDataKeys. cbn [withChartConfig d_chartConfig].
  generalize (List.map fst (d_chartConfig d)) at 1 as names. intros names.
  induction (d_chartConfig d) as [|[key series] l IH]; [reflexivity|].
  cbn [List.map fst]. f_equal. exact IH.
Qed.

Lemma reshapePie_length (d : @Draft Number) :
  List.length (d_data (reshapePie numberToString numberTruthy d)) = List.length (d_data d).
Proof.
  unfold reshapePie.
  destruct (hasCorrectFormat (d_data d)); [reflexivity|].
  destruct (seriesFields _ _); [reflexivity|].
  destruct (truthy numberTruthy _); [|reflexivity].
  cbn [d_data]. apply length_map.
Qed.

Lemma handlePie_length (d : @Draft Number) :
  List.length (d_data (handlePie numberToString numberTruthy d)) = List.length (d_data d).
Proof.
  unfold handlePie. destruct (isChartType "pie" (d_chartType d)); [|reflexivity].
  unfold ensureTotalLabel.
  rewrite (proj1 (proj2 (ensureField_frame numberTruthy "totalLabel" _ _))).
  apply reshapePie_length.
Qed.

Lemma handlePie_other (d : @Draft Number) :
  isChartType "pie" (d_chartType d) = false -> handlePie numberToString numberTruthy d = d.
Proof. unfold handlePie. now intros ->. Qed.

Lemma ensureBarSeries_keys (d : @Draft Number) :
  d_chartConfig d <> [] \/ isChartType "bar" (d_chartType d) = false ->
  d_chartConfig (ensureBarSeries d) = d_chartConfig d.
Proof.
  unfold ensureBarSeries. intros [H|H].
  - destruct (d_chartConfig d) eqn:E; [congruence|].
    cbn [List.length Nat.eqb]. now rewrite andb_false_r.
  - now rewrite H.
Qed.

Lemma normalize_rows (d : @Draft Number) :
  d_chartType (normalize' d) = d_chartType d
  /\ List.length (d_data (normalize' d)) = List.length (d_data d)
  /\ (isChartType "pie" (d_chartType d) = false ->
      d_data (normalize' d) = d_data d
      /\ (d_chartConfig d <> [] \/ isChartType "bar" (d_chartType d) = false ->
          List.map fst (d_chartConfig (normalize' d)) = List.map fst (d_chartConfig d))).
Proof.
  unfold normalize, ensureMargin, ensureXAxisKey, ensureTitle.
  set (d1 := ensureField numberTruthy "title" _ d).
  set (d2 := ensureField numberTruthy "xAxisKey" _ d1).
  set (d3 := ensureBarSeries d2).
  set (d4 := ensureColors numberTruthy d3).
  set (d5 := handlePie numberToString numberTruthy d4).
  set (d6 := ensureDataKeys numberTruthy d5).
  destruct (ensureField_frame numberTruthy "title"
              (JString (generatedTitle (firstRow (d_data d)))) d) as (T1 & D1 & C1).
  destruct (ensureField_frame numberTruthy "xAxisKey"
              (generatedXAxisKey (firstRow (d_data d1))) d1) as (T2 & D2 & C2).
  destruct (ensureBarSeries_frame d2) as (T3 & D3 & _).
  destruct (ensureColors_frame numberTruthy d3) as (T4 & D4 & _).
  destruct (handlePie_spec numberToString numberTruthy d4) as (T5 & _).
  destruct (ensureDataKeys_frame numberTruthy d5) as (T6 & D6 & _).
  destruct (ensureField_frame numberTruthy "margin" (defaultMargin numberOfNat) d6)
    as (T7 & D7 & C7).
  fold d1 in T1, D1, C1. fold d2 in T2, D2, C2. fold d3 in T3, D3.
  fold d4 in T4, D4. fold d5 in T5. fold d6 in T6, D6.
  assert (Htype : d_chartType d4 = d_chartType d) by congruence.
  split; [congruence|]. split.
  - rewrite D7, D6. unfold d5. rewrite handlePie_length. congruence.
  - intros Hpie.
    assert (E5 : d5 = d4) by (apply handlePie_other; now rewrite Htype).
    split; [congruence|].
    intros Hkeys. rewrite C7. unfold d6. rewrite ensureDataKeys_keys, E5.
    unfold d4. rewrite ensureColors_keys. unfold d3.
    rewrite ensureBarSeries_keys; [congruence|].
    rewrite C2, C1, T2, T1. exact Hkeys.
Qed.

(** X13: the final pass keeps the chart type (a falsy one becomes
    ["bar"]) and the number of rows; for a chart that is no pie it
    returns the rows as they came, and it neither drops nor renames nor
    adds a series unless the chart is a bar chart without any. *)
Theorem prepareChartDataForFrontend_keeps_rows (chart : @FrontChart Number)
    (rows : list (Obj Number)) :
  fc_data chart = Some rows -> rows <> [] ->
  exists out rows' chartConfig',
    prepare (Some chart) = Some out
    /\ fc_chartType out = (if falsy numberTruthy (fc_chartType chart) then JString "bar"
                           else fc_chartType chart)
    /\ fc_data out = Some rows'
    /\ fc_chartConfig out = Some chartConfig'
    /\ List.length rows' = List.length rows
    /\ (isChartType "pie" (fc_chartType chart) = false ->
        rows' = rows
        /\ forall chartConfig,
             fc_chartConfig chart = Some chartConfig ->
             chartConfig <> [] \/ isChartType "bar" (fc_chartType out) = false ->
             List.map fst chartConfig' = List.map fst chartConfig).
Proof.
  intros Hrows Hsome. unfold prepareChartDataForFrontend. rewrite Hrows.
  destruct rows as [|row rows]; [congruence|].
  match goal with
  | |- context [normalize _ _ _ ?d] =>
      destruct (normalize_rows d) as (Htype & Hlen & Hother);
        set (result := normalize' d) in *
  end.
  cbn [d_chartType d_data d_chartConfig] in Htype, Hlen, Hother.
  exists (finish result), (d_data result), (d_chartConfig result).
  cbn [finish fc_data fc_config fc_chartConfig fc_chartType].
  split; [reflexivity|]. split; [exact Htype|].
  split; [reflexivity|]. split; [reflexivity|]. split; [exact Hlen|].
  intros Hpie.
  assert (Hpie' : isChartType "pie"
                    (if falsy numberTruthy (fc_chartType chart) then JString "bar"
                     else fc_chartType chart) = false)
    by now destruct (falsy numberTruthy (fc_chartType chart)).
  destruct (Hother Hpie') as [Hdata Hkeys].
  split; [exact Hdata|].
  intros chartConfig Hcc Hany. rewrite Hcc in Hkeys. rewrite Htype in Hany.
  now apply Hkeys.
Qed.

(** *** The config object *)

#[local] Abbreviation kept pie c c' :=
  (forall k : string,
      (hasProp c k = true -> hasProp c' k = true)
      /\ (isTrue (getProp c k) -> k <> "xAxisKey" \/ pie = false ->
          getProp c' k = getProp c k)
      /\ (k <> "title" -> k <> "xAxisKey" -> k <> "totalLabel" -> k <> "margin" ->
          getProp c' k = getProp c k)
      /\ (pie = false -> k = "totalLabel" -> getProp c' k = getProp c k)).

Lemma kept_refl (pie : bool) (c : Obj Number) : kept pie c c.
Proof. intros k. repeat split; trivial. Qed.

Lemma kept_trans (pie : bool) (c c' c'' : Obj Number) :
  kept pie c c' -> kept pie c' c'' -> kept pie c c''.
Proof.
  intros H H' k. destruct (H k) as (A & B & C & D). destruct (H' k) as (A' & B' & C' & D').
  split; [auto|]. split; [|split].
  - intros Ht Hk. rewrite <- (B Ht Hk). apply B'; [|exact Hk]. now rewrite (B Ht Hk).
  - intros. rewrite C', C; trivial.
  - intros. rewrite D', D; trivial.
Qed.

Lemma ensureField_kept (pie : bool) (k0 : string) (v : JsVal Number) (d : @Draft Number) :
  k0 = "title" \/ k0 = "xAxisKey" \/ k0 = "margin" \/ (k0 = "totalLabel" /\ pie = true) ->
  kept pie (d_config d) (d_config (ensureField numberTruthy k0 v d)).
Proof.
  intros Hk0 k. unfold ensureField, falsy.
  destruct (truthy numberTruthy (getProp (d_config d) k0)) eqn:E; cbn [negb];
    [repeat split; trivial|].
  cbn [withConfig d_config]. split; [apply hasProp_setProp_keeps|].
  assert (Hother : k0 <> k -> getProp (setProp (d_config d) k0 v) k = getProp (d_config d) k)
    by apply getProp_setProp_other.
  split; [|split].
  - intros Ht _. apply Hother. intros ->. congruence.
  - intros. apply Hother. intros <-. intuition congruence.
  - intros Hpie ->. apply Hother. intros ->.
    destruct Hk0 as [H|[H|[H|[_ H]]]]; congruence.
Qed.

Lemma reshapePie_kept (d : @Draft Number) :
  kept true (d_config d) (d_config (reshapePie numberToString numberTruthy d)).
Proof.
  unfold reshapePie.
  destruct (hasCorrectFormat (d_data d)); [apply kept_refl|].
  destruct (seriesFields _ _); [apply kept_refl|].
  destruct (truthy numberTruthy _); [|apply kept_refl].
  cbn [d_config]. intros k. split; [apply hasProp_setProp_keeps|].
  assert (Hother : "xAxisKey" <> k ->
                   getProp (setProp (d_config d) "xAxisKey" (JString "segment")) k
                   = getProp (d_config d) k)
    by apply getProp_setProp_other.
  split; [|split].
  - intros _ [H|H]; [apply Hother; congruence | discriminate].
  - intros. apply Hother. congruence.
  - discriminate.
Qed.

Lemma handlePie_kept (d : @Draft Number) :
  kept (isChartType "pie" (d_chartType d)) (d_config d)
    (d_config (handlePie numberToString numberTruthy d)).
Proof.
  unfold handlePie. destruct (isChartType "pie" (d_chartType d)); [|apply kept_refl].
  eapply kept_trans; [apply reshapePie_kept|].
  apply ensureField_kept. now right; right; right.
Qed.

Lemma normalize_kept (d : @Draft Number) :
  kept (isChartType "pie" (d_chartType d)) (d_config d) (d_config (normalize' d)).
Proof.
  unfold normalize, ensureMargin, ensureXAxisKey, ensureTitle.
  set (pie := isChartType "pie" (d_chartType d)).
  set (d1 := ensureField numberTruthy "title" _ d).
  set (d2 := ensureField numberTruthy "xAxisKey" _ d1).
  set (d3 := ensureBarSeries d2).
  set (d4 := ensureColors numberTruthy d3).
  set (d5 := handlePie numberToString numberTruthy d4).
  set (d6 := ensureDataKeys numberTruthy d5).
  destruct (ensureField_frame numberTruthy "title"
              (JString (generatedTitle (firstRow (d_data d)))) d) as (T1 & _).
  destruct (ensureField_frame numberTruthy "xAxisKey"
              (generatedXAxisKey (firstRow (d_data d1))) d1) as (T2 & _).
  destruct (ensureBarSeries_frame d2) as (T3 & _ & C3).
  destruct (ensureColors_frame numberTruthy d3) as (T4 & _ & C4).
  destruct (ensureDataKeys_frame numberTruthy d5) as (_ & _ & C6 & _).
  fold d1 in T1. fold d2 in T2. fold d3 in T3, C3. fold d4 in T4, C4. fold d6 in C6.
  assert (Htype : isChartType "pie" (d_chartType d4) = pie) by (unfold pie; congruence).
  apply (kept_trans pie _ (d_config d1));
    [apply (ensureField_kept pie "title"); now left|].
  apply (kept_trans pie _ (d_config d2));
    [apply (ensureField_kept pie "xAxisKey"); now right; left|].
  apply (kept_trans pie _ (d_config d6));
    [|apply (ensureField_kept pie "margin"); now right; right; left].
  rewrite C6. rewrite <- C3, <- C4, <- Htype. apply handlePie_kept.
Qed.

(** X14: the final pass only adds to the config object: no property is
    removed; a title, total label or margin that is truthy keeps its
    value, and so does a truthy x axis key unless the chart is a pie;
    every property other than these four keeps its value, as does the
    total label of a chart that is no pie. *)
Theorem prepareChartDataForFrontend_keeps_config (chart out : @FrontChart Number)
    (config : Obj Number) :
  fc_config chart = Some config ->
  prepare (Some chart) = Some out ->
  exists config',
    fc_config out = Some config'
    /\ forall k : string,
         (hasProp config k = true -> hasProp config' k = true)
         /\ (isTrue (getProp config k) ->
             k <> "xAxisKey" \/ isChartType "pie" (fc_chartType chart) = false ->
             getProp config' k = getProp config k)
         /\ (k <> "title" -> k <> "xAxisKey" -> k <> "totalLabel" -> k <> "margin" ->
             getProp config' k = getProp config k)
         /\ (isChartType "pie" (fc_chartType chart) = false -> k = "totalLabel" ->
             getProp config' k = getProp config k).
Proof.
  intros Hconfig. unfold prepareChartDataForFrontend. rewrite Hconfig.
  destruct (fc_data chart) as [[|row rows]|]; try discriminate.
  intros E. injection E as <-.
  match goal with
  | |- context [normalize _ _ _ ?d] =>
      pose proof (normalize_kept d) as Hkept; set (result := normalize' d) in *
  end.
  cbn [d_chartType d_config] in Hkept.
  exists (d_config result). split; [reflexivity|].
  intros k. destruct (Hkept k) as (A & B & C & D).
  assert (Hpie : isChartType "pie"
                   (if falsy numberTruthy (fc_chartType chart) then JString "bar"
                    else fc_chartType chart) = false
                 <-> isChartType "pie" (fc_chartType chart) = false).
  { unfold falsy.
    destruct (truthy numberTruthy (fc_chartType chart)) eqn:Et; cbn [negb]; [tauto|].
    split; intros _; [|reflexivity].
    destruct (fc_chartType chart) as [| |b|n|s|l|o|h]; try reflexivity.
    now destruct s. }
  split; [exact A|]. split; [|split; [exact C|]].
  - intros Ht [Hk|Hp]; apply B; trivial; [now left | right; now apply Hpie].
  - intros Hp. apply D. now apply Hpie.
Qed.

End FrontendChartFacts.

Lemma prepareChartDataForFrontend_contract_witness :
  prepareChartDataForFrontend natToString natTruthy natOfNat (Some chartWithoutRows) = None
  /\ exists config,
       fc_config (preparedChart titledChart) = Some config
       /\ truthy natTruthy (getProp config "totalLabel") = true.
Proof.
  split.
  - exact (proj2 (proj1 (prepareChartDataForFrontend_contract natToString natTruthy
                           natOfNat chartWithoutRows)) (or_intror eq_refl)).
  - destruct (proj2 (prepareChartDataForFrontend_contract natToString natTruthy
                       natOfNat titledChart) (preparedChart titledChart) eq_refl)
      as (rows & config & chartConfig & _ & _ & Hconfig & _ & _ & _ & _ & _ & Hpie).
    exists config. split; [exact Hconfig|]. exact (proj1 (Hpie eq_refl)).
Defined.

Lemma prepareChartDataForFrontend_keeps_rows_witness :
  exists out,
    prepareChartDataForFrontend natToString natTruthy natOfNat (Some bareChart) = Some out
    /\ fc_chartType out = JString "bar"
    /\ fc_data out = Some productShareRows.
Proof.
  destruct (prepareChartDataForFrontend_keeps_rows natToString natTruthy natOfNat
              bareChart productShareRows eq_refl)
    as (out & rows' & chartConfig' & Hout & Htype & Hdata & _ & _ & Hrows);
    [discriminate|].
  exists out. split; [exact Hout|]. split; [exact Htype|].
  rewrite Hdata. f_equal. exact (proj1 (Hrows eq_refl)).
Defined.

Lemma prepareChartDataForFrontend_keeps_config_witness :
  exists config,
    fc_config (preparedChart titledChart) = Some config
    /\ getProp config "title" = JString "Shares"
    /\ getProp config "legend" = JBool true.
Proof.
  destruct (prepareChartDataForFrontend_keeps_config natToString natTruthy natOfNat
              titledChart (preparedChart titledChart)
              [("title", JString "Shares"); ("legend", JBool true);
               ("xAxisKey", JString "product_name")] eq_refl eq_refl)
    as (config & Hconfig & Hkeys).
  exists config. split; [exact Hconfig|]. split.
  - refine (proj1 (proj2 (Hkeys "title")) eq_refl (or_introl _)). discriminate.
  - refine (proj1 (proj2 (proj2 (Hkeys "legend"))) _ _ _ _); discriminate.
Defined.

(** ** The answers of [POST] *)

Section PostAnswerFacts.

Context {Number : Type}.
Variable numberToString : Number -> string.
Variable numberTruthy : Number -> bool.
Variables ModelReply Payload : Type.
Variable decodeText : string -> Completion string.
Variable messagesCreate : JsVal Number -> list (JsVal Number) -> Completion ModelReply.
Variable respond : ModelReply -> Completion Payload.

#[local] Abbreviation handle' :=
  (handle numberToString numberTruthy ModelReply Payload
     decodeText messagesCreate respond).
#[local] Abbreviation POST' :=
  (POST numberToString numberTruthy ModelReply Payload
     decodeText messagesCreate respond).
#[local] Abbreviation attachFile' := (attachFile numberToString numberTruthy decodeText).

Lemma send_answer (model : JsVal Number) (anthropicMessages : list (JsVal Number))
    (response : Response Payload) :
  (reply <- messagesCreate model anthropicMessages ;;
   payload <- respond reply ;;
   Normal {| status := 200; body := ReplyBody Payload payload |})%completion
  = Normal response ->
  exists reply payload,
    messagesCreate model anthropicMessages = Normal reply
    /\ respond reply = Normal payload
    /\ response = {| status := 200; body := ReplyBody Payload payload |}.
Proof.
  destruct (messagesCreate model anthropicMessages) as [reply|e]; [|discriminate].
  cbn [bind]. destruct (respond reply) as [payload|e] eqn:E; [|discriminate].
  cbn [bind]. intros H. injection H as <-. now exists reply, payload.
Qed.

(** X15: [POST] always answers, with one of the statuses 200, 400, 401
    and 500. An answer 200 carries a payload that the handler made of a
    reply of the model, from a request whose [messages] is an array; every
    other answer carries an error body, with [details] only on 401. *)
Theorem POST_answers (parsed : Completion (@RequestBody Number)) :
  (exists request model anthropicMessages reply payload,
      parsed = Normal request
      /\ isArray (rb_messages request) = true
      /\ messagesCreate model anthropicMessages = Normal reply
      /\ respond reply = Normal payload
      /\ POST' parsed = {| status := 200; body := ReplyBody Payload payload |})
  \/ (exists message, POST' parsed = badRequest Payload message)
  \/ POST' parsed
     = {| status := 401;
          body := ErrorBody Payload "Authentication Error"
                    (Some "Invalid API key or authentication failed") |}
  \/ (exists message,
         POST' parsed = {| status := 500; body := ErrorBody Payload message None |}).
Proof.
  destruct (handle' parsed) as [response|error] eqn:Hh.
  - unfold POST. rewrite Hh. revert Hh. unfold handle.
    destruct parsed as [request|e]; [|discriminate]. cbn [bind].
    destruct (isArray (rb_messages request)) eqn:Harr;
      [|rewrite orb_true_r; intros E; injection E as <-; right; left; eauto].
    destruct (negb (truthy numberTruthy (rb_messages request)) || negb true);
      [intros E; injection E as <-; right; left; eauto|].
    destruct (negb (truthy numberTruthy (modelOrDefault (rb_model request))));
      [intros E; injection E as <-; right; left; eauto|].
    destruct (convertMessages (rb_messages request)) as [msgs|e]; [|discriminate].
    cbn [bind].
    assert (Hsend : forall msgs',
               (reply <- messagesCreate (modelOrDefault (rb_model request)) msgs' ;;
                payload <- respond reply ;;
                Normal {| status := 200; body := ReplyBody Payload payload |})%completion
               = Normal response ->
               exists request0 model anthropicMessages reply payload,
                 Normal request = Normal request0
                 /\ isArray (rb_messages request0) = true
                 /\ messagesCreate model anthropicMessages = Normal reply
                 /\ respond reply = Normal payload
                 /\ response = {| status := 200; body := ReplyBody Payload payload |}).
    { intros msgs' E. destruct (send_answer _ _ _ E) as (reply & payload & H1 & H2 & H3).
      exists request, (modelOrDefault (rb_model request)), msgs', reply, payload.
      auto. }
    destruct (rb_fileData request) as [file|].
    + destruct (negb (truthy numberTruthy (base64 file)));
        [intros E; injection E as <-; right; left; eauto|].
      destruct (attachFile _ _ _ _ _ _) as [msgs'|e];
        [|intros E; injection E as <-; right; left; eauto].
      intros E. left. now apply (Hsend msgs').
    + intros E. left. now apply (Hsend msgs).
  - rewrite (POST_caught _ _ _ _ _ _ _ _ _ Hh).
    destruct (isAuthenticationError error); right; right; [now left | right; eauto].
Qed.

Lemma mapM_first_throw {A B : Type} (p : A -> bool) (f : A -> Completion B)
    (l : list A) (x : A) (e : Thrown) :
  (forall y, p y = false -> exists b, f y = Normal b) ->
  find p l = Some x -> f x = Throw e -> mapM f l = Throw e.
Proof.
  intros Hf. induction l as [|y r IH]; [discriminate|].
  cbn [find mapM]. destruct (p y) eqn:Hy.
  - intros [= ->] ->. reflexivity.
  - intros Hfind Hx. destruct (Hf y Hy) as [b ->]. cbn [bind].
    now rewrite (IH Hfind Hx).
Qed.

Lemma mapM_none_throws {A B : Type} (p : A -> bool) (f : A -> Completion B) (l : list A) :
  (forall y, p y = false -> exists b, f y = Normal b) ->
  find p l = None -> exists bs, mapM f l = Normal bs.
Proof.
  intros Hf. induction l as [|y r IH]; [now exists []|].
  cbn [find mapM]. destruct (p y) eqn:Hy; [discriminate|].
  intros Hfind. destruct (Hf y Hy) as [b ->]. destruct (IH Hfind) as [bs ->].
  now exists (b :: bs).
Qed.

Lemma convertMessage_normal (msg : JsVal Number) :
  isNullish msg = false ->
  exists converted,
    (role <- propOf msg "role" ;;
     content <- propOf msg "content" ;;
     Normal (JObject [("role", role); ("content", content)]))%completion
    = Normal converted.
Proof. destruct msg; try discriminate; intros _; eexists; reflexivity. Qed.

(** X16: what becomes of an attached file, for a request that passes
    the checks of [messages] and [model].  When an element of [messages]
    is [null] or [undefined], [messages.map] throws before the file is
    looked at, and the answer is 500 with the message of the [TypeError].
    Otherwise: without [base64] data the answer is 400 "No file data";
    whatever is thrown while the file is attached, an undecodable text
    or a media type that is no string included, is answered 400 "Failed
    to process file content" and never reaches the outer handler; and a
    file that is neither text nor an image is left out: the request is
    answered as if it had no file. *)
Theorem POST_file_handling (request : @RequestBody Number) (file : @FileData Number) :
  rb_fileData request = Some file ->
  isArray (rb_messages request) = true ->
  truthy numberTruthy (modelOrDefault (rb_model request)) = true ->
  (forall msg,
      find isNullish (itemsOf (rb_messages request)) = Some msg ->
      POST' (Normal request)
      = {| status := 500;
           body := ErrorBody Payload
                     ("Cannot read properties of " ++ toString numberToString msg
                      ++ " (reading 'role')") None |})
  /\ (find isNullish (itemsOf (rb_messages request)) = None ->
      exists anthropicMessages,
        convertMessages (rb_messages request) = Normal anthropicMessages
        /\ (truthy numberTruthy (base64 file) = false ->
            POST' (Normal request) = badRequest Payload "No file data")
        /\ (truthy numberTruthy (base64 file) = true ->
            (forall error,
                attachFile' file (itemsOf (rb_messages request)) anthropicMessages
                = Throw error ->
                POST' (Normal request)
                = badRequest Payload "Failed to process file content")
            /\ (truthy numberTruthy (isText file) = true ->
                forall error,
                  decodeText (toString numberToString (base64 file)) = Throw error ->
                  POST' (Normal request)
                  = badRequest Payload "Failed to process file content")
            /\ (truthy numberTruthy (isText file) = false ->
                (forall mt, mediaType file <> JString mt) ->
                POST' (Normal request)
                = badRequest Payload "Failed to process file content")
            /\ (truthy numberTruthy (isText file) = false ->
                forall mt,
                  mediaType file = JString mt -> startsWith mt "image/" = false ->
                  POST' (Normal request)
                  = POST' (Normal {| rb_messages := rb_messages request;
                                     rb_fileData := None;
                                     rb_model := rb_model request |})))).
Proof.
  intros Hfile Harr Hmodel.
  assert (Hmsgs : truthy numberTruthy (rb_messages request) = true)
    by (destruct (rb_messages request); try discriminate; reflexivity).
  split.
  - intros msg Hfind.
    assert (Hconv : convertMessages (rb_messages request)
                    = Throw (typeError ("Cannot read properties of "
                                        ++ toString numberToString msg
                                        ++ " (reading 'role')"))).
    { apply (mapM_first_throw isNullish _ _ msg); [|exact Hfind|].
      - intros y Hy. now apply convertMessage_normal.
      - apply find_some in Hfind as [_ Hnull].
        destruct msg; try discriminate Hnull; reflexivity. }
    unfold POST, handle. cbn [bind].
    now rewrite Hmsgs, Harr, Hmodel, Hconv.
  - intros Hfind.
    destruct (mapM_none_throws isNullish _ (itemsOf (rb_messages request))
                convertMessage_normal Hfind) as [anthropicMessages Hconv].
    change (convertMessages (rb_messages request) = Normal anthropicMessages) in Hconv.
    exists anthropicMessages. split; [exact Hconv|].
    unfold POST, handle. cbn [bind rb_messages rb_fileData rb_model].
    rewrite Hmsgs, Harr, Hmodel, Hconv, Hfile. cbn [negb orb bind].
    split; [now intros ->|].
    intros ->. cbn [negb].
    assert (Hthrown : forall error,
               attachFile' file (itemsOf (rb_messages request)) anthropicMessages
               = Throw error ->
               match
                 match attachFile' file (itemsOf (rb_messages request)) anthropicMessages with
                 | Normal anthropicMessages0 =>
                     (response <- messagesCreate (modelOrDefault (rb_model request))
                                    anthropicMessages0 ;;
                      payload <- respond response ;;
                      Normal {| status := 200; body := ReplyBody Payload payload |})%completion
                 | Throw _ => Normal (badRequest Payload "Failed to process file content")
                 end
               with
               | Normal response => response
               | Throw error0 =>
                   if isAuthenticationError error0
                   then {| status := 401;
                           body := ErrorBody Payload "Authentication Error"
                                     (Some "Invalid API key or authentication failed") |}
                   else {| status := 500;
                           body := ErrorBody Payload
                                     (messageOr "An unknown error occurred" error0) None |}
               end = badRequest Payload "Failed to process file content")
      by now intros error ->.
    split; [exact Hthrown|]. split; [|split].
    + intros Htext error Hdecode.
      apply (Hthrown error). unfold attachFile. now rewrite Htext, Hdecode.
    + intros Htext Hmedia.
      assert (Hattach : exists error,
                 attachFile' file (itemsOf (rb_messages request)) anthropicMessages
                 = Throw error).
      { unfold attachFile. rewrite Htext.
        destruct (mediaType file) as [| |b|n|s|l|o|h]; try (eexists; reflexivity).
        now destruct (Hmedia s). }
      destruct Hattach as [error Hattach]. exact (Hthrown error Hattach).
    + intros Htext mt Hmedia Himage.
      unfold attachFile. now rewrite Htext, Hmedia, Himage.
Qed.

End PostAnswerFacts.

Lemma POST_file_handling_witness :
  POST natToString natTruthy unit unit plainDecode answeringModel plainRespond
    (Normal requestWithPdf)
  = POST natToString natTruthy unit unit plainDecode answeringModel plainRespond
      (Normal requestWithoutModel).
Proof.
  destruct (proj2 (POST_file_handling natToString natTruthy unit unit plainDecode
                     answeringModel plainRespond requestWithPdf pdfFile
                     eq_refl eq_refl eq_refl) eq_refl)
    as (anthropicMessages & _ & _ & H).
  exact (proj2 (proj2 (proj2 (H eq_refl))) eq_refl "application/pdf" eq_refl eq_refl).
Defined.

(** A file without data on a request whose [messages] holds [null]: the
    answer is 500, not 400 "No file data". *)
Example POST_null_message_before_file :
  POST natToString natTruthy unit unit plainDecode answeringModel plainRespond
    (Normal {| rb_messages := JArray [JNull];
               rb_fileData := Some {| base64 := JUndefined; mediaType := JUndefined;
                                      isText := JUndefined; fileName := JUndefined |};
               rb_model := JUndefined |})
  = {| status := 500;
       body := ErrorBody unit "Cannot read properties of null (reading 'role')" None |}.
Proof. reflexivity. Qed.

(** ** Regular expressions *)

Section RegexFacts.

Import Regex.

Lemma classRun_sound {A : Type} (p : ascii -> bool) (s : string) :
  forall min max prev (k : option ascii -> string -> option A) (a : A),
    classRun p min max prev s k = Some a ->
    exists run s' prev',
      s = run ++ s'
      /\ forallb p (list_ascii_of_string run) = true
      /\ min <= String.length run
      /\ k prev' s' = Some a.
Proof.
  assert (Hstop : forall min prev s0 (k : option ascii -> string -> option A) a,
             (if min =? 0 then k prev s0 else None) = Some a ->
             exists run s' prev',
               s0 = run ++ s'
               /\ forallb p (list_ascii_of_string run) = true
               /\ min <= String.length run
               /\ k prev' s' = Some a).
  { intros min prev s0 k a. destruct (min =? 0) eqn:E; [|discriminate].
    apply Nat.eqb_eq in E. subst min. intros H.
    exists "", s0, prev. repeat split; [cbn; lia | exact H]. }
  induction s as [|c s IH]; intros min max prev k a; cbn [classRun];
    [apply Hstop|].
  destruct (p c && negb (exhausted max)) eqn:Hp; [|apply Hstop].
  destruct (classRun p (Nat.pred min) (option_map Nat.pred max) (Some c) s k)
    as [a'|] eqn:Hrun; [|apply Hstop].
  intros H. injection H as <-.
  destruct (IH _ _ _ _ _ Hrun) as (run & s' & prev' & -> & Hall & Hmin & Hk).
  exists (String c run), s', prev'.
  apply andb_true_iff in Hp. destruct Hp as [Hp _].
  repeat split; [cbn; now rewrite Hp | cbn; lia | exact Hk].
Qed.

Lemma matchRe_sound {A : Type} (ignoreCase : bool) (r : Re) :
  forall prev s caps (k : option ascii -> string -> Captures -> option A) (a : A),
    matchRe ignoreCase r prev s caps k = Some a ->
    exists prev' s' caps',
      Matched ignoreCase r s s' caps caps' /\ k prev' s' caps' = Some a.
Proof.
  induction r as [|text|p min max|r1 IH1 r2 IH2|r1 IH1 r2 IH2|index r IH|];
    intros prev s caps k a; cbn [matchRe Matched].
  - discriminate.
  - destruct (litRest ignoreCase text prev s) as [[prev' s']|] eqn:E; [|discriminate].
    intros H. exists prev', s', caps. split; [|exact H].
    split; [reflexivity|]. now exists prev, prev'.
  - intros H. apply classRun_sound in H.
    destruct H as (run & s' & prev' & -> & Hall & Hmin & Hk).
    exists prev', s', caps. split; [|exact Hk].
    split; [reflexivity|]. now exists run.
  - destruct (matchRe ignoreCase r1 prev s caps k) as [a'|] eqn:E.
    + intros H. injection H as <-.
      destruct (IH1 _ _ _ _ _ E) as (prev' & s' & caps' & Hm & Hk).
      exists prev', s', caps'. split; [now left | exact Hk].
    + intros H. destruct (IH2 _ _ _ _ _ H) as (prev' & s' & caps' & Hm & Hk).
      exists prev', s', caps'. split; [now right | exact Hk].
  - intros H. destruct (IH1 _ _ _ _ _ H) as (prev1 & s1 & caps1 & Hm1 & Hk1).
    destruct (IH2 _ _ _ _ _ Hk1) as (prev' & s' & caps' & Hm2 & Hk).
    exists prev', s', caps'. split; [|exact Hk]. now exists s1, caps1.
  - intros H. destruct (IH _ _ _ _ _ H) as (prev' & s' & caps' & Hm & Hk).
    exists prev', s', ((index, consumed s s') :: caps'). split; [|exact Hk].
    now exists caps'.
  - destruct (wordBoundary prev (head s)); [|discriminate].
    intros H. exists prev, s, caps. now split.
Qed.

Lemma search_sound (ignoreCase : bool) (r : Re) (s : string) :
  forall prev m,
    search ignoreCase r prev s = Some m ->
    exists start, Matched ignoreCase r start (rest m) [] (groups m)
                  /\ whole m = consumed start (rest m).
Proof.
  induction s as [|c s IH]; intros prev m; cbn [search];
    destruct (matchAt ignoreCase r prev _) as [m'|] eqn:E;
    try discriminate; try (now apply IH).
  all: intros H; injection H as <-; unfold matchAt in E;
    apply matchRe_sound in E; destruct E as (prev' & s' & caps' & Hm & Hk);
    injection Hk as <-; eexists; split; [exact Hm | reflexivity].
Qed.

Lemma firstMatch_sound (ignoreCase : bool) (r : Re) (s : string) (caps : Captures) :
  firstMatch ignoreCase r s = Some caps ->
  exists start s', Matched ignoreCase r start s' [] caps.
Proof.
  unfold firstMatch. destruct (search ignoreCase r None s) as [m|] eqn:E; [|discriminate].
  intros H. injection H as <-.
  destruct (search_sound _ _ _ _ _ E) as (start & Hm & _). now exists start, (rest m).
Qed.

Lemma length_append (a b : string) :
  String.length (a ++ b) = String.length a + String.length b.
Proof. induction a as [|c a IH]; cbn; [reflexivity | now rewrite IH]. Qed.

Lemma consumed_app (w s' : string) : consumed (w ++ s') s' = w.
Proof.
  unfold consumed. rewrite length_append.
  replace (String.length w + String.length s' - String.length s') with (String.length w)
    by lia.
  induction w as [|c w IH]; [now destruct s'|].
  cbn. now rewrite IH.
Qed.

Lemma litRest_split (text : string) :
  forall prev s prev' s',
    litRest true text prev s = Some (prev', s') ->
    exists w, s = w ++ s' /\ toLowerCase w = toLowerCase text.
Proof.
  induction text as [|x text IH]; intros prev s prev' s'; cbn [litRest].
  - intros H. injection H as <- <-. now exists "".
  - destruct s as [|y s]; [discriminate|].
    unfold sameChar. destruct (Ascii.eqb (lowerChar x) (lowerChar y)) eqn:E; [|discriminate].
    intros H. destruct (IH _ _ _ _ H) as (w & -> & Hw).
    exists (String y w). split; [reflexivity|].
    apply Ascii.eqb_eq in E. unfold toLowerCase in *. cbn [JsString.map].
    now rewrite Hw, E.
Qed.


(** The leftmost match: [search] returns the match at the first position
    that has one. *)
Lemma search_leftmost (ignoreCase : bool) (r : Re) (s : string) :
  forall prev m,
    search ignoreCase r prev s = Some m ->
    exists before start prev',
      s = before ++ start
      /\ matchAt ignoreCase r prev' start = Some m
      /\ forall before' start',
           s = before' ++ start' ->
           String.length before' < String.length before ->
           exists prev'', matchAt ignoreCase r prev'' start' = None.
Proof.
  induction s as [|c s IH]; intros prev m; cbn [search].
  - destruct (matchAt ignoreCase r prev "") as [m'|] eqn:E; [|discriminate].
    intros [= <-]. exists "", "", prev. split; [reflexivity|]. split; [exact E|].
    intros before' start' _ H. cbn in H. lia.
  - destruct (matchAt ignoreCase r prev (String c s)) as [m'|] eqn:E.
    + intros [= <-]. exists "", (String c s), prev.
      split; [reflexivity|]. split; [exact E|].
      intros before' start' _ H. cbn in H. lia.
    + intros H. destruct (IH _ _ H) as (before & start & prev' & -> & Hm & Hleft).
      exists (String c before), start, prev'.
      split; [reflexivity|]. split; [exact Hm|].
      intros before' start' Hs Hlen.
      destruct before' as [|c' before'].
      * cbn in Hs. subst start'. now exists prev.
      * cbn in Hs. injection Hs as <- Hs. apply (Hleft before' start' Hs).
        cbn in Hlen. lia.
Qed.

Lemma search_none (ignoreCase : bool) (r : Re) (s : string) :
  forall prev,
    search ignoreCase r prev s = None ->
    forall before start,
      s = before ++ start -> exists prev', matchAt ignoreCase r prev' start = None.
Proof.
  induction s as [|c s IH]; intros prev; cbn [search].
  - destruct (matchAt ignoreCase r prev "") as [m'|] eqn:E; [discriminate|].
    intros _ before start Hs. destruct before; [|discriminate].
    cbn in Hs. subst start. now exists prev.
  - destruct (matchAt ignoreCase r prev (String c s)) as [m'|] eqn:E; [discriminate|].
    intros H before start Hs. destruct before as [|c' before].
    + cbn in Hs. subst start. now exists prev.
    + cbn in Hs. injection Hs as <- Hs. exact (IH _ H before start Hs).
Qed.

(** A greedy repetition before a continuation that never fails takes
    the longest run. *)
Lemma classRun_all {A : Type} (p : ascii -> bool) (s : string) :
  forall prev (k : option ascii -> string -> option A),
    (forall prev' s', k prev' s' <> None) ->
    exists prev', classRun p 0 None prev s k = k prev' (snd (span p s)).
Proof.
  induction s as [|c s IH]; intros prev k Hk; cbn [classRun span].
  - now exists prev.
  - destruct (p c) eqn:Hp; cbn [andb negb exhausted option_map Nat.eqb Nat.pred].
    + destruct (IH (Some c) k Hk) as [prev' E]. rewrite E.
      destruct (span p s) as [run rest]. cbn [snd].
      exists prev'. destruct (k prev' rest) eqn:Ek; [reflexivity|].
      now destruct (Hk prev' rest).
    + now exists prev.
Qed.

Lemma classRun_longest {A : Type} (p : ascii -> bool) (s : string) :
  forall min prev (k : option ascii -> string -> option A),
    (forall prev' s', k prev' s' <> None) ->
    classRun p min None prev s k
    = if min <=? String.length (fst (span p s))
      then classRun p 0 None prev s k
      else None.
Proof.
  induction s as [|c s IH]; intros min prev k Hk; cbn [classRun span].
  - cbn [fst String.length]. destruct min; reflexivity.
  - destruct (p c) eqn:Hp; cbn [andb negb exhausted option_map].
    + rewrite (IH (Nat.pred min) (Some c) k Hk).
      destruct (classRun_all p s (Some c) k Hk) as [prev' E].
      destruct (span p s) as [run rest] eqn:Hspan. cbn [fst String.length].
      destruct min as [|min]; [reflexivity|].
      cbn [Nat.pred Nat.leb Nat.eqb].
      destruct (min <=? String.length run); [|reflexivity].
      rewrite E. destruct (k prev' (snd (run, rest))) eqn:Ek; [reflexivity|].
      now destruct (Hk prev' (snd (run, rest))).
    + cbn [fst String.length]. destruct min; reflexivity.
Qed.

Lemma span_app (p : ascii -> bool) (s : string) :
  s = fst (span p s) ++ snd (span p s).
Proof.
  induction s as [|c s IH]; [reflexivity|]. cbn [span].
  destruct (p c); [|reflexivity].
  destruct (span p s) as [run rest]. cbn [fst snd] in *. cbn. now rewrite <- IH.
Qed.

Lemma span_all (p : ascii -> bool) (s : string) :
  forallb p (list_ascii_of_string (fst (span p s))) = true.
Proof.
  induction s as [|c s IH]; [reflexivity|]. cbn [span].
  destruct (p c) eqn:Hp; [|reflexivity].
  destruct (span p s) as [run rest]. cbn [fst] in *. cbn. now rewrite Hp.
Qed.

Lemma span_stops (p : ascii -> bool) (s : string) :
  match snd (span p s) with
  | String c _ => p c = false
  | EmptyString => True
  end.
Proof.
  induction s as [|c s IH]; [exact I|]. cbn [span].
  destruct (p c) eqn:Hp; [|exact Hp].
  now destruct (span p s) as [run rest].
Qed.

End RegexFacts.

(** ** The SQL generator: tables and selected columns *)

Module SqlBuilderFacts.

Import SqlQueryGenerator.
Import SqlBuilder.

(** X17: the analyzer never joins the vehicle table: a query that
    mentions a vehicle is answered from [vehicle_master] (or from
    [product_design]) as main table, and only [sales_data] is joined
    with anything. Whenever there is a join it is [sales_data] with
    [product_design], and the join has a condition. *)
Theorem join_is_product_design_only (userQuery : string) :
  joinTableOf (toLowerCase userQuery) (mainTableOf (toLowerCase userQuery)) = None
  \/ (mainTableOf (toLowerCase userQuery) = sales_data
      /\ joinTableOf (toLowerCase userQuery) (mainTableOf (toLowerCase userQuery))
         = Some product_design
      /\ includes (toLowerCase userQuery) "vehicle" = false
      /\ isEmpty (joinCondition (mainTableOf (toLowerCase userQuery)) product_design)
         = false).
Proof.
  generalize (toLowerCase userQuery) as q. intros q.
  unfold mainTableOf, joinTableOf.
  destruct (includes q "product"), (includes q "material"), (includes q "vehicle"),
    (includes q "delivery"), (includes q "plate"), (includes q "product price"),
    (includes q "product cost"), (includes q "delivery plate");
    cbn; first [now left | right; repeat split; reflexivity].
Qed.

(** *** Every selected column comes from a push of [determineColumns] *)

Lemma find_In {A : Type} (p : A -> bool) (l : list A) (x : A) :
  find p l = Some x -> In x l.
Proof. intros H. now apply find_some in H. Qed.

Lemma firstSome_In {A B : Type} (f : A -> option B) (l : list A) (y : B) :
  firstSome f l = Some y -> exists x, In x l /\ f x = Some y.
Proof.
  induction l as [|x l IH]; [discriminate|].
  cbn [firstSome]. destruct (f x) as [y'|] eqn:E.
  - intros H. injection H as <-. exists x. split; [now left | exact E].
  - intros H. destruct (IH H) as (x' & Hin & Hx'). exists x'. split; [now right | exact Hx'].
Qed.

Lemma findColumn_In (schema : TableSchema) (colName : string) (c : Column) :
  findColumn schema colName = Some c -> In c (columns schema).
Proof. apply find_In. Qed.

Lemma firstDefault_In (schema : TableSchema) (defaults : list string) (c : Column) :
  firstDefault schema defaults = Some c -> In c (columns schema).
Proof.
  intros H. destruct (firstSome_In _ _ _ H) as (colName & _ & Hc).
  exact (findColumn_In _ _ _ Hc).
Qed.

Lemma Forall_optionToList {A B : Type} (P : B -> Prop) (f : A -> B) (o : option A) :
  (forall x, o = Some x -> P (f x)) -> Forall P (List.map f (optionToList o)).
Proof. destruct o as [x|]; intros H; [|constructor]. repeat constructor. now apply H. Qed.

Section Pushes.

Variable mainTable : Table.
Variable joinTable : option Table.
Variable P : SelectedColumn -> Prop.

Hypothesis P_count :
  P {| sc_tableName := mainTable; sc_columnName := "COUNT(*)";
       sc_displayName := "record_count"; sc_aggregate := Some COUNT |}.
Hypothesis P_sum :
  forall c, In c (columns (schemas mainTable)) -> P (aggregateOf mainTable "total_" SUM c).
Hypothesis P_avg :
  forall c, In c (columns (schemas mainTable)) -> P (aggregateOf mainTable "avg_" AVG c).
Hypothesis P_quantity :
  forall c, In c (columns (schemas mainTable)) ->
            P {| sc_tableName := mainTable; sc_columnName := dbName c;
                 sc_displayName := "total_quantity"; sc_aggregate := Some SUM |}.
Hypothesis P_plain :
  forall c, In c (columns (schemas mainTable)) -> P (plainColumn mainTable c).
Hypothesis P_join :
  forall table c,
    joinTable = Some table -> In c (columns (schemas table)) ->
    P {| sc_tableName := table; sc_columnName := dbName c;
         sc_displayName := tableName (schemas table) ++ "_" ++ name c;
         sc_aggregate := None |}.

Lemma Forall_map_filter {A : Type} (f : A -> SelectedColumn)
    (p : A -> bool) (l : list A) :
  (forall x, In x l -> P (f x)) -> Forall P (List.map f (filter p l)).
Proof.
  intros H. apply Forall_forall. intros s Hs.
  apply in_map_iff in Hs. destruct Hs as (x & <- & Hx).
  apply filter_In in Hx. now apply H.
Qed.

Lemma countColumns_pushes (simplifiedQuery : string) :
  Forall P (countColumns simplifiedQuery mainTable).
Proof. unfold countColumns. destruct (_ || _); repeat constructor. exact P_count. Qed.

Lemma sumColumns_pushes (simplifiedQuery : string) (l : list SelectedColumn) :
  Forall P l -> Forall P (sumColumns simplifiedQuery mainTable l).
Proof.
  intros H. unfold sumColumns.
  assert (Hsums : Forall P
            (l ++ List.map (aggregateOf mainTable "total_" SUM)
                    (filter (fun c => isNumericType c && mentions simplifiedQuery c)
                       (columns (schemas mainTable))))%list).
  { apply Forall_app. split; [exact H|]. apply Forall_map_filter.
    exact P_sum. }
  repeat match goal with
         | |- context [if ?b then _ else _] => destruct b
         end; trivial;
    apply Forall_app; (split; [exact Hsums|]); apply Forall_optionToList; intros c Hc.
  - apply P_quantity. exact (findColumn_In _ _ _ Hc).
  - apply P_sum. exact (firstDefault_In _ _ _ Hc).
Qed.

Lemma avgColumns_pushes (simplifiedQuery : string) (l : list SelectedColumn) :
  Forall P l -> Forall P (avgColumns simplifiedQuery mainTable l).
Proof.
  intros H. unfold avgColumns.
  assert (Havgs : Forall P
            (l ++ List.map (aggregateOf mainTable "avg_" AVG)
                    (filter (fun c => isNumericType c && mentions simplifiedQuery c)
                       (columns (schemas mainTable))))%list).
  { apply Forall_app. split; [exact H|]. apply Forall_map_filter.
    exact P_avg. }
  repeat match goal with
         | |- context [if ?b then _ else _] => destruct b
         end; trivial.
  apply Forall_app. split; [exact Havgs|]. apply Forall_optionToList. intros c Hc.
  apply P_avg. exact (firstDefault_In _ _ _ Hc).
Qed.

Lemma mentionedColumns_pushes (simplifiedQuery : string) (l : list SelectedColumn) :
  Forall P l -> Forall P (mentionedColumns simplifiedQuery mainTable l).
Proof.
  unfold mentionedColumns.
  assert (Hcols : forall c, In c (columns (schemas mainTable)) ->
                            In c (columns (schemas mainTable))) by trivial.
  revert Hcols l.
  generalize (columns (schemas mainTable)) at 1 3 as cols.
  induction cols as [|x cols IH]; intros Hcols l Hl; [exact Hl|].
  cbn [fold_left]. apply IH; [intros c Hc; apply Hcols; now right|].
  repeat match goal with
         | |- context [if ?b then _ else _] => destruct b
         end; trivial.
  apply Forall_app. split; [exact Hl|]. repeat constructor.
  apply P_plain, Hcols. now left.
Qed.

Lemma joinColumns_pushes (simplifiedQuery : string) (l : list SelectedColumn) :
  Forall P l -> Forall P (joinColumns simplifiedQuery joinTable l).
Proof.
  intros H. unfold joinColumns. destruct joinTable as [table|] eqn:E; [|exact H].
  apply Forall_app. split; [exact H|].
  apply Forall_map_filter. intros c Hc. now apply P_join.
Qed.

Lemma defaultColumns_pushes (l : list SelectedColumn) :
  Forall P l -> Forall P (defaultColumns mainTable l).
Proof.
  intros H. unfold defaultColumns.
  destruct (List.length l =? 0); [|exact H].
  destruct (tableEqb mainTable sales_data).
  - apply Forall_forall. intros s Hs. apply in_map_iff in Hs.
    destruct Hs as (c & <- & Hc). apply P_plain.
    apply in_flat_map in Hc. destruct Hc as (colName & _ & Hc).
    destruct (findColumn _ _) as [c'|] eqn:E; [|contradiction].
    destruct Hc as [<-|[]]. exact (findColumn_In _ _ _ E).
  - apply Forall_map_filter. exact P_plain.
Qed.

Lemma determineColumns_pushes (query : string) :
  Forall P (determineColumns query mainTable joinTable).
Proof.
  unfold determineColumns.
  apply defaultColumns_pushes, joinColumns_pushes, mentionedColumns_pushes,
    avgColumns_pushes, sumColumns_pushes, countColumns_pushes.
Qed.

End Pushes.

Lemma selectedColumns_pushes (P : SelectedColumn -> Prop) (userQuery : string) :
  let mainTable := mainTableOf (toLowerCase userQuery) in
  let joinTable := joinTableOf (toLowerCase userQuery) mainTable in
  P {| sc_tableName := mainTable; sc_columnName := "COUNT(*)";
       sc_displayName := "record_count"; sc_aggregate := Some COUNT |} ->
  (forall c, In c (columns (schemas mainTable)) ->
             P (aggregateOf mainTable "total_" SUM c)) ->
  (forall c, In c (columns (schemas mainTable)) ->
             P (aggregateOf mainTable "avg_" AVG c)) ->
  (forall c, In c (columns (schemas mainTable)) ->
             P {| sc_tableName := mainTable; sc_columnName := dbName c;
                  sc_displayName := "total_quantity"; sc_aggregate := Some SUM |}) ->
  (forall c, In c (columns (schemas mainTable)) -> P (plainColumn mainTable c)) ->
  (forall table c,
      joinTable = Some table -> In c (columns (schemas table)) ->
      P {| sc_tableName := table; sc_columnName := dbName c;
           sc_displayName := tableName (schemas table) ++ "_" ++ name c;
           sc_aggregate := None |}) ->
  Forall P (selectedColumns userQuery).
Proof.
  intros mainTable joinTable Hcount Hsum Havg Hquantity Hplain Hjoin.
  unfold selectedColumns. fold mainTable. fold joinTable.
  pose proof (determineColumns_pushes mainTable joinTable P Hcount Hsum Havg Hquantity
                Hplain Hjoin (toLowerCase userQuery)) as H.
  destruct (_ && _); [|exact H].
  apply Forall_app. split; [exact H|].
  apply Forall_optionToList. intros c Hc. apply Hquantity.
  exact (findColumn_In _ _ _ Hc).
Qed.

Lemma defaultColumns_nonempty (mainTable : Table) (l : list SelectedColumn) :
  defaultColumns mainTable l <> [].
Proof.
  unfold defaultColumns. destruct l as [|s l]; [|discriminate].
  destruct mainTable; discriminate.
Qed.

(** X18: the selected columns of an intent are never empty; each of
    them belongs to the main table or to the joined table, and names
    the record count or a column that the schema of its table has. *)
Theorem selectedColumns_are_known (userQuery : string) :
  selectedColumns userQuery <> []
  /\ Forall (fun s =>
               (sc_tableName s = mainTableOf (toLowerCase userQuery)
                \/ joinTableOf (toLowerCase userQuery) (mainTableOf (toLowerCase userQuery))
                   = Some (sc_tableName s))
               /\ (sc_columnName s = "COUNT(*)"
                   \/ In (sc_columnName s)
                        (List.map dbName (columns (schemas (sc_tableName s))))))
       (selectedColumns userQuery).
Proof.
  split.
  - unfold selectedColumns.
    assert (H : determineColumns (toLowerCase userQuery)
                  (mainTableOf (toLowerCase userQuery))
                  (joinTableOf (toLowerCase userQuery)
                     (mainTableOf (toLowerCase userQuery))) <> [])
      by apply defaultColumns_nonempty.
    destruct (_ && _); [|exact H].
    intros E. apply app_eq_nil in E. now destruct E.
  - apply selectedColumns_pushes; cbn [sc_tableName sc_columnName aggregateOf plainColumn];
      try (intros c Hc; split; [now left | right; now apply in_map]).
    + split; [now left | now left].
    + intros table c Htable Hc. split; [now right | right; now apply in_map].
Qed.

(** ** The SQL generator: placeholders *)

#[local] Abbreviation noQ s := (countChar "?" s = 0).

Ltac count_chars :=
  repeat rewrite countChar_app;
  repeat match goal with
         | H : countChar _ _ = _ |- _ => rewrite H
         end;
  try reflexivity.

Lemma tableKey_clean (table : Table) : noQ (tableKey table).
Proof. now destruct table. Qed.

Lemma aggregateName_clean (a : Aggregate) : noQ (aggregateName a).
Proof. now destruct a. Qed.

Lemma schema_columns_clean (table : Table) (c : Column) :
  In c (columns (schemas table)) -> noQ (dbName c) /\ noQ (name c).
Proof.
  destruct table; cbn; intros H;
    repeat (destruct H as [<-|H]; [split; reflexivity|]); contradiction.
Qed.

Lemma schema_tables_clean (table : Table) :
  noQ (dbTableName (schemas table)) /\ noQ (tableName (schemas table)).
Proof. now destruct table. Qed.

Lemma selectedColumns_clean (userQuery : string) :
  Forall (fun s => noQ (sc_columnName s) /\ noQ (sc_displayName s))
    (selectedColumns userQuery).
Proof.
  apply selectedColumns_pushes;
    cbn [sc_columnName sc_displayName aggregateOf plainColumn];
    try (intros c Hc; destruct (schema_columns_clean _ _ Hc) as [Hdb Hname];
         split; count_chars).
  - now split.
  - intros table c _ Hc. destruct (schema_columns_clean _ _ Hc) as [Hdb Hname].
    destruct (schema_tables_clean table) as [_ Htable].
    split; count_chars.
Qed.

Lemma split_clean (c d : ascii) (s : string) :
  countChar c s = 0 -> Forall (fun piece => countChar c piece = 0) (split d s).
Proof.
  induction s as [|x s IH]; [repeat constructor|].
  cbn [countChar split]. destruct (Ascii.eqb x c) eqn:E; [discriminate|].
  intros H. specialize (IH H).
  destruct (Ascii.eqb x d); [constructor; [reflexivity | exact IH]|].
  destruct (split d s) as [|p ps]; [repeat constructor; cbn; now rewrite E|].
  inversion IH as [|? ? Hp Hps]; subst.
  constructor; [cbn [countChar]; now rewrite E, Hp | exact Hps].
Qed.

Lemma countChar_join_each (c : ascii) (sep : string) (pieces : list string) :
  countChar c sep = 0 ->
  Forall (fun piece => countChar c piece = 1) pieces ->
  countChar c (join sep pieces) = List.length pieces.
Proof.
  intros Hsep H. induction H as [|piece pieces Hpiece H IH]; [reflexivity|].
  destruct pieces as [|next pieces]; [exact Hpiece|].
  change (join sep (piece :: next :: pieces))
    with (piece ++ sep ++ join sep (next :: pieces)).
  rewrite !countChar_app, Hpiece, Hsep, IH. reflexivity.
Qed.

Lemma explicitGrouping_clean (simplifiedQuery mainTable : string) :
  noQ mainTable -> Forall (fun g => noQ g) (explicitGrouping simplifiedQuery mainTable).
Proof.
  intros H. unfold explicitGrouping.
  repeat match goal with
         | |- context [if ?b then _ else _] => destruct b
         end; repeat constructor; count_chars.
Qed.

Lemma qualified_clean (s : SelectedColumn) :
  noQ (sc_columnName s) -> noQ (qualified s).
Proof.
  intros H. unfold qualified. pose proof (tableKey_clean (sc_tableName s)). count_chars.
Qed.

Lemma determineGrouping_clean (query : string) (selected : list SelectedColumn)
    (mainTable : Table) :
  Forall (fun s => noQ (sc_columnName s) /\ noQ (sc_displayName s)) selected ->
  Forall (fun g => noQ g) (determineGrouping query selected mainTable).
Proof.
  intros H. unfold determineGrouping.
  pose proof (tableKey_clean mainTable) as Hkey.
  destruct (existsb hasAggregate selected); [|constructor].
  destruct (List.length _ =? 0); [|now apply explicitGrouping_clean].
  destruct (_ || _); [repeat constructor; count_chars|].
  apply Forall_forall. intros g Hg. apply in_map_iff in Hg.
  destruct Hg as (s & <- & Hs). apply filter_In in Hs.
  apply qualified_clean.
  exact (proj1 (proj1 (Forall_forall _ _) H s (proj1 Hs))).
Qed.

Lemma sortDirection_clean (simplifiedQuery : string) : noQ (sortDirection simplifiedQuery).
Proof. unfold sortDirection. now destruct (_ || _). Qed.

Lemma requestedSorting_clean (simplifiedQuery : string)
    (selected : list SelectedColumn) (sorting : Sorting) :
  Forall (fun s => noQ (sc_columnName s) /\ noQ (sc_displayName s)) selected ->
  requestedSorting simplifiedQuery selected = Some sorting ->
  noQ (sortField sorting) /\ noQ (direction sorting).
Proof.
  intros H. unfold requestedSorting.
  assert (Hin : forall p s, find p selected = Some s -> noQ (qualified s)).
  { intros p s Hs. apply find_In in Hs. apply qualified_clean.
    exact (proj1 (proj1 (Forall_forall _ _) H s Hs)). }
  pose proof (sortDirection_clean simplifiedQuery) as Hdir.
  destruct (_ || _); [|discriminate].
  destruct (find _ selected) as [s|] eqn:E1.
  - intros E. injection E as <-. split; [exact (Hin _ _ E1) | exact Hdir].
  - clear E1. destruct (find _ selected) as [s|] eqn:E2; [|discriminate].
    intros E. injection E as <-. split; [|exact Hdir].
    cbn [sortField]. unfold aggregated. pose proof (Hin _ _ E2).
    destruct (sc_aggregate s) as [a|]; [pose proof (aggregateName_clean a)|];
      count_chars.
Qed.

Lemma determineSorting_clean (query : string) (selected : list SelectedColumn)
    (mainTable : Table) (groupBy : list string) (sorting : Sorting) :
  Forall (fun s => noQ (sc_columnName s) /\ noQ (sc_displayName s)) selected ->
  determineSorting query selected mainTable groupBy = Some sorting ->
  noQ (sortField sorting) /\ noQ (direction sorting).
Proof.
  intros H. unfold determineSorting.
  pose proof (tableKey_clean mainTable) as Hkey.
  destruct (requestedSorting _ _) as [s|] eqn:E.
  - intros E'. injection E' as <-. exact (requestedSorting_clean _ _ _ H E).
  - destruct (_ && _); [|discriminate].
    intros E'. injection E' as <-. split; cbn [sortField direction]; count_chars.
Qed.

Section BuilderFacts.

Context {Number : Type}.
Variable numberToString : Number -> string.
Variable numberOfDigits : string -> Number.
Variable numberOfNat : nat -> Number.
Variable parseFloat : string -> Number.
Variables lastMonthStart lastMonthEnd thisMonthStart : string.
Variable currentYear : BinNums.Z.

#[local] Abbreviation cleanItem i :=
  (noQ (si_tableName i) /\ noQ (si_columnName i) /\ noQ (si_displayName i)).
#[local] Abbreviation cleanFilter f :=
  (noQ (field (Number := Number) f) /\ noQ (operator f)).

Lemma groupColumnName_clean (groupItem : string) :
  noQ groupItem -> noQ (groupColumnName groupItem) /\ noQ (groupTableName groupItem).
Proof using Type.
  intros H. unfold groupColumnName, groupTableName.
  pose proof (split_clean "?" "." groupItem H) as Hpieces.
  destruct (split "." groupItem) as [|first [|second rest]].
  - now split.
  - inversion Hpieces; subst. now split.
  - inversion Hpieces as [|? ? H1 H2]; subst. inversion H2; subst. now split.
Qed.

Lemma expressionName_clean (groupItem : string) : noQ (expressionName groupItem).
Proof using Type.
  unfold expressionName.
  repeat match goal with
         | |- context [if ?b then _ else _] => destruct b
         end; reflexivity.
Qed.

Lemma columnsToSelect_clean (selected : list SelectedColumn) (groupBy : list string) :
  Forall (fun s => noQ (sc_columnName s) /\ noQ (sc_displayName s)) selected ->
  Forall (fun g => noQ g) groupBy ->
  Forall (fun i => cleanItem i) (columnsToSelect selected groupBy).
Proof using Type.
  intros Hsel Hgroup. unfold columnsToSelect.
  assert (Hstart : Forall (fun i => cleanItem i) (List.map ofSelected selected)).
  { apply Forall_forall. intros i Hi. apply in_map_iff in Hi.
    destruct Hi as (s & <- & Hs).
    destruct (proj1 (Forall_forall _ _) Hsel s Hs) as [Hc Hd].
    cbn [ofSelected si_tableName si_columnName si_displayName].
    split; [apply tableKey_clean | now split]. }
  assert (Hfold : forall (step : list SelectItem -> string -> list SelectItem),
             (forall l g, Forall (fun i => cleanItem i) l -> noQ g ->
                          Forall (fun i => cleanItem i) (step l g)) ->
             forall l, Forall (fun i => cleanItem i) l ->
                       Forall (fun i => cleanItem i) (fold_left step groupBy l)).
  { intros step Hstep. induction Hgroup as [|g groupBy Hg Hgroup IH]; intros l Hl;
      [exact Hl|].
    cbn [fold_left]. apply IH. now apply Hstep. }
  apply Hfold; [|apply Hfold; [|exact Hstart]].
  - intros l g Hl Hg. unfold addGroupExpression.
    destruct (includes g "("); [|exact Hl].
    destruct (existsb _ l); [exact Hl|].
    apply Forall_app. split; [exact Hl|]. repeat constructor; cbn; trivial.
    apply expressionName_clean.
  - intros l g Hl Hg. unfold addGroupColumn.
    destruct (includes g "("); [exact Hl|].
    destruct (alreadySelected l g); [exact Hl|].
    apply Forall_app. split; [exact Hl|].
    destruct (groupColumnName_clean g Hg) as [Hc Ht].
    repeat constructor; cbn; trivial.
Qed.

Lemma columnSelection_clean (i : SelectItem) :
  cleanItem i -> noQ (columnSelection i).
Proof using Type.
  intros (Ht & Hc & Hd). unfold columnSelection.
  destruct (String.eqb _ _); [count_chars|].
  destruct (si_aggregate i) as [a|]; [pose proof (aggregateName_clean a); count_chars|].
  destruct (_ || _); count_chars.
Qed.

Lemma selectList_clean (items : list SelectItem) :
  Forall (fun i => cleanItem i) items -> noQ (selectList items).
Proof using Type.
  intros H. unfold selectList. destruct (List.length items =? 0); [reflexivity|].
  apply countChar_join_clean; [reflexivity|].
  apply Forall_forall. intros text Htext. apply in_map_iff in Htext.
  destruct Htext as (i & <- & Hi). apply columnSelection_clean.
  exact (proj1 (Forall_forall _ _) H i Hi).
Qed.

Lemma fromClause_clean (mainTable : Table) : noQ (fromClause mainTable).
Proof using Type. now destruct mainTable. Qed.

Lemma joinClause_clean (mainTable : Table) (joinTable : option Table) :
  noQ (joinClause mainTable joinTable).
Proof using Type. destruct joinTable as [[]|]; destruct mainTable; reflexivity. Qed.

Lemma whereClause_count (filters : list (@Filter Number)) :
  Forall (fun f => cleanFilter f) filters ->
  countChar "?" (whereClause filters) = List.length filters.
Proof using Type.
  intros H. unfold whereClause.
  destruct filters as [|f filters]; [reflexivity|].
  cbn [List.length Nat.ltb Nat.leb]. rewrite countChar_app.
  rewrite countChar_join_each; [now rewrite length_map | reflexivity |].
  apply Forall_forall. intros text Htext. apply in_map_iff in Htext.
  destruct Htext as (f' & <- & Hf').
  destruct (proj1 (Forall_forall _ _) H f' Hf') as [Hfield Hop].
  unfold filterClause. count_chars.
Qed.

Lemma groupByClause_clean (groupBy : list string) :
  Forall (fun g => noQ g) groupBy -> noQ (groupByClause groupBy).
Proof using Type.
  intros H. unfold groupByClause. destruct (0 <? List.length groupBy); [|reflexivity].
  rewrite countChar_app. now rewrite countChar_join_clean.
Qed.

(** X19: [buildSqlQuery] writes one placeholder per filter and nowhere
    else: when no name that goes into the text holds a question mark,
    the text holds exactly as many as there are filters. *)
Theorem buildSqlQuery_placeholders (mainTable : Table) (joinTable : option Table)
    (selected : list SelectedColumn) (needsAggregation : bool) (groupBy : list string)
    (filters : list (@Filter Number)) (sorting : option Sorting)
    (limit : option Number) :
  Forall (fun s => noQ (sc_columnName s) /\ noQ (sc_displayName s)) selected ->
  Forall (fun g => noQ g) groupBy ->
  Forall (fun f => noQ (field f) /\ noQ (operator f)) filters ->
  (forall s, sorting = Some s -> noQ (sortField s) /\ noQ (direction s)) ->
  (forall n, limit = Some n -> noQ (numberToString n)) ->
  countChar "?" (buildSqlQuery numberToString mainTable joinTable selected
                   needsAggregation groupBy filters sorting limit)
  = List.length filters.
Proof using Type.
  intros Hsel Hgroup Hfilters Hsort Hlimit. unfold buildSqlQuery.
  rewrite !countChar_app.
  rewrite (selectList_clean _ (columnsToSelect_clean _ _ Hsel Hgroup)).
  rewrite fromClause_clean, joinClause_clean, (whereClause_count _ Hfilters),
    (groupByClause_clean _ Hgroup).
  assert (Horder : noQ (orderByClause selected groupBy sorting)).
  { unfold orderByClause. destruct sorting as [s|]; [|reflexivity].
    cbn zeta. destruct (_ || _); [|reflexivity].
    destruct (Hsort s eq_refl) as [Hf Hd]. count_chars. }
  assert (Hlim : noQ (limitClause numberToString limit)).
  { unfold limitClause. destruct limit as [n|]; [|reflexivity].
    pose proof (Hlimit n eq_refl). count_chars. }
  rewrite Horder, Hlim. cbn. lia.
Qed.

(** *** The filters *)

Import Regex.

#[local] Abbreviation filters :=
  (determineFilters (Number := Number) parseFloat).
#[local] Abbreviation timeFilters :=
  (extractTimeFilters (Number := Number) lastMonthStart lastMonthEnd thisMonthStart
     currentYear).

Lemma location_kind (simplifiedQuery : string) (caps : Captures) :
  firstMatch true locationRegex simplifiedQuery = Some caps ->
  In (toLowerCase (capture 3 caps)) ["country"; "region"; "city"].
Proof using Type.
  intros H. apply firstMatch_sound in H. destruct H as (start & s' & H).
  cbn [locationRegex sequence words anyOf List.map Matched] in H.
  destruct H as (s1 & c1 & (c1' & _ & ->) & s2 & c2 & _ & s3 & c3 & (c3' & _ & ->)
                 & c4 & Hkind & ->).
  change (capture 3 ((3, consumed s3 s') :: c4)) with (consumed s3 s').
  assert (Hlit : forall text,
             (c4 = (2, consumed s2 s3) :: c3'
              /\ exists prev prev', litRest true text prev s3 = Some (prev', s')) ->
             toLowerCase (consumed s3 s') = toLowerCase text).
  { intros text (_ & prev & prev' & Hrest).
    destruct (litRest_split _ _ _ _ _ Hrest) as (w & -> & Hw).
    now rewrite consumed_app. }
  destruct Hkind as [Hkind|[Hkind|Hkind]]; rewrite (Hlit _ Hkind);
    [left | right; left | right; right; left]; reflexivity.
Qed.

#[local] Abbreviation named mainTable joinTable f :=
  ((exists table c,
       (table = mainTable \/ joinTable = Some table)
       /\ In c (columns (schemas table))
       /\ field (Number := Number) f = tableKey table ++ "." ++ dbName c
       /\ (operator f = "=" \/ operator f = "LIKE"
           \/ (table = mainTable /\ (operator f = ">" \/ operator f = "<"))))
   \/ (field f = tableKey mainTable ++ ".sales_type" /\ operator f = "="
       /\ (value f = JString "instore" \/ value f = JString "delivery"))
   \/ (exists kind,
          In kind ["country"; "region"; "city"]
          /\ field f = tableKey mainTable ++ "." ++ kind /\ operator f = "=")).

Lemma matched_Forall (P : @Filter Number -> Prop) (pattern : Re)
    (simplifiedQuery : string) (filter : Captures -> @Filter Number) :
  (forall caps, firstMatch true pattern simplifiedQuery = Some caps -> P (filter caps)) ->
  Forall P (matched pattern simplifiedQuery filter).
Proof using Type.
  intros H. unfold matched.
  destruct (firstMatch true pattern simplifiedQuery) as [caps|]; repeat constructor.
  now apply H.
Qed.

Lemma determineFilters_named (query : string) (mainTable : Table)
    (joinTable : option Table) :
  Forall (fun f => named mainTable joinTable f) (filters query mainTable joinTable).
Proof using Type.
  unfold determineFilters.
  repeat (apply Forall_app; split).
  - apply Forall_flat_map, Forall_forall. intros c Hc.
    repeat (apply Forall_app; split); apply matched_Forall; intros caps _; left;
      exists mainTable, c; cbn [field operator];
      (split; [now left | split; [exact Hc | split; [reflexivity|]]]);
      first [now left | now right; left | right; right; split; [reflexivity|];
             first [now left | now right]].
  - destruct joinTable as [table|]; [|constructor].
    apply Forall_flat_map, Forall_forall. intros c Hc.
    repeat (apply Forall_app; split); apply matched_Forall; intros caps _; left;
      exists table, c; cbn [field operator];
      (split; [now right | split; [exact Hc | split; [reflexivity|]]]);
      first [now left | now right; left].
  - unfold salesTypeFilter.
    repeat match goal with
           | |- context [if ?b then _ else _] => destruct b
           end; repeat constructor; right; left; cbn [field operator value];
      (split; [reflexivity | split; [reflexivity|]]); first [now left | now right].
  - apply matched_Forall. intros caps Hcaps. right. right.
    exists (toLowerCase (capture 3 caps)). cbn [field operator].
    split; [exact (location_kind _ _ Hcaps) | now split].
Qed.

(** X24: [determineFilters] only ever writes four operators, and every
    filter is on a column of the main table or, for the join table,
    with [=] or [LIKE] on one of its columns, apart from the two
    shortcuts, which are always put on the main table: [sales_type], and
    the [country], [region] or [city] that the location pattern found.
    With [sales_data] as main table every filter is on a column that the
    schema of its table has. *)
Theorem determineFilters_fields (query : string) (mainTable : Table)
    (joinTable : option Table) :
  Forall (fun f =>
            (exists table c,
                (table = mainTable \/ joinTable = Some table)
                /\ In c (columns (schemas table))
                /\ field f = tableKey table ++ "." ++ dbName c
                /\ (operator f = "=" \/ operator f = "LIKE"
                    \/ (table = mainTable /\ (operator f = ">" \/ operator f = "<"))))
            \/ (field f = tableKey mainTable ++ ".sales_type" /\ operator f = "="
                /\ (value f = JString "instore" \/ value f = JString "delivery"))
            \/ (exists kind,
                   In kind ["country"; "region"; "city"]
                   /\ field f = tableKey mainTable ++ "." ++ kind /\ operator f = "="))
    (filters query mainTable joinTable)
  /\ (mainTable = sales_data ->
      Forall (fun f =>
                exists table c,
                  (table = mainTable \/ joinTable = Some table)
                  /\ In c (columns (schemas table))
                  /\ field f = tableKey table ++ "." ++ dbName c)
        (filters query mainTable joinTable)).
Proof using Type.
  split; [apply determineFilters_named|].
  intros ->. eapply Forall_impl; [|apply determineFilters_named].
  intros f [(table & c & Htable & Hc & Hfield & _)|[(Hfield & _)|(kind & Hkind & Hfield & _)]].
  - now exists table, c.
  - exists sales_data, (col "sales_type" "nvarchar" "Type of sales (instore or delivery)"
                          false).
    split; [now left|]. split; [cbn; do 15 right; now left | exact Hfield].
  - exists sales_data.
    destruct Hkind as [<-|[<-|[<-|[]]]].
    + exists (col "country" "nvarchar" "Country of the store" false).
      split; [now left|]. split; [cbn; right; now left | exact Hfield].
    + exists (col "region" "nvarchar" "Region of the store" false).
      split; [now left|]. split; [cbn; do 2 right; now left | exact Hfield].
    + exists (col "city" "nvarchar" "City of the store" false).
      split; [now left|]. split; [cbn; do 3 right; now left | exact Hfield].
Qed.

Lemma determineFilters_clean (query : string) (mainTable : Table)
    (joinTable : option Table) :
  Forall (fun f => cleanFilter f) (filters query mainTable joinTable).
Proof using Type.
  eapply Forall_impl; [|apply determineFilters_named].
  intros f [(table & c & _ & Hc & -> & Hop)|[(-> & -> & _)|(kind & Hkind & -> & ->)]].
  - destruct (schema_columns_clean _ _ Hc) as [Hdb _].
    pose proof (tableKey_clean table).
    split; [count_chars|].
    destruct Hop as [->|[->|[_ [->| ->]]]]; reflexivity.
  - pose proof (tableKey_clean mainTable). split; count_chars.
  - pose proof (tableKey_clean mainTable).
    destruct Hkind as [<-|[<-|[<-|[]]]]; split; count_chars.
Qed.

Ltac date_filter :=
  cbn [since until field operator value];
  split; [reflexivity
         | split; [first [now left | now right]
                  | eexists; first [reflexivity | split; [reflexivity | assumption]]]].

Lemma explicitDates_shape (query : string) (mainTable : Table) :
  List.length (explicitDates (Number := Number) query mainTable) <= 2
  /\ Forall (fun f : @Filter Number =>
               field f = tableKey mainTable ++ ".sales_date"
               /\ (operator f = ">=" \/ operator f = "<=")
               /\ exists date, value f = JString date /\ countChar "/" date = 0)
       (explicitDates query mainTable).
Proof using Type.
  unfold explicitDates.
  assert (Hdates : Forall (fun date => countChar "/" date = 0)
                     (List.map (replaceChar "/" "-") (matchAll false dateRegex query))).
  { apply Forall_forall. intros date Hdate. apply in_map_iff in Hdate.
    destruct Hdate as (found & <- & _). now apply replaceChar_removes. }
  destruct (List.map _ _) as [|first [|second others]].
  - split; [cbn; lia | constructor].
  - inversion Hdates; subst. split; [cbn; lia|].
    repeat (constructor; [date_filter|]). constructor.
  - inversion Hdates as [|? ? H1 H2]; subst. inversion H2; subst.
    split; [cbn; lia|].
    repeat (constructor; [date_filter|]). constructor.
Qed.

Lemma relativePeriod_shape (query : string) (mainTable : Table) :
  List.length (relativePeriod (Number := Number) lastMonthStart lastMonthEnd
                 thisMonthStart currentYear query mainTable) <= 2
  /\ Forall (fun f : @Filter Number =>
               field f = tableKey mainTable ++ ".sales_date"
               /\ (operator f = ">=" \/ operator f = "<=")
               /\ exists date, value f = JString date)
       (relativePeriod lastMonthStart lastMonthEnd thisMonthStart currentYear
          query mainTable).
Proof using Type.
  unfold relativePeriod.
  repeat match goal with
         | |- context [if ?b then _ else _] => destruct b
         end; (split; [cbn; lia|]);
    repeat (constructor; [date_filter|]); constructor.
Qed.

Lemma extractTimeFilters_on_date (query : string) (mainTable : Table) :
  Forall (fun f : @Filter Number =>
            field f = tableKey mainTable ++ ".sales_date"
            /\ (operator f = ">=" \/ operator f = "<=")
            /\ exists date, value f = JString date)
    (timeFilters query mainTable).
Proof using Type.
  unfold extractTimeFilters. apply Forall_app. split.
  - eapply Forall_impl; [|apply (proj2 (explicitDates_shape query mainTable))].
    intros f (Hf & Hop & date & Hv & _). eauto.
  - apply relativePeriod_shape.
Qed.

(** X25: [extractTimeFilters] returns at most four filters, all of them
    on [sales_date] of the main table, whichever table that is, with
    [>=] or [<=] and a text as value; the dates found in the query come
    first, with dashes for their slashes, and at most two of them are
    used. *)
Theorem extractTimeFilters_shape (query : string) (mainTable : Table) :
  List.length (timeFilters query mainTable) <= 4
  /\ Forall (fun f : @Filter Number =>
               field f = tableKey mainTable ++ ".sales_date"
               /\ (operator f = ">=" \/ operator f = "<=")
               /\ exists date, value f = JString date)
       (timeFilters query mainTable)
  /\ (exists period,
         timeFilters query mainTable = (explicitDates query mainTable ++ period)%list
         /\ List.length (explicitDates (Number := Number) query mainTable) <= 2
         /\ Forall (fun f : @Filter Number =>
                      exists date, value f = JString date /\ countChar "/" date = 0)
              (explicitDates query mainTable)).
Proof using Type.
  destruct (explicitDates_shape query mainTable) as [Hlen Hdates].
  destruct (relativePeriod_shape query mainTable) as [Hlen' _].
  split; [unfold extractTimeFilters; rewrite length_app; lia|].
  split; [apply extractTimeFilters_on_date|].
  unfold extractTimeFilters. eexists. split; [reflexivity|]. split; [exact Hlen|].
  eapply Forall_impl; [|exact Hdates]. intros f (_ & _ & H). exact H.
Qed.

Lemma extractTimeFilters_clean (query : string) (mainTable : Table) :
  Forall (fun f => cleanFilter f) (timeFilters query mainTable).
Proof using Type.
  eapply Forall_impl; [|apply extractTimeFilters_on_date].
  intros f (-> & Hop & _). pose proof (tableKey_clean mainTable).
  split; [count_chars|]. destruct Hop as [-> | ->]; reflexivity.
Qed.

#[local] Abbreviation generate :=
  (generateSqlQuery numberToString numberOfDigits numberOfNat parseFloat
     lastMonthStart lastMonthEnd thisMonthStart currentYear).

Lemma grouping_clean (userQuery : string) : Forall (fun g => noQ g) (grouping userQuery).
Proof using Type.
  unfold grouping.
  pose proof (determineGrouping_clean (toLowerCase userQuery) _
                (mainTableOf (toLowerCase userQuery))
                (selectedColumns_clean userQuery)) as H.
  destruct (_ && _); [|exact H].
  apply Forall_app. split; [exact H|]. repeat constructor.
  pose proof (tableKey_clean (mainTableOf (toLowerCase userQuery))). count_chars.
Qed.

(** X20: the query text and the parameters that [generateSqlQuery]
    returns fit together: provided numbers are written without a
    question mark, the text holds exactly one placeholder per parameter,
    so that [query] of [lib/db.ts] replaces every one of them and sends
    a text without placeholders. *)
Theorem generateSqlQuery_placeholders (dbCheck : Completion (@ConnectionStatus Number))
    (userQuery : string) :
  (forall n, noQ (numberToString n)) ->
  countChar "?" (sql (generate dbCheck userQuery))
  = List.length (params (generate dbCheck userQuery))
  /\ countChar "?" (preparedQuery (sql (generate dbCheck userQuery))
                      (params (generate dbCheck userQuery))) = 0.
Proof using Type.
  intros Hnumber.
  assert (Hcount : countChar "?" (sql (generate dbCheck userQuery))
                   = List.length (params (generate dbCheck userQuery))).
  { unfold generateSqlQuery.
    destruct dbCheck as [[timestamp|e]|thrown]; try reflexivity.
    cbn [sql params]. rewrite length_map.
    apply buildSqlQuery_placeholders.
    - apply selectedColumns_clean.
    - apply grouping_clean.
    - apply Forall_app. split;
        [apply determineFilters_clean | apply extractTimeFilters_clean].
    - intros s Hs. eapply determineSorting_clean; [|exact Hs].
      apply selectedColumns_clean.
    - intros n _. apply Hnumber. }
  split; [exact Hcount|].
  unfold preparedQuery. rewrite substituteFrom_count, Hcount. lia.
Qed.

End BuilderFacts.





(** ** The SQL generator: grouping, ordering and the connection check *)

(** *** The pattern of [determineLimit] *)

Section LimitPattern.

Import Regex.

Lemma classRun_complete {A : Type} (p : ascii -> bool) (run rest : string) :
  forall min prev (k : option ascii -> string -> option A),
    forallb p (list_ascii_of_string run) = true ->
    min <= String.length run ->
    (forall prev', k prev' rest <> None) ->
    classRun p min None prev (run ++ rest) k <> None.
Proof.
  induction run as [|c run IH]; intros min prev k Hall Hmin Hk.
  - cbn in Hmin. assert (min = 0) by lia. subst min. cbn [append].
    destruct rest as [|c rest]; cbn [classRun Nat.eqb]; [apply Hk|].
    destruct (p c && negb (exhausted None)); [|apply Hk].
    destruct (classRun p _ _ _ _ _); [discriminate|apply Hk].
  - cbn in Hall. apply andb_true_iff in Hall. destruct Hall as [Hc Hall].
    cbn [append classRun]. rewrite Hc. cbn [andb negb exhausted option_map].
    pose proof (IH (Nat.pred min) (Some c) k Hall) as H.
    destruct (classRun p (Nat.pred min) None (Some c) (run ++ rest) k);
      [discriminate|].
    exfalso. apply H; [cbn in Hmin; lia | exact Hk | reflexivity].
Qed.

Lemma lowered_app (a b : string) :
  toLowerCase (a ++ b) = a ++ b -> toLowerCase a = a /\ toLowerCase b = b.
Proof.
  unfold toLowerCase. induction a as [|c a IH]; cbn [append JsString.map].
  - now split.
  - intros H. injection H as Hc H. destruct (IH H) as [Ha Hb].
    split; [now rewrite Hc, Ha | exact Hb].
Qed.

#[local] Abbreviation limitTail s rest prev :=
  (classRun isSpace 1 None prev rest
     (fun prev0 rest0 =>
        classRun isDigit 1 None prev0 rest0
          (fun prev1 rest1 =>
             Some {| whole := consumed s rest1;
                     groups := [(2, consumed rest0 rest1); (1, consumed s rest)];
                     before := prev1;
                     rest := rest1 |}))).

Lemma limitTail_sound (s r : string) (prev : option ascii) (m : Match) :
  limitTail s r prev = Some m ->
  exists blank digits after,
    r = blank ++ digits ++ after
    /\ blank <> "" /\ forallb isSpace (list_ascii_of_string blank) = true
    /\ digits <> "" /\ forallb isDigit (list_ascii_of_string digits) = true
    /\ match after with String c _ => isDigit c = false | EmptyString => True end
    /\ capture 2 (groups m) = digits.
Proof.
  intros H. apply classRun_sound in H.
  destruct H as (blank & s' & prev' & -> & Hblank & Hlen & H).
  rewrite classRun_longest in H by discriminate.
  destruct (1 <=? String.length (fst (span isDigit s'))) eqn:Hdigits; [|discriminate].
  apply Nat.leb_le in Hdigits.
  match type of H with
  | classRun _ _ _ _ _ ?k = _ =>
      destruct (classRun_all isDigit s' prev' k) as [prev'' E]; [discriminate|]
  end.
  rewrite E in H. injection H as <-. cbn [groups capture find fst snd Nat.eqb].
  exists blank, (fst (span isDigit s')), (snd (span isDigit s')).
  split; [now rewrite <- span_app|].
  split; [intros ->; cbn in Hlen; lia|]. split; [exact Hblank|].
  split; [intros E'; rewrite E' in Hdigits; cbn in Hdigits; lia|].
  split; [apply span_all|]. split; [apply span_stops|].
  rewrite (span_app isDigit s') at 1. apply consumed_app.
Qed.

Lemma limitTail_complete (s r : string) (prev : option ascii)
    (blank : string) (digit : ascii) (after : string) :
  r = blank ++ String digit after ->
  blank <> "" -> forallb isSpace (list_ascii_of_string blank) = true ->
  isDigit digit = true ->
  limitTail s r prev <> None.
Proof.
  intros -> Hne Hblank Hdigit.
  apply classRun_complete; [exact Hblank|destruct blank; [congruence|cbn; lia]|].
  intros prev'.
  apply (classRun_complete isDigit (String digit "") after);
    [cbn; now rewrite Hdigit|cbn; lia|discriminate].
Qed.

Lemma matchAt_limit_sound (prev : option ascii) (s : string) (m : Match) :
  toLowerCase s = s ->
  matchAt true limitRegex prev s = Some m ->
  exists word blank digits after,
    s = word ++ blank ++ digits ++ after
    /\ In word ["top"; "first"; "limit"]
    /\ blank <> "" /\ forallb isSpace (list_ascii_of_string blank) = true
    /\ digits <> "" /\ forallb isDigit (list_ascii_of_string digits) = true
    /\ match after with String c _ => isDigit c = false | EmptyString => True end
    /\ capture 2 (groups m) = digits.
Proof.
  intros Hlow.
  assert (Hword : forall word prev' r,
             litRest true word prev s = Some (prev', r) ->
             toLowerCase word = word ->
             limitTail s r prev' = Some m ->
             In word ["top"; "first"; "limit"] ->
             exists word blank digits after,
               s = word ++ blank ++ digits ++ after
               /\ In word ["top"; "first"; "limit"]
               /\ blank <> "" /\ forallb isSpace (list_ascii_of_string blank) = true
               /\ digits <> "" /\ forallb isDigit (list_ascii_of_string digits) = true
               /\ match after with String c _ => isDigit c = false | EmptyString => True end
               /\ capture 2 (groups m) = digits).
  { intros word prev' r Hlit Hw Htail Hin.
    destruct (litRest_split _ _ _ _ _ Hlit) as (w & Hs & Hlower).
    rewrite Hs in Hlow. destruct (lowered_app _ _ Hlow) as [Hwl _].
    rewrite Hwl, Hw in Hlower. subst w.
    destruct (limitTail_sound _ _ _ _ Htail)
      as (blank & digits & after & -> & H1 & H2 & H3 & H4 & H5 & H6).
    exists word, blank, digits, after. now repeat split. }
  unfold matchAt, limitRegex.
  cbn [sequence words anyOf List.map matchRe spaces].
  destruct (litRest true "top" prev s) as [[p1 r1]|] eqn:E1.
  - destruct (limitTail s r1 p1) as [m1|] eqn:T1.
    + intros [= <-]. apply (Hword "top" p1 r1 E1 eq_refl T1). cbn; tauto.
    + destruct (litRest true "first" prev s) as [[p2 r2]|] eqn:E2.
      * destruct (limitTail s r2 p2) as [m2|] eqn:T2.
        -- intros [= <-]. apply (Hword "first" p2 r2 E2 eq_refl T2). cbn; tauto.
        -- destruct (litRest true "limit" prev s) as [[p3 r3]|] eqn:E3; [|discriminate].
           intros T3. apply (Hword "limit" p3 r3 E3 eq_refl T3). cbn; tauto.
      * destruct (litRest true "limit" prev s) as [[p3 r3]|] eqn:E3; [|discriminate].
        intros T3. apply (Hword "limit" p3 r3 E3 eq_refl T3). cbn; tauto.
  - destruct (litRest true "first" prev s) as [[p2 r2]|] eqn:E2.
    + destruct (limitTail s r2 p2) as [m2|] eqn:T2.
      * intros [= <-]. apply (Hword "first" p2 r2 E2 eq_refl T2). cbn; tauto.
      * destruct (litRest true "limit" prev s) as [[p3 r3]|] eqn:E3; [|discriminate].
        intros T3. apply (Hword "limit" p3 r3 E3 eq_refl T3). cbn; tauto.
    + destruct (litRest true "limit" prev s) as [[p3 r3]|] eqn:E3; [|discriminate].
      intros T3. apply (Hword "limit" p3 r3 E3 eq_refl T3). cbn; tauto.
Qed.

Lemma litRest_prefix (text r : string) :
  forall prev, exists prev', litRest true text prev (text ++ r) = Some (prev', r).
Proof.
  induction text as [|c text IH]; intros prev; cbn [append litRest].
  - now exists prev.
  - unfold sameChar. rewrite Ascii.eqb_refl. apply IH.
Qed.

Lemma matchAt_limit_complete (prev : option ascii) (s word blank : string)
    (digit : ascii) (after : string) :
  s = word ++ blank ++ String digit after ->
  In word ["top"; "first"; "limit"] ->
  blank <> "" -> forallb isSpace (list_ascii_of_string blank) = true ->
  isDigit digit = true ->
  matchAt true limitRegex prev s <> None.
Proof.
  intros -> Hin Hne Hblank Hdigit.
  pose proof (fun s prev' =>
                limitTail_complete s (blank ++ String digit after) prev' blank digit after
                  eq_refl Hne Hblank Hdigit) as Htail.
  unfold matchAt, limitRegex.
  cbn [sequence words anyOf List.map matchRe spaces].
  destruct Hin as [<-|[<-|[<-|[]]]].
  - destruct (litRest_prefix "top" (blank ++ String digit after) prev) as [p ->].
    specialize (Htail ("top" ++ blank ++ String digit after) p).
    destruct (limitTail _ _ p); [discriminate|contradiction].
  - change (litRest true "top" prev ("first" ++ blank ++ String digit after))
      with (@None (option ascii * string)).
    destruct (litRest_prefix "first" (blank ++ String digit after) prev) as [p ->].
    specialize (Htail ("first" ++ blank ++ String digit after) p).
    destruct (limitTail _ _ p); [discriminate|contradiction].
  - change (litRest true "top" prev ("limit" ++ blank ++ String digit after))
      with (@None (option ascii * string)).
    change (litRest true "first" prev ("limit" ++ blank ++ String digit after))
      with (@None (option ascii * string)).
    destruct (litRest_prefix "limit" (blank ++ String digit after) prev) as [p ->].
    specialize (Htail ("limit" ++ blank ++ String digit after) p).
    destruct (limitTail _ _ p); [discriminate|contradiction].
Qed.

End LimitPattern.

Section SelectListFacts.

Context {Number : Type}.

Lemma fold_left_covers {A : Type} (step : list A -> string -> list A)
    (covered : list A -> string -> bool) :
  (forall l g, exists added, step l g = (l ++ added)%list) ->
  (forall l g, covered (step l g) g = true) ->
  (forall l added g, covered l g = true -> covered (l ++ added)%list g = true) ->
  forall groupBy l,
    (exists added, fold_left step groupBy l = (l ++ added)%list)
    /\ forall g, In g groupBy -> covered (fold_left step groupBy l) g = true.
Proof using Type.
  intros Hgrow Hstep Hkeep.
  induction groupBy as [|g groupBy IH]; intros l.
  - split; [exists []; now rewrite app_nil_r | contradiction].
  - cbn [fold_left]. destruct (IH (step l g)) as [(added & Hadded) Hcovered].
    destruct (Hgrow l g) as (first & Hfirst).
    split.
    + exists (first ++ added)%list. now rewrite Hadded, Hfirst, app_assoc.
    + intros g' [<-|Hg']; [|now apply Hcovered].
      rewrite Hadded. apply Hkeep, Hstep.
Qed.

#[local] Abbreviation named l g :=
  (existsb (fun c => String.eqb (si_displayName c) (expressionName g)) l).

(** X21: [buildSqlQuery] only adds to the select list, and after its
    two loops every [GROUP BY] item is accounted for there: for a plain
    item some entry has its column name or its qualified name, and for
    an expression some entry has the display name chosen for it. *)
Theorem group_items_are_selected (selected : list SelectedColumn)
    (groupBy : list string) :
  (exists added,
      columnsToSelect selected groupBy = (List.map ofSelected selected ++ added)%list)
  /\ forall g,
       In g groupBy ->
       (if includes g "(" then named (columnsToSelect selected groupBy) g
        else alreadySelected (columnsToSelect selected groupBy) g) = true.
Proof using Type.
  unfold columnsToSelect.
  set (start := List.map ofSelected selected).
  destruct (fold_left_covers addGroupColumn
              (fun l g => includes g "(" || alreadySelected l g)) with
    (groupBy := groupBy) (l := start) as [(added1 & Hadded1) Hcovered1].
  { intros l g. unfold addGroupColumn.
    destruct (includes g "("); [exists []; now rewrite app_nil_r|].
    destruct (alreadySelected l g); [exists []; now rewrite app_nil_r|].
    eexists. reflexivity. }
  { intros l g. unfold addGroupColumn.
    destruct (includes g "(") eqn:Hparen; [reflexivity|].
    destruct (alreadySelected l g) eqn:Hsel; [now rewrite Hsel|].
    cbn [orb]. unfold alreadySelected. rewrite existsb_app.
    cbn [existsb si_columnName]. now rewrite String.eqb_refl, orb_true_r. }
  { intros l added g H. apply orb_true_iff in H. apply orb_true_iff.
    destruct H as [H|H]; [now left | right].
    unfold alreadySelected in *. rewrite existsb_app. now rewrite H. }
  destruct (fold_left_covers addGroupExpression
              (fun l g => negb (includes g "(") || named l g)) with
    (groupBy := groupBy) (l := fold_left addGroupColumn groupBy start)
    as [(added2 & Hadded2) Hcovered2].
  { intros l g. unfold addGroupExpression.
    destruct (includes g "("); [|exists []; now rewrite app_nil_r].
    destruct (existsb _ l); [exists []; now rewrite app_nil_r|].
    eexists. reflexivity. }
  { intros l g. unfold addGroupExpression.
    destruct (includes g "(") eqn:Hparen; [|reflexivity].
    destruct (existsb _ l) eqn:Hnamed; [now rewrite Hnamed|].
    cbn [negb orb]. rewrite existsb_app.
    cbn [existsb si_displayName]. now rewrite String.eqb_refl, orb_true_r. }
  { intros l added g H. apply orb_true_iff in H. apply orb_true_iff.
    destruct H as [H|H]; [now left | right].
    rewrite existsb_app. now rewrite H. }
  split.
  - exists (added1 ++ added2)%list. now rewrite Hadded2, Hadded1, app_assoc.
  - intros g Hg. specialize (Hcovered1 g Hg). specialize (Hcovered2 g Hg).
    cbv beta in Hcovered1, Hcovered2.
    destruct (includes g "("); [exact Hcovered2|].
    cbn [orb] in Hcovered1. rewrite Hadded2.
    unfold alreadySelected in *. rewrite existsb_app. now rewrite Hcovered1.
Qed.

(** X22: the ordering by date that [determineSorting] falls back on is
    never dropped by [buildSqlQuery]: without a sorting asked for in the
    query, the [ORDER BY] clause is the one on [sales_data.sales_date],
    newest first, exactly when the main table is [sales_data], the
    query does not say "oldest", and there is no aggregate or the date
    is grouped by; otherwise there is no [ORDER BY] clause. *)
Theorem default_sorting_is_written (query : string) (selected : list SelectedColumn)
    (mainTable : Table) (groupBy : list string) :
  requestedSorting (toLowerCase query) selected = None ->
  orderByClause selected groupBy (determineSorting query selected mainTable groupBy)
  = if tableEqb mainTable sales_data
       && negb (includes (toLowerCase query) "oldest")
       && (negb (existsb hasAggregate selected)
           || existsb (fun g => includes g "sales_date") groupBy)
    then " ORDER BY sales_data.sales_date DESC"
    else "".
Proof using Type.
  intros Hnone. unfold determineSorting. rewrite Hnone.
  destruct mainTable; cbn [tableEqb andb]; try reflexivity.
  destruct (negb (includes (toLowerCase query) "oldest")); cbn [andb]; [|reflexivity].
  destruct (negb (existsb hasAggregate selected)
            || existsb (fun g => includes g "sales_date") groupBy) eqn:Hguard;
    [|reflexivity].
  unfold orderByClause. cbn zeta.
  change (sortingFieldBase
            {| sortField := tableKey sales_data ++ ".sales_date"; direction := "DESC" |})
    with "sales_date".
  assert (E : forall a b, a || b = true -> a || false || b = true)
    by (intros [] []; trivial).
  cbn [sortField]. change (includes (tableKey sales_data ++ ".sales_date") "(") with false.
  now rewrite (E _ _ Hguard).
Qed.

Lemma plainName_free (name : string) :
  plainName name = true ->
  name <> "" /\ countChar "." name = 0 /\ countChar "(" name = 0
  /\ countChar ")" name = 0.
Proof using Type.
  unfold plainName. intros H.
  apply andb_true_iff in H. destruct H as [H H3].
  apply andb_true_iff in H. destruct H as [H H2].
  apply andb_true_iff in H. destruct H as [H0 H1].
  apply Nat.eqb_eq in H1, H2, H3.
  repeat split; try assumption. intros ->. discriminate H0.
Qed.

Lemma split_two (c : ascii) (a b : string) :
  countChar c a = 0 -> countChar c b = 0 ->
  split c (a ++ String c b) = [a; b].
Proof using Type.
  intros Ha Hb. now rewrite (split_app c a b Ha), (split_free c b Hb).
Qed.

(** The column that the explanation names for a sorting on
    [table.column], with or without an aggregate around it. *)
Lemma sortingFieldName_plain (table : Table) (column direction : string) :
  plainName column = true ->
  sortingFieldName {| sortField := tableKey table ++ "." ++ column;
                      direction := direction |} = column.
Proof using Type.
  intros H. destruct (plainName_free column H) as (Hne & Hdot & Hopen & Hclose).
  unfold sortingFieldName. cbn [sortField].
  assert (Hfield : forall c, countChar c (tableKey table) = 0 -> countChar c column = 0 ->
                             Ascii.eqb "." c = false ->
                             split c (tableKey table ++ "." ++ column)
                             = [tableKey table ++ "." ++ column]).
  { intros c Ht Hc Hd. apply split_free.
    rewrite countChar_app. cbn [append countChar]. now rewrite Ht, Hc, Hd. }
  rewrite (Hfield "("%char) by (try assumption; now destruct table). cbn [last].
  rewrite (Hfield ")"%char) by (try assumption; now destruct table). cbn [hd].
  change (tableKey table ++ "." ++ column) with (tableKey table ++ String "." column).
  rewrite split_two by (try assumption; now destruct table).
  destruct column; [congruence|reflexivity].
Qed.

Lemma sortingFieldName_aggregated (a : Aggregate) (table : Table)
    (column direction : string) :
  plainName column = true ->
  sortingFieldName {| sortField := aggregateName a ++ "(" ++ (tableKey table ++ "." ++ column)
                                   ++ ")";
                      direction := direction |} = column.
Proof using Type.
  intros H. destruct (plainName_free column H) as (Hne & Hdot & Hopen & Hclose).
  unfold sortingFieldName. cbn [sortField].
  assert (Hinner : forall c, countChar c (tableKey table) = 0 -> countChar c column = 0 ->
                             Ascii.eqb "." c = false ->
                             countChar c (tableKey table ++ "." ++ column) = 0).
  { intros c Ht Hc Hd. rewrite countChar_app. cbn [append countChar].
    now rewrite Ht, Hc, Hd. }
  change (aggregateName a ++ "(" ++ (tableKey table ++ "." ++ column) ++ ")")
    with (aggregateName a ++ String "(" ((tableKey table ++ "." ++ column) ++ ")")).
  rewrite split_two.
  2:{ now destruct a. }
  2:{ rewrite countChar_app, Hinner by (try assumption; now destruct table).
      reflexivity. }
  cbn [last].
  change ((tableKey table ++ "." ++ column) ++ ")")
    with ((tableKey table ++ "." ++ column) ++ String ")" "").
  rewrite split_two by (try reflexivity; apply Hinner; try assumption; now destruct table).
  cbn [hd].
  change (tableKey table ++ "." ++ column) with (tableKey table ++ String "." column).
  rewrite split_two by (try assumption; now destruct table).
  destruct column; [congruence|reflexivity].
Qed.

(** What [determineSorting] sorts on. *)
Lemma determineSorting_field (query : string) (selected : list SelectedColumn)
    (mainTable : Table) (groupBy : list string) (sorting : Sorting) :
  determineSorting query selected mainTable groupBy = Some sorting ->
  (direction sorting = "ASC" \/ direction sorting = "DESC")
  /\ ((sortField sorting = tableKey sales_data ++ "." ++ "sales_date"
       /\ requestedSorting (toLowerCase query) selected = None)
      \/ exists c,
           In c selected
           /\ ((sc_aggregate c = None /\ sortField sorting = qualified c)
               \/ exists a, sc_aggregate c = Some a
                            /\ sortField sorting
                               = aggregateName a ++ "(" ++ qualified c ++ ")")).
Proof using Type.
  unfold determineSorting.
  assert (Hdir : forall q, sortDirection q = "ASC" \/ sortDirection q = "DESC")
    by (intros q; unfold sortDirection; destruct (_ || _); tauto).
  destruct (requestedSorting (toLowerCase query) selected) as [s|] eqn:E.
  - intros [= <-]. revert E. unfold requestedSorting.
    destruct (_ || _); [|discriminate].
    destruct (find _ selected) as [c|] eqn:E1.
    + intros [= <-]. cbn [direction sortField]. split; [apply Hdir|]. right.
      apply find_some in E1. destruct E1 as [Hin Hc]. exists c. split; [exact Hin|].
      left. split; [|reflexivity].
      apply andb_true_iff in Hc. destruct Hc as [Hc _].
      unfold hasAggregate in Hc. now destruct (sc_aggregate c).
    + clear E1. destruct (find _ selected) as [c|] eqn:E2; [|discriminate].
      intros [= <-]. cbn [direction sortField]. split; [apply Hdir|]. right.
      apply find_some in E2. destruct E2 as [Hin Hc]. exists c. split; [exact Hin|].
      right. apply andb_true_iff in Hc. destruct Hc as [Hc _].
      unfold hasAggregate in Hc. unfold aggregated.
      destruct (sc_aggregate c) as [a|]; [|discriminate]. now exists a.
  - destruct mainTable; cbn [tableEqb andb]; try discriminate.
    destruct (negb _ && _); [|discriminate].
    intros [= <-]. cbn [direction sortField]. split; [now right|]. now left.
Qed.

(** X26: the explanation tells of the ordering exactly when
    [buildSqlQuery] writes the [ORDER BY] clause, and it names the column
    that the clause sorts on.  For a sorting that [determineSorting]
    returns over selected columns with plain names (the count of all
    records apart) the clause, when it is written, is [ORDER BY] with the
    field and the direction [ASC] or [DESC], and the explanation then
    reads "The results are ordered by", the name of the column without
    its table and its aggregate, "in asc order" or "in desc order"; for
    the count of all records it gives the whole field instead. *)
Theorem explanation_names_the_sorting (query : string) (selected : list SelectedColumn)
    (mainTable : Table) (groupBy : list string) (sorting : Sorting) :
  Forall (fun c => plainName (sc_columnName c) = true \/ sc_columnName c = "COUNT(*)")
    selected ->
  determineSorting query selected mainTable groupBy = Some sorting ->
  exists table column,
    (sortField sorting = tableKey table ++ "." ++ column
     \/ exists a, sortField sorting
                  = aggregateName a ++ "(" ++ (tableKey table ++ "." ++ column) ++ ")")
    /\ ((table = sales_data /\ column = "sales_date")
        \/ exists c, In c selected /\ table = sc_tableName c /\ column = sc_columnName c)
    /\ (direction sorting = "ASC" \/ direction sorting = "DESC")
    /\ ((orderByClause selected groupBy (Some sorting) = ""
         /\ explainSorting selected groupBy (Some sorting) = "")
        \/ (orderByClause selected groupBy (Some sorting)
            = " ORDER BY " ++ sortField sorting ++ " " ++ direction sorting
            /\ explainSorting selected groupBy (Some sorting)
               = ". The results are ordered by "
                 ++ (if String.eqb column "COUNT(*)" then sortField sorting else column)
                 ++ " in " ++ (if String.eqb (direction sorting) "DESC"
                               then "desc" else "asc")
                 ++ " order")).
Proof using Type.
  intros Hplain Hsort.
  destruct (determineSorting_field _ _ _ _ _ Hsort) as [Hdir Hfield].
  assert (Hlower : toLowerCase (direction sorting)
                   = if String.eqb (direction sorting) "DESC" then "desc" else "asc")
    by (destruct Hdir as [-> | ->]; reflexivity).
  assert (Hclauses : forall name,
             sortingFieldName sorting = name ->
             (orderByClause selected groupBy (Some sorting) = ""
              /\ explainSorting selected groupBy (Some sorting) = "")
             \/ (orderByClause selected groupBy (Some sorting)
                 = " ORDER BY " ++ sortField sorting ++ " " ++ direction sorting
                 /\ explainSorting selected groupBy (Some sorting)
                    = ". The results are ordered by " ++ name
                      ++ " in " ++ (if String.eqb (direction sorting) "DESC"
                                    then "desc" else "asc")
                      ++ " order")).
  { intros name Hname. unfold orderByClause, explainSorting, sortingFieldBase.
    cbn zeta. rewrite Hname, Hlower.
    destruct (negb _ || _ || _); [right|left]; split; reflexivity. }
  destruct sorting as [sortField direction]. cbn [SqlBuilder.sortField SqlBuilder.direction] in *.
  destruct Hfield as [[-> _]|(c & Hin & Hc)].
  - exists sales_data, "sales_date". split; [now left|]. split; [now left|].
    split; [exact Hdir|]. apply (Hclauses "sales_date"). reflexivity.
  - exists (sc_tableName c), (sc_columnName c).
    pose proof (proj1 (Forall_forall _ _) Hplain c Hin) as Hname.
    assert (Hcount : forall s, plainName s = true -> String.eqb s "COUNT(*)" = false).
    { intros s Hs. destruct (String.eqb s "COUNT(*)") eqn:E; [|reflexivity].
      apply String.eqb_eq in E. subst s. discriminate Hs. }
    destruct Hc as [[Hnone ->]|(a & Ha & ->)]; unfold qualified in *.
    + split; [now left|]. split; [right; now exists c|]. split; [exact Hdir|].
      apply Hclauses. destruct Hname as [Hname|Hname].
      * rewrite (Hcount _ Hname). now apply sortingFieldName_plain.
      * rewrite Hname. destruct (sc_tableName c); vm_compute; reflexivity.
    + split; [right; now exists a|]. split; [right; now exists c|]. split; [exact Hdir|].
      apply Hclauses. destruct Hname as [Hname|Hname].
      * rewrite (Hcount _ Hname). now apply sortingFieldName_aggregated.
      * rewrite Hname. destruct a, (sc_tableName c); vm_compute; reflexivity.
Qed.

(** X27: a limit that [determineLimit] returns is what [parseInt] makes
    of the digits after the leftmost occurrence, in the lower-cased
    query, of "top", "first" or "limit" followed by white space and a
    digit: all the digits that stand there, up to the first character
    that is none.  Failing such an occurrence the limit is 10 when the
    query says "recent", and there is no limit otherwise. *)
Theorem determineLimit_reads_digits (numberOfDigits : string -> Number)
    (numberOfNat : nat -> Number) (query : string) :
  (forall limit,
      determineLimit numberOfDigits numberOfNat query = Some limit ->
      (exists before word blank digits after,
          toLowerCase query = before ++ word ++ blank ++ digits ++ after
          /\ In word ["top"; "first"; "limit"]
          /\ blank <> "" /\ forallb isSpace (list_ascii_of_string blank) = true
          /\ digits <> "" /\ forallb isDigit (list_ascii_of_string digits) = true
          /\ match after with
             | String c _ => isDigit c = false
             | EmptyString => True
             end
          /\ (forall before',
                 limitPhraseAt (toLowerCase query) before' ->
                 String.length before <= String.length before')
          /\ limit = numberOfDigits digits)
      \/ (limit = numberOfNat 10
          /\ includes (toLowerCase query) "recent" = true
          /\ forall before', ~ limitPhraseAt (toLowerCase query) before'))
  /\ (determineLimit numberOfDigits numberOfNat query = None
      <-> includes (toLowerCase query) "recent" = false
          /\ forall before', ~ limitPhraseAt (toLowerCase query) before').
Proof using Type.
  unfold determineLimit, Regex.firstMatch.
  destruct (Regex.search true limitRegex None (toLowerCase query)) as [m|] eqn:E;
    cbn [option_map].
  - destruct (search_leftmost _ _ _ _ _ E) as (before & start & prev & Hs & Hm & Hleft).
    assert (Hlow : toLowerCase start = start).
    { pose proof (toLowerCase_idempotent query) as H. rewrite Hs in H.
      exact (proj2 (lowered_app _ _ H)). }
    destruct (matchAt_limit_sound _ _ _ Hlow Hm)
      as (word & blank & digits & after & -> & Hword & Hne & Hblank & Hdigits
          & Hall & Hstop & Hcapture).
    assert (Hfirst : forall before',
               limitPhraseAt (toLowerCase query) before' ->
               String.length before <= String.length before').
    { intros before' (word' & blank' & digit' & after' & Hs' & Hword' & Hne' & Hblank'
                      & Hdigit').
      destruct (Nat.le_gt_cases (String.length before) (String.length before'))
        as [H|H]; [exact H|].
      destruct (Hleft before' _ Hs' H) as [prev' Hnone].
      now destruct (matchAt_limit_complete prev' _ word' blank' digit' after'
                      eq_refl Hword' Hne' Hblank' Hdigit'). }
    split.
    + intros limit [= <-]. left.
      exists before, word, blank, digits, after. rewrite Hcapture.
      repeat split; assumption.
    + split; [discriminate|]. intros [_ Hnone]. exfalso.
      destruct digits as [|digit digits]; [congruence|].
      apply (Hnone before). exists word, blank, digit, (digits ++ after).
      cbn in Hall. apply andb_true_iff in Hall.
      repeat split; try assumption; tauto.
  - assert (Hnone : forall before', ~ limitPhraseAt (toLowerCase query) before').
    { intros before' (word' & blank' & digit' & after' & Hs' & Hword' & Hne' & Hblank'
                      & Hdigit').
      destruct (search_none _ _ _ _ E before' _ Hs') as [prev' Hnone].
      now destruct (matchAt_limit_complete prev' _ word' blank' digit' after'
                      eq_refl Hword' Hne' Hblank' Hdigit'). }
    destruct (includes (toLowerCase query) "recent") eqn:Hrecent.
    + split.
      * intros limit [= <-]. right. now repeat split.
      * split; [discriminate|]. now intros [H _].
    + split; [discriminate|]. split; [now split|reflexivity].
Qed.

Variable numberToString : Number -> string.
Variable numberOfDigits : string -> Number.
Variable numberOfNat : nat -> Number.
Variable parseFloat : string -> Number.
Variables lastMonthStart lastMonthEnd thisMonthStart : string.
Variable currentYear : BinNums.Z.
Variable poolFailure : option Thrown.
Variable requestQuery :
  list (string * JsVal Number) -> string -> Completion (@QueryResult Number).

#[local] Abbreviation generated userQuery :=
  (generateSqlQuery numberToString numberOfDigits numberOfNat parseFloat
     lastMonthStart lastMonthEnd thisMonthStart currentYear
     (checkDatabaseConnection poolFailure requestQuery) userQuery).

(** X23: [generateSqlQuery] succeeds exactly when the connection check
    finds the pool and gets a record back. Every failure of the check,
    a thrown error included, is answered with "Database connection
    failed", an empty text and no parameters; the answer "Failed to
    generate a SQL query" never comes from the check. A success carries
    no error and a text that starts with [SELECT]. *)
Theorem generateSqlQuery_needs_connection (userQuery : string) :
  (success (generated userQuery) = true
   <-> poolFailure = None
       /\ exists row others,
            requestQuery [] "SELECT GETDATE() as now"
            = Normal {| recordset := Some (row :: others) |})
  /\ (success (generated userQuery) = false ->
      generated userQuery = connectionFailed)
  /\ (success (generated userQuery) = true ->
      error (generated userQuery) = None
      /\ String.prefix "SELECT " (sql (generated userQuery)) = true).
Proof using Type.
  rewrite checkDatabaseConnection_run. unfold generateSqlQuery.
  destruct poolFailure as [e|].
  { cbn [success connectionFailed].
    split; [split; [discriminate | intros [H _]; discriminate H]|].
    split; [reflexivity | discriminate]. }
  destruct (requestQuery [] "SELECT GETDATE() as now") as [[[[|row others]|]]|e];
    cbn [firstRecord recordset].
  - cbn [success connectionFailed].
    split; [split; [discriminate | intros (_ & row & others & E); discriminate E]|].
    split; [reflexivity | discriminate].
  - cbn [success error sql].
    split; [split; [intros _; split; [reflexivity | now exists row, others]
                   | reflexivity]|].
    split; [discriminate | intros _; split; [reflexivity | apply prefix_app]].
  - cbn [success connectionFailed].
    split; [split; [discriminate | intros (_ & row & others & E); discriminate E]|].
    split; [reflexivity | discriminate].
  - cbn [success connectionFailed].
    split; [split; [discriminate | intros (_ & row & others & E); discriminate E]|].
    split; [reflexivity | discriminate].
Qed.

End SelectListFacts.

End SqlBuilderFacts.

Lemma checkDatabaseConnection_reports_witness :
  checkDatabaseConnection None healthyDatabase
  = Normal (Connected (JString "2024-05-01T08:00:00.000Z")).
Proof.
  refine (proj2 (proj2 (checkDatabaseConnection_reports None healthyDatabase)
                   (JString "2024-05-01T08:00:00.000Z")) _).
  split; [reflexivity|]. now exists [("now", JString "2024-05-01T08:00:00.000Z")], [].
Defined.

Lemma buildSqlQuery_placeholders_witness :
  countChar "?"
    (SqlBuilder.buildSqlQuery natToString SqlQueryGenerator.sales_data None
       (SqlQueryGenerator.selectedColumns "sales by product") true
       (SqlBuilder.grouping "sales by product")
       (SqlBuilder.determineFilters natParseFloat "sales by product where country is japan"
          SqlQueryGenerator.sales_data None)
       None (Some 5))
  = 1.
Proof.
  apply (SqlBuilderFacts.buildSqlQuery_placeholders natToString
           SqlQueryGenerator.sales_data None
           (SqlQueryGenerator.selectedColumns "sales by product") true
           (SqlBuilder.grouping "sales by product")
           (SqlBuilder.determineFilters natParseFloat
              "sales by product where country is japan" SqlQueryGenerator.sales_data None)
           None (Some 5)).
  - vm_compute. repeat constructor.
  - vm_compute. repeat constructor.
  - vm_compute. repeat constructor.
  - discriminate.
  - intros n _. apply ofNat_without_placeholder.
Defined.

Lemma generateSqlQuery_placeholders_witness :
  countChar "?"
    (preparedQuery
       (SqlBuilder.sql
          (generateInMay (Normal (Connected JNull))
             "top 5 products by total quantity in japan country since 2024-01-15"))
       (SqlBuilder.params
          (generateInMay (Normal (Connected JNull))
             "top 5 products by total quantity in japan country since 2024-01-15")))
  = 0.
Proof.
  exact (proj2 (SqlBuilderFacts.generateSqlQuery_placeholders natToString natOfDigits
                  natOfNat natParseFloat "2024-04-01" "2024-04-30" "2024-05-01"
                  (BinInt.Z.of_nat 2024) (Normal (Connected JNull))
                  "top 5 products by total quantity in japan country since 2024-01-15"
                  ofNat_without_placeholder)).
Defined.

Lemma determineFilters_fields_witness :
  Forall (fun f =>
            exists table c,
              (table = SqlQueryGenerator.sales_data \/ None = Some table)
              /\ In c (SqlQueryGenerator.columns (SqlQueryGenerator.schemas table))
              /\ SqlBuilder.field f
                 = SqlBuilder.tableKey table ++ "." ++ SqlQueryGenerator.dbName c)
    (SqlBuilder.determineFilters natParseFloat "delivery sales in tokyo city"
       SqlQueryGenerator.sales_data None).
Proof.
  exact (proj2 (SqlBuilderFacts.determineFilters_fields natParseFloat
                  "delivery sales in tokyo city" SqlQueryGenerator.sales_data None)
           eq_refl).
Defined.

Lemma group_items_are_selected_witness :
  SqlBuilder.alreadySelected
    (SqlBuilder.columnsToSelect
       (SqlQueryGenerator.selectedColumns "total quantity by country")
       ["sales_data.country"])
    "sales_data.country"
  = true.
Proof.
  exact (proj2 (SqlBuilderFacts.group_items_are_selected
                  (SqlQueryGenerator.selectedColumns "total quantity by country")
                  ["sales_data.country"])
           "sales_data.country" (or_introl eq_refl)).
Defined.

Lemma default_sorting_is_written_witness :
  SqlBuilder.orderByClause (SqlQueryGenerator.selectedColumns "list the sales") []
    (SqlBuilder.determineSorting "list the sales"
       (SqlQueryGenerator.selectedColumns "list the sales")
       SqlQueryGenerator.sales_data [])
  = " ORDER BY sales_data.sales_date DESC".
Proof.
  exact (SqlBuilderFacts.default_sorting_is_written "list the sales"
           (SqlQueryGenerator.selectedColumns "list the sales")
           SqlQueryGenerator.sales_data [] eq_refl).
Defined.

Lemma generateSqlQuery_needs_connection_witness :
  SqlBuilder.success
    (generateInMay (checkDatabaseConnection None healthyDatabase)
       "total quantity by country")
  = true.
Proof.
  refine (proj2 (proj1 (SqlBuilderFacts.generateSqlQuery_needs_connection natToString
                          natOfDigits natOfNat natParseFloat "2024-04-01" "2024-04-30"
                          "2024-05-01" (BinInt.Z.of_nat 2024) None
                          healthyDatabase "total quantity by country")) _).
  split; [reflexivity|]. now exists [("now", JString "2024-05-01T08:00:00.000Z")], [].
Defined.

Lemma explanation_names_the_sorting_witness :
  exists table column,
    (SqlBuilder.sortField sumSorting = SqlBuilder.tableKey table ++ "." ++ column
     \/ exists a,
          SqlBuilder.sortField sumSorting
          = SqlBuilder.aggregateName a ++ "("
            ++ (SqlBuilder.tableKey table ++ "." ++ column) ++ ")")
    /\ ((table = SqlQueryGenerator.sales_data /\ column = "sales_date")
        \/ exists c,
             In c [quantitySum] /\ table = SqlQueryGenerator.sc_tableName c
             /\ column = SqlQueryGenerator.sc_columnName c)
    /\ (SqlBuilder.direction sumSorting = "ASC" \/ SqlBuilder.direction sumSorting = "DESC")
    /\ ((SqlBuilder.orderByClause [quantitySum] [] (Some sumSorting) = ""
         /\ SqlBuilder.explainSorting [quantitySum] [] (Some sumSorting) = "")
        \/ (SqlBuilder.orderByClause [quantitySum] [] (Some sumSorting)
            = " ORDER BY " ++ SqlBuilder.sortField sumSorting ++ " "
              ++ SqlBuilder.direction sumSorting
            /\ SqlBuilder.explainSorting [quantitySum] [] (Some sumSorting)
               = ". The results are ordered by "
                 ++ (if String.eqb column "COUNT(*)"
                     then SqlBuilder.sortField sumSorting else column)
                 ++ " in "
                 ++ (if String.eqb (SqlBuilder.direction sumSorting) "DESC"
                     then "desc" else "asc")
                 ++ " order")).
Proof.
  refine (SqlBuilderFacts.explanation_names_the_sorting
            "Total quantity sorted by total quantity, highest first" [quantitySum]
            SqlQueryGenerator.sales_data [] sumSorting _ eq_refl).
  constructor; [left; reflexivity|constructor].
Defined.

(** Sorting on a sum: the clause sorts on the aggregate, the explanation
    names the column. *)
Example explanation_of_a_sorted_sum :
  SqlBuilder.orderByClause [quantitySum] []
    (SqlBuilder.determineSorting "Total quantity sorted by total quantity, highest first"
       [quantitySum] SqlQueryGenerator.sales_data [])
  = " ORDER BY SUM(sales_data.quantity) DESC"
  /\ SqlBuilder.explainSorting [quantitySum] []
       (SqlBuilder.determineSorting "Total quantity sorted by total quantity, highest first"
          [quantitySum] SqlQueryGenerator.sales_data [])
     = ". The results are ordered by quantity in desc order".
Proof. split; reflexivity. Qed.

Lemma determineLimit_reads_digits_witness :
  (exists before word blank digits after,
      toLowerCase "Show the top 25 of the first 3 regions"
      = before ++ word ++ blank ++ digits ++ after
      /\ In word ["top"; "first"; "limit"]
      /\ blank <> "" /\ forallb isSpace (list_ascii_of_string blank) = true
      /\ digits <> "" /\ forallb isDigit (list_ascii_of_string digits) = true
      /\ match after with
         | String c _ => isDigit c = false
         | EmptyString => True
         end
      /\ (forall before',
             SqlBuilder.limitPhraseAt
               (toLowerCase "Show the top 25 of the first 3 regions") before' ->
             String.length before <= String.length before')
      /\ 25 = natOfDigits digits)
  \/ (25 = natOfNat 10
      /\ includes (toLowerCase "Show the top 25 of the first 3 regions") "recent" = true
      /\ forall before',
           ~ SqlBuilder.limitPhraseAt
               (toLowerCase "Show the top 25 of the first 3 regions") before').
Proof.
  exact (proj1 (SqlBuilderFacts.determineLimit_reads_digits natOfDigits natOfNat
                  "Show the top 25 of the first 3 regions") 25 eq_refl).
Defined.

(** The leftmost count wins, with all of its digits; without a count
    "recent" stands for ten. *)
Example determineLimit_leftmost :
  SqlBuilder.determineLimit natOfDigits natOfNat "Show the top 25 of the first 3 regions"
  = Some 25.
Proof. reflexivity. Qed.

Example determineLimit_recent :
  SqlBuilder.determineLimit natOfDigits natOfNat "the most recent sales in the top region"
  = Some 10.
Proof. reflexivity. Qed.
